(** * Weather / meter ingestion engine: validation, correlation, submission

    A shallow embedding of the TypeScript services of the repository.

      - [Meter]          backend/src/meter/meter-upload.controller.ts: the
                         helpers of the meter validator, and the
                         plant-operation calculator it shares with submission
      - [MeterValidate]  [MeterValidateService.validateRows]
      - [Weather]        backend/src/weather/weather-upload.controller.ts:
                         [WeatherValidateService.validateRows]
      - [WeatherSubmit]  backend/src/weather/weather-submit.service.ts
                         ([submitRows]) and its bulk-write variant
                         ([submitRowsUpsert])
      - [WeatherBulk]    the result that the bulk-write variant returns
      - [MeterSubmit]    backend/src/meter/meter-submit.service.ts
      - [WeatherExcel]   [WeatherExcelService.normalizeDate / normalizeTime]
      - [WeatherDates]   [WeatherService.getDateVariations]
      - [MeterExcel]     backend/src/meter/meter.schema.ts:
                         [MeterExcelService.normalizeDate / normalizeTime]
      - [WeatherParse]   [WeatherExcelService.parseExcel]: the rows built from
                         the cells of a sheet, in its two layouts
      - [PreviewTable]   frontend, [EditablePreviewTable]: pages, page
                         buttons, row numbers and error highlighting
      - [ErrorPage]      frontend, [WeatherErrorPage]: the rows shown for
                         correction and the edit of a cell
      - [MeterSyncService], [MeterSyncController]
                         backend/src/meter/meter-sync.controller.ts:
                         [aggregateDailyTotals] and [aggregateByDate]

    Representation.

      - A JavaScript string is a [string]; its code units are the 8-bit
        characters of [ascii] (the Latin-1 range).
      - A JavaScript number that carries data (POA, readings, totals) is a
        binary64 [float] of the kernel; its arithmetic and comparisons are
        the IEEE ones.
      - A number obtained with [Number] from a run of ASCII digits captured by
        a regular expression (hours, minutes, a month) is a small natural
        number, on which [Number], [+], [*], [%] and [String] are exact: it is
        a [nat] or a [Z], and NaN is [None].
      - A row ([Record<string, any>]) is an association list in the order of
        [Object.keys]; its values are the primitive JavaScript values.
      - Each regular expression is a matcher written for it, named [re...],
        that returns the groups the code reads.
      - [Number(v)] and [String(v)] on arbitrary cells are built-ins of the
        language, not code of the repository: they are the two fields of the
        class [Js.Builtins], and every theorem holds for all of them.
      - The weather store is outside the services: validation takes the rows
        that its one query returned, submission takes the answers of
        [exists] and of [getWeatherByDate], and stops at the documents and
        operations handed to [insertMany] and [bulkWrite]. *)

From Stdlib Require Import String Ascii List ZArith Lia Bool Arith.
From Stdlib Require Import Permutation Sorted.
From Corelib Require Import PrimFloat.
Import ListNotations.

Open Scope list_scope.
Open Scope string_scope.
Open Scope nat_scope.

(* ------------------------------------------------------------------ *)
(** ** JavaScript values and the built-ins the services call           *)
(* ------------------------------------------------------------------ *)

Module Js.

(** [\d] *)
Definition isDigit (c : ascii) : bool :=
  let n := nat_of_ascii c in (48 <=? n) && (n <=? 57).

Definition isUpper (c : ascii) : bool :=
  let n := nat_of_ascii c in (65 <=? n) && (n <=? 90).

Definition isLower (c : ascii) : bool :=
  let n := nat_of_ascii c in (97 <=? n) && (n <=? 122).

(** [[A-Za-z]] *)
Definition isAlpha (c : ascii) : bool := isUpper c || isLower c.

(** [\w] *)
Definition isWordChar (c : ascii) : bool :=
  isAlpha c || isDigit c || (c =? "_")%char.

(** Line terminators below U+0100: LF and CR ([.] matches neither). *)
Definition isLineTerminator (c : ascii) : bool :=
  let n := nat_of_ascii c in (n =? 10) || (n =? 13).

(** [\s], and what [trim] strips, below U+0100: TAB, LF, VT, FF, CR, SP and
    NBSP. *)
Definition isSpace (c : ascii) : bool :=
  let n := nat_of_ascii c in
  ((9 <=? n) && (n <=? 13)) || (n =? 32) || (n =? 160).

(** [toUpperCase] and [toLowerCase]; the services apply them to matches of
    [[A-Za-z]] only, and the case-insensitive flag of a regular expression
    never identifies an ASCII letter with a character above U+007F. *)
Definition toUpper (c : ascii) : ascii :=
  if isLower c then ascii_of_nat (nat_of_ascii c - 32) else c.

Definition toLower (c : ascii) : ascii :=
  if isUpper c then ascii_of_nat (nat_of_ascii c + 32) else c.

Fixpoint mapString (f : ascii -> ascii) (s : string) : string :=
  match s with
  | EmptyString => EmptyString
  | String c s' => String (f c) (mapString f s')
  end.

Definition toUpperCase : string -> string := mapString toUpper.
Definition toLowerCase : string -> string := mapString toLower.

Fixpoint allChars (p : ascii -> bool) (s : string) : bool :=
  match s with
  | EmptyString => true
  | String c s' => p c && allChars p s'
  end.

Fixpoint trimStart (s : string) : string :=
  match s with
  | EmptyString => EmptyString
  | String c s' => if isSpace c then trimStart s' else s
  end.

Fixpoint trimEnd (s : string) : string :=
  match s with
  | EmptyString => EmptyString
  | String c s' =>
      match trimEnd s' with
      | EmptyString => if isSpace c then EmptyString else String c EmptyString
      | r => String c r
      end
  end.

(** [s.trim()] *)
Definition trim (s : string) : string := trimEnd (trimStart s).

Definition isEmpty (s : string) : bool :=
  match s with EmptyString => true | _ => false end.

(** [s.slice(0, n)] *)
Definition sliceTo (n : nat) (s : string) : string := substring 0 n s.

(** [s.slice(-n)] *)
Definition sliceLast (n : nat) (s : string) : string :=
  substring (String.length s - n) n s.

(** [s.split(sep)] for a one-character separator. *)
Fixpoint split (sep : ascii) (s : string) : list string :=
  match s with
  | EmptyString => [EmptyString]
  | String c s' =>
      if (c =? sep)%char then EmptyString :: split sep s'
      else match split sep s' with
           | [] => [String c EmptyString]
           | p :: ps => String c p :: ps
           end
  end.

(** [Number(s)] for a run [s] of ASCII digits. *)
Definition natOfDigits (s : string) : nat :=
  fold_left (fun acc c => 10 * acc + (nat_of_ascii c - 48))
            (list_ascii_of_string s) 0.

(** [Number(s)] for the pieces of a split string: a run of ASCII digits has
    its decimal value (0 when it is empty); the services reach this function
    only with such runs, anything else is NaN here. *)
Definition numberOfDigits (s : string) : option nat :=
  if allChars isDigit s then Some (natOfDigits s) else None.

Definition digitOfNat (n : nat) : ascii := ascii_of_nat (48 + n mod 10).

Fixpoint natToStringFuel (fuel n : nat) (acc : string) : string :=
  let acc' := String (digitOfNat n) acc in
  match fuel with
  | O => acc'
  | S fuel' => if n <? 10 then acc' else natToStringFuel fuel' (n / 10) acc'
  end.

(** [String(n)] for a natural number [n]. *)
Definition natToString (n : nat) : string := natToStringFuel n n "".

(** [s.padStart(2, '0')] *)
Definition padStart2 (s : string) : string :=
  match String.length s with
  | 0 => "00"
  | 1 => "0" ++ s
  | _ => s
  end.

(** The primitive values a cell of a row can hold. *)
Inductive value : Type :=
| Undefined
| Null
| Bool (b : bool)
| Num (f : float)
| Str (s : string).

(** The two conversions of the language that the services apply to arbitrary
    cells: [Number(s)] of a string and [String(n)] of a number. *)
Class Builtins : Type := {
  StringToNumber : string -> float;
  NumberToString : float -> string
}.

Definition isNaN (f : float) : bool := is_nan f.

(** [Number.isFinite] *)
Definition isFinite (f : float) : bool := negb (is_nan f) && negb (is_infinity f).

Section Conversions.
Context {B : Builtins}.

(** [Number(v)] *)
Definition ToNumber (v : value) : float :=
  match v with
  | Undefined => nan
  | Null => 0%float
  | Bool true => 1%float
  | Bool false => 0%float
  | Num f => f
  | Str s => StringToNumber s
  end.

(** [String(v)] *)
Definition ToString (v : value) : string :=
  match v with
  | Undefined => "undefined"
  | Null => "null"
  | Bool true => "true"
  | Bool false => "false"
  | Num f => NumberToString f
  | Str s => s
  end.

End Conversions.

(** Truthiness: what [!v], [v && _], [v || _] and [v ? _ : _] test. *)
Definition truthy (v : value) : bool :=
  match v with
  | Undefined | Null => false
  | Bool b => b
  | Num f => negb (PrimFloat.eqb f 0%float || is_nan f)
  | Str s => negb (isEmpty s)
  end.

(** [a ?? b] *)
Definition nullish (a b : value) : value :=
  match a with
  | Undefined | Null => b
  | _ => a
  end.

(** [a || b] *)
Definition orElse (a b : value) : value := if truthy a then a else b.

(** [v === null || v === undefined || v === ''] *)
Definition isBlank (v : value) : bool :=
  match v with
  | Undefined | Null => true
  | Str s => isEmpty s
  | _ => false
  end.

(** [v === s] for a string [s]. *)
Definition strictEqStr (v : value) (s : string) : bool :=
  match v with
  | Str t => (t =? s)%string
  | _ => false
  end.

(** An object with string keys, in the order of [Object.keys]. *)
Definition obj : Type := list (string * value).

Definition keys (o : obj) : list string := map fst o.

Fixpoint lookup (o : obj) (k : string) : option value :=
  match o with
  | [] => None
  | (k', v) :: o' => if (k' =? k)%string then Some v else lookup o' k
  end.

(** [o[k]] *)
Definition get (o : obj) (k : string) : value :=
  match lookup o k with
  | Some v => v
  | None => Undefined
  end.

(** [o[k] = v] for a key that is not an array index: an existing key keeps
    its place, a new key goes last. *)
Fixpoint set (o : obj) (k : string) (v : value) : obj :=
  match o with
  | [] => [(k, v)]
  | (k', v') :: o' =>
      if (k' =? k)%string then (k, v) :: o' else (k', v') :: set o' k v
  end.

(** [{ ...o, ...p }] *)
Definition assign (o p : obj) : obj :=
  fold_left (fun acc kv => set acc (fst kv) (snd kv)) p o.

End Js.

Notation "a ?? b" := (Js.nullish a b) (at level 61, left associativity).

(* ------------------------------------------------------------------ *)
(** ** meter-upload.controller.ts: helpers of the meter validator       *)
(* ------------------------------------------------------------------ *)

Module Meter.
Import Js.

Definition MONTHS : list string :=
  ["Jan"; "Feb"; "Mar"; "Apr"; "May"; "Jun";
   "Jul"; "Aug"; "Sep"; "Oct"; "Nov"; "Dec"].

(** [pad2]: [String(n).padStart(2, '0')] *)
Definition pad2 (n : nat) : string := padStart2 (natToString n).

Definition str2 (a b : ascii) : string := String a (String b EmptyString).

(** [/^\d{2}-\d{2}-\d{4}$/] *)
Definition reDDMMYYYY (s : string) : bool :=
  match list_ascii_of_string s with
  | [d1; d2; h1; m1; m2; h2; y1; y2; y3; y4] =>
      isDigit d1 && isDigit d2 && (h1 =? "-")%char &&
      isDigit m1 && isDigit m2 && (h2 =? "-")%char &&
      isDigit y1 && isDigit y2 && isDigit y3 && isDigit y4
  | _ => false
  end.

Definition isValidDDMMYYYY (v : value) : bool :=
  match v with
  | Str s => reDDMMYYYY (trim s)
  | _ => false
  end.

(** [/^(\d{2}):(\d{2})$/], with its two groups. *)
Definition reHHMM (s : string) : option (string * string) :=
  match list_ascii_of_string s with
  | [h1; h2; c; m1; m2] =>
      if isDigit h1 && isDigit h2 && (c =? ":")%char && isDigit m1 && isDigit m2
      then Some (str2 h1 h2, str2 m1 m2) else None
  | _ => None
  end.

Definition isValidHHMM (v : value) : bool :=
  match v with
  | Str s =>
      match reHHMM (trim s) with
      | Some (h, m) =>
          let hh := natOfDigits h in
          let mm := natOfDigits m in
          (0 <=? hh) && (hh <=? 23) && (0 <=? mm) && (mm <=? 59)
      | None => false
      end
  | _ => false
  end.

(** [/^(\d{1,2}):(\d{2}):(\d{2})$/], groups 1 and 2. *)
Definition reHMMSS (s : string) : option (string * string) :=
  match list_ascii_of_string s with
  | [h1; c1; m1; m2; c2; s1; s2] =>
      if isDigit h1 && (c1 =? ":")%char && isDigit m1 && isDigit m2 &&
         (c2 =? ":")%char && isDigit s1 && isDigit s2
      then Some (String h1 EmptyString, str2 m1 m2) else None
  | [h1; h2; c1; m1; m2; c2; s1; s2] =>
      if isDigit h1 && isDigit h2 && (c1 =? ":")%char && isDigit m1 && isDigit m2 &&
         (c2 =? ":")%char && isDigit s1 && isDigit s2
      then Some (str2 h1 h2, str2 m1 m2) else None
  | _ => None
  end.

(** [/^(\d{1,2}):(\d{2})$/], with its two groups. *)
Definition reHMM (s : string) : option (string * string) :=
  match list_ascii_of_string s with
  | [h1; c1; m1; m2] =>
      if isDigit h1 && (c1 =? ":")%char && isDigit m1 && isDigit m2
      then Some (String h1 EmptyString, str2 m1 m2) else None
  | [h1; h2; c1; m1; m2] =>
      if isDigit h1 && isDigit h2 && (c1 =? ":")%char && isDigit m1 && isDigit m2
      then Some (str2 h1 h2, str2 m1 m2) else None
  | _ => None
  end.

(** [ddmmyyyy.split('-')] destructured: a missing piece is [undefined], which
    a template prints as "undefined" and [Number] turns into NaN. *)
Definition piece (parts : list string) (i : nat) : string :=
  nth i parts "undefined".

Definition ddmmyyyyToISO (ddmmyyyy : string) : string :=
  let parts := split "-" ddmmyyyy in
  let dd := piece parts 0 in
  let mm := piece parts 1 in
  let yyyy := piece parts 2 in
  yyyy ++ "-" ++ mm ++ "-" ++ dd.

Definition ddmmyyyyToDDMMMYY (ddmmyyyy : string) : string :=
  let parts := split "-" ddmmyyyy in
  let dd := piece parts 0 in
  let mm := piece parts 1 in
  let yyyy := piece parts 2 in
  match numberOfDigits mm with
  | None => ddmmyyyy
  | Some mi =>
      if (mi =? 0) || (mi <? 1) || (12 <? mi) then ddmmyyyy
      else
        let mon := nth (mi - 1) MONTHS "undefined" in
        let yy := sliceLast 2 yyyy in
        dd ++ "-" ++ mon ++ "-" ++ yy
  end.

(** [timeToMinutes]; [None] is NaN. *)
Definition timeToMinutes (hhmm : string) : option Z :=
  match map numberOfDigits (split ":" hhmm) with
  | Some h :: Some m :: _ => Some (Z.of_nat h * 60 + Z.of_nat m)%Z
  | _ => None
  end.

Definition minutesToHHMM (total : Z) : string :=
  let t := Z.rem (Z.rem total 1440 + 1440) 1440 in
  let hh := pad2 (Z.to_nat (t / 60)) in
  let mm := pad2 (Z.to_nat (Z.rem t 60)) in
  hh ++ ":" ++ mm.

Definition diffHHMM (start stop : string) : string :=
  match timeToMinutes start, timeToMinutes stop with
  | Some s, Some e =>
      let diff := if (s <=? e)%Z then (e - s)%Z else (1440 - s + e)%Z in
      minutesToHHMM diff
  | _, _ => "NaN:NaN"
  end.

(** [stripPrefixCI lit s]: the rest of [s] after the literal [lit], matched
    under the [i] flag. *)
Fixpoint stripPrefixCI (lit s : string) : option string :=
  match lit with
  | EmptyString => Some s
  | String l lit' =>
      match s with
      | EmptyString => None
      | String c s' =>
          if (toUpper c =? toUpper l)%char then stripPrefixCI lit' s' else None
      end
  end.

(** [/lit/i.test(s)] for a literal [lit]. *)
Fixpoint containsCI (lit s : string) : bool :=
  match stripPrefixCI lit s with
  | Some _ => true
  | None =>
      match s with
      | EmptyString => false
      | String _ s' => containsCI lit s'
      end
  end.

(** [\s*] followed by [k], greedy, backtracking to fewer spaces. *)
Fixpoint spacesThen {A : Type} (k : string -> option A) (s : string) : option A :=
  match s with
  | EmptyString => k EmptyString
  | String c s' =>
      if isSpace c then
        match spacesThen k s' with
        | Some r => Some r
        | None => k s
        end
      else k s
  end.

(** [(.*?)] followed by [k], the shortest group first. *)
Fixpoint lazyThen {A : Type} (k : string -> string -> option A)
         (group s : string) : option A :=
  match k group s with
  | Some r => Some r
  | None =>
      match s with
      | EmptyString => None
      | String c s' =>
          if isLineTerminator c then None
          else lazyThen k (group ++ String c EmptyString) s'
      end
  end.

(** [(a1|a2)\b] at the head of [s], under the [i] flag. *)
Definition altThenBoundary (alts : list string) (s : string) : bool :=
  existsb (fun a =>
             match stripPrefixCI a s with
             | Some EmptyString => true
             | Some (String c _) => negb (isWordChar c)
             | None => false
             end) alts.

(** [k.match(new RegExp(`^${type}\\s*(.*?)\\s*(a1|a2)\\b`, 'i'))]: group 1
    of the match, if any. *)
Definition matchPair (type : string) (alts : list string) (k : string)
  : option string :=
  match stripPrefixCI type k with
  | None => None
  | Some rest =>
      spacesThen
        (lazyThen
           (fun g => spacesThen
                       (fun s => if altThenBoundary alts s then Some g else None))
           EmptyString)
        rest
  end.

(** A [Map] with string keys, in insertion order. *)
Fixpoint mapSet {A : Type} (m : list (string * A)) (k : string) (v : A)
  : list (string * A) :=
  match m with
  | [] => [(k, v)]
  | (k', v') :: m' =>
      if (k' =? k)%string then (k, v) :: m' else (k', v') :: mapSet m' k v
  end.

Fixpoint mapGet {A : Type} (m : list (string * A)) (k : string) : option A :=
  match m with
  | [] => None
  | (k', v) :: m' => if (k' =? k)%string then Some v else mapGet m' k
  end.

(** [Array.from(new Set(l))] *)
Definition setOf (l : list string) : list string :=
  fold_left (fun acc x => if existsb (String.eqb x) acc then acc else (acc ++ [x])%list)
            l [].

Record RowError : Type := { rowNumber : nat; errors : list string }.

Record ValidationResult : Type := {
  rows : list obj;
  rowErrors : list RowError;
  isValid : bool
}.

(** A normalized weather point. *)
Record Point : Type := { time : string; poa : float }.

Definition toNumberOrNull {B : Builtins} (v : value) : option float :=
  if isBlank v then None
  else let n := ToNumber v in Some (if isFinite n then n else nan).

(** [normalizeHHMM]; [None] is [null]. *)
Definition normalizeHHMM {B : Builtins} (v : value) : option string :=
  if isBlank v then None
  else
    let s := trim (ToString v) in
    match reHMMSS s with
    | Some (h, m) => Some (pad2 (natOfDigits h) ++ ":" ++ m)
    | None =>
        match reHMM s with
        | Some (h, m) => Some (pad2 (natOfDigits h) ++ ":" ++ m)
        | None => Some s
        end
    end.

(** Truthiness of a [string | null]. *)
Definition truthyStr (o : option string) : bool :=
  match o with
  | Some s => negb (isEmpty s)
  | None => false
  end.

Definition isValidHHMMopt (o : option string) : bool :=
  match o with
  | Some s => isValidHHMM (Str s)
  | None => false
  end.

(* ------------------------------------------------------------------ *)
(** ** The plant-operation calculator (shared by validation and submit) *)
(* ------------------------------------------------------------------ *)

(** The sort key of a point that passed the filter; the comparator is
    [timeToMinutes(a.time) - timeToMinutes(b.time)]. *)
Definition minutesOf (p : Point) : Z :=
  match timeToMinutes (time p) with
  | Some z => z
  | None => 0%Z
  end.

(** [Array.prototype.sort] is stable: among equal keys the input order is
    kept, so the result is the one of a stable insertion sort. *)
Fixpoint insertPoint (p : Point) (l : list Point) : list Point :=
  match l with
  | [] => [p]
  | q :: l' =>
      if (minutesOf p <=? minutesOf q)%Z then p :: q :: l'
      else q :: insertPoint p l'
  end.

Fixpoint sortPoints (l : list Point) : list Point :=
  match l with
  | [] => []
  | p :: l' => insertPoint p (sortPoints l')
  end.

Definition keepPoint (p : Point) : bool :=
  isValidHHMM (Str (time p)) && isFinite (poa p).

(** [find(p => p.poa >= 10)] *)
Definition first10 (points : list Point) : option Point :=
  find (fun p => (10 <=? poa p)%float) points.

(** [[...points].reverse().find(p => p.poa > 0 && p.poa < 50)] *)
Definition lastBetween (points : list Point) : option Point :=
  find (fun p => (0 <? poa p)%float && (poa p <? 50)%float) (rev points).

(** [[...points].reverse().find(p => p.poa > 0)] *)
Definition lastPos (points : list Point) : option Point :=
  find (fun p => (0 <? poa p)%float) (rev points).

Definition plantStartOf (points : list Point) : string :=
  match first10 points with
  | Some p => time p
  | None => "00:00"
  end.

Definition plantStopOf (points : list Point) : string :=
  match lastBetween points with
  | Some p => time p
  | None =>
      match lastPos points with
      | Some p => time p
      | None => "00:00"
      end
  end.

Definition totalOf (plantStartTime plantStopTime : string) : string :=
  if isValidHHMM (Str plantStartTime) && isValidHHMM (Str plantStopTime)
  then diffHHMM plantStartTime plantStopTime
  else "00:00".

End Meter.

(* ------------------------------------------------------------------ *)
(** ** MeterValidateService.validateRows                                *)
(* ------------------------------------------------------------------ *)

Module MeterValidate.
Import Js Meter.

Section WithBuiltins.
Context {B : Builtins}.

(** [typeof r?.['Date'] === 'string' ? r['Date'].trim() : ''] *)
Definition preloadDate (r : obj) : string :=
  match get r "Date" with
  | Str s => trim s
  | _ => ""
  end.

Definition uniqueDates (rows : list obj) : list string :=
  setOf (filter (fun d => negb (isEmpty d) && isValidDDMMYYYY (Str d))
                (map preloadDate rows)).

(** [w.Date || w.date || ''] *)
Definition weatherDateVal (w : obj) : value :=
  orElse (orElse (get w "Date") (get w "date")) (Str "").

(** [if (!weatherByDate.has(d)) weatherByDate.set(d, []);
     weatherByDate.get(d)!.push(w)] *)
Definition mapPush (m : list (string * list obj)) (d : string) (w : obj)
  : list (string * list obj) :=
  match mapGet m d with
  | Some l => mapSet m d (l ++ [w])%list
  | None => mapSet m d [w]
  end.

(** The grouping loop over the rows the weather store returned
    ([allWeatherRows]); each row goes to the first date it matches. *)
Definition groupWeather (dates : list string) (allWeatherRows : list obj)
  : list (string * list obj) :=
  fold_left
    (fun m w =>
       let dateVal := weatherDateVal w in
       match find (fun d => strictEqStr dateVal (ddmmyyyyToISO d)
                            || strictEqStr dateVal (ddmmyyyyToDDMMMYY d)) dates with
       | Some d => mapPush m d w
       | None => m
       end)
    allWeatherRows [].

(** [weatherByDate.get(date) || []] *)
Definition weatherOf (weatherByDate : list (string * list obj)) (date : string)
  : list obj :=
  match mapGet weatherByDate date with
  | Some l => l
  | None => []
  end.

(** The point of one weather row: [HH:MM] and the POA number. *)
Definition toPoint (x : obj) : Point :=
  let tRaw := get x "Time" ?? get x "time" ?? Str "" in
  let t := normalizeHHMM (Str (ToString tRaw)) in
  let poa := ToNumber (get x "POA" ?? get x "poa" ??
                       get x "POA Meter 1" ?? get x "POA_Meter_1") in
  {| time := match t with
             | Some s => if isEmpty s then "" else sliceTo 5 s
             | None => ""
             end;
     poa := if isFinite poa then poa else nan |}.

Definition pointsOf (w : list obj) : list Point :=
  sortPoints (filter keepPoint (map toPoint w)).

(** [typeof dateRaw === 'string' ? dateRaw.trim()
                                 : String(dateRaw ?? '').trim()] *)
Definition rowDate (row : obj) : string :=
  match get row "Date" with
  | Str s => trim s
  | dateRaw => trim (ToString (dateRaw ?? Str ""))
  end.

(** [date && isValidDDMMYYYY(date)] *)
Definition dateOk (date : string) : bool :=
  negb (isEmpty date) && isValidDDMMYYYY (Str date).

Definition msgDate : string := "Date must be in format DD-MM-YYYY (e.g., 01-12-2024)".
Definition msgDupDate : string := "No duplicate dates allowed".
Definition msgStart : string := "Start Time must be HH:MM (24-hour)".
Definition msgStop : string := "Stop Time must be HH:MM (24-hour)".
Definition msgEither : string :=
  "Each date must have either Start/Stop times OR Export/Import readings".

Definition dateErrors (seenDates : list string) (date : string) : list string :=
  if dateOk date then
    if existsb (String.eqb date) seenDates then [msgDupDate] else []
  else [msgDate].

(** [seenDates.add(date)], on the valid branch only. *)
Definition seenAfter (seenDates : list string) (date : string) : list string :=
  if dateOk date then
    if existsb (String.eqb date) seenDates then seenDates
    else (seenDates ++ [date])%list
  else seenDates.

Definition startTimeUser (row : obj) : option string :=
  normalizeHHMM (get row "Start Time" ?? get row "StartTime" ?? get row "Start").

Definition stopTimeUser (row : obj) : option string :=
  normalizeHHMM (get row "Stop Time" ?? get row "StopTime" ?? get row "Stop").

Definition timeErrors (row : obj) : list string :=
  ((if truthyStr (startTimeUser row) && negb (isValidHHMMopt (startTimeUser row))
    then [msgStart] else []) ++
   (if truthyStr (stopTimeUser row) && negb (isValidHHMMopt (stopTimeUser row))
    then [msgStop] else []))%list.

Definition hasStartStop (row : obj) : bool :=
  truthyStr (startTimeUser row) && truthyStr (stopTimeUser row) &&
  isValidHHMMopt (startTimeUser row) && isValidHHMMopt (stopTimeUser row).

(** [keys.filter((k) => /export|import/i.test(k))] *)
Definition isReadingKey (k : string) : bool :=
  containsCI "export" k || containsCI "import" k.

Definition readingKeys (row : obj) : list string :=
  filter isReadingKey (keys row).

(** The defects the loop over the reading keys pushes for one key. *)
Definition readingErrorsOf (row : obj) (k : string) : list string :=
  match toNumberOrNull (get row k) with
  | None => []
  | Some n =>
      if isNaN n then [k ++ " must be numeric"]
      else if (n <? 0)%float then [k ++ " cannot be negative"] else []
  end.

(** Whether the loop sets [hasAnyReading] at one key. *)
Definition isReadingAt (row : obj) (k : string) : bool :=
  match toNumberOrNull (get row k) with
  | None => false
  | Some n => negb (isNaN n)
  end.

Definition readingErrors (row : obj) : list string :=
  flat_map (readingErrorsOf row) (readingKeys row).

Definition hasAnyReading (row : obj) : bool :=
  existsb (isReadingAt row) (readingKeys row).

Definition eitherErrors (row : obj) : list string :=
  if negb (hasStartStop row) && negb (hasAnyReading row) then [msgEither] else [].

(** The defects of one row, in the order they are pushed. *)
Definition rowErrorsOf (seenDates : list string) (row : obj) : list string :=
  (dateErrors seenDates (rowDate row) ++ timeErrors row ++
   readingErrors row ++ eitherErrors row)%list.

(** The weather points of the row's date ([[]] when the date is not valid). *)
Definition rowPoints (weatherByDate : list (string * list obj)) (row : obj)
  : list Point :=
  if dateOk (rowDate row) then pointsOf (weatherOf weatherByDate (rowDate row))
  else [].

(** [(m[1] || '').trim() || '1'] *)
Definition pairId (g : string) : string :=
  let t := trim g in if isEmpty t then "1" else t.

Definition initialsOf (type : string) (ks : list string) : list (string * string) :=
  fold_left (fun m k =>
               match matchPair type ["Initial"; "Start"] k with
               | Some g => mapSet m (pairId g) k
               | None => m
               end) ks [].

Definition finalsOf (type : string) (ks : list string) : list (string * string) :=
  fold_left (fun m k =>
               match matchPair type ["Final"; "End"] k with
               | Some g => mapSet m (pairId g) k
               | None => m
               end) ks [].

(** One turn of the loop over [initials.entries()]: the total of the pair,
    unless the final is missing or a reading is absent or not numeric. *)
Definition pairTotal (row : obj) (finals : list (string * string))
           (entry : string * string) : option (string * float) :=
  let (id, ik) := entry in
  match mapGet finals id with
  | None => None
  | Some fk =>
      if isEmpty fk then None
      else
        match toNumberOrNull (get row ik), toNumberOrNull (get row fk) with
        | Some ini, Some fin =>
            if isNaN ini || isNaN fin then None
            else Some (id, (fin - ini)%float)
        | _, _ => None
        end
  end.

(** [computePairs(type)]: the entries pushed to [exportTotals] or
    [importTotals], in order. *)
Definition computePairs (type : string) (row : obj) : list (string * float) :=
  let ks := keys row in
  let initials := initialsOf type ks in
  let finals := finalsOf type ks in
  flat_map (fun entry => match pairTotal row finals entry with
                         | Some t => [t]
                         | None => []
                         end) initials.

(** [`${type} Total ${id}`.trim()] *)
Definition totalLabel (type id : string) : string :=
  trim (type ++ " Total " ++ id).

(** What [computePairs(type)] writes into [computed]. *)
Definition computedOf (type : string) (totals : list (string * float)) : obj :=
  map (fun t => (totalLabel type (fst t), Num (snd t))) totals.

Definition isGss (t : string * float) : bool := containsCI "gss" (fst t).

(** [.reduce((sum, t) => sum + (Number.isFinite(t.value) ? t.value : 0), 0)] *)
Definition sumTotals (totals : list (string * float)) : float :=
  fold_left (fun sum t => (sum + (if isFinite (snd t) then snd t else 0))%float)
            totals 0%float.

Definition hasGss (exportTotals importTotals : list (string * float)) : bool :=
  existsb isGss exportTotals || existsb isGss importTotals.

Definition gssTotal (gss : bool) (totals : list (string * float)) : float :=
  sumTotals (if gss then filter isGss totals else totals).

(** The row returned for [row]: the original columns, then the derived ones. *)
Definition enrichRow (weatherByDate : list (string * list obj)) (row : obj) : obj :=
  let points := rowPoints weatherByDate row in
  let plantStartTime := plantStartOf points in
  let plantStopTime := plantStopOf points in
  let total := totalOf plantStartTime plantStopTime in
  let exportTotals := computePairs "Export" row in
  let importTotals := computePairs "Import" row in
  let computed := assign (assign [] (computedOf "Export" exportTotals))
                         (computedOf "Import" importTotals) in
  let gss := hasGss exportTotals importTotals in
  let gssExportTotal := gssTotal gss exportTotals in
  let gssImportTotal := gssTotal gss importTotals in
  let netExportAtGss := (gssExportTotal - gssImportTotal)%float in
  let r1 := set row "Plant Start Time" (Str plantStartTime) in
  let r2 := set r1 "Plant Stop Time" (Str plantStopTime) in
  let r3 := set r2 "Total" (Str total) in
  let r4 := assign r3 computed in
  let r5 := set r4 "GSS Export Total" (Num gssExportTotal) in
  let r6 := set r5 "GSS Import Total" (Num gssImportTotal) in
  set r6 "Net Export @GSS" (Num netExportAtGss).

(** [rows.map((row, index) => ...)], threading [seenDates] and collecting
    the [RowError]s in row order. *)
Fixpoint validateLoop (weatherByDate : list (string * list obj))
         (seenDates : list string) (index : nat) (rs : list obj)
  : list obj * list RowError :=
  match rs with
  | [] => ([], [])
  | row :: rest =>
      let rowNumber := index + 2 in
      let errs := rowErrorsOf seenDates row in
      let out := validateLoop weatherByDate (seenAfter seenDates (rowDate row))
                              (S index) rest in
      (enrichRow weatherByDate row :: fst out,
       match errs with
       | [] => snd out
       | _ => {| rowNumber := rowNumber; errors := errs |} :: snd out
       end)
  end.

(** [validateRows(rows)], for the rows [allWeatherRows] that the one batched
    query of the weather store returned. *)
Definition validateRows (allWeatherRows : list obj) (rs : list obj)
  : ValidationResult :=
  let weatherByDate := groupWeather (uniqueDates rs) allWeatherRows in
  let out := validateLoop weatherByDate [] 0 rs in
  {| rows := fst out;
     rowErrors := snd out;
     isValid := match snd out with [] => true | _ => false end |}.

End WithBuiltins.
End MeterValidate.

(* ------------------------------------------------------------------ *)
(** ** WeatherValidateService (weather-upload.controller.ts)            *)
(* ------------------------------------------------------------------ *)

Module Weather.
Import Js.

Definition MONTHS : list string := Meter.MONTHS.

(** [/^(\d{2})-([A-Za-z]{3})-(\d{2})$/], with its three groups. *)
Definition reDDMMMYY (s : string) : option (string * string * string) :=
  match list_ascii_of_string s with
  | [d1; d2; h1; a1; a2; a3; h2; y1; y2] =>
      if isDigit d1 && isDigit d2 && (h1 =? "-")%char &&
         isAlpha a1 && isAlpha a2 && isAlpha a3 && (h2 =? "-")%char &&
         isDigit y1 && isDigit y2
      then Some (Meter.str2 d1 d2,
                 String a1 (String a2 (String a3 EmptyString)),
                 Meter.str2 y1 y2)
      else None
  | _ => None
  end.

(** [m.slice(0, 1).toUpperCase() + m.slice(1).toLowerCase()] *)
Definition capitalize (m : string) : string :=
  toUpperCase (substring 0 1 m) ++ toLowerCase (substring 1 (String.length m - 1) m).

Definition isValidDDMMMYY (s : string) : bool :=
  if isEmpty s then false
  else
    match reDDMMMYY (trim s) with
    | None => false
    | Some (d, m, y) =>
        let dd := natOfDigits d in
        let mon := capitalize m in
        let yy := natOfDigits y in
        if (dd <? 1) || (31 <? dd) then false
        else if negb (existsb (String.eqb mon) MONTHS) then false
        else if (yy <? 0) || (99 <? yy) then false
        else true
    end.

Definition normalizeDDMMMYY (s : string) : string :=
  if isEmpty s then s
  else
    match reDDMMMYY (trim s) with
    | None => s
    | Some (dd, m, yy) => dd ++ "-" ++ capitalize m ++ "-" ++ yy
    end.

(** [/^([01]\d|2[0-3]):[0-5]\d$/] *)
Definition reHHMM24 (s : string) : bool :=
  match list_ascii_of_string s with
  | [h1; h2; c; m1; m2] =>
      ((((h1 =? "0")%char || (h1 =? "1")%char) && isDigit h2) ||
       ((h1 =? "2")%char && (48 <=? nat_of_ascii h2) && (nat_of_ascii h2 <=? 51))) &&
      (c =? ":")%char &&
      ((48 <=? nat_of_ascii m1) && (nat_of_ascii m1 <=? 53)) && isDigit m2
  | _ => false
  end.

Definition isValidHHMM (s : string) : bool :=
  if isEmpty s then false else reHHMM24 (trim s).

(** [/^(\d{1,2}):(\d{2})(?::(\d{2}))?$/], groups 1 and 2. *)
Definition reTime (s : string) : option (string * string) :=
  match Meter.reHMM s with
  | Some hm => Some hm
  | None => Meter.reHMMSS s
  end.

Definition normalizeHHMM (s : string) : string :=
  if isEmpty s then s
  else
    match reTime (trim s) with
    | None => trim s
    | Some (h, mm) => padStart2 (natToString (natOfDigits h)) ++ ":" ++ mm
    end.

Record RowError : Type := { rowNumber : nat; errors : list string }.

Record ValidationResult : Type := {
  rows : list obj;
  rowErrors : list RowError;
  isValid : bool
}.

Definition msgMissingDate : string := "Missing Date".
Definition msgBadDate : string :=
  "Invalid Date format (expected DD-MMM-YY, e.g., 01-Dec-24)".
Definition msgMissingTime : string := "Missing Time".
Definition msgBadTime : string :=
  "Invalid Time format (expected HH:MM 24-hour, e.g., 09:30)".
Definition msgDuplicate : string := "Duplicate Date & Time combination".

Section WithBuiltins.
Context {B : Builtins}.

(** [row['Date'] ?? row['date'] ?? ''] *)
Definition rawDate (row : obj) : value := get row "Date" ?? get row "date" ?? Str "".
Definition rawTime (row : obj) : value := get row "Time" ?? get row "time" ?? Str "".

(** [rawDate ? normalizeDDMMMYY(String(rawDate).trim()) : ''] *)
Definition dateOf (row : obj) : string :=
  if truthy (rawDate row) then normalizeDDMMMYY (trim (ToString (rawDate row))) else "".

Definition timeOf (row : obj) : string :=
  if truthy (rawTime row) then normalizeHHMM (trim (ToString (rawTime row))) else "".

Definition dateErrors (date : string) : list string :=
  if isEmpty date then [msgMissingDate]
  else if negb (isValidDDMMMYY date) then [msgBadDate] else [].

Definition timeErrors (time : string) : list string :=
  if isEmpty time then [msgMissingTime]
  else if negb (isValidHHMM time) then [msgBadTime] else [].

(** The guard of the duplicate check. *)
Definition checkable (date time : string) : bool :=
  negb (isEmpty date) && negb (isEmpty time) &&
  isValidDDMMMYY date && isValidHHMM time.

(** [`${date}_${time}`] *)
Definition keyOf (date time : string) : string := date ++ "_" ++ time.

Definition duplicateErrors (seenDateTime : list string) (date time : string)
  : list string :=
  if checkable date time then
    if existsb (String.eqb (keyOf date time)) seenDateTime then [msgDuplicate] else []
  else [].

Definition seenAfter (seenDateTime : list string) (date time : string)
  : list string :=
  if checkable date time then
    if existsb (String.eqb (keyOf date time)) seenDateTime then seenDateTime
    else (seenDateTime ++ [keyOf date time])%list
  else seenDateTime.

(** [checkRange(value, min, max, field, allowZero)] *)
Definition checkRange (v : value) (min max : float) (field : string)
           (allowZero : bool) : list string :=
  if isBlank v then []
  else
    let num := ToNumber v in
    if isNaN num then [field ++ " must be a number"]
    else if negb allowZero && (num =? 0)%float then [field ++ " cannot be 0"]
    else if (num <? min)%float || (max <? num)%float
         then [field ++ " must be between " ++ NumberToString min
                     ++ " and " ++ NumberToString max]
         else [].

(** The message keeps the bytes of its UTF-8 source text. *)
Definition msgModuleTempMax : string := "Module Temperature must be ≤ 100°C".

Definition moduleTempErrors (moduleTemp : value) : list string :=
  if isBlank moduleTemp then []
  else
    let num := ToNumber moduleTemp in
    if isNaN num then ["Module Temperature must be a number"]
    else if (num =? 0)%float then ["Module Temperature cannot be 0"]
    else if (num <? 0)%float then ["Module Temperature cannot be negative"]
    else if (100 <? num)%float then [msgModuleTempMax]
    else [].

Definition sensorErrors (row : obj) : list string :=
  (checkRange (get row "POA") 0 1500 "POA Pyranometer" true ++
   checkRange (get row "GHI") 0 1500 "GHI Pyranometer" true ++
   checkRange (get row "AlbedoUp") 0 1500 "Albedo Up" true ++
   checkRange (get row "AlbedoDown") 0 1500 "Albedo Down" true ++
   moduleTempErrors (get row "ModuleTemp") ++
   checkRange (get row "AmbientTemp") 0 100 "Ambient Temperature" true ++
   checkRange (get row "WindSpeed") 0 200 "Wind Speed" true ++
   checkRange (get row "Rainfall") 0 500 "Rainfall" true ++
   checkRange (get row "Humidity") 0 100 "Humidity" true)%list.

Definition rowErrorsOf (seenDateTime : list string) (row : obj) : list string :=
  let date := dateOf row in
  let time := timeOf row in
  (dateErrors date ++ timeErrors time ++
   duplicateErrors seenDateTime date time ++ sensorErrors row)%list.

(** [date || row['Date']] *)
Definition orField (s : string) (v : value) : value :=
  if isEmpty s then v else Str s.

(** [{ ...row, Date: date || row['Date'], Time: time || row['Time'] }] *)
Definition normalizedRow (row : obj) : obj :=
  set (set row "Date" (orField (dateOf row) (get row "Date")))
      "Time" (orField (timeOf row) (get row "Time")).

Fixpoint validateLoop (seenDateTime : list string) (index : nat) (rs : list obj)
  : list obj * list RowError :=
  match rs with
  | [] => ([], [])
  | row :: rest =>
      let rowNumber := index + 2 in
      let errs := rowErrorsOf seenDateTime row in
      let out := validateLoop (seenAfter seenDateTime (dateOf row) (timeOf row))
                              (S index) rest in
      (normalizedRow row :: fst out,
       match errs with
       | [] => snd out
       | _ => {| rowNumber := rowNumber; errors := errs |} :: snd out
       end)
  end.

Definition validateRows (rs : list obj) : ValidationResult :=
  let out := validateLoop [] 0 rs in
  {| rows := fst out;
     rowErrors := snd out;
     isValid := match snd out with [] => true | _ => false end |}.

End WithBuiltins.
End Weather.

(* ------------------------------------------------------------------ *)
(** ** WeatherSubmitService (weather-submit.service.ts)                 *)
(* ------------------------------------------------------------------ *)

Module WeatherSubmit.
Import Js.

(** A document mapped from a row. *)
Record Doc : Type := {
  date : value;
  time : value;
  poa : float;
  ghi : float;
  albedoUp : float;
  albedoDown : float;
  moduleTemp : float;
  ambientTemp : float;
  windSpeed : float;
  rainfall : float;
  humidity : float
}.

(** What [submitRows] returns, with the documents handed to [insertMany]. *)
Record Outcome : Type := {
  docsToInsert : list Doc;
  inserted : nat;
  skipped : nat
}.

(** The bulk-write variant: one upsert per kept row. *)
Record UpsertOp : Type := {
  filterDate : value;
  filterTime : value;
  setDoc : Doc;
  setStatus : value;
  setSiteName : option string;
  upsert : bool
}.

Section WithBuiltins.
Context {B : Builtins}.

(** [toNumber]: "Convert value to number, return 0 if invalid". *)
Definition toNumber (v : value) : float :=
  if isBlank v then 0%float
  else let num := ToNumber v in if isNaN num then 0%float else num.

Definition rowDate (row : obj) : value := get row "Date" ?? get row "date".
Definition rowTime (row : obj) : value := get row "Time" ?? get row "time".

(** [!date || !time] *)
Definition lacksKey (row : obj) : bool :=
  negb (truthy (rowDate row)) || negb (truthy (rowTime row)).

Definition docOf (row : obj) : Doc :=
  {| date := rowDate row;
     time := rowTime row;
     poa := toNumber (get row "POA");
     ghi := toNumber (get row "GHI");
     albedoUp := toNumber (get row "AlbedoUp");
     albedoDown := toNumber (get row "AlbedoDown");
     moduleTemp := toNumber (get row "ModuleTemp");
     ambientTemp := toNumber (get row "AmbientTemp");
     windSpeed := toNumber (get row "WindSpeed");
     rainfall := toNumber (get row "Rainfall");
     humidity := toNumber (get row "Humidity") |}.

(** The loop of [submitRows]; [existsInStore date time] is the answer of
    [weatherModel.exists] for the pair. *)
Fixpoint submitLoop (existsInStore : value -> value -> bool) (rs : list obj)
         (docs : list Doc) (skippedSoFar : nat) : list Doc * nat :=
  match rs with
  | [] => (docs, skippedSoFar)
  | row :: rest =>
      if lacksKey row then submitLoop existsInStore rest docs (S skippedSoFar)
      else if existsInStore (rowDate row) (rowTime row)
           then submitLoop existsInStore rest docs (S skippedSoFar)
           else submitLoop existsInStore rest (docs ++ [docOf row])%list skippedSoFar
  end.

Definition submitRows (existsInStore : value -> value -> bool) (rs : list obj)
  : Outcome :=
  match rs with
  | [] => {| docsToInsert := []; inserted := 0; skipped := 0 |}
  | _ =>
      let out := submitLoop existsInStore rs [] 0 in
      {| docsToInsert := fst out;
         inserted := List.length (fst out);
         skipped := snd out |}
  end.

(** [toText] *)
Definition toText (v : value) : option string :=
  match v with
  | Undefined | Null => None
  | _ => let text := trim (ToString v) in if isEmpty text then None else Some text
  end.

Definition upsertOf (row : obj) : UpsertOp :=
  {| filterDate := rowDate row;
     filterTime := rowTime row;
     setDoc := docOf row;
     setStatus := get row "status" ?? get row "Status" ?? Str "draft";
     setSiteName := toText (get row "Site Name" ?? get row "SiteName" ??
                            get row "siteName" ?? get row "Site" ?? get row "site");
     upsert := true |}.

(** The loop of the bulk-write variant of [submitRows]: the operations handed
    to [bulkWrite], and the number of skipped rows. *)
Fixpoint upsertLoop (rs : list obj) (ops : list UpsertOp) (skippedSoFar : nat)
  : list UpsertOp * nat :=
  match rs with
  | [] => (ops, skippedSoFar)
  | row :: rest =>
      if lacksKey row then upsertLoop rest ops (S skippedSoFar)
      else upsertLoop rest (ops ++ [upsertOf row])%list skippedSoFar
  end.

Definition submitRowsUpsert (rs : list obj) : list UpsertOp * nat :=
  upsertLoop rs [] 0.

End WithBuiltins.
End WeatherSubmit.

(* ------------------------------------------------------------------ *)
(** ** WeatherSubmitService.submitRows, bulk-write variant: its result   *)
(* ------------------------------------------------------------------ *)

Module WeatherBulk.
Import Js.

(** The fields that [submitRows] reads of what [bulkWrite] reports; [None]
    is [undefined] or [null]. *)
Record BulkWriteResult : Type := {
  insertedCount : option nat;
  modifiedCount : option nat;
  upsertedCount : option nat
}.

(** What [submitRows] returns. *)
Record Outcome : Type := { inserted : nat; updated : nat; skipped : nat }.

(** [n ?? 0] *)
Definition orZero (n : option nat) : nat :=
  match n with
  | Some k => k
  | None => 0
  end.

Section WithBuiltins.
Context {B : Builtins}.

(** [submitRows]; [bulkWrite ops] is what the store reports for the
    operations [ops].  [result] is the triple of [insertedCount],
    [modifiedCount] and [upsertedCount]. *)
Definition submitRows (bulkWrite : list WeatherSubmit.UpsertOp -> BulkWriteResult)
    (rs : list obj) : Outcome :=
  match rs with
  | [] => {| inserted := 0; updated := 0; skipped := 0 |}
  | _ =>
      let ops := fst (WeatherSubmit.submitRowsUpsert rs) in
      let skipped := snd (WeatherSubmit.submitRowsUpsert rs) in
      let result :=
        match ops with
        | [] => (0, 0, 0)
        | _ =>
            let bulkResult := bulkWrite ops in
            (orZero (insertedCount bulkResult),
             orZero (modifiedCount bulkResult),
             orZero (upsertedCount bulkResult))
        end in
      let totalInserted := snd result in
      let totalUpdated := snd (fst result) in
      {| inserted := totalInserted; updated := totalUpdated; skipped := skipped |}
  end.

End WithBuiltins.
End WeatherBulk.

(* ------------------------------------------------------------------ *)
(** ** MeterSubmitService (meter-submit.service.ts)                     *)
(* ------------------------------------------------------------------ *)

Module MeterSubmit.
Import Js Meter.

Inductive Exception : Type :=
| BadRequestException (message : string).

Record Doc : Type := {
  date : string;
  time : string;
  plantStartTime : string;
  plantStopTime : string;
  total : string;
  activeEnergyImport : float;
  activeEnergyExport : float;
  reactiveEnergyImport : float;
  reactiveEnergyExport : float;
  voltage : float;
  current : float;
  frequency : float;
  powerFactor : float;
  status : value
}.

(** [{ updateOne: { filter: { date, time }, update: { $set: doc },
                    upsert: true } }] *)
Record UpdateOne : Type := {
  filterDate : string;
  filterTime : string;
  setDoc : Doc;
  upsert : bool
}.

Section WithBuiltins.
Context {B : Builtins}.

(** [num]; [None] is [null]. *)
Definition num (v : value) : option float :=
  if isBlank v then None
  else let n := ToNumber v in if isFinite n then Some n else None.

(** [this.num(v) ?? 0] *)
Definition numOr0 (v : value) : float :=
  match num v with
  | Some n => n
  | None => 0%float
  end.

(** [String(r?.Date ?? r?.date ?? '').trim()] *)
Definition rowDate (r : obj) : string :=
  trim (ToString (get r "Date" ?? get r "date" ?? Str "")).

(** [String(r?.Time ?? r?.time ?? '00:00').trim()] *)
Definition rowTime (r : obj) : string :=
  trim (ToString (get r "Time" ?? get r "time" ?? Str "00:00")).

Definition toPoint (w : obj) : Point :=
  let tRaw := get w "time" ?? get w "Time" ?? Str "" in
  let t := normalizeHHMM (Str (ToString tRaw)) in
  let poa := ToNumber (get w "poa" ?? get w "POA" ??
                       get w "POA Meter 1" ?? get w "POA_Meter_1") in
  {| Meter.time := match t with
                   | Some s => if isEmpty s then "" else sliceTo 5 s
                   | None => ""
                   end;
     Meter.poa := if isFinite poa then poa else nan |}.

Definition pointsOf (weatherData : list obj) : list Point :=
  sortPoints (filter keepPoint (map toPoint weatherData)).

(** The operation built for one row whose date is present;
    [weatherData] is [weatherByDate.get(date) || []]. *)
Definition opOf (weatherData : list obj) (r : obj) : UpdateOne :=
  let date := rowDate r in
  let time := rowTime r in
  let points := pointsOf weatherData in
  let plantStartTime := plantStartOf points in
  let plantStopTime := plantStopOf points in
  let total := totalOf plantStartTime plantStopTime in
  let gssExportTotal := numOr0 (get r "GSS Export Total") in
  let doc :=
    {| date := date;
       time := time;
       plantStartTime := plantStartTime;
       plantStopTime := plantStopTime;
       total := total;
       activeEnergyImport :=
         numOr0 (get r "ActiveEnergyImport" ?? get r "activeEnergyImport");
       activeEnergyExport := gssExportTotal;
       reactiveEnergyImport :=
         numOr0 (get r "ReactiveEnergyImport" ?? get r "reactiveEnergyImport");
       reactiveEnergyExport :=
         numOr0 (get r "ReactiveEnergyExport" ?? get r "reactiveEnergyExport");
       voltage := numOr0 (get r "Voltage" ?? get r "voltage");
       current := numOr0 (get r "Current" ?? get r "current");
       frequency := numOr0 (get r "Frequency" ?? get r "frequency");
       powerFactor := numOr0 (get r "PowerFactor" ?? get r "powerFactor");
       status := get r "status" ?? get r "Status" ?? Str "draft" |} in
  {| filterDate := date; filterTime := time; setDoc := doc; upsert := true |}.

(** [rows.map((r) => ...)]: the first row without a date throws, and the
    exception leaves [submitRows] before [bulkWrite] is reached.
    [getWeatherByDate] is the weather service's lookup for one date. *)
Fixpoint buildOps (getWeatherByDate : string -> list obj) (rs : list obj)
  : Exception + list UpdateOne :=
  match rs with
  | [] => inr []
  | r :: rest =>
      if isEmpty (rowDate r)
      then inl (BadRequestException "Each row must contain Date")
      else
        match buildOps getWeatherByDate rest with
        | inl e => inl e
        | inr ops => inr (opOf (getWeatherByDate (rowDate r)) r :: ops)
        end
  end.

(** [submitRows] up to the call of [bulkWrite]: the operations it hands
    over, or the exception it throws. *)
Definition submitRows (getWeatherByDate : string -> list obj) (rs : list obj)
  : Exception + list UpdateOne :=
  buildOps getWeatherByDate rs.

End WithBuiltins.
End MeterSubmit.

(* ------------------------------------------------------------------ *)
(** ** WeatherExcelService.normalizeDate / normalizeTime                *)
(* ------------------------------------------------------------------ *)

Module WeatherExcel.
Import Js.

(** The longest run of digits at the head of [s], and what follows it. *)
Fixpoint spanDigits (s : string) : string * string :=
  match s with
  | EmptyString => (EmptyString, EmptyString)
  | String c s' =>
      if isDigit c then let (d, r) := spanDigits s' in (String c d, r)
      else (EmptyString, s)
  end.

(** [\d{lo,hi}] at the head of [s], followed by something that does not start
    with a digit (a separator or the end): the run of digits and what
    follows it. *)
Definition digitsBetween (lo hi : nat) (s : string) : option (string * string) :=
  let (d, r) := spanDigits s in
  if (lo <=? String.length d) && (String.length d <=? hi) then Some (d, r) else None.

(** [/^\d{2}-[A-Za-z]{3}-\d{2}$/] *)
Definition reAlready (s : string) : bool :=
  match Weather.reDDMMMYY s with
  | Some _ => true
  | None => false
  end.

(** [/^(\d{1,2})\/([A-Za-z]{3})\/(\d{2,4})$/], with its three groups. *)
Definition reSlashMon (s : string) : option (string * string * string) :=
  match digitsBetween 1 2 s with
  | Some (day, String s1 (String a1 (String a2 (String a3 (String s2 rest))))) =>
      if (s1 =? "/")%char && isAlpha a1 && isAlpha a2 && isAlpha a3 && (s2 =? "/")%char
      then
        match digitsBetween 2 4 rest with
        | Some (year, EmptyString) =>
            Some (day, String a1 (String a2 (String a3 EmptyString)), year)
        | _ => None
        end
      else None
  | _ => None
  end.

Definition isSep (c : ascii) : bool := (c =? "/")%char || (c =? "-")%char.

(** [/^(\d{1,2})[\/\-](\d{1,2})[\/\-](\d{2,4})$/], with its three groups. *)
Definition reNumeric (s : string) : option (string * string * string) :=
  match digitsBetween 1 2 s with
  | Some (day, String s1 rest1) =>
      if isSep s1 then
        match digitsBetween 1 2 rest1 with
        | Some (month, String s2 rest2) =>
            if isSep s2 then
              match digitsBetween 2 4 rest2 with
              | Some (year, EmptyString) => Some (day, month, year)
              | _ => None
              end
            else None
        | _ => None
        end
      else None
  | _ => None
  end.

(** [s.padStart(2, '0')] *)
Definition padStart2 : string -> string := Js.padStart2.

Definition months : list string := Meter.MONTHS.

(** [/^\d{2}:\d{2}$/] *)
Definition reHHMM (s : string) : bool :=
  match Meter.reHHMM s with
  | Some _ => true
  | None => false
  end.

(** [/^(\d{1,2}):(\d{2})(?::\d{2})?$/], with its two groups. *)
Definition reTime : string -> option (string * string) := Weather.reTime.

Section WithBuiltins.
Context {B : Builtins}.

Definition normalizeDate (v : value) : string :=
  if negb (truthy v) then ""
  else
    let str := trim (ToString v) in
    if reAlready str then str
    else
      match reSlashMon str with
      | Some (d, m, y) =>
          let day := padStart2 d in
          let month := toUpperCase (substring 0 1 m)
                       ++ toLowerCase (substring 1 (String.length m - 1) m) in
          let year := sliceLast 2 y in
          day ++ "-" ++ month ++ "-" ++ year
      | None =>
          match reNumeric str with
          | Some (d, m, y) =>
              let day := padStart2 d in
              let monthNum := natOfDigits m in
              (* [months[monthNum - 1] || 'Jan'] *)
              let month :=
                if monthNum =? 0 then "Jan"
                else match nth_error months (monthNum - 1) with
                     | Some name => name
                     | None => "Jan"
                     end in
              let year := sliceLast 2 y in
              day ++ "-" ++ month ++ "-" ++ year
          | None => str
          end
      end.

Definition normalizeTime (v : value) : string :=
  if negb (truthy v) then ""
  else
    let str := trim (ToString v) in
    if reHHMM str then str
    else
      match reTime str with
      | Some (h, minutes) => padStart2 h ++ ":" ++ minutes
      | None => str
      end.

End WithBuiltins.
End WeatherExcel.

(* ------------------------------------------------------------------ *)
(** ** WeatherService.getDateVariations                                 *)
(* ------------------------------------------------------------------ *)

Module WeatherDates.
Import Js.

Definition MONTHS : list string := Meter.MONTHS.

(** [/^(\d{2})-(\d{2})-(\d{4})$/], with its three groups. *)
Definition reDDMMYYYY (s : string) : option (string * string * string) :=
  match list_ascii_of_string s with
  | [d1; d2; h1; m1; m2; h2; y1; y2; y3; y4] =>
      if isDigit d1 && isDigit d2 && (h1 =? "-")%char &&
         isDigit m1 && isDigit m2 && (h2 =? "-")%char &&
         isDigit y1 && isDigit y2 && isDigit y3 && isDigit y4
      then Some (Meter.str2 d1 d2, Meter.str2 m1 m2,
                 String y1 (String y2 (String y3 (String y4 EmptyString))))
      else None
  | _ => None
  end.

(** [MONTHS.findIndex(m => m.toLowerCase() === monthName.toLowerCase())];
    [None] is [-1]. *)
Fixpoint findIndexFrom (i : nat) (monthName : string) (ms : list string) : option nat :=
  match ms with
  | [] => None
  | m :: ms' =>
      if (toLowerCase m =? toLowerCase monthName)%string then Some i
      else findIndexFrom (S i) monthName ms'
  end.

Definition meterVariants (date : string) : list string :=
  match reDDMMYYYY date with
  | Some (day, month, year) =>
      let monthNum := natOfDigits month in
      (* [monthIndex >= 0 && monthIndex < 12] for [monthIndex = monthNum - 1] *)
      if (1 <=? monthNum) && (monthNum <? 13) then
        let monthName := nth (monthNum - 1) MONTHS "undefined" in
        let shortYear := sliceLast 2 year in
        [day ++ "-" ++ monthName ++ "-" ++ shortYear;
         year ++ "-" ++ month ++ "-" ++ day]
      else []
  | None => []
  end.

Definition weatherVariants (date : string) : list string :=
  match Weather.reDDMMMYY date with
  | Some (day, monthName, shortYear) =>
      match findIndexFrom 0 monthName MONTHS with
      | Some monthIndex =>
          let fullYear := "20" ++ shortYear in
          let month := padStart2 (natToString (monthIndex + 1)) in
          [day ++ "-" ++ month ++ "-" ++ fullYear;
           fullYear ++ "-" ++ month ++ "-" ++ day]
      | None => []
      end
  | None => []
  end.

(** [getDateVariations]: the original, then the variants, without repeats. *)
Definition getDateVariations (date : string) : list string :=
  Meter.setOf (date :: meterVariants date ++ weatherVariants date)%list.

End WeatherDates.

(* ------------------------------------------------------------------ *)
(** ** Definitions used to state the properties                         *)
(* ------------------------------------------------------------------ *)

Module Spec.
Import Js Meter.

(** *** The plant-operation calculator *)

Definition ge10 (p : Point) : bool := (10 <=? poa p)%float.
Definition inBand (p : Point) : bool := (0 <? poa p)%float && (poa p <? 50)%float.
Definition positive (p : Point) : bool := (0 <? poa p)%float.

Definition NoneOf (P : Point -> bool) (pts : list Point) : Prop :=
  forall q, In q pts -> P q = false.

(** [t] is the time of a sample of [pts] that satisfies [P] and that no
    sample satisfying [P] precedes. *)
Definition Earliest (P : Point -> bool) (pts : list Point) (t : string) : Prop :=
  exists p, In p pts /\ P p = true /\ time p = t /\
            forall q, In q pts -> P q = true -> (minutesOf p <= minutesOf q)%Z.

(** [t] is the time of a sample of [pts] that satisfies [P] and that no
    sample satisfying [P] follows. *)
Definition Latest (P : Point -> bool) (pts : list Point) (t : string) : Prop :=
  exists p, In p pts /\ P p = true /\ time p = t /\
            forall q, In q pts -> P q = true -> (minutesOf q <= minutesOf p)%Z.

Definition StartSpec (pts : list Point) (t : string) : Prop :=
  Earliest ge10 pts t \/ (NoneOf ge10 pts /\ t = "00:00").

Definition StopSpec (pts : list Point) (t : string) : Prop :=
  Latest inBand pts t \/
  (NoneOf inBand pts /\ Latest positive pts t) \/
  (NoneOf inBand pts /\ NoneOf positive pts /\ t = "00:00").

Definition Ascending (pts : list Point) : Prop :=
  StronglySorted (fun a b => (minutesOf a <= minutesOf b)%Z) pts.

(** The first element of [pts] that satisfies [P], as a relation. *)
Inductive FirstSat (P : Point -> bool) : list Point -> option Point -> Prop :=
| FirstSat_nil : FirstSat P [] None
| FirstSat_here p l : P p = true -> FirstSat P (p :: l) (Some p)
| FirstSat_later p l r : P p = false -> FirstSat P l r -> FirstSat P (p :: l) r.

(** The last element of [pts] that satisfies [P], as a relation. *)
Definition LastSat (P : Point -> bool) (pts : list Point) (r : option Point) : Prop :=
  FirstSat P (rev pts) r.

Definition timeOr0 (r : option Point) : string :=
  match r with
  | Some p => time p
  | None => "00:00"
  end.

(** What the calculator derives from the samples [kept] of one date (the
    samples left after the filter) and their sorted sequence [pts]. *)
Definition PlantSpec (kept pts : list Point) (start stop : string) : Prop :=
  Permutation kept pts /\ Ascending pts /\
  (exists r, FirstSat ge10 pts r /\ start = timeOr0 r) /\
  (exists r, LastSat inBand pts r /\
             match r with
             | Some p => stop = time p
             | None => exists r', LastSat positive pts r' /\ stop = timeOr0 r'
             end) /\
  StartSpec kept start /\ StopSpec kept stop.

(** [m] minutes since midnight, rendered as zero-padded [HH:MM]. *)
Definition renderHHMM (m : Z) : string :=
  pad2 (Z.to_nat (m / 60)) ++ ":" ++ pad2 (Z.to_nat (m mod 60)).

(** [t] is a clock time, [m] minutes after midnight. *)
Definition ClockTime (t : string) (m : Z) : Prop :=
  isValidHHMM (Str t) = true /\ timeToMinutes t = Some m /\ (0 <= m < 1440)%Z.

(** [s] starts with the character [c]. *)
Definition headIs (c : ascii) (s : string) : Prop := exists r, s = String c r.

(** [k] contains the word [lit], in any letter case. *)
Definition ContainsWord (lit k : string) : Prop :=
  exists pre mid post, k = pre ++ mid ++ post /\ toUpperCase mid = toUpperCase lit.

(** A column named after export or import. *)
Definition ExportImportNamed (k : string) : Prop :=
  ContainsWord "export" k \/ ContainsWord "import" k.

(** *** Rows of a result *)

Definition meterErrorsAt (res : Meter.ValidationResult) (n : nat) : list string :=
  match find (fun e => Meter.rowNumber e =? n) (Meter.rowErrors res) with
  | Some e => Meter.errors e
  | None => []
  end.

Definition weatherErrorsAt (res : Weather.ValidationResult) (n : nat) : list string :=
  match find (fun e => Weather.rowNumber e =? n) (Weather.rowErrors res) with
  | Some e => Weather.errors e
  | None => []
  end.

(** *** Time forms *)

(** [s] is [H:MM], [HH:MM], [H:MM:SS] or [HH:MM:SS] (digits throughout), and
    [canon] is its zero-padded [HH:MM]. *)
Inductive TimeForm : string -> string -> Prop :=
| TimeForm_HMM h m1 m2 :
    isDigit h = true -> isDigit m1 = true -> isDigit m2 = true ->
    TimeForm (String h (":" ++ str2 m1 m2)) ("0" ++ String h (":" ++ str2 m1 m2))
| TimeForm_HHMM h1 h2 m1 m2 :
    isDigit h1 = true -> isDigit h2 = true -> isDigit m1 = true -> isDigit m2 = true ->
    TimeForm (str2 h1 h2 ++ ":" ++ str2 m1 m2) (str2 h1 h2 ++ ":" ++ str2 m1 m2)
| TimeForm_HMMSS h m1 m2 s1 s2 :
    isDigit h = true -> isDigit m1 = true -> isDigit m2 = true ->
    isDigit s1 = true -> isDigit s2 = true ->
    TimeForm (String h (":" ++ str2 m1 m2 ++ ":" ++ str2 s1 s2))
             ("0" ++ String h (":" ++ str2 m1 m2))
| TimeForm_HHMMSS h1 h2 m1 m2 s1 s2 :
    isDigit h1 = true -> isDigit h2 = true -> isDigit m1 = true -> isDigit m2 = true ->
    isDigit s1 = true -> isDigit s2 = true ->
    TimeForm (str2 h1 h2 ++ ":" ++ str2 m1 m2 ++ ":" ++ str2 s1 s2)
             (str2 h1 h2 ++ ":" ++ str2 m1 m2).

(** [s] matches none of the date patterns of [normalizeDate]. *)
Definition noDatePattern (s : string) : bool :=
  negb (WeatherExcel.reAlready s) &&
  match WeatherExcel.reSlashMon s with Some _ => false | None => true end &&
  match WeatherExcel.reNumeric s with Some _ => false | None => true end.

(** [s] matches none of the time patterns. *)
Definition noTimePattern (s : string) : bool :=
  match reHMM s with Some _ => false | None => true end &&
  match reHMMSS s with Some _ => false | None => true end.

(** *** Sums *)

(** The left-to-right sum of the values of [totals]. *)
Definition plainSum (totals : list (string * float)) : float :=
  fold_left (fun sum t => (sum + snd t)%float) totals 0%float.

(** The left-to-right sum of the values of [totals], a value that is not
    finite counting as 0. *)
Definition finiteSum (totals : list (string * float)) : float :=
  plainSum (map (fun t => (fst t, if isFinite (snd t) then snd t else 0%float)) totals).

(** The identifier of a pair total is tagged GSS. *)
Definition GssTagged (t : string * float) : Prop := ContainsWord "gss" (fst t).

(** The largest finite binary64 number. *)
Definition maxFloat : float := 0x1.fffffffffffffp+1023%float.

(** *** Strings *)

(** [s] does not start with whitespace. *)
Definition startsClean (s : string) : Prop :=
  match s with
  | EmptyString => True
  | String c _ => isSpace c = false
  end.

(** *** Derived columns *)

(** The three derived time columns of a meter row. *)
Definition plantFields (r : obj) : value * value * value :=
  (get r "Plant Start Time", get r "Plant Stop Time", get r "Total").

Section WithBuiltins.
Context {B : Builtins}.

(** *** The weather rows of a date *)

(** The date cell of the weather row [w] is the ISO or the DD-MMM-YY form of
    the meter date [d]. *)
Definition matchesDate (w : obj) (d : string) : bool :=
  strictEqStr (MeterValidate.weatherDateVal w) (ddmmyyyyToISO d)
  || strictEqStr (MeterValidate.weatherDateVal w) (ddmmyyyyToDDMMMYY d).

(** Among the dates of the batch, [d] is the first one that [w] matches. *)
Definition assignedTo (dates : list string) (d : string) (w : obj) : bool :=
  match find (matchesDate w) dates with
  | Some d' => (d' =? d)%string
  | None => false
  end.

(** *** The either/or rule of the meter validator *)

(** [t] is HH:MM of the 24-hour clock: two digits up to 23, a colon, two
    digits up to 59. *)
Definition ValidClock (t : string) : Prop :=
  exists h1 h2 m1 m2,
    t = str2 h1 h2 ++ ":" ++ str2 m1 m2 /\
    isDigit h1 = true /\ isDigit h2 = true /\ isDigit m1 = true /\ isDigit m2 = true /\
    natOfDigits (str2 h1 h2) <= 23 /\ natOfDigits (str2 m1 m2) <= 59.

(** The cell [v] holds a valid time: it is present, and its text without the
    surrounding whitespace is H:MM or HH:MM, with or without seconds, of an
    hour up to 23 and a minute up to 59 (seconds are not read). *)
Definition ValidTimeCell (v : value) : Prop :=
  isBlank v = false /\
  exists t, TimeForm (trim (ToString v)) t /\ ValidClock t.

(** The start cell of a meter row: [Start Time], else [StartTime], else
    [Start]. *)
Definition startCell (row : obj) : value :=
  get row "Start Time" ?? get row "StartTime" ?? get row "Start".

(** The stop cell of a meter row: [Stop Time], else [StopTime], else [Stop]. *)
Definition stopCell (row : obj) : value :=
  get row "Stop Time" ?? get row "StopTime" ?? get row "Stop".

(** The row has a valid start and stop time. *)
Definition ValidStartStop (row : obj) : Prop :=
  ValidTimeCell (startCell row) /\ ValidTimeCell (stopCell row).

(** The row has an export/import-named column whose value is present and
    numeric. *)
Definition NumericReading (row : obj) : Prop :=
  exists k, In k (keys row) /\ ExportImportNamed k /\
            isBlank (get row k) = false /\ isFinite (ToNumber (get row k)) = true.

(** *** Submission of weather rows *)

(** The row is kept by the weather submission. *)
Definition keptRow (existsInStore : value -> value -> bool) (row : obj) : bool :=
  negb (WeatherSubmit.lacksKey row) &&
  negb (existsInStore (WeatherSubmit.rowDate row) (WeatherSubmit.rowTime row)).

(** A sensor column and the field of the document it is stored in. *)
Definition sensorFields : list (string * (WeatherSubmit.Doc -> float)) :=
  [("POA", WeatherSubmit.poa); ("GHI", WeatherSubmit.ghi);
   ("AlbedoUp", WeatherSubmit.albedoUp); ("AlbedoDown", WeatherSubmit.albedoDown);
   ("ModuleTemp", WeatherSubmit.moduleTemp); ("AmbientTemp", WeatherSubmit.ambientTemp);
   ("WindSpeed", WeatherSubmit.windSpeed); ("Rainfall", WeatherSubmit.rainfall);
   ("Humidity", WeatherSubmit.humidity)].

(** The cell is blank, null, undefined, or does not parse as a number. *)
Definition Unparsable (v : value) : Prop :=
  isBlank v = true \/ isNaN (ToNumber v) = true.

(** Every sensor field of [doc] whose cell in [row] is unparsable is 0. *)
Definition BlanksAreZero (row : obj) (doc : WeatherSubmit.Doc) : Prop :=
  Forall (fun f => Unparsable (get row (fst f)) -> snd f doc = 0%float) sensorFields.

(** *** Duplicates in a weather batch *)

(** The keys seen after the rows [l], starting from [seen]. *)
Definition seenAfterRows (seen : list string) (l : list obj) : list string :=
  fold_left (fun acc r => Weather.seenAfter acc (Weather.dateOf r) (Weather.timeOf r)) l seen.

End WithBuiltins.

End Spec.


(* ------------------------------------------------------------------ *)
(** ** Concrete built-ins and rows, to run the services                 *)
(* ------------------------------------------------------------------ *)

Module Example.
Import Js.

Fixpoint floatOfNat (n : nat) : float :=
  match n with
  | O => 0%float
  | S k => (floatOfNat k + 1)%float
  end.

(** [Number(s)] on runs of digits (0 on the empty string); the examples hold
    no other numeric text. *)
Definition digitsToNumber (s : string) : float :=
  if allChars isDigit s then
    fold_left (fun acc c => (acc * 10 + floatOfNat (nat_of_ascii c - 48))%float)
              (list_ascii_of_string s) 0%float
  else nan.

(** [String(n)] on the integers below 2000; the examples print no other
    number. *)
Definition smallToString (f : float) : string :=
  match find (fun n => (f =? floatOfNat n)%float) (seq 0 2000) with
  | Some n => natToString n
  | None => "NaN"
  end.

Definition builtins : Builtins :=
  {| StringToNumber := digitsToNumber; NumberToString := smallToString |}.

Definition weatherRow (t : string) (p : float) : obj :=
  [("date", Str "01-Jun-25"); ("time", Str t); ("poa", Num p)].

(** Samples of 01-Jun-25, out of order, one with seconds. *)
Definition weatherDay : list obj :=
  [weatherRow "18:00" 0%float; weatherRow "08:00" 60%float;
   weatherRow "17:30" 40%float; weatherRow "7:15:10" 5%float].

Definition meterRow : obj :=
  [("Date", Str "01-06-2025");
   ("Export1 Initial", Num 100%float); ("Export1 Final", Num 150%float)].

(** A meter row with a date and nothing else. *)
Definition bareRow : obj := [("Date", Str "01-06-2025")].

(** A meter row with a start and a stop time and no reading. *)
Definition timedRow : obj :=
  [("Date", Str "02-06-2025"); ("Start Time", Str "08:00"); ("Stop Time", Str "17:30")].

(** A meter row dated a century before [meterRow]. *)
Definition centuryRow : obj := [("Date", Str "01-06-1925")].

(** A sample of 01-Jun-25 whose time is written on the 12-hour clock. *)
Definition eveningSample : obj :=
  [("date", Str "01-Jun-25"); ("time", Str "09:00 PM"); ("poa", Num 60%float)].

(** A meter row whose export reading went down: its pair total is -50. *)
Definition decreasingRow : obj :=
  [("Date", Str "01-06-2025");
   ("Export1 Initial", Num 150%float); ("Export1 Final", Num 100%float)].

(** A pair whose difference overflows. *)
Definition overflowRow : obj :=
  [("Date", Str "01-06-2025");
   ("Export1 Initial", Num (- Spec.maxFloat)%float);
   ("Export1 Final", Num Spec.maxFloat)].

(** Two weather rows with the same date and time, neither of them valid. *)
Definition badPair : obj := [("Date", Str "tomorrow"); ("Time", Str "noon")].

Definition goodPair : obj :=
  [("Date", Str "01-dec-24"); ("Time", Str "9:30"); ("POA", Str "")].

(** A weather row with a blank POA, a null GHI, no AlbedoUp at all, a
    ModuleTemp that is not a number, and a numeric AmbientTemp. *)
Definition sparseRow : obj :=
  [("Date", Str "01-Dec-24"); ("Time", Str "09:30"); ("POA", Str "");
   ("GHI", Null); ("ModuleTemp", Str "n/a"); ("AmbientTemp", Str "31")].

End Example.

(* ------------------------------------------------------------------ *)
(** ** Definitions used to state the further properties                 *)
(* ------------------------------------------------------------------ *)

(** *** Rows seen so far *)

Module RowTerms.
Import Js Meter.

(** The last character of [s]. *)
Fixpoint lastChar (s : string) : option ascii :=
  match s with
  | EmptyString => None
  | String c EmptyString => Some c
  | String _ s' => lastChar s'
  end.

Section WithBuiltins.
Context {B : Builtins}.

(** The dates seen after the rows [l], starting from [seen]. *)
Definition seenDatesAfter (seen : list string) (l : list obj) : list string :=
  fold_left (fun acc r => MeterValidate.seenAfter acc (MeterValidate.rowDate r)) l seen.

End WithBuiltins.
End RowTerms.

(** *** Reading pairs and derived columns *)

Module PairTerms.
Import Js Meter MeterValidate.

Section WithBuiltins.
Context {B : Builtins}.

(** The names of the columns that enrichment writes for [row]. *)
Definition derivedKeys (row : obj) : list string :=
  (["Plant Start Time"; "Plant Stop Time"; "Total"] ++
   map (fun t => totalLabel "Export" (fst t)) (computePairs "Export" row) ++
   map (fun t => totalLabel "Import" (fst t)) (computePairs "Import" row) ++
   ["GSS Export Total"; "GSS Import Total"; "Net Export @GSS"])%list.

(** The column [k] is the initial (or start) reading of the meter [id]. *)
Definition InitialOf (type id k : string) : Prop :=
  exists g, matchPair type ["Initial"; "Start"] k = Some g /\ pairId g = id.

(** The column [k] is the final (or end) reading of the meter [id]. *)
Definition FinalOf (type id k : string) : Prop :=
  exists g, matchPair type ["Final"; "End"] k = Some g /\ pairId g = id.

(** The cell of [row] under [k] is present and is the finite number [n]. *)
Definition Reading (row : obj) (k : string) (n : float) : Prop :=
  isBlank (get row k) = false /\ isFinite (ToNumber (get row k)) = true /\
  n = ToNumber (get row k).

End WithBuiltins.
End PairTerms.

(** *** Minutes of the day *)

Module ClockTerms.
Import Js Meter Spec.

(** [renderHHMM n] is a valid HH:MM of five characters that reads back as
    [n] minutes. *)
Definition rendersBack (n : nat) : bool :=
  let t := renderHHMM (Z.of_nat n) in
  isValidHHMM (Str t) && (String.length t =? 5) &&
  match timeToMinutes t with
  | Some z => (z =? Z.of_nat n)%Z
  | None => false
  end.

End ClockTerms.

(* ------------------------------------------------------------------ *)
(** ** MeterExcelService.normalizeDate / normalizeTime (meter.schema.ts) *)
(* ------------------------------------------------------------------ *)

Module MeterExcel.
Import Js.

(** The table [months] of [normalizeDate]. *)
Definition months : list (string * string) :=
  [("jan", "01"); ("feb", "02"); ("mar", "03"); ("apr", "04");
   ("may", "05"); ("jun", "06"); ("jul", "07"); ("aug", "08");
   ("sep", "09"); ("oct", "10"); ("nov", "11"); ("dec", "12")].

(** [months[monthStr.toLowerCase()] || '01'] *)
Definition monthOf (monthStr : string) : string :=
  match Meter.mapGet months (toLowerCase monthStr) with
  | Some month => if isEmpty month then "01" else month
  | None => "01"
  end.

(** [y.length === 2 ? `20${y}` : y] *)
Definition yearOf (y : string) : string :=
  if String.length y =? 2 then "20" ++ y else y.

Section WithBuiltins.
Context {B : Builtins}.

Definition normalizeDate (v : value) : string :=
  if negb (truthy v) then ""
  else
    let str := trim (ToString v) in
    if Meter.reDDMMYYYY str then str
    else
      match WeatherExcel.reSlashMon str with
      | Some (d, m, y) =>
          let day := padStart2 d in
          let month := monthOf m in
          let year := yearOf y in
          day ++ "-" ++ month ++ "-" ++ year
      | None =>
          match WeatherExcel.reNumeric str with
          | Some (d, m, y) =>
              let day := padStart2 d in
              let month := padStart2 m in
              let year := yearOf y in
              day ++ "-" ++ month ++ "-" ++ year
          | None => str
          end
      end.

Definition normalizeTime (v : value) : string :=
  if negb (truthy v) then ""
  else
    let str := trim (ToString v) in
    if WeatherExcel.reHHMM str then str
    else
      match WeatherExcel.reTime str with
      | Some (h, minutes) => padStart2 h ++ ":" ++ minutes
      | None => str
      end.

End WithBuiltins.
End MeterExcel.

(** *** Digits and month names *)

Module DateTerms.
Import Js.

(** [s] is a run of ASCII digits, between [lo] and [hi] of them. *)
Definition digitRun (lo hi : nat) (s : string) : Prop :=
  allChars isDigit s = true /\ lo <= String.length s <= hi.

(** The month name that [normalizeDate] gives the month number [n]. *)
Definition monthNameOf (n : nat) : string :=
  if (1 <=? n) && (n <=? 12) then nth (n - 1) Meter.MONTHS "Jan" else "Jan".

End DateTerms.

(** *** Normalized dates and times, sensor rules *)

Module SensorTerms.
Import Js Meter.

(** [s] is DD-Mon-YY with a day from 1 to 31 and a month of [MONTHS]. *)
Definition CanonicalDate (s : string) : Prop :=
  exists d1 d2 mon y1 y2,
    s = str2 d1 d2 ++ "-" ++ mon ++ "-" ++ str2 y1 y2 /\
    isDigit d1 = true /\ isDigit d2 = true /\ isDigit y1 = true /\ isDigit y2 = true /\
    In mon MONTHS /\ 1 <= natOfDigits (str2 d1 d2) <= 31.

(** [s] is HH:MM with an hour up to 23 and a minute up to 59. *)
Definition CanonicalTime (s : string) : Prop :=
  exists h1 h2 m1 m2,
    s = str2 h1 h2 ++ ":" ++ str2 m1 m2 /\
    isDigit h1 = true /\ isDigit h2 = true /\ isDigit m1 = true /\ isDigit m2 = true /\
    natOfDigits (str2 h1 h2) <= 23 /\ natOfDigits (str2 m1 m2) <= 59.

(** The first eight characters of a message. *)
Definition prefix8 (m : string) : string := substring 0 8 m.

(** The sensor columns that [checkRange] checks: the key of the cell, the
    name in the messages, the upper bound (the lower bound is 0). *)
Definition rangeFields : list (string * string * float) :=
  [("POA", "POA Pyranometer", 1500%float);
   ("GHI", "GHI Pyranometer", 1500%float);
   ("AlbedoUp", "Albedo Up", 1500%float);
   ("AlbedoDown", "Albedo Down", 1500%float);
   ("AmbientTemp", "Ambient Temperature", 100%float);
   ("WindSpeed", "Wind Speed", 200%float);
   ("Rainfall", "Rainfall", 500%float);
   ("Humidity", "Humidity", 100%float)].

Section WithBuiltins.
Context {B : Builtins}.

(** The rule of one range-checked column, in the defects [errs] of [row]. *)
Definition rangeRule (errs : list string) (row : obj) (f : string * string * float) : Prop :=
  let '(key, label, max) := f in
  let v := get row key in
  let n := ToNumber v in
  (In (label ++ " must be a number") errs <->
   isBlank v = false /\ isNaN n = true) /\
  (In (label ++ " must be between " ++ NumberToString 0 ++ " and " ++ NumberToString max) errs <->
   isBlank v = false /\ isNaN n = false /\ ((n <? 0) || (max <? n))%float = true) /\
  ~ In (label ++ " cannot be 0") errs.

End WithBuiltins.

End SensorTerms.

(** *** Numeric fields of the documents *)

Module DocTerms.
Import Js.


(** The sensor fields of a weather document. *)
Definition weatherNumbers (doc : WeatherSubmit.Doc) : list float :=
  [WeatherSubmit.poa doc; WeatherSubmit.ghi doc; WeatherSubmit.albedoUp doc;
   WeatherSubmit.albedoDown doc; WeatherSubmit.moduleTemp doc;
   WeatherSubmit.ambientTemp doc; WeatherSubmit.windSpeed doc;
   WeatherSubmit.rainfall doc; WeatherSubmit.humidity doc].

End DocTerms.

(* ------------------------------------------------------------------ *)
(** ** WeatherExcelService.parseExcel: the rows mapped from a sheet      *)
(* ------------------------------------------------------------------ *)

Module WeatherParse.
Import Js.

Section WithBuiltins.
Context {B : Builtins}.

(** [getFirstValidValue] *)
Fixpoint getFirstValidValue (values : list value) : string :=
  match values with
  | [] => ""
  | v :: rest => if negb (isBlank v) then ToString v else getFirstValidValue rest
  end.

(** [row[i]] for a row read as an array. *)
Definition cell (row : list value) (i : nat) : value := nth i row Undefined.

(** The row mapped from one raw row of a sheet with merged headers. *)
Definition complexRow (row : list value) : obj :=
  [("Date", Str (WeatherExcel.normalizeDate (cell row 0)));
   ("Time", Str (WeatherExcel.normalizeTime (cell row 1)));
   ("POA", Str (getFirstValidValue [cell row 2; cell row 3; cell row 4; cell row 5]));
   ("GHI", Str (getFirstValidValue [cell row 20; cell row 21; cell row 22; cell row 23]));
   ("AlbedoUp", Str (getFirstValidValue [cell row 7; cell row 10; cell row 13; cell row 16]));
   ("AlbedoDown", Str (getFirstValidValue [cell row 8; cell row 11; cell row 14; cell row 17]));
   ("ModuleTemp", Str (getFirstValidValue [cell row 25; cell row 26; cell row 27; cell row 28]));
   ("AmbientTemp", Str (getFirstValidValue [cell row 31; cell row 32; cell row 33; cell row 34]));
   ("WindSpeed", Str (getFirstValidValue [cell row 36; cell row 37; cell row 38; cell row 39]));
   ("Rainfall", Str (getFirstValidValue [cell row 41; cell row 42; cell row 43; cell row 44]));
   ("Humidity", Str (getFirstValidValue [cell row 46; cell row 47; cell row 48; cell row 49]))].

(** The row mapped from one row of a sheet in the standard format. *)
Definition standardRow (row : obj) : obj :=
  [("Date", Str (WeatherExcel.normalizeDate
                   (get row "Date" ?? get row "date" ?? get row "DATE" ?? Str "")));
   ("Time", Str (WeatherExcel.normalizeTime
                   (get row "Time" ?? get row "time" ?? get row "TIME" ?? Str "")));
   ("Site Name", get row "Site Name" ?? get row "SiteName" ?? get row "siteName"
                 ?? get row "Site" ?? get row "site" ?? Str "");
   ("POA", get row "POA" ?? get row "POA Pyranometer" ?? get row "poa" ?? Str "");
   ("GHI", get row "GHI" ?? get row "GHI Pyranometer" ?? get row "ghi" ?? Str "");
   ("AlbedoUp", get row "AlbedoUp" ?? get row "Albedo Up" ?? get row "Albedo (Up)" ?? Str "");
   ("AlbedoDown", get row "AlbedoDown" ?? get row "Albedo Down" ?? get row "Albedo (Down)"
                  ?? Str "");
   ("ModuleTemp", get row "ModuleTemp" ?? get row "Module Temperature"
                  ?? get row "Module Temp" ?? Str "");
   ("AmbientTemp", get row "AmbientTemp" ?? get row "Ambient Temperature"
                   ?? get row "Ambient Temp" ?? Str "");
   ("WindSpeed", get row "WindSpeed" ?? get row "Wind Speed" ?? get row "windSpeed" ?? Str "");
   ("Rainfall", get row "Rainfall" ?? get row "rainfall" ?? Str "");
   ("Humidity", get row "Humidity" ?? get row "humidity" ?? Str "")].

(** [row.Date && row.Date.trim() !== ''], on a mapped row: its Date is a
    string. *)
Definition hasDate (row : obj) : bool :=
  match get row "Date" with
  | Str d => negb (isEmpty d) && negb (trim d =? "")%string
  | _ => false
  end.

(** The rows returned for a sheet with merged headers, whose data starts at
    [dataStartRow]. *)
Definition parseComplex (dataStartRow : nat) (rawData : list (list value)) : list obj :=
  filter hasDate (map complexRow (skipn dataStartRow rawData)).

(** The rows returned for a sheet in the standard format. *)
Definition parseStandard (jsonData : list obj) : list obj :=
  filter hasDate (map standardRow jsonData).

End WithBuiltins.
End WeatherParse.

(** *** Parsed rows *)

Module ParseTerms.
Import Js.

Section WithBuiltins.
Context {B : Builtins}.

(** What validation makes of a batch [rs] that the parser returned: no row
    is reported without a date, the Time of every row is returned as the
    parser wrote it, and its Date as the validator's normalization of what
    the parser wrote. *)
Definition ValidatedAsParsed (rs : list obj) : Prop :=
  (forall n, ~ In Weather.msgMissingDate
                  (Spec.weatherErrorsAt (Weather.validateRows rs) n)) /\
  Forall2 (fun row out =>
             get out "Time" = get row "Time" /\
             exists d, get row "Date" = Str d /\ d <> "" /\
                       get out "Date" = Str (Weather.normalizeDDMMMYY d))
          rs (Weather.rows (Weather.validateRows rs)).

(** The Date and the Time of a row that the parser kept. *)
Definition Kept (row : obj) : Prop :=
  exists dcell tcell,
    get row "Date" = Str (WeatherExcel.normalizeDate dcell) /\
    get row "Time" = Str (WeatherExcel.normalizeTime tcell) /\
    isEmpty (WeatherExcel.normalizeDate dcell) = false.

End WithBuiltins.
End ParseTerms.

(* ------------------------------------------------------------------ *)
(** ** EditablePreviewTable.tsx: pages of the preview table              *)
(* ------------------------------------------------------------------ *)

Module PreviewTable.

(** [Math.ceil(data.length / pageSize)], for a positive [pageSize]; a length
    is below 2^32, where the quotient of the two numbers is exact. *)
Definition totalPages (len pageSize : nat) : nat := (len + (pageSize - 1)) / pageSize.

(** [(currentPage - 1) * pageSize]; [currentPage] starts at 1 and is set by
    [goToPage] only, so it is at least 1. *)
Definition startIndex (currentPage pageSize : nat) : nat := (currentPage - 1) * pageSize.

(** [Math.min(startIndex + pageSize, data.length)] *)
Definition endIndex (currentPage pageSize len : nat) : nat :=
  Nat.min (startIndex currentPage pageSize + pageSize) len.

(** [l.slice(start, stop)] for indexes that are not negative. *)
Definition slice {A : Type} (l : list A) (start stop : nat) : list A :=
  firstn (stop - start) (skipn start l).

Definition currentData {A : Type} (data : list A) (pageSize currentPage : nat) : list A :=
  slice data (startIndex currentPage pageSize)
        (endIndex currentPage pageSize (List.length data)).

(** [goToPage]: [Math.max(1, Math.min(page, totalPages))] *)
Definition goToPage (pages : nat) (page : Z) : nat :=
  Z.to_nat (Z.max 1 (Z.min page (Z.of_nat pages))).

(** The number on the [i]-th page button. *)
Definition pageNum (pages currentPage i : nat) : nat :=
  if pages <=? 5 then i + 1
  else if currentPage <=? 3 then i + 1
  else if pages - 2 <=? currentPage then pages - 4 + i
  else currentPage - 2 + i.

(** [Array.from({ length: Math.min(5, totalPages) }, (_, i) => pageNum)] *)
Definition pageButtons (pages currentPage : nat) : list nat :=
  map (pageNum pages currentPage) (seq 0 (Nat.min 5 pages)).

(** [errorRowIndexes.has(globalIndex)], for
    [errorRowIndexes = new Set(errors.map((e) => e.rowNumber - 2))]. *)
Definition hasError (rowNumbers : list nat) (globalIndex : nat) : bool :=
  existsb (fun n => (Z.of_nat n - 2 =? Z.of_nat globalIndex)%Z) rowNumbers.

(** [globalIndex + 2], the number shown beside a row. *)
Definition rowNumber (globalIndex : nat) : nat := globalIndex + 2.

(** The later version of the table takes the row numbers of a filtered view:
    [customRowNumbers?.slice(startIndex, endIndex)]; [None] is [undefined]. *)
Definition currentRowNumbers (customRowNumbers : option (list Z))
    (pageSize currentPage len : nat) : option (list Z) :=
  match customRowNumbers with
  | Some numbers =>
      Some (slice numbers (startIndex currentPage pageSize)
                  (endIndex currentPage pageSize len))
  | None => None
  end.

(** [currentRowNumbers ? currentRowNumbers[localIndex] : globalIndex + 2] *)
Definition rowNumberOf (current : option (list Z)) (globalIndex localIndex : nat)
  : option Z :=
  match current with
  | Some numbers => nth_error numbers localIndex
  | None => Some (Z.of_nat (globalIndex + 2))
  end.

(** [errorRowNumbers.has(rowNumber)], for
    [errorRowNumbers = new Set(errors.map((e) => e.rowNumber))]. *)
Definition hasErrorNumber (rowNumbers : list nat) (n : option Z) : bool :=
  match n with
  | Some n => existsb (fun m => (Z.of_nat m =? n)%Z) rowNumbers
  | None => false
  end.

End PreviewTable.

(* ------------------------------------------------------------------ *)
(** ** WeatherErrorPage.tsx: the rows shown for correction              *)
(* ------------------------------------------------------------------ *)

Module ErrorPage.
Import Js.

(** [new Set<number>()] filled in order, then [Array.from]. *)
Definition setOfZ (l : list Z) : list Z :=
  fold_left (fun acc x => if existsb (Z.eqb x) acc then acc else (acc ++ [x])%list) l [].

(** [sort((a, b) => a - b)]: the ascending arrangement (stable). *)
Fixpoint insertZ (x : Z) (l : list Z) : list Z :=
  match l with
  | [] => [x]
  | y :: l' => if (x <=? y)%Z then x :: y :: l' else y :: insertZ x l'
  end.

Fixpoint sortZ (l : list Z) : list Z :=
  match l with
  | [] => []
  | x :: l' => insertZ x (sortZ l')
  end.

(** [errorRowIndices], from the row numbers of the errors. *)
Definition errorRowIndices (rowNumbers : list nat) : list Z :=
  sortZ (setOfZ (map (fun n => (Z.of_nat n - 2)%Z) rowNumbers)).

(** The rows of the page are an array whose elements are objects, or
    [undefined] ([None]) where an edit left a hole.  [fullData[index]]: *)
Definition at_ (fullData : list (option obj)) (index : Z) : option obj :=
  if (index <? 0)%Z then None
  else match nth_error fullData (Z.to_nat index) with
       | Some row => row
       | None => None
       end.

(** [filteredData] *)
Definition filteredData (fullData : list (option obj)) (indices : list Z)
  : list (option obj) :=
  map (at_ fullData) indices.

(** [filteredRowNumbers] *)
Definition filteredRowNumbers (indices : list Z) : list Z :=
  map (fun index => (index + 2)%Z) indices.

(** [updated[i] = row] on a copy of the array: past the end the array grows,
    with holes before the new element. *)
Fixpoint setAt (l : list (option obj)) (i : nat) (row : obj) : list (option obj) :=
  match l, i with
  | [], 0 => [Some row]
  | [], S i' => None :: setAt [] i' row
  | _ :: l', 0 => Some row :: l'
  | x :: l', S i' => x :: setAt l' i' row
  end.

(** [handleCellChange]: [{ ...updated[globalIndex], [columnKey]: value }] is
    stored at [globalIndex = errorRowIndices[localIndex]]; an index that is
    [undefined] or negative names a property, not an element. *)
Definition handleCellChange (indices : list Z) (fullData : list (option obj))
    (localIndex : nat) (columnKey value : string) : list (option obj) :=
  match nth_error indices localIndex with
  | None => fullData
  | Some globalIndex =>
      if (globalIndex <? 0)%Z then fullData
      else
        let old := match at_ fullData globalIndex with
                   | Some row => row
                   | None => []
                   end in
        setAt fullData (Z.to_nat globalIndex) (set old columnKey (Str value))
  end.

End ErrorPage.

(* ------------------------------------------------------------------ *)
(** ** meter-sync: daily totals of the stored meter documents           *)
(* ------------------------------------------------------------------ *)

(** A document of the Meter collection as the export and the sync read it:
    the fields of the schema they use, a string or a number each, and
    [siteName], which the schema does not declare ([undefined] unless the
    stored document has one). *)

Module MeterRecord.
Import Js.

Record t : Type := {
  date : string;
  siteName : value;
  activeEnergyExport : float;
  plantStartTime : string;
  plantStopTime : string;
  total : string
}.

(** [x || 0] for a number. *)
Definition orZero (x : float) : float := if truthy (Num x) then x else 0%float.

(** [s || '00:00'] for a string. *)
Definition orMidnight (s : string) : string := if isEmpty s then "00:00" else s.

End MeterRecord.

Module MeterSyncService.
Import Js.

(** The value of [dailyMap] for a date. *)
Module Data.
Record t : Type := { siteName : value; totalExport : float; count : nat }.
End Data.

Module DailyTotal.
Record t : Type := {
  date : string;
  siteName : value;
  totalExport : float;
  recordCount : nat
}.
End DailyTotal.

(** One turn of the loop of [aggregateDailyTotals]; the object got from the
    map is updated in place.  The counter is a number below 2^53. *)
Definition addRecord (dailyMap : list (string * Data.t)) (record : MeterRecord.t)
  : list (string * Data.t) :=
  let key := MeterRecord.date record in
  let dailyMap :=
    match Meter.mapGet dailyMap key with
    | Some _ => dailyMap
    | None =>
        Meter.mapSet dailyMap key
          {| Data.siteName := orElse (MeterRecord.siteName record) (Str "Unknown Site");
             Data.totalExport := 0%float;
             Data.count := 0 |}
    end in
  match Meter.mapGet dailyMap key with
  | Some daily =>
      Meter.mapSet dailyMap key
        {| Data.siteName := Data.siteName daily;
           Data.totalExport :=
             (Data.totalExport daily
              + MeterRecord.orZero (MeterRecord.activeEnergyExport record))%float;
           Data.count := Data.count daily + 1 |}
  | None => dailyMap
  end.

Definition aggregateDailyTotals (meterRecords : list MeterRecord.t) : list DailyTotal.t :=
  map (fun entry =>
         {| DailyTotal.date := fst entry;
            DailyTotal.siteName := Data.siteName (snd entry);
            DailyTotal.totalExport := Data.totalExport (snd entry);
            DailyTotal.recordCount := Data.count (snd entry) |})
      (fold_left addRecord meterRecords []).

End MeterSyncService.

Module MeterSyncController.
Import Js.

Module Daily.
Record t : Type := {
  date : string;
  siteName : value;
  dailyGeneration : float;
  plantStartTime : string;
  plantStopTime : string;
  totalOperationTime : string;
  recordCount : nat
}.
End Daily.

(** One turn of the loop of [aggregateByDate]. *)
Definition addRecord (dailyMap : list (string * Daily.t)) (record : MeterRecord.t)
  : list (string * Daily.t) :=
  let key := MeterRecord.date record in
  let dailyMap :=
    match Meter.mapGet dailyMap key with
    | Some _ => dailyMap
    | None =>
        Meter.mapSet dailyMap key
          {| Daily.date := MeterRecord.date record;
             Daily.siteName := orElse (MeterRecord.siteName record) (Str "Unknown Site");
             Daily.dailyGeneration := 0%float;
             Daily.plantStartTime := MeterRecord.orMidnight (MeterRecord.plantStartTime record);
             Daily.plantStopTime := MeterRecord.orMidnight (MeterRecord.plantStopTime record);
             Daily.totalOperationTime := MeterRecord.orMidnight (MeterRecord.total record);
             Daily.recordCount := 0 |}
    end in
  match Meter.mapGet dailyMap key with
  | Some daily =>
      Meter.mapSet dailyMap key
        {| Daily.date := Daily.date daily;
           Daily.siteName := Daily.siteName daily;
           Daily.dailyGeneration :=
             (Daily.dailyGeneration daily
              + MeterRecord.orZero (MeterRecord.activeEnergyExport record))%float;
           Daily.plantStartTime := Daily.plantStartTime daily;
           Daily.plantStopTime := Daily.plantStopTime daily;
           Daily.totalOperationTime := Daily.totalOperationTime daily;
           Daily.recordCount := Daily.recordCount daily + 1 |}
  | None => dailyMap
  end.

Definition aggregateByDate (records : list MeterRecord.t) : list Daily.t :=
  map snd (fold_left addRecord records []).

End MeterSyncController.

(** *** Documents of a date *)

Module SyncTerms.
Import Js.

(** The records of a date, in the order read. *)
Definition recordsOf (records : list MeterRecord.t) (date : string) : list MeterRecord.t :=
  filter (fun r => (MeterRecord.date r =? date)%string) records.

(** The exports of some records added up from 0, in their order. *)
Definition exportSum (own : list MeterRecord.t) : float :=
  fold_left (fun acc r =>
               (acc + MeterRecord.orZero (MeterRecord.activeEnergyExport r))%float)
            own 0%float.

(** A map filled by a loop that creates the entry of a record's date when
    it is missing and then updates it. *)
Definition groupStep {V : Type} (init : MeterRecord.t -> V) (upd : V -> MeterRecord.t -> V)
    (m : list (string * V)) (r : MeterRecord.t) : list (string * V) :=
  let key := MeterRecord.date r in
  let m1 := match Meter.mapGet m key with
            | Some _ => m
            | None => Meter.mapSet m key (init r)
            end in
  match Meter.mapGet m1 key with
  | Some d => Meter.mapSet m1 key (upd d r)
  | None => m1
  end.

End SyncTerms.

(** *** The weather samples of a date and what the calculator reads *)

Module SampleTerms.
Import Js Meter Spec.

(** [d] is the date DD-MM-YYYY of day [dd], month [mm] and year [yyyy],
    digits throughout. *)
Definition IsDate (d dd mm yyyy : string) : Prop :=
  exists d1 d2 m1 m2 y1 y2 y3 y4,
    isDigit d1 = true /\ isDigit d2 = true /\ isDigit m1 = true /\ isDigit m2 = true /\
    isDigit y1 = true /\ isDigit y2 = true /\ isDigit y3 = true /\ isDigit y4 = true /\
    dd = str2 d1 d2 /\ mm = str2 m1 m2 /\ yyyy = str2 y1 y2 ++ str2 y3 y4 /\
    d = dd ++ "-" ++ mm ++ "-" ++ yyyy.

(** The date as YYYY-MM-DD. *)
Definition isoForm (dd mm yyyy : string) : string := yyyy ++ "-" ++ mm ++ "-" ++ dd.

(** The date as DD-Mon-YY: the day, the name of the month, the last two
    digits of the year. A month that is not 01 to 12 has no name: such a
    date stands as it is written, DD-MM-YYYY. *)
Definition monForm (dd mm yyyy : string) : string :=
  if (1 <=? natOfDigits mm) && (natOfDigits mm <=? 12)
  then dd ++ "-" ++ nth (natOfDigits mm - 1) MONTHS "" ++ "-" ++ substring 2 2 yyyy
  else dd ++ "-" ++ mm ++ "-" ++ yyyy.

(** The date of a stored sample: its [Date] cell, or its [date] cell when
    [Date] is missing or empty. *)
Definition sampleDate (w : obj) : value :=
  orElse (orElse (get w "Date") (get w "date")) (Str "").

(** The sample [w] is of the date: its date is the text YYYY-MM-DD or the
    text DD-Mon-YY of the date. *)
Definition isSampleOf (dd mm yyyy : string) (w : obj) : bool :=
  strictEqStr (sampleDate w) (isoForm dd mm yyyy)
  || strictEqStr (sampleDate w) (monForm dd mm yyyy).

(** [d'] is another date with the day, the month and the last two digits of
    the year of [d]: the two differ in the century only. *)
Definition CenturyApart (d d' : string) : Prop :=
  d' <> d /\
  exists dm c c' yy,
    String.length dm = 6 /\ String.length c = 2 /\ String.length c' = 2 /\
    d = dm ++ c ++ yy /\ d' = dm ++ c' ++ yy.

(** No row of the batch [rs] has a date a century apart from [d]. *)
Definition OneCentury (rs : list obj) (d : string) : Prop :=
  forall r s, In r rs -> get r "Date" = Str s -> ~ CenturyApart d (trim s).

(** The time read from the text [s] of a sample: its zero-padded HH:MM when
    [s] is H:MM or HH:MM, with or without seconds; the first five characters
    of [s] otherwise. *)
Definition ReadsAs (s t : string) : Prop :=
  TimeForm s t \/ ((forall c, ~ TimeForm s c) /\ t = substring 0 5 s).

(** A sample with the time text [s] and the POA [x] is kept, as the point
    [p]: the time read is a valid HH:MM and the POA is finite. *)
Definition KeptAs (s : string) (x : float) (p : Point) : Prop :=
  ReadsAs s (time p) /\ ValidClock (time p) /\ isFinite x = true /\ poa p = x.

(** A sample with the time text [s] and the POA [x] is discarded. *)
Definition Discarded (s : string) (x : float) : Prop :=
  (forall t, ReadsAs s t -> ~ ValidClock t) \/ isFinite x = false.

(** [kept] are the points of the samples [ws] that are kept, in their order;
    [text] and [poaOf] give the time text and the POA of a sample. *)
Inductive KeptSamples (text : obj -> string) (poaOf : obj -> float)
  : list obj -> list Point -> Prop :=
| Kept_nil : KeptSamples text poaOf [] []
| Kept_keep w ws p kept :
    KeptAs (text w) (poaOf w) p -> KeptSamples text poaOf ws kept ->
    KeptSamples text poaOf (w :: ws) (p :: kept)
| Kept_drop w ws kept :
    Discarded (text w) (poaOf w) -> KeptSamples text poaOf ws kept ->
    KeptSamples text poaOf (w :: ws) kept.

(** The minutes since midnight of a point whose time is HH:MM. *)
Definition minutesAt (p : Point) : Z :=
  (Z.of_nat (natOfDigits (substring 0 2 (time p))) * 60
   + Z.of_nat (natOfDigits (substring 3 2 (time p))))%Z.

(** [pts] are the points [kept], sorted ascending by minutes since midnight;
    [start] is the time of the first of them with POA >= 10, and [stop] the
    time of the last of them with 0 < POA < 50, else of the last of them with
    POA > 0; each is "00:00" when there is no such point. *)
Definition PlantRule (kept pts : list Point) (start stop : string) : Prop :=
  Permutation kept pts /\
  StronglySorted (fun a b => (minutesAt a <= minutesAt b)%Z) pts /\
  (exists r, FirstSat ge10 pts r /\ start = timeOr0 r) /\
  (exists r, LastSat inBand pts r /\
             match r with
             | Some p => stop = time p
             | None => exists r', LastSat positive pts r' /\ stop = timeOr0 r'
             end).

Section WithBuiltins.
Context {B : Builtins}.

(** The time text of a sample as validation reads it: the text of its
    [Time] cell, else of its [time] cell, without the surrounding
    whitespace. *)
Definition validationTime (w : obj) : string :=
  trim (ToString (get w "Time" ?? get w "time" ?? Str "")).

(** The POA of a sample as validation reads it: the number of its [POA]
    cell, else [poa], else [POA Meter 1], else [POA_Meter_1]. *)
Definition validationPoa (w : obj) : float :=
  ToNumber (get w "POA" ?? get w "poa" ?? get w "POA Meter 1" ?? get w "POA_Meter_1").

(** The time text of a sample as submission reads it: [time] before
    [Time]. *)
Definition submissionTime (w : obj) : string :=
  trim (ToString (get w "time" ?? get w "Time" ?? Str "")).

(** The POA of a sample as submission reads it: [poa] before [POA]. *)
Definition submissionPoa (w : obj) : float :=
  ToNumber (get w "poa" ?? get w "POA" ?? get w "POA Meter 1" ?? get w "POA_Meter_1").

(** The point that both services make of a sample ([toPoint] of either
    service), from the value of its time cell and the number of its POA
    cell. *)
Definition pointOf (tRaw : value) (x : float) : Point :=
  {| time := match normalizeHHMM (Str (ToString tRaw)) with
             | Some s => if isEmpty s then "" else sliceTo 5 s
             | None => ""
             end;
     poa := if isFinite x then x else nan |}.

End WithBuiltins.

End SampleTerms.

(* ------------------------------------------------------------------ *)
(** ** Facts about strings and objects                                  *)
(* ------------------------------------------------------------------ *)

Module JsFacts.
Import Js Spec.

Lemma isDigit_cases (c : ascii) :
  isDigit c = true ->
  In c ["0"; "1"; "2"; "3"; "4"; "5"; "6"; "7"; "8"; "9"]%char.
Proof.
  destruct c as [[] [] [] [] [] [] [] []]; vm_compute; intro H;
    first [ discriminate H | intuition auto ].
Qed.

Lemma isDigit_not_space (c : ascii) : isDigit c = true -> isSpace c = false.
Proof.
  intro H. apply isDigit_cases in H. simpl in H.
  repeat (destruct H as [<- | H]; [ reflexivity | ]). contradiction.
Qed.

Lemma isDigit_not_colon (c : ascii) : isDigit c = true -> (c =? ":")%char = false.
Proof.
  intro H. apply isDigit_cases in H. simpl in H.
  repeat (destruct H as [<- | H]; [ reflexivity | ]). contradiction.
Qed.

Lemma isDigit_not_hyphen (c : ascii) : isDigit c = true -> (c =? "-")%char = false.
Proof.
  intro H. apply isDigit_cases in H. simpl in H.
  repeat (destruct H as [<- | H]; [ reflexivity | ]). contradiction.
Qed.

Lemma toUpper_idem (c : ascii) : toUpper (toUpper c) = toUpper c.
Proof. destruct c as [[] [] [] [] [] [] [] []]; reflexivity. Qed.

Lemma toLower_idem (c : ascii) : toLower (toLower c) = toLower c.
Proof. destruct c as [[] [] [] [] [] [] [] []]; reflexivity. Qed.

Lemma toUpper_alpha (c : ascii) : isAlpha c = true -> isAlpha (toUpper c) = true.
Proof.
  destruct c as [[] [] [] [] [] [] [] []]; vm_compute; intro H;
    first [ discriminate H | reflexivity ].
Qed.

Lemma toLower_alpha (c : ascii) : isAlpha c = true -> isAlpha (toLower c) = true.
Proof.
  destruct c as [[] [] [] [] [] [] [] []]; vm_compute; intro H;
    first [ discriminate H | reflexivity ].
Qed.

(** *** [trim] *)

Lemma trimStart_clean (s : string) : startsClean (trimStart s).
Proof.
  induction s as [|c s IH]; simpl; [ exact I | ].
  destruct (isSpace c) eqn:E; [ exact IH | simpl; exact E ].
Qed.

Lemma trimStart_id (s : string) : startsClean s -> trimStart s = s.
Proof. destruct s as [|c s]; simpl; [ reflexivity | intros -> ; reflexivity ]. Qed.

Lemma trimEnd_clean (s : string) : startsClean s -> startsClean (trimEnd s).
Proof.
  destruct s as [|c s]; simpl; [ trivial | ].
  intro H. destruct (trimEnd s); [ rewrite H | ]; simpl; exact H.
Qed.

Lemma trimEnd_idem (s : string) : trimEnd (trimEnd s) = trimEnd s.
Proof.
  induction s as [|c s IH]; simpl; [ reflexivity | ].
  destruct (trimEnd s) as [|d r] eqn:E.
  - destruct (isSpace c) eqn:Ec; simpl; [ reflexivity | rewrite Ec; reflexivity ].
  - change (trimEnd (String c (String d r))) with
      (match trimEnd (String d r) with
       | EmptyString => if isSpace c then EmptyString else String c EmptyString
       | r' => String c r'
       end).
    rewrite IH. reflexivity.
Qed.

Lemma trim_idem (s : string) : trim (trim s) = trim s.
Proof.
  unfold trim.
  rewrite (trimStart_id (trimEnd (trimStart s))).
  - apply trimEnd_idem.
  - apply trimEnd_clean, trimStart_clean.
Qed.

Lemma trimStart_length (s : string) : String.length (trimStart s) <= String.length s.
Proof.
  induction s as [|c s IH]; simpl; [ lia | ].
  destruct (isSpace c); simpl; lia.
Qed.

Lemma trimEnd_length (s : string) : String.length (trimEnd s) <= String.length s.
Proof.
  induction s as [|c s IH]; simpl; [ lia | ].
  destruct (trimEnd s); [ destruct (isSpace c) | ]; simpl in *; lia.
Qed.

Lemma trimStart_same_length (s : string) :
  String.length (trimStart s) = String.length s -> trimStart s = s.
Proof.
  destruct s as [|c s]; simpl; [ reflexivity | ].
  destruct (isSpace c); [ | reflexivity ].
  intro H. pose proof (trimStart_length s). lia.
Qed.

Lemma trimEnd_same_length (s : string) :
  String.length (trimEnd s) = String.length s -> trimEnd s = s.
Proof.
  induction s as [|c s IH]; simpl; [ reflexivity | ].
  pose proof (trimEnd_length s) as L.
  destruct (trimEnd s) as [|d r] eqn:E.
  - destruct (isSpace c); simpl; intro H.
    + discriminate H.
    + f_equal. apply IH. simpl in *. lia.
  - simpl. intro H. f_equal. apply IH. simpl in *. lia.
Qed.

Lemma trim_same_length (s : string) :
  String.length (trim s) = String.length s -> trim s = s.
Proof.
  unfold trim. intro H.
  pose proof (trimStart_length s) as L1.
  pose proof (trimEnd_length (trimStart s)) as L2.
  assert (E1 : trimStart s = s) by (apply trimStart_same_length; lia).
  rewrite E1 in *. apply trimEnd_same_length. exact H.
Qed.

Lemma trim_length (s : string) : String.length (trim s) <= String.length s.
Proof.
  unfold trim. pose proof (trimStart_length s).
  pose proof (trimEnd_length (trimStart s)). lia.
Qed.

Lemma split_other (sep c : ascii) (s : string) :
  (c =? sep)%char = false ->
  split sep (String c s) = match split sep s with
                           | [] => [String c EmptyString]
                           | p :: ps => String c p :: ps
                           end.
Proof. intro H. simpl. rewrite H. reflexivity. Qed.

Lemma split_sep (sep : ascii) (s : string) :
  split sep (String sep s) = EmptyString :: split sep s.
Proof. simpl. rewrite Ascii.eqb_refl. reflexivity. Qed.

Lemma substring_0_length (n : nat) (s : string) :
  String.length (substring 0 n s) <= n.
Proof.
  revert s. induction n as [|n IH]; intros [|c s]; simpl; try lia.
  specialize (IH s). lia.
Qed.

Lemma length_list_ascii (s : string) :
  List.length (list_ascii_of_string s) = String.length s.
Proof. induction s as [|c s IH]; simpl; congruence. Qed.

Lemma string_of_list_eq (s : string) (l : list ascii) :
  list_ascii_of_string s = l -> s = string_of_list_ascii l.
Proof. intros <-. symmetry. apply string_of_list_ascii_of_string. Qed.

(** *** Objects *)

Lemma get_set_same (o : obj) (k : string) (v : value) : get (set o k v) k = v.
Proof.
  unfold get. induction o as [|[k' v'] o IH]; simpl.
  - rewrite String.eqb_refl. reflexivity.
  - destruct (k' =? k)%string eqn:E; simpl.
    + rewrite String.eqb_refl. reflexivity.
    + rewrite E. exact IH.
Qed.

Lemma get_set_other (o : obj) (k k' : string) (v : value) :
  k <> k' -> get (set o k v) k' = get o k'.
Proof.
  intro N. unfold get. induction o as [|[k0 v0] o IH]; simpl.
  - apply String.eqb_neq in N. rewrite N. reflexivity.
  - destruct (k0 =? k)%string eqn:E; simpl.
    + apply String.eqb_eq in E. subst k0.
      apply String.eqb_neq in N. rewrite N. reflexivity.
    + destruct (k0 =? k')%string; [ reflexivity | exact IH ].
Qed.

Lemma set_same_value (o : obj) (k : string) (v : value) :
  lookup o k = Some v -> set o k v = o.
Proof.
  induction o as [|[k' v'] o IH]; simpl; [ discriminate | ].
  destruct (k' =? k)%string eqn:E.
  - apply String.eqb_eq in E. subst k'. intros [= ->]. reflexivity.
  - intro H. rewrite (IH H). reflexivity.
Qed.

Lemma lookup_set_same (o : obj) (k : string) (v : value) :
  lookup (set o k v) k = Some v.
Proof.
  induction o as [|[k' v'] o IH]; simpl.
  - rewrite String.eqb_refl. reflexivity.
  - destruct (k' =? k)%string eqn:E; simpl.
    + rewrite String.eqb_refl. reflexivity.
    + rewrite E. exact IH.
Qed.

Lemma lookup_set_other (o : obj) (k k' : string) (v : value) :
  k <> k' -> lookup (set o k v) k' = lookup o k'.
Proof.
  intro N. induction o as [|[k0 v0] o IH]; simpl.
  - apply String.eqb_neq in N. rewrite N. reflexivity.
  - destruct (k0 =? k)%string eqn:E; simpl.
    + apply String.eqb_eq in E. subst k0.
      apply String.eqb_neq in N. rewrite N. reflexivity.
    + destruct (k0 =? k')%string; [ reflexivity | exact IH ].
Qed.

Lemma get_assign_other (p o : obj) (k : string) :
  (forall kv, In kv p -> fst kv <> k) -> get (assign o p) k = get o k.
Proof.
  unfold assign. revert o. induction p as [|[k' v'] p IH]; intros o H; simpl.
  - reflexivity.
  - rewrite IH.
    + apply get_set_other. apply (H (k', v')). left. reflexivity.
    + intros kv Hin. apply H. right. exact Hin.
Qed.

Lemma keys_set (o : obj) (k k' : string) (v : value) :
  In k (keys (set o k' v)) -> In k (keys o) \/ k = k'.
Proof.
  induction o as [|[k0 v0] o IH]; simpl.
  - intros [<- | []]. right. reflexivity.
  - destruct (k0 =? k')%string eqn:E; simpl.
    + apply String.eqb_eq in E. subst k0.
      intros [<- | Hin]; [ right; reflexivity | left; right; exact Hin ].
    + intros [<- | Hin]; [ left; left; reflexivity | ].
      destruct (IH Hin) as [? | ?]; [ left; right; assumption | right; assumption ].
Qed.

Lemma keys_assign (p o : obj) (k : string) :
  In k (keys (assign o p)) -> In k (keys o) \/ exists v, In (k, v) p.
Proof.
  unfold assign. revert o. induction p as [|[k' v'] p IH]; intros o H; simpl in *.
  - left. exact H.
  - destruct (IH _ H) as [H1 | [v Hv]].
    + destruct (keys_set _ _ _ _ H1) as [? | ->]; [ left; assumption | ].
      right. exists v'. left. reflexivity.
    + right. exists v. right. exact Hv.
Qed.

Lemma in_keys (o : obj) (kv : string * value) : In kv o -> In (fst kv) (keys o).
Proof. intro H. unfold keys. apply in_map. exact H. Qed.

End JsFacts.

(* ------------------------------------------------------------------ *)
(** ** The plant-operation calculator                                   *)
(* ------------------------------------------------------------------ *)

Module PlantFacts.
Import Js Meter Spec.

Lemma insertPoint_perm (p : Point) (l : list Point) :
  Permutation (p :: l) (insertPoint p l).
Proof.
  induction l as [|q l IH]; simpl; [ apply Permutation_refl | ].
  destruct (minutesOf p <=? minutesOf q)%Z; [ apply Permutation_refl | ].
  eapply perm_trans; [ apply perm_swap | apply perm_skip, IH ].
Qed.

Lemma sortPoints_perm (l : list Point) : Permutation l (sortPoints l).
Proof.
  induction l as [|p l IH]; simpl; [ constructor | ].
  eapply perm_trans; [ apply perm_skip, IH | apply insertPoint_perm ].
Qed.

Lemma insertPoint_sorted (p : Point) (l : list Point) :
  Ascending l -> Ascending (insertPoint p l).
Proof.
  unfold Ascending. induction l as [|q l IH]; simpl; intro S.
  - repeat constructor.
  - inversion S as [|? ? Sl Fq]; subst.
    destruct (minutesOf p <=? minutesOf q)%Z eqn:E.
    + apply Z.leb_le in E. constructor; [ exact S | ].
      constructor; [ exact E | ].
      eapply Forall_impl; [ | exact Fq ]. simpl. intros a Ha. lia.
    + apply Z.leb_gt in E. constructor; [ apply IH, Sl | ].
      apply (Permutation_Forall (insertPoint_perm p l)).
      constructor; [ lia | exact Fq ].
Qed.

Lemma sortPoints_sorted (l : list Point) : Ascending (sortPoints l).
Proof.
  induction l as [|p l IH]; simpl; [ constructor | apply insertPoint_sorted, IH ].
Qed.

Lemma find_FirstSat (P : Point -> bool) (l : list Point) : FirstSat P l (find P l).
Proof.
  induction l as [|p l IH]; simpl; [ constructor | ].
  destruct (P p) eqn:E; [ apply FirstSat_here, E | apply FirstSat_later; assumption ].
Qed.

Lemma find_none_NoneOf (P : Point -> bool) (l l' : list Point) :
  Permutation l' l -> find P l = None -> NoneOf P l'.
Proof.
  intros Hp Hf q Hq. apply (find_none _ _ Hf).
  apply (Permutation_in _ Hp). exact Hq.
Qed.

Lemma find_app_split (P : Point -> bool) (l1 l2 : list Point) :
  find P (l1 ++ l2)%list =
  match find P l1 with
  | Some x => Some x
  | None => find P l2
  end.
Proof.
  induction l1 as [|a l1 IH]; simpl; [ reflexivity | ].
  destruct (P a); [ reflexivity | exact IH ].
Qed.

Lemma find_earliest (P : Point -> bool) (l : list Point) (p : Point) :
  Ascending l -> find P l = Some p ->
  In p l /\ P p = true /\
  forall q, In q l -> P q = true -> (minutesOf p <= minutesOf q)%Z.
Proof.
  unfold Ascending. induction l as [|a l IH]; simpl; intros S Hf; [ discriminate | ].
  inversion S as [|? ? Sl Fa]; subst.
  destruct (P a) eqn:E.
  - injection Hf as <-. repeat split; [ left; reflexivity | exact E | ].
    intros q [<- | Hq] _; [ lia | ].
    rewrite Forall_forall in Fa. apply Fa, Hq.
  - destruct (IH Sl Hf) as (Hin & HP & Hmin).
    repeat split; [ right; exact Hin | exact HP | ].
    intros q [<- | Hq] HPq; [ congruence | apply Hmin; assumption ].
Qed.

Lemma find_rev_latest (P : Point -> bool) (l : list Point) (p : Point) :
  Ascending l -> find P (rev l) = Some p ->
  In p l /\ P p = true /\
  forall q, In q l -> P q = true -> (minutesOf q <= minutesOf p)%Z.
Proof.
  unfold Ascending. induction l as [|a l IH]; simpl; intros S Hf; [ discriminate | ].
  inversion S as [|? ? Sl Fa]; subst.
  rewrite find_app_split in Hf.
  destruct (find P (rev l)) as [x|] eqn:E.
  - injection Hf as ->. destruct (IH Sl eq_refl) as (Hin & HP & Hmax).
    repeat split; [ right; exact Hin | exact HP | ].
    intros q [<- | Hq] HPq; [ | apply Hmax; assumption ].
    rewrite Forall_forall in Fa. apply Fa, Hin.
  - simpl in Hf. destruct (P a) eqn:Ea; [ | discriminate ].
    injection Hf as <-. repeat split; [ left; reflexivity | exact Ea | ].
    intros q [<- | Hq] HPq; [ lia | ].
    pose proof (find_none _ _ E q) as N.
    rewrite N in HPq; [ discriminate | ]. apply in_rev in Hq. exact Hq.
Qed.

Lemma find_rev_none (P : Point -> bool) (l l' : list Point) :
  Permutation l' l -> find P (rev l) = None -> NoneOf P l'.
Proof.
  intros Hp Hf q Hq. apply (find_none _ _ Hf).
  apply -> in_rev. apply (Permutation_in _ Hp). exact Hq.
Qed.

Lemma Earliest_perm (P : Point -> bool) (l l' : list Point) (t : string) :
  Permutation l' l -> Earliest P l t -> Earliest P l' t.
Proof.
  intros Hp (p & Hin & HP & Ht & Hmin). exists p.
  repeat split; try assumption.
  - apply (Permutation_in _ (Permutation_sym Hp)). exact Hin.
  - intros q Hq. apply Hmin. apply (Permutation_in _ Hp). exact Hq.
Qed.

Lemma Latest_perm (P : Point -> bool) (l l' : list Point) (t : string) :
  Permutation l' l -> Latest P l t -> Latest P l' t.
Proof.
  intros Hp (p & Hin & HP & Ht & Hmax). exists p.
  repeat split; try assumption.
  - apply (Permutation_in _ (Permutation_sym Hp)). exact Hin.
  - intros q Hq. apply Hmax. apply (Permutation_in _ Hp). exact Hq.
Qed.

(** The calculator, on any list of normalized points. *)
Lemma plant_spec (raw : list Point) :
  let kept := filter keepPoint raw in
  let pts := sortPoints kept in
  PlantSpec kept pts (plantStartOf pts) (plantStopOf pts).
Proof.
  intros kept pts.
  assert (Hp : Permutation kept pts) by apply sortPoints_perm.
  assert (Hs : Ascending pts) by apply sortPoints_sorted.
  unfold PlantSpec. split; [ exact Hp | ]. split; [ exact Hs | ].
  split; [ | split; [ | split ] ].
  - exists (first10 pts). split; [ apply find_FirstSat | ].
    unfold plantStartOf. destruct (first10 pts); reflexivity.
  - exists (lastBetween pts). split; [ apply find_FirstSat | ].
    unfold plantStopOf. destruct (lastBetween pts); [ reflexivity | ].
    exists (lastPos pts). split; [ apply find_FirstSat | ].
    destruct (lastPos pts); reflexivity.
  - unfold StartSpec, plantStartOf, first10.
    destruct (find _ pts) as [p|] eqn:E.
    + left. apply (Earliest_perm _ pts); [ exact Hp | ].
      destruct (find_earliest _ _ _ Hs E) as (Hin & HP & Hmin).
      exists p. repeat split; assumption.
    + right. split; [ | reflexivity ].
      exact (find_none_NoneOf _ _ _ Hp E).
  - unfold StopSpec, plantStopOf, lastBetween, lastPos.
    destruct (find _ (rev pts)) as [p|] eqn:E.
    + left. apply (Latest_perm _ pts); [ exact Hp | ].
      destruct (find_rev_latest _ _ _ Hs E) as (Hin & HP & Hmax).
      exists p. repeat split; assumption.
    + right. pose proof (find_rev_none _ _ _ Hp E) as N1.
      destruct (find (fun p => (0 <? poa p)%float) (rev pts)) as [p|] eqn:E2.
      * left. split; [ exact N1 | ].
        apply (Latest_perm _ pts); [ exact Hp | ].
        destruct (find_rev_latest _ _ _ Hs E2) as (Hin & HP & Hmax).
        exists p. repeat split; assumption.
      * right. split; [ exact N1 | ]. split; [ | reflexivity ].
        exact (find_rev_none _ _ _ Hp E2).
Qed.

End PlantFacts.

(* ------------------------------------------------------------------ *)
(** ** The rows and defects that the meter validator returns            *)
(* ------------------------------------------------------------------ *)

Module MeterFacts.
Import Js Meter MeterValidate Spec JsFacts.

Lemma trim_head (c : ascii) (s : string) :
  isSpace c = false -> headIs c (trim (String c s)).
Proof.
  intro H. unfold trim. simpl trimStart. rewrite H. simpl.
  destruct (trimEnd s); [ rewrite H | ]; eexists; reflexivity.
Qed.

Lemma mapGet_mapSet_same (A : Type) (m : list (string * A)) (k : string) (v : A) :
  mapGet (mapSet m k v) k = Some v.
Proof.
  induction m as [|[k' v'] m IH]; simpl.
  - rewrite String.eqb_refl. reflexivity.
  - destruct (k' =? k)%string eqn:E; simpl.
    + rewrite String.eqb_refl. reflexivity.
    + rewrite E. exact IH.
Qed.

Lemma mapGet_mapSet_other (A : Type) (m : list (string * A)) (k k' : string) (v : A) :
  k <> k' -> mapGet (mapSet m k v) k' = mapGet m k'.
Proof.
  intro N. induction m as [|[k0 v0] m IH]; simpl.
  - apply String.eqb_neq in N. rewrite N. reflexivity.
  - destruct (k0 =? k)%string eqn:E; simpl.
    + apply String.eqb_eq in E. subst k0.
      apply String.eqb_neq in N. rewrite N. reflexivity.
    + destruct (k0 =? k')%string; [ reflexivity | exact IH ].
Qed.

Lemma weatherOf_mapPush (m : list (string * list obj)) (d' d : string) (w : obj) :
  weatherOf (mapPush m d' w) d
  = if (d' =? d)%string then (weatherOf m d ++ [w])%list else weatherOf m d.
Proof.
  unfold weatherOf, mapPush. destruct (d' =? d)%string eqn:E.
  - apply String.eqb_eq in E. subst d'.
    destruct (mapGet m d); rewrite mapGet_mapSet_same; reflexivity.
  - apply String.eqb_neq in E.
    destruct (mapGet m d'); rewrite mapGet_mapSet_other by exact E; reflexivity.
Qed.

(** The samples grouped under a date are, in the order the store returned
    them, the weather rows assigned to that date. *)
Lemma weatherOf_groupWeather (dates : list string) (allWeatherRows : list obj)
      (d : string) :
  weatherOf (groupWeather dates allWeatherRows) d
  = filter (assignedTo dates d) allWeatherRows.
Proof.
  unfold groupWeather.
  assert (G : forall m,
             weatherOf
               (fold_left
                  (fun m w =>
                     let dateVal := weatherDateVal w in
                     match find (fun d => strictEqStr dateVal (ddmmyyyyToISO d)
                                          || strictEqStr dateVal (ddmmyyyyToDDMMMYY d))
                                dates with
                     | Some d => mapPush m d w
                     | None => m
                     end) allWeatherRows m) d
             = (weatherOf m d ++ filter (assignedTo dates d) allWeatherRows)%list).
  { induction allWeatherRows as [|w ws IH]; intro m; simpl.
    - rewrite app_nil_r. reflexivity.
    - rewrite IH. unfold assignedTo at 2. unfold matchesDate.
      destruct (find _ dates) as [d'|]; [ | reflexivity ].
      rewrite weatherOf_mapPush. destruct (d' =? d)%string; [ | reflexivity ].
      rewrite <- app_assoc. reflexivity. }
  apply (G []).
Qed.

Section WithBuiltins.
Context {B : Builtins}.

Lemma computed_keys (exportTotals importTotals : list (string * float)) (k : string) :
  In k (keys (assign (assign [] (computedOf "Export" exportTotals))
                     (computedOf "Import" importTotals))) ->
  headIs "E" k \/ headIs "I" k.
Proof.
  intro H. apply keys_assign in H. destruct H as [H | [v H]].
  - apply keys_assign in H. destruct H as [[] | [v H]].
    left. unfold computedOf in H. apply in_map_iff in H.
    destruct H as (t & E & _). injection E as <- _.
    apply trim_head. reflexivity.
  - right. unfold computedOf in H. apply in_map_iff in H.
    destruct H as (t & E & _). injection E as <- _.
    apply trim_head. reflexivity.
Qed.

(** A key that is neither a derived column nor a per-meter total keeps its
    value in the enriched row. *)
Lemma get_enrich_other (weatherByDate : list (string * list obj)) (row : obj)
      (k : string) :
  ~ headIs "E" k -> ~ headIs "I" k ->
  k <> "Plant Start Time" -> k <> "Plant Stop Time" -> k <> "Total" ->
  k <> "GSS Export Total" -> k <> "GSS Import Total" -> k <> "Net Export @GSS" ->
  get (enrichRow weatherByDate row) k = get row k.
Proof.
  intros NE NI N1 N2 N3 N4 N5 N6. unfold enrichRow. cbv zeta.
  rewrite !get_set_other by (intro E; symmetry in E; contradiction).
  rewrite get_assign_other.
  - rewrite !get_set_other by (intro E; symmetry in E; contradiction). reflexivity.
  - intros kv Hin E. apply in_keys in Hin. rewrite E in Hin.
    apply computed_keys in Hin. tauto.
Qed.

Ltac through_computed :=
  rewrite get_assign_other;
  [ | let kv := fresh "kv" in let Hin := fresh "Hin" in let E := fresh "E" in
      intros kv Hin E; apply in_keys in Hin; rewrite E in Hin;
      apply computed_keys in Hin;
      destruct Hin as [[? Hin] | [? Hin]]; discriminate Hin ].

Lemma get_enrich_start (weatherByDate : list (string * list obj)) (row : obj) :
  get (enrichRow weatherByDate row) "Plant Start Time"
  = Str (plantStartOf (rowPoints weatherByDate row)).
Proof.
  unfold enrichRow. cbv zeta.
  rewrite !get_set_other by discriminate. through_computed.
  rewrite !get_set_other by discriminate. apply get_set_same.
Qed.

Lemma get_enrich_stop (weatherByDate : list (string * list obj)) (row : obj) :
  get (enrichRow weatherByDate row) "Plant Stop Time"
  = Str (plantStopOf (rowPoints weatherByDate row)).
Proof.
  unfold enrichRow. cbv zeta.
  rewrite !get_set_other by discriminate. through_computed.
  rewrite !get_set_other by discriminate. apply get_set_same.
Qed.

Lemma get_enrich_total (weatherByDate : list (string * list obj)) (row : obj) :
  get (enrichRow weatherByDate row) "Total"
  = Str (totalOf (plantStartOf (rowPoints weatherByDate row))
                 (plantStopOf (rowPoints weatherByDate row))).
Proof.
  unfold enrichRow. cbv zeta.
  rewrite !get_set_other by discriminate. through_computed.
  apply get_set_same.
Qed.

Lemma get_enrich_gssExport (weatherByDate : list (string * list obj)) (row : obj) :
  get (enrichRow weatherByDate row) "GSS Export Total"
  = Num (gssTotal (hasGss (computePairs "Export" row) (computePairs "Import" row))
                  (computePairs "Export" row)).
Proof.
  unfold enrichRow. cbv zeta.
  rewrite !get_set_other by discriminate. apply get_set_same.
Qed.

Lemma get_enrich_gssImport (weatherByDate : list (string * list obj)) (row : obj) :
  get (enrichRow weatherByDate row) "GSS Import Total"
  = Num (gssTotal (hasGss (computePairs "Export" row) (computePairs "Import" row))
                  (computePairs "Import" row)).
Proof.
  unfold enrichRow. cbv zeta.
  rewrite !get_set_other by discriminate. apply get_set_same.
Qed.

Lemma get_enrich_net (weatherByDate : list (string * list obj)) (row : obj) :
  get (enrichRow weatherByDate row) "Net Export @GSS"
  = Num (gssTotal (hasGss (computePairs "Export" row) (computePairs "Import" row))
                  (computePairs "Export" row)
         - gssTotal (hasGss (computePairs "Export" row) (computePairs "Import" row))
                    (computePairs "Import" row))%float.
Proof. unfold enrichRow. cbv zeta. apply get_set_same. Qed.

Lemma validateLoop_rows (weatherByDate : list (string * list obj))
      (seen : list string) (index : nat) (rs : list obj) :
  fst (validateLoop weatherByDate seen index rs) = map (enrichRow weatherByDate) rs.
Proof.
  revert seen index. induction rs as [|row rs IH]; intros seen index; simpl.
  - reflexivity.
  - rewrite IH. reflexivity.
Qed.

Lemma validateRows_rows (allWeatherRows rs : list obj) :
  rows (validateRows allWeatherRows rs)
  = map (enrichRow (groupWeather (uniqueDates rs) allWeatherRows)) rs.
Proof. unfold validateRows. simpl. apply validateLoop_rows. Qed.

Lemma validateRows_nth (allWeatherRows rs : list obj) (i : nat) (row : obj) :
  nth_error rs i = Some row ->
  nth_error (rows (validateRows allWeatherRows rs)) i
  = Some (enrichRow (groupWeather (uniqueDates rs) allWeatherRows) row).
Proof.
  intro H. rewrite validateRows_rows. apply map_nth_error. exact H.
Qed.

End WithBuiltins.
End MeterFacts.

(* ------------------------------------------------------------------ *)
(** ** The operations that meter submission builds                      *)
(* ------------------------------------------------------------------ *)

Module PlantTimes.
Import Js Meter Spec JsFacts PlantFacts MeterFacts.

Section WithBuiltins.
Context {B : Builtins}.

Lemma buildOps_nth (getWeatherByDate : string -> list obj) (rs : list obj)
      (ops : list MeterSubmit.UpdateOne) (i : nat) (r : obj) :
  MeterSubmit.buildOps getWeatherByDate rs = inr ops ->
  nth_error rs i = Some r ->
  nth_error ops i = Some (MeterSubmit.opOf (getWeatherByDate (MeterSubmit.rowDate r)) r).
Proof.
  revert ops i. induction rs as [|r0 rs IH]; intros ops i Hb Hn.
  - destruct i; discriminate Hn.
  - simpl in Hb. destruct (isEmpty (MeterSubmit.rowDate r0)); [ discriminate | ].
    destruct (MeterSubmit.buildOps getWeatherByDate rs) as [e|ops'] eqn:E;
      [ discriminate | ].
    injection Hb as <-. destruct i as [|i]; simpl in *.
    + injection Hn as <-. reflexivity.
    + apply IH; [ reflexivity | exact Hn ].
Qed.

End WithBuiltins.

End PlantTimes.

(* ------------------------------------------------------------------ *)
(** ** C2: Total, and the fallback without weather                      *)
(* ------------------------------------------------------------------ *)

Module TotalTime.
Import Js Meter Spec JsFacts PlantFacts MeterFacts.

Lemma validHHMM_shape (s : string) :
  isValidHHMM (Str s) = true -> String.length s <= 5 ->
  exists h1 h2 m1 m2,
    s = String h1 (String h2 (String ":" (String m1 (String m2 EmptyString)))) /\
    isDigit h1 = true /\ isDigit h2 = true /\ isDigit m1 = true /\ isDigit m2 = true /\
    natOfDigits (str2 h1 h2) <= 23 /\ natOfDigits (str2 m1 m2) <= 59.
Proof.
  intros V L. simpl in V. unfold reHHMM in V.
  destruct (list_ascii_of_string (trim s)) as [|h1 [|h2 [|c [|m1 [|m2 [|x l]]]]]] eqn:E;
    try discriminate V.
  assert (T : trim s = s).
  { apply trim_same_length. pose proof (trim_length s) as L'.
    rewrite <- (length_list_ascii (trim s)) in *. rewrite E in *. simpl in *. lia. }
  rewrite T in E. apply string_of_list_eq in E. simpl in E.
  destruct (isDigit h1) eqn:D1; [ | discriminate V ].
  destruct (isDigit h2) eqn:D2; [ | discriminate V ].
  destruct (c =? ":")%char eqn:Dc; [ | discriminate V ].
  destruct (isDigit m1) eqn:D3; [ | discriminate V ].
  destruct (isDigit m2) eqn:D4; [ | discriminate V ].
  cbn [andb] in V. apply Ascii.eqb_eq in Dc. subst c.
  rewrite !andb_true_iff, !Nat.leb_le in V.
  exists h1, h2, m1, m2. repeat split; try assumption; apply V.
Qed.

Lemma timeToMinutes_shape (h1 h2 m1 m2 : ascii) :
  isDigit h1 = true -> isDigit h2 = true -> isDigit m1 = true -> isDigit m2 = true ->
  timeToMinutes (String h1 (String h2 (String ":" (String m1 (String m2 EmptyString)))))
  = Some (Z.of_nat (natOfDigits (str2 h1 h2)) * 60
          + Z.of_nat (natOfDigits (str2 m1 m2)))%Z.
Proof.
  intros D1 D2 D3 D4. unfold timeToMinutes.
  rewrite (split_other ":" h1), (split_other ":" h2) by (apply isDigit_not_colon; assumption).
  rewrite split_sep.
  rewrite (split_other ":" m1), (split_other ":" m2) by (apply isDigit_not_colon; assumption).
  cbn [split map]. unfold numberOfDigits. cbn [allChars].
  rewrite D1, D2, D3, D4. reflexivity.
Qed.



(** The arithmetic of [diffHHMM] and [minutesToHHMM]. *)
Lemma totalOf_clock (start stop : string) (s e : Z) :
  ClockTime start s -> ClockTime stop e ->
  totalOf start stop = renderHHMM ((e - s) mod 1440).
Proof.
  intros (Vs & Ts & Bs) (Ve & Te & Be).
  unfold totalOf. rewrite Vs, Ve. simpl andb. cbv iota.
  unfold diffHHMM. rewrite Ts, Te.
  set (diff := if (s <=? e)%Z then (e - s)%Z else (1440 - s + e)%Z).
  assert (Hd : (0 <= diff < 1440)%Z /\ diff = ((e - s) mod 1440)%Z).
  { subst diff. destruct (s <=? e)%Z eqn:C.
    - apply Z.leb_le in C. split; [ lia | ].
      symmetry. apply Z.mod_small. lia.
    - apply Z.leb_gt in C. split; [ lia | ].
      apply (Zmod_unique (e - s) 1440 (-1)); lia. }
  destruct Hd as (Bd & Ed). rewrite <- Ed. clear Ed.
  unfold minutesToHHMM, renderHHMM. cbv zeta.
  assert (R1 : Z.rem diff 1440 = diff) by (apply Z.rem_small; lia).
  rewrite R1.
  assert (R2 : Z.rem (diff + 1440) 1440 = diff).
  { rewrite Z.rem_mod_nonneg by lia.
    replace (diff + 1440)%Z with (diff + 1 * 1440)%Z by lia.
    rewrite Z_mod_plus_full. apply Z.mod_small. lia. }
  rewrite R2. rewrite Z.rem_mod_nonneg by lia. reflexivity.
Qed.

Section WithBuiltins.
Context {B : Builtins}.








End WithBuiltins.


End TotalTime.

(* ------------------------------------------------------------------ *)
(** ** The either/or rule: the defects of a row                         *)
(* ------------------------------------------------------------------ *)

Module EitherRule.
Import Js Meter MeterValidate Spec JsFacts MeterFacts.

Lemma append_length (a b : string) :
  String.length (a ++ b) = String.length a + String.length b.
Proof. induction a as [|c a IH]; simpl; congruence. Qed.

Lemma substring_all (s : string) : substring 0 (String.length s) s = s.
Proof. induction s as [|c s IH]; simpl; congruence. Qed.

Lemma substring_skip (k s : string) (n : nat) :
  substring (String.length k) n (k ++ s) = substring 0 n s.
Proof. induction k as [|c k IH]; simpl; [ reflexivity | exact IH ]. Qed.

Lemma no_suffix (k suf msg : string) :
  substring (String.length msg - String.length suf) (String.length suf) msg <> suf ->
  k ++ suf <> msg.
Proof.
  intros N E. apply N. subst msg. rewrite append_length.
  replace (String.length k + String.length suf - String.length suf)
    with (String.length k) by lia.
  rewrite substring_skip. apply substring_all.
Qed.

Lemma stripPrefixCI_spec (lit s r : string) :
  stripPrefixCI lit s = Some r <->
  exists mid, s = mid ++ r /\ toUpperCase mid = toUpperCase lit.
Proof.
  unfold toUpperCase.
  revert s. induction lit as [|l lit IH]; intro s; cbn [stripPrefixCI mapString].
  - split.
    + intros [= ->]. exists "". split; reflexivity.
    + intros (mid & -> & E). destruct mid; [ reflexivity | discriminate E ].
  - destruct s as [|c s].
    + split; [ discriminate | ].
      intros (mid & E1 & E2). destruct mid; discriminate.
    + destruct (toUpper c =? toUpper l)%char eqn:E.
      * apply Ascii.eqb_eq in E. rewrite IH. split.
        -- intros (mid & -> & E2). exists (String c mid). split; [ reflexivity | ].
           cbn [mapString]. rewrite E, E2. reflexivity.
        -- intros (mid & E1 & E2). destruct mid as [|d mid]; [ discriminate E2 | ].
           cbn [mapString append] in E1, E2. injection E1 as -> ->.
           injection E2 as _ E2.
           exists mid. split; [ reflexivity | exact E2 ].
      * apply Ascii.eqb_neq in E. split; [ discriminate | ].
        intros (mid & E1 & E2). destruct mid as [|d mid]; [ discriminate E2 | ].
        cbn [mapString append] in E1, E2. injection E1 as -> _.
        injection E2 as E2 _. contradiction.
Qed.

Lemma containsCI_spec (lit s : string) :
  containsCI lit s = true <-> ContainsWord lit s.
Proof.
  unfold ContainsWord. induction s as [|c s IH].
  - simpl. destruct (stripPrefixCI lit "") as [r|] eqn:E.
    + split; [ intros _ | reflexivity ].
      apply stripPrefixCI_spec in E. destruct E as (mid & E1 & E2).
      exists "", mid, r. split; [ exact E1 | exact E2 ].
    + split; [ discriminate | ].
      intros (pre & mid & post & E1 & E2).
      destruct pre; [ | discriminate E1 ]. simpl in E1.
      assert (X : stripPrefixCI lit "" = Some post)
        by (apply stripPrefixCI_spec; exists mid; split; assumption).
      congruence.
  - simpl. destruct (stripPrefixCI lit (String c s)) as [r|] eqn:E.
    + split; [ intros _ | reflexivity ].
      apply stripPrefixCI_spec in E. destruct E as (mid & E1 & E2).
      exists "", mid, r. split; [ exact E1 | exact E2 ].
    + rewrite IH. split.
      * intros (pre & mid & post & -> & E2).
        exists (String c pre), mid, post. split; [ reflexivity | exact E2 ].
      * intros (pre & mid & post & E1 & E2). destruct pre as [|d pre].
        -- simpl in E1.
           assert (X : stripPrefixCI lit (String c s) = Some post)
             by (apply stripPrefixCI_spec; exists mid; split; assumption).
           congruence.
        -- simpl in E1. injection E1 as _ ->.
           exists pre, mid, post. split; [ reflexivity | exact E2 ].
Qed.

Lemma isReadingKey_spec (k : string) :
  isReadingKey k = true <-> ExportImportNamed k.
Proof.
  unfold isReadingKey, ExportImportNamed.
  rewrite orb_true_iff, !containsCI_spec. reflexivity.
Qed.

Section WithBuiltins.
Context {B : Builtins}.

Lemma isReadingAt_spec (row : obj) (k : string) :
  isReadingAt row k = true <->
  isBlank (get row k) = false /\ isFinite (ToNumber (get row k)) = true.
Proof.
  unfold isReadingAt, toNumberOrNull.
  destruct (isBlank (get row k)); [ split; [ discriminate | intros [[=] _] ] | ].
  destruct (isFinite (ToNumber (get row k))) eqn:F.
  - unfold isFinite in F. apply andb_prop in F. destruct F as [F _].
    unfold isNaN. rewrite F. tauto.
  - split; [ discriminate | intros [_ [=]] ].
Qed.

Lemma hasAnyReading_spec (row : obj) : hasAnyReading row = true <-> NumericReading row.
Proof.
  unfold hasAnyReading, NumericReading, readingKeys. rewrite existsb_exists. split.
  - intros (k & Hin & R). apply filter_In in Hin. destruct Hin as (Hk & Hr).
    exists k. rewrite <- isReadingKey_spec, <- isReadingAt_spec. auto.
  - intros (k & Hk & Hn & Hv). exists k. split.
    + apply filter_In. rewrite isReadingKey_spec. auto.
    + apply isReadingAt_spec. exact Hv.
Qed.

Lemma msgEither_not_reading (row : obj) : ~ In msgEither (readingErrors row).
Proof.
  unfold readingErrors. intro H. apply in_flat_map in H.
  destruct H as (k & _ & H). unfold readingErrorsOf in H.
  destruct (toNumberOrNull (get row k)) as [n|]; [ | exact H ].
  destruct (isNaN n).
  - destruct H as [H | []]. revert H. apply no_suffix. vm_compute. discriminate.
  - destruct (n <? 0)%float; [ | exact H ].
    destruct H as [H | []]. revert H. apply no_suffix. vm_compute. discriminate.
Qed.

Lemma msgEither_in_row (seen : list string) (row : obj) :
  In msgEither (rowErrorsOf seen row) <->
  hasStartStop row = false /\ hasAnyReading row = false.
Proof.
  unfold rowErrorsOf. rewrite !in_app_iff. split.
  - intros [H | [H | [H | H]]].
    + exfalso. unfold dateErrors in H.
      destruct (dateOk _); [ destruct (existsb _ _) | ];
        simpl in H; intuition discriminate.
    + exfalso. unfold timeErrors in H. apply in_app_iff in H.
      destruct H as [H | H];
        match type of H with In _ (if ?c then _ else _) => destruct c end;
        simpl in H; intuition discriminate.
    + exfalso. exact (msgEither_not_reading row H).
    + unfold eitherErrors in H.
      destruct (hasStartStop row), (hasAnyReading row); simpl in H;
        try contradiction. auto.
  - intros (E1 & E2). right. right. right. unfold eitherErrors.
    rewrite E1, E2. left. reflexivity.
Qed.

Lemma validateLoop_numbers (wbd : list (string * list obj)) (seen : list string)
      (index : nat) (rs : list obj) (e : RowError) :
  In e (snd (validateLoop wbd seen index rs)) -> index + 2 <= rowNumber e.
Proof.
  revert seen index. induction rs as [|row rs IH]; intros seen index; simpl.
  - intros [].
  - destruct (rowErrorsOf seen row).
    + intro H. apply IH in H. lia.
    + intros [<- | H]; [ simpl; lia | apply IH in H; lia ].
Qed.

Lemma find_row_none (wbd : list (string * list obj)) (seen : list string)
      (index n : nat) (rs : list obj) :
  n < index + 2 ->
  find (fun e => rowNumber e =? n) (snd (validateLoop wbd seen index rs)) = None.
Proof.
  intro L. destruct (find _ _) as [e|] eqn:E; [ | reflexivity ].
  apply find_some in E. destruct E as (Hin & Hn).
  apply validateLoop_numbers in Hin. apply Nat.eqb_eq in Hn. lia.
Qed.

(** The defects recorded under Excel row [i + 2] are those of row [i]. *)
Lemma validateLoop_errorsAt (wbd : list (string * list obj)) (rs : list obj) :
  forall (seen : list string) (index i : nat) (row : obj),
    nth_error rs i = Some row ->
    exists seen',
      match find (fun e => rowNumber e =? index + i + 2)
                 (snd (validateLoop wbd seen index rs)) with
      | Some e => errors e
      | None => []
      end = rowErrorsOf seen' row.
Proof.
  induction rs as [|row0 rs IH]; intros seen index i row Hn.
  - destruct i; discriminate Hn.
  - destruct i as [|i]; simpl in Hn.
    + injection Hn as ->. exists seen. simpl.
      destruct (rowErrorsOf seen row) as [|m ms] eqn:E.
      * rewrite find_row_none by lia. reflexivity.
      * simpl. replace (index + 2 =? index + 0 + 2) with true
          by (symmetry; apply Nat.eqb_eq; lia). reflexivity.
    + destruct (IH (seenAfter seen (rowDate row0)) (S index) i row Hn) as (seen' & E).
      exists seen'.
      replace (S index + i + 2) with (index + S i + 2) in E by lia.
      remember (index + S i + 2) as n eqn:En.
      cbn [validateLoop snd].
      destruct (rowErrorsOf seen row0) as [|m ms]; [ exact E | ].
      cbn [find rowNumber]. replace (index + 2 =? n) with false
        by (symmetry; apply Nat.eqb_neq; lia). exact E.
Qed.

Lemma meterErrorsAt_row (allWeatherRows rs : list obj) (i : nat) (row : obj) :
  nth_error rs i = Some row ->
  exists seen,
    meterErrorsAt (validateRows allWeatherRows rs) (i + 2) = rowErrorsOf seen row.
Proof.
  intro Hn. unfold meterErrorsAt, validateRows. simpl.
  exact (validateLoop_errorsAt _ rs [] 0 i row Hn).
Qed.

End WithBuiltins.

End EitherRule.

(* ------------------------------------------------------------------ *)
(** ** C4: GSS totals and net export                                    *)
(* ------------------------------------------------------------------ *)

Module GssTotals.
Import Js Meter MeterValidate Spec JsFacts MeterFacts.

Lemma sumTotals_finiteSum (totals : list (string * float)) :
  sumTotals totals = finiteSum totals.
Proof.
  unfold sumTotals, finiteSum, plainSum.
  assert (G : forall acc,
             fold_left (fun sum t => (sum + (if isFinite (snd t) then snd t else 0))%float)
                       totals acc
             = fold_left (fun sum t => (sum + snd t)%float)
                 (map (fun t => (fst t, if isFinite (snd t) then snd t else 0%float)) totals)
                 acc).
  { induction totals as [|t totals IH]; intro acc; simpl; [ reflexivity | apply IH ]. }
  apply G.
Qed.

Lemma finiteSum_plain (totals : list (string * float)) :
  Forall (fun t => isFinite (snd t) = true) totals -> finiteSum totals = plainSum totals.
Proof.
  unfold finiteSum, plainSum. intro F.
  assert (G : forall acc,
             fold_left (fun sum t => (sum + snd t)%float)
               (map (fun t => (fst t, if isFinite (snd t) then snd t else 0%float)) totals)
               acc
             = fold_left (fun sum t => (sum + snd t)%float) totals acc).
  { induction F as [|t totals Ft F' IH]; intro acc; simpl; [ reflexivity | ].
    rewrite Ft. apply IH. }
  apply G.
Qed.

Lemma isGss_spec (t : string * float) : isGss t = true <-> GssTagged t.
Proof. unfold isGss, GssTagged. apply EitherRule.containsCI_spec. Qed.

Lemma hasGss_true (es is_ : list (string * float)) :
  hasGss es is_ = true <-> exists t, In t (es ++ is_)%list /\ GssTagged t.
Proof.
  unfold hasGss. rewrite orb_true_iff, !existsb_exists. split.
  - intros [(t & Hin & G) | (t & Hin & G)]; exists t;
      rewrite in_app_iff, <- isGss_spec; auto.
  - intros (t & Hin & G). apply isGss_spec in G. apply in_app_iff in Hin.
    destruct Hin; [ left | right ]; exists t; auto.
Qed.

Section WithBuiltins.
Context {B : Builtins}.

(** C4, as the code has it. For every meter row of a batch, with [es] and
    [is_] the export and import pair totals computed for the row: if some
    pair total has an identifier containing "gss" in any letter case, GSS
    Export Total and GSS Import Total are the sums of the GSS-tagged export
    and import totals; otherwise they are the sums of all export and all
    import totals; in these sums a total that is not finite counts as 0 (so
    they are the plain sums when every total is finite); and Net Export @GSS
    is GSS Export Total minus GSS Import Total. A row with Export1 Initial =
    100, Export1 Final = 150 and no GSS tag gets GSS Export Total = 50. *)
Theorem gss_totals (allWeatherRows rs : list obj) (i : nat) (row : obj) :
  nth_error rs i = Some row ->
  let es := computePairs "Export" row in
  let is_ := computePairs "Import" row in
  (exists out ge gi,
     nth_error (rows (validateRows allWeatherRows rs)) i = Some out /\
     get out "GSS Export Total" = Num ge /\
     get out "GSS Import Total" = Num gi /\
     get out "Net Export @GSS" = Num (ge - gi)%float /\
     ((exists t, In t (es ++ is_)%list /\ GssTagged t) ->
      ge = finiteSum (filter isGss es) /\ gi = finiteSum (filter isGss is_)) /\
     (~ (exists t, In t (es ++ is_)%list /\ GssTagged t) ->
      ge = finiteSum es /\ gi = finiteSum is_)) /\
  (forall totals, Forall (fun t => isFinite (snd t) = true) totals ->
                  finiteSum totals = plainSum totals) /\
  (forall t, In t (filter isGss es) <-> In t es /\ GssTagged t) /\
  (forall wbd, get (enrichRow wbd Example.meterRow) "GSS Export Total" = Num 50%float).
Proof.
  intros Hn es is_. split; [ | split; [ | split ] ].
  - set (wbd := groupWeather (uniqueDates rs) allWeatherRows).
    exists (enrichRow wbd row), (gssTotal (hasGss es is_) es), (gssTotal (hasGss es is_) is_).
    split; [ apply validateRows_nth, Hn | ].
    split; [ apply get_enrich_gssExport | ].
    split; [ apply get_enrich_gssImport | ].
    split; [ apply get_enrich_net | ].
    unfold gssTotal. rewrite !sumTotals_finiteSum. split.
    + intro G. apply hasGss_true in G. rewrite G. split; reflexivity.
    + intro G. destruct (hasGss es is_) eqn:E.
      * exfalso. apply G. apply hasGss_true. exact E.
      * split; reflexivity.
  - exact finiteSum_plain.
  - intro t. rewrite filter_In, isGss_spec. reflexivity.
  - intro wbd. rewrite get_enrich_gssExport. vm_compute. reflexivity.
Qed.

End WithBuiltins.

(** The theorem on [Example.meterRow], the row of the example of C4. *)
Lemma gss_totals_witness :
  exists out ge gi,
    nth_error (rows (validateRows (B := Example.builtins) [] [Example.meterRow])) 0
    = Some out /\
    get out "GSS Export Total" = Num ge /\
    get out "GSS Import Total" = Num gi /\
    get out "Net Export @GSS" = Num (ge - gi)%float /\
    ((exists t, In t (computePairs (B := Example.builtins) "Export" Example.meterRow ++
                      computePairs (B := Example.builtins) "Import" Example.meterRow)%list
                /\ GssTagged t) ->
     ge = finiteSum (filter isGss (computePairs (B := Example.builtins) "Export" Example.meterRow)) /\
     gi = finiteSum (filter isGss (computePairs (B := Example.builtins) "Import" Example.meterRow))) /\
    (~ (exists t, In t (computePairs (B := Example.builtins) "Export" Example.meterRow ++
                        computePairs (B := Example.builtins) "Import" Example.meterRow)%list
                  /\ GssTagged t) ->
     ge = finiteSum (computePairs (B := Example.builtins) "Export" Example.meterRow) /\
     gi = finiteSum (computePairs (B := Example.builtins) "Import" Example.meterRow)).
Proof.
  exact (proj1 (gss_totals (B := Example.builtins) [] [Example.meterRow] 0
                  Example.meterRow eq_refl)).
Defined.

(** C4 as stated fails where a pair total overflows: with Export1 Initial =
    -1.7976931348623157e308 and Export1 Final = 1.7976931348623157e308 and no
    GSS tag, the one export pair total is Infinity, the sum of all export pair
    totals is Infinity, and GSS Export Total is 0. *)
Lemma gss_total_is_not_the_plain_sum :
  computePairs (B := Example.builtins) "Export" Example.overflowRow = [("1", infinity)] /\
  computePairs (B := Example.builtins) "Import" Example.overflowRow = [] /\
  hasGss (computePairs (B := Example.builtins) "Export" Example.overflowRow)
         (computePairs (B := Example.builtins) "Import" Example.overflowRow) = false /\
  plainSum (computePairs (B := Example.builtins) "Export" Example.overflowRow) = infinity /\
  get (enrichRow (B := Example.builtins) [] Example.overflowRow) "GSS Export Total"
  = Num 0%float /\
  get (enrichRow (B := Example.builtins) [] Example.overflowRow) "GSS Export Total"
  <> Num (plainSum (computePairs (B := Example.builtins) "Export" Example.overflowRow)).
Proof.
  repeat split; try (vm_compute; reflexivity).
  vm_compute. discriminate.
Qed.

End GssTotals.

(* ------------------------------------------------------------------ *)
(** ** C6 and C10: batch submission                                     *)
(* ------------------------------------------------------------------ *)

Module Submission.
Import Js Spec.

Section WithBuiltins.
Context {B : Builtins}.

Lemma submitLoop_spec (existsInStore : value -> value -> bool) (rs : list obj) :
  forall docs sk,
    WeatherSubmit.submitLoop existsInStore rs docs sk
    = ((docs ++ map WeatherSubmit.docOf (filter (keptRow existsInStore) rs))%list,
       sk + List.length (filter (fun row => negb (keptRow existsInStore row)) rs)).
Proof.
  induction rs as [|row rs IH]; intros docs sk; simpl.
  - rewrite app_nil_r, Nat.add_0_r. reflexivity.
  - assert (K : keptRow existsInStore row
                = negb (WeatherSubmit.lacksKey row) &&
                  negb (existsInStore (WeatherSubmit.rowDate row) (WeatherSubmit.rowTime row)))
      by reflexivity.
    destruct (WeatherSubmit.lacksKey row); simpl in K.
    + rewrite K, IH. simpl. f_equal. lia.
    + destruct (existsInStore _ _); simpl in K; rewrite K, IH; simpl.
      * f_equal. lia.
      * rewrite <- app_assoc. reflexivity.
Qed.

Lemma upsertLoop_spec (rs : list obj) :
  forall ops sk,
    WeatherSubmit.upsertLoop rs ops sk
    = ((ops ++ map WeatherSubmit.upsertOf
                 (filter (fun row => negb (WeatherSubmit.lacksKey row)) rs))%list,
       sk + List.length (filter WeatherSubmit.lacksKey rs)).
Proof.
  induction rs as [|row rs IH]; intros ops sk; simpl.
  - rewrite app_nil_r, Nat.add_0_r. reflexivity.
  - destruct (WeatherSubmit.lacksKey row); simpl.
    + rewrite IH. f_equal. lia.
    + rewrite IH, <- app_assoc. reflexivity.
Qed.

Lemma submitRows_docs (existsInStore : value -> value -> bool) (rs : list obj) :
  WeatherSubmit.docsToInsert (WeatherSubmit.submitRows existsInStore rs)
  = map WeatherSubmit.docOf (filter (keptRow existsInStore) rs).
Proof.
  destruct rs as [|row rs]; [ reflexivity | ].
  unfold WeatherSubmit.submitRows. rewrite submitLoop_spec. reflexivity.
Qed.

Lemma toNumber_unparsable (v : value) :
  Unparsable v -> WeatherSubmit.toNumber v = 0%float.
Proof.
  unfold Unparsable, WeatherSubmit.toNumber. intros [H | H].
  - rewrite H. reflexivity.
  - rewrite H. destruct (isBlank v); reflexivity.
Qed.

Lemma docOf_blanks (row : obj) : BlanksAreZero row (WeatherSubmit.docOf row).
Proof.
  unfold BlanksAreZero, sensorFields.
  repeat (constructor; [ simpl; apply toNumber_unparsable | ]). constructor.
Qed.

(** C10. Every weather document that submission hands to the store comes
    from a row of the batch, and each of its sensor fields (POA, GHI,
    AlbedoUp, AlbedoDown, ModuleTemp, AmbientTemp, WindSpeed, Rainfall,
    Humidity) whose cell is blank, null, undefined or not parseable as a
    number is the number 0; the same holds for the documents of the
    bulk-write variant. *)
Theorem blank_sensors_stored_as_zero (existsInStore : value -> value -> bool)
        (rs : list obj) :
  Forall (fun doc => exists row, In row rs /\ doc = WeatherSubmit.docOf row /\
                                 BlanksAreZero row doc)
         (WeatherSubmit.docsToInsert (WeatherSubmit.submitRows existsInStore rs)) /\
  Forall (fun op => exists row, In row rs /\
                                WeatherSubmit.setDoc op = WeatherSubmit.docOf row /\
                                BlanksAreZero row (WeatherSubmit.setDoc op))
         (fst (WeatherSubmit.submitRowsUpsert rs)) /\
  (forall v, Unparsable v -> WeatherSubmit.toNumber v = 0%float) /\
  (forall v, ~ Unparsable v -> WeatherSubmit.toNumber v = ToNumber v).
Proof.
  split; [ | split; [ | split ] ].
  - rewrite submitRows_docs. apply Forall_forall. intros doc H.
    apply in_map_iff in H. destruct H as (row & <- & H).
    apply filter_In in H. destruct H as (H & _).
    exists row. split; [ exact H | ]. split; [ reflexivity | apply docOf_blanks ].
  - unfold WeatherSubmit.submitRowsUpsert. rewrite upsertLoop_spec. simpl.
    apply Forall_forall. intros op H.
    apply in_map_iff in H. destruct H as (row & <- & H).
    apply filter_In in H. destruct H as (H & _).
    exists row. split; [ exact H | ]. split; [ reflexivity | apply docOf_blanks ].
  - exact toNumber_unparsable.
  - intros v N. unfold WeatherSubmit.toNumber, Unparsable in *.
    destruct (isBlank v); [ exfalso; auto | ].
    destruct (isNaN (ToNumber v)); [ exfalso; auto | reflexivity ].
Qed.

End WithBuiltins.

(** The theorem on [Example.sparseRow], with an empty store: the one document
    has POA, GHI, AlbedoUp and ModuleTemp 0, and AmbientTemp 31. *)
Lemma blank_sensors_stored_as_zero_witness :
  Forall (fun doc => exists row, In row [Example.sparseRow] /\
                                 doc = WeatherSubmit.docOf (B := Example.builtins) row /\
                                 BlanksAreZero (B := Example.builtins) row doc)
         (WeatherSubmit.docsToInsert
            (WeatherSubmit.submitRows (B := Example.builtins)
               (fun _ _ => false) [Example.sparseRow])) /\
  map (fun doc => (WeatherSubmit.poa doc, WeatherSubmit.ghi doc,
                   WeatherSubmit.albedoUp doc, WeatherSubmit.moduleTemp doc,
                   WeatherSubmit.ambientTemp doc))
      (WeatherSubmit.docsToInsert
         (WeatherSubmit.submitRows (B := Example.builtins)
            (fun _ _ => false) [Example.sparseRow]))
  = [(0, 0, 0, 0, 31)%float].
Proof.
  split; [ | vm_compute; reflexivity ].
  exact (proj1 (blank_sensors_stored_as_zero (B := Example.builtins)
                  (fun _ _ => false) [Example.sparseRow])).
Defined.

Section WithBuiltins.
Context {B : Builtins}.

Lemma buildOps_spec (getWeatherByDate : string -> list obj) (rs : list obj) :
  MeterSubmit.buildOps getWeatherByDate rs
  = if existsb (fun r => isEmpty (MeterSubmit.rowDate r)) rs
    then inl (MeterSubmit.BadRequestException "Each row must contain Date")
    else inr (map (fun r => MeterSubmit.opOf (getWeatherByDate (MeterSubmit.rowDate r)) r) rs).
Proof.
  induction rs as [|r rs IH]; simpl; [ reflexivity | ].
  destruct (isEmpty (MeterSubmit.rowDate r)); simpl; [ reflexivity | ].
  rewrite IH. destruct (existsb _ rs); reflexivity.
Qed.

(** C6, as the code has it. Weather submission never fails because of a
    row: it skips the rows that lack a date (or a time) and returns counts.
    The service of weather-submit.service.ts inserts the other rows unless
    their (date, time) is already stored (those are skipped too, not
    updated), and returns the number of documents it inserts and the number
    of rows it skipped. Its bulk-write variant upserts each of the other
    rows keyed by (date, time), and returns the number of rows it skipped
    together with, as inserted and updated, the upserted and the modified
    count that the store reports for these operations (0 for a count the
    store does not report, and when there is no operation). Meter
    submission builds one upsert keyed by (date, time) per row when every
    row has a date, and throws [BadRequestException "Each row must contain
    Date"] for the whole batch, before anything is written, as soon as one
    row lacks a date. *)
Theorem submission_outcome (existsInStore : value -> value -> bool)
        (getWeatherByDate : string -> list obj) (rs : list obj) :
  (let o := WeatherSubmit.submitRows existsInStore rs in
   WeatherSubmit.docsToInsert o
   = map WeatherSubmit.docOf (filter (keptRow existsInStore) rs) /\
   WeatherSubmit.inserted o = List.length (WeatherSubmit.docsToInsert o) /\
   WeatherSubmit.skipped o
   = List.length (filter (fun row => negb (keptRow existsInStore row)) rs) /\
   WeatherSubmit.inserted o + WeatherSubmit.skipped o = List.length rs) /\
  (let o := WeatherSubmit.submitRowsUpsert rs in
   fst o = map WeatherSubmit.upsertOf
             (filter (fun row => negb (WeatherSubmit.lacksKey row)) rs) /\
   snd o = List.length (filter WeatherSubmit.lacksKey rs) /\
   Forall (fun op => WeatherSubmit.upsert op = true) (fst o) /\
   Forall (fun op => exists row, In row rs /\
                                 WeatherSubmit.filterDate op = WeatherSubmit.rowDate row /\
                                 WeatherSubmit.filterTime op = WeatherSubmit.rowTime row /\
                                 WeatherSubmit.setDoc op = WeatherSubmit.docOf row)
          (fst o)) /\
  (forall bulkWrite : list WeatherSubmit.UpsertOp -> WeatherBulk.BulkWriteResult,
     let o := WeatherBulk.submitRows bulkWrite rs in
     let ops := fst (WeatherSubmit.submitRowsUpsert rs) in
     WeatherBulk.skipped o = List.length (filter WeatherSubmit.lacksKey rs) /\
     WeatherBulk.skipped o + List.length ops = List.length rs /\
     WeatherBulk.inserted o
     = match ops with
       | [] => 0
       | _ => WeatherBulk.orZero (WeatherBulk.upsertedCount (bulkWrite ops))
       end /\
     WeatherBulk.updated o
     = match ops with
       | [] => 0
       | _ => WeatherBulk.orZero (WeatherBulk.modifiedCount (bulkWrite ops))
       end) /\
  MeterSubmit.submitRows getWeatherByDate rs
  = (if existsb (fun r => isEmpty (MeterSubmit.rowDate r)) rs
     then inl (MeterSubmit.BadRequestException "Each row must contain Date")
     else inr (map (fun r => MeterSubmit.opOf (getWeatherByDate (MeterSubmit.rowDate r)) r)
                   rs)) /\
  (forall w r, let op := MeterSubmit.opOf w r in
               MeterSubmit.filterDate op = MeterSubmit.rowDate r /\
               MeterSubmit.filterTime op = MeterSubmit.rowTime r /\
               MeterSubmit.upsert op = true).
Proof.
  assert (L : forall (f : obj -> bool) (l : list obj),
             List.length (filter f l) + List.length (filter (fun x => negb (f x)) l)
             = List.length l).
  { intros f l. induction l as [|x l IH]; simpl; [ reflexivity | ].
    destruct (f x); simpl; lia. }
  split; [ | split; [ | split; [ | split ] ] ].
  - cbv zeta. rewrite submitRows_docs.
    destruct rs as [|row rs].
    + repeat split.
    + unfold WeatherSubmit.submitRows. rewrite submitLoop_spec.
      cbn [WeatherSubmit.inserted WeatherSubmit.skipped WeatherSubmit.docsToInsert
           fst snd app]. rewrite length_map.
      repeat split. apply L.
  - cbv zeta. unfold WeatherSubmit.submitRowsUpsert. rewrite upsertLoop_spec.
    cbn [fst snd app]. split; [ reflexivity | ]. split; [ reflexivity | ].
    split; apply Forall_forall; intros op H; apply in_map_iff in H;
      destruct H as (row & <- & H); [ reflexivity | ].
    apply filter_In in H. destruct H as (H & _).
    exists row. split; [ exact H | ]. repeat split.
  - intros bulkWrite o ops. subst o ops.
    unfold WeatherBulk.submitRows, WeatherSubmit.submitRowsUpsert.
    rewrite upsertLoop_spec. cbn [fst snd app Nat.add].
    set (ops := map WeatherSubmit.upsertOf
                    (filter (fun row => negb (WeatherSubmit.lacksKey row)) rs)).
    assert (Ln : List.length (filter WeatherSubmit.lacksKey rs) + List.length ops
                 = List.length rs).
    { unfold ops. rewrite length_map. apply L. }
    destruct rs as [|row rs]; [ repeat split | ].
    cbn [WeatherBulk.skipped WeatherBulk.inserted WeatherBulk.updated].
    split; [ reflexivity | ]. split; [ exact Ln | ].
    destruct ops as [|op ops']; split; reflexivity.
  - apply buildOps_spec.
  - intros w r. repeat split.
Qed.

End WithBuiltins.

(** C6 as stated fails for meter submission: a batch of two rows, the second
    without a date, is not submitted with that row skipped; the whole batch
    is rejected. It fails for the service of weather-submit.service.ts too:
    a row whose (date, time) is already stored is skipped, not upserted. *)
Lemma meter_submission_rejects_batch :
  MeterSubmit.rowDate (B := Example.builtins) Example.meterRow = "01-06-2025" /\
  MeterSubmit.rowDate (B := Example.builtins) [("Export1 Initial", Num 1%float)] = "" /\
  MeterSubmit.submitRows (B := Example.builtins) (fun _ => [])
    [Example.meterRow; [("Export1 Initial", Num 1%float)]]
  = inl (MeterSubmit.BadRequestException "Each row must contain Date") /\
  WeatherSubmit.submitRows (B := Example.builtins) (fun _ _ => true) [Example.sparseRow]
  = {| WeatherSubmit.docsToInsert := [];
       WeatherSubmit.inserted := 0;
       WeatherSubmit.skipped := 1 |}.
Proof. repeat split. Qed.

End Submission.

(* ------------------------------------------------------------------ *)
(** ** C3: duplicate date and time in a weather batch                   *)
(* ------------------------------------------------------------------ *)

Module Duplicates.
Import Js Weather Spec JsFacts.

Lemma append_inj (a a' b b' : string) :
  String.length a = String.length a' -> a ++ b = a' ++ b' -> a = a' /\ b = b'.
Proof.
  revert a'. induction a as [|c a IH]; intros [|c' a'] L E; simpl in *;
    try discriminate L.
  - auto.
  - injection E as -> E. injection L as L.
    destruct (IH a' L E) as [-> ->]. auto.
Qed.

Lemma reDDMMMYY_lengths (s d m y : string) :
  reDDMMMYY s = Some (d, m, y) ->
  String.length d = 2 /\ String.length m = 3 /\ String.length y = 2.
Proof.
  unfold reDDMMMYY.
  destruct (list_ascii_of_string s)
    as [|d1 [|d2 [|h1 [|a1 [|a2 [|a3 [|h2 [|y1 [|y2 [|x l]]]]]]]]]]; try discriminate.
  destruct (_ && _); [ | discriminate ]. intros [= <- <- <-]. auto.
Qed.

Lemma capitalize_length (m : string) :
  String.length m = 3 -> String.length (capitalize m) = 3.
Proof.
  destruct m as [|a [|b [|c [|x m]]]]; try discriminate. reflexivity.
Qed.

(** A date that passes the validator after normalization has the nine
    characters of DD-MMM-YY. *)
Lemma normalized_valid_length (s : string) :
  isValidDDMMMYY (normalizeDDMMMYY (trim s)) = true ->
  String.length (normalizeDDMMMYY (trim s)) = 9.
Proof.
  unfold normalizeDDMMMYY. destruct (isEmpty (trim s)) eqn:Em.
  - destruct (trim s); discriminate.
  - rewrite trim_idem. destruct (reDDMMMYY (trim s)) as [[[d m] y]|] eqn:R.
    + intros _. destruct (reDDMMMYY_lengths _ _ _ _ R) as (Ld & Lm & Ly).
      rewrite !EitherRule.append_length, (capitalize_length m Lm), Ld, Ly. reflexivity.
    + unfold isValidDDMMMYY. rewrite Em, trim_idem, R. discriminate.
Qed.

Section WithBuiltins.
Context {B : Builtins}.

Lemma dateOf_valid_length (row : obj) :
  isValidDDMMMYY (dateOf row) = true -> String.length (dateOf row) = 9.
Proof.
  unfold dateOf. destruct (truthy (rawDate row)); [ | discriminate ].
  apply normalized_valid_length.
Qed.

(** Two checkable rows have the same key exactly when they have the same
    date and the same time. *)
Lemma keyOf_inj (r r' : obj) :
  checkable (dateOf r) (timeOf r) = true ->
  checkable (dateOf r') (timeOf r') = true ->
  keyOf (dateOf r) (timeOf r) = keyOf (dateOf r') (timeOf r') ->
  dateOf r = dateOf r' /\ timeOf r = timeOf r'.
Proof.
  unfold checkable. rewrite !andb_true_iff.
  intros (((_ & _) & V) & _) (((_ & _) & V') & _) E.
  unfold keyOf in E.
  destruct (append_inj _ _ _ _
              (eq_trans (dateOf_valid_length r V) (eq_sym (dateOf_valid_length r' V'))) E)
    as (E1 & E2).
  split; [ exact E1 | ]. injection E2 as E2. exact E2.
Qed.

Lemma checkRange_head (v : value) (min max : float) (c : ascii) (f : string)
      (allowZero : bool) (m : string) :
  In m (checkRange v min max (String c f) allowZero) -> headIs c m.
Proof.
  unfold checkRange. destruct (isBlank v); [ intros [] | ].
  destruct (isNaN _); [ intros [<- | []]; eexists; reflexivity | ].
  destruct (negb allowZero && _); [ intros [<- | []]; eexists; reflexivity | ].
  destruct (_ || _); [ intros [<- | []]; eexists; reflexivity | intros [] ].
Qed.

Lemma sensorErrors_no_duplicate (row : obj) : ~ In msgDuplicate (sensorErrors row).
Proof.
  unfold sensorErrors. rewrite !in_app_iff.
  intros [H | [H | [H | [H | [H | [H | [H | [H | H]]]]]]]];
    try (apply checkRange_head in H; destruct H as [r H]; discriminate H).
  unfold moduleTempErrors in H.
  destruct (isBlank _); [ exact H | ].
  destruct (isNaN _); [ destruct H as [H | []]; discriminate H | ].
  destruct (_ =? _)%float; [ destruct H as [H | []]; discriminate H | ].
  destruct (_ <? _)%float; [ destruct H as [H | []]; discriminate H | ].
  destruct (_ <? _)%float; [ destruct H as [H | []]; discriminate H | exact H ].
Qed.

Lemma msgDuplicate_in_row (seen : list string) (row : obj) :
  In msgDuplicate (rowErrorsOf seen row) <->
  checkable (dateOf row) (timeOf row) = true /\
  In (keyOf (dateOf row) (timeOf row)) seen.
Proof.
  unfold rowErrorsOf. cbv zeta. rewrite !in_app_iff. split.
  - intros [H | [H | [H | H]]].
    + exfalso. unfold dateErrors in H.
      destruct (isEmpty _); [ | destruct (negb _) ]; simpl in H; intuition discriminate.
    + exfalso. unfold timeErrors in H.
      destruct (isEmpty _); [ | destruct (negb _) ]; simpl in H; intuition discriminate.
    + unfold duplicateErrors in H. destruct (checkable _ _); [ | destruct H ].
      destruct (existsb _ seen) eqn:E; [ | destruct H ].
      split; [ reflexivity | ].
      apply existsb_exists in E. destruct E as (k & Hin & Hk).
      apply String.eqb_eq in Hk. subst k. exact Hin.
    + exfalso. exact (sensorErrors_no_duplicate row H).
  - intros (C & Hin). right. right. left. unfold duplicateErrors. rewrite C.
    assert (E : existsb (String.eqb (keyOf (dateOf row) (timeOf row))) seen = true).
    { apply existsb_exists. eexists. split; [ exact Hin | apply String.eqb_refl ]. }
    rewrite E. left. reflexivity.
Qed.

Lemma seenAfterRows_in (l : list obj) :
  forall seen k,
    In k (seenAfterRows seen l) <->
    In k seen \/ exists r, In r l /\ checkable (dateOf r) (timeOf r) = true /\
                           keyOf (dateOf r) (timeOf r) = k.
Proof.
  unfold seenAfterRows. induction l as [|r l IH]; intros seen k; simpl.
  - split; [ auto | intros [H | (r & [] & _)]; exact H ].
  - rewrite IH. unfold seenAfter at 1.
    destruct (checkable (dateOf r) (timeOf r)) eqn:C.
    + destruct (existsb _ seen) eqn:E.
      * apply existsb_exists in E. destruct E as (k' & Hin & Hk).
        apply String.eqb_eq in Hk. subst k'. split.
        -- intros [H | (r' & H1 & H2)]; [ auto | right; exists r'; auto ].
        -- intros [H | (r' & [<- | H1] & H2 & H3)]; [ auto | | right; exists r'; auto ].
           left. rewrite <- H3. exact Hin.
      * rewrite in_app_iff. simpl. split.
        -- intros [[H | [<- | []]] | (r' & H1 & H2)];
             [ auto | right; exists r; auto | right; exists r'; auto ].
        -- intros [H | (r' & [<- | H1] & H2 & H3)];
             [ auto | left; right; left; exact H3 | right; exists r'; auto ].
    + split.
      * intros [H | (r' & H1 & H2)]; [ auto | right; exists r'; auto ].
      * intros [H | (r' & [<- | H1] & H2 & H3)];
          [ auto | congruence | right; exists r'; auto ].
Qed.

Lemma weatherLoop_numbers (seen : list string) (index : nat) (rs : list obj)
      (e : RowError) :
  In e (snd (validateLoop seen index rs)) -> index + 2 <= rowNumber e.
Proof.
  revert seen index. induction rs as [|row rs IH]; intros seen index; simpl.
  - intros [].
  - destruct (rowErrorsOf seen row).
    + intro H. apply IH in H. lia.
    + intros [<- | H]; [ simpl; lia | apply IH in H; lia ].
Qed.

Lemma weatherLoop_find_none (seen : list string) (index n : nat) (rs : list obj) :
  n < index + 2 ->
  find (fun e => rowNumber e =? n) (snd (validateLoop seen index rs)) = None.
Proof.
  intro L. destruct (find _ _) as [e|] eqn:E; [ | reflexivity ].
  apply find_some in E. destruct E as (Hin & Hn).
  apply weatherLoop_numbers in Hin. apply Nat.eqb_eq in Hn. lia.
Qed.

(** The defects recorded under Excel row [i + 2] are those of row [i],
    checked against the keys of the rows before it. *)
Lemma weatherLoop_errorsAt (rs : list obj) :
  forall (seen : list string) (index i : nat) (row : obj),
    nth_error rs i = Some row ->
    match find (fun e => rowNumber e =? index + i + 2)
               (snd (validateLoop seen index rs)) with
    | Some e => errors e
    | None => []
    end = rowErrorsOf (seenAfterRows seen (firstn i rs)) row.
Proof.
  induction rs as [|row0 rs IH]; intros seen index i row Hn.
  - destruct i; discriminate Hn.
  - destruct i as [|i]; cbn [nth_error] in Hn.
    + injection Hn as ->. cbn [firstn seenAfterRows fold_left validateLoop snd].
      replace (index + 0 + 2) with (index + 2) by lia.
      destruct (rowErrorsOf seen row) as [|m ms] eqn:E.
      * rewrite weatherLoop_find_none by lia. reflexivity.
      * cbn [find rowNumber]. rewrite Nat.eqb_refl. reflexivity.
    + pose proof (IH (seenAfter seen (dateOf row0) (timeOf row0)) (S index) i row Hn) as E.
      replace (S index + i + 2) with (index + S i + 2) in E by lia.
      remember (index + S i + 2) as n eqn:En.
      cbn [firstn validateLoop snd].
      change (seenAfterRows seen (row0 :: firstn i rs))
        with (seenAfterRows (seenAfter seen (dateOf row0) (timeOf row0)) (firstn i rs)).
      destruct (rowErrorsOf seen row0) as [|m ms]; [ exact E | ].
      cbn [find rowNumber]. replace (index + 2 =? n) with false
        by (symmetry; apply Nat.eqb_neq; lia). exact E.
Qed.

Lemma in_firstn_nth (A : Type) (l : list A) (i : nat) (x : A) :
  In x (firstn i l) <-> exists j, j < i /\ nth_error l j = Some x.
Proof.
  revert i. induction l as [|a l IH]; intro i.
  - rewrite firstn_nil. split; [ intros [] | intros (j & _ & H) ].
    destruct j; discriminate H.
  - destruct i as [|i]; simpl.
    + split; [ intros [] | intros (j & L & _); lia ].
    + rewrite IH. split.
      * intros [<- | (j & L & H)]; [ exists 0 | exists (S j) ]; simpl; split;
          try lia; auto.
      * intros ([|j] & L & H); simpl in H;
          [ left; congruence | right; exists j; split; [ lia | exact H ] ].
Qed.

(** C3, as the code has it. In a batch of weather rows, the row at index [i]
    (Excel row [i + 2]) is reported with the defect "Duplicate Date & Time
    combination" if and only if its normalized date is a valid DD-MMM-YY, its
    normalized time is a valid HH:MM, and an earlier row of the batch has the
    same normalized date and time. So a valid (date, time) pair is flagged on
    its second and every later occurrence and not on its first; a pair whose
    date or time is missing or invalid is never flagged as a duplicate. *)
Theorem duplicate_date_time (rs : list obj) (i : nat) (row : obj) :
  nth_error rs i = Some row ->
  (In msgDuplicate (weatherErrorsAt (validateRows rs) (i + 2)) <->
   checkable (dateOf row) (timeOf row) = true /\
   exists j r, j < i /\ nth_error rs j = Some r /\
               dateOf r = dateOf row /\ timeOf r = timeOf row).
Proof.
  intro Hn. unfold weatherErrorsAt, validateRows. cbn [rowErrors].
  pose proof (weatherLoop_errorsAt rs [] 0 i row Hn) as E.
  change (0 + i + 2) with (i + 2) in E. rewrite E. clear E.
  rewrite msgDuplicate_in_row, seenAfterRows_in. split.
  - intros (C & [[] | (r & Hin & Cr & K)]). split; [ exact C | ].
    apply in_firstn_nth in Hin. destruct Hin as (j & L & Hj).
    exists j, r. destruct (keyOf_inj r row Cr C K) as (E1 & E2). auto.
  - intros (C & j & r & L & Hj & E1 & E2). split; [ exact C | ].
    right. exists r. split; [ apply in_firstn_nth; exists j; auto | ].
    rewrite E1, E2. auto.
Qed.

End WithBuiltins.

(** The theorem on the second of two rows that normalize to the same valid
    pair (01-Dec-24, 09:30): it is flagged, and the first is not. *)
Lemma duplicate_date_time_witness :
  (In msgDuplicate
      (weatherErrorsAt
         (validateRows (B := Example.builtins)
            [Example.goodPair; [("Date", Str "01-Dec-24"); ("Time", Str "09:30:59")]])
         (1 + 2)) <->
   checkable
     (dateOf (B := Example.builtins) [("Date", Str "01-Dec-24"); ("Time", Str "09:30:59")])
     (timeOf (B := Example.builtins) [("Date", Str "01-Dec-24"); ("Time", Str "09:30:59")])
   = true /\
   exists j r, j < 1 /\
     nth_error [Example.goodPair; [("Date", Str "01-Dec-24"); ("Time", Str "09:30:59")]] j
     = Some r /\
     dateOf (B := Example.builtins) r
     = dateOf (B := Example.builtins) [("Date", Str "01-Dec-24"); ("Time", Str "09:30:59")] /\
     timeOf (B := Example.builtins) r
     = timeOf (B := Example.builtins) [("Date", Str "01-Dec-24"); ("Time", Str "09:30:59")]) /\
  rowErrors (validateRows (B := Example.builtins)
               [Example.goodPair; [("Date", Str "01-Dec-24"); ("Time", Str "09:30:59")]])
  = [{| rowNumber := 3; errors := [msgDuplicate] |}].
Proof.
  split; [ | reflexivity ].
  exact (duplicate_date_time (B := Example.builtins)
           [Example.goodPair; [("Date", Str "01-Dec-24"); ("Time", Str "09:30:59")]] 1
           [("Date", Str "01-Dec-24"); ("Time", Str "09:30:59")] eq_refl).
Defined.

(** C3 as stated fails for a pair that is not valid: the pair (tomorrow,
    noon) occurs twice, and its second occurrence is reported with the two
    format defects only, not as a duplicate. *)
Lemma invalid_pair_is_not_flagged :
  dateOf (B := Example.builtins) Example.badPair = "tomorrow" /\
  timeOf (B := Example.builtins) Example.badPair = "noon" /\
  rowErrors (validateRows (B := Example.builtins) [Example.badPair; Example.badPair])
  = [{| rowNumber := 2; errors := [msgBadDate; msgBadTime] |};
     {| rowNumber := 3; errors := [msgBadDate; msgBadTime] |}] /\
  ~ In msgDuplicate
       (weatherErrorsAt
          (validateRows (B := Example.builtins) [Example.badPair; Example.badPair]) 3).
Proof.
  repeat split. vm_compute. intuition discriminate.
Qed.

End Duplicates.

(* ------------------------------------------------------------------ *)
(** ** C8: the two date dialects and ISO                                *)
(* ------------------------------------------------------------------ *)

Module RoundTrip.
Import Js Meter Spec JsFacts.

Lemma setOf_three (a b c : string) :
  a <> b -> a <> c -> b <> c -> setOf [a; b; c] = [a; b; c].
Proof.
  intros N1 N2 N3. unfold setOf. simpl.
  apply String.eqb_neq in N1, N2, N3.
  rewrite (String.eqb_sym b a), N1. simpl.
  rewrite (String.eqb_sym c a), N2, (String.eqb_sym c b), N3. reflexivity.
Qed.

Lemma pad2_two_digits (a b : ascii) :
  isDigit a = true -> isDigit b = true -> pad2 (natOfDigits (str2 a b)) = str2 a b.
Proof.
  intros Da Db. apply isDigit_cases in Da, Db. simpl in Da, Db.
  repeat (destruct Da as [<- | Da]; [ repeat (destruct Db as [<- | Db]; [ reflexivity | ]); contradiction | ]).
  contradiction.
Qed.

Lemma split_date (d1 d2 m1 m2 y1 y2 y3 y4 : ascii) :
  isDigit d1 = true -> isDigit d2 = true -> isDigit m1 = true -> isDigit m2 = true ->
  isDigit y1 = true -> isDigit y2 = true -> isDigit y3 = true -> isDigit y4 = true ->
  split "-" (str2 d1 d2 ++ "-" ++ str2 m1 m2 ++ "-" ++ String y1 (String y2 (str2 y3 y4)))
  = [str2 d1 d2; str2 m1 m2; String y1 (String y2 (str2 y3 y4))].
Proof.
  intros. unfold str2. cbn [append].
  rewrite (split_other "-" d1), (split_other "-" d2) by (apply isDigit_not_hyphen; assumption).
  rewrite split_sep.
  rewrite (split_other "-" m1), (split_other "-" m2) by (apply isDigit_not_hyphen; assumption).
  rewrite split_sep.
  rewrite (split_other "-" y1), (split_other "-" y2), (split_other "-" y3), (split_other "-" y4)
    by (apply isDigit_not_hyphen; assumption).
  reflexivity.
Qed.

Lemma variations_of_weather_form (d1 d2 y3 y4 : ascii) (mi : nat) :
  isDigit d1 = true -> isDigit d2 = true -> isDigit y3 = true -> isDigit y4 = true ->
  1 <= mi <= 12 ->
  WeatherDates.getDateVariations
    (str2 d1 d2 ++ "-" ++ nth (mi - 1) MONTHS "undefined" ++ "-" ++ str2 y3 y4)
  = [str2 d1 d2 ++ "-" ++ nth (mi - 1) MONTHS "undefined" ++ "-" ++ str2 y3 y4;
     str2 d1 d2 ++ "-" ++ pad2 mi ++ "-" ++ "20" ++ str2 y3 y4;
     "20" ++ str2 y3 y4 ++ "-" ++ pad2 mi ++ "-" ++ str2 d1 d2].
Proof.
  intros D1 D2 D3 D4 R.
  assert (N3 : isDigit "-" = false) by reflexivity.
  assert (C : mi = 1 \/ mi = 2 \/ mi = 3 \/ mi = 4 \/ mi = 5 \/ mi = 6 \/
              mi = 7 \/ mi = 8 \/ mi = 9 \/ mi = 10 \/ mi = 11 \/ mi = 12) by lia.
  clear R.
  repeat (destruct C as [-> | C]); [ .. | subst mi ];
    unfold WeatherDates.getDateVariations, WeatherDates.meterVariants,
           WeatherDates.weatherVariants, WeatherDates.reDDMMYYYY, Weather.reDDMMMYY;
    cbn -[setOf isDigit isAlpha]; rewrite ?D1, ?D2, ?D3, ?D4; cbn -[setOf];
    (apply setOf_three; intro E; injection E; intros; subst; congruence).
Qed.

(** C8. For a string [d] of the form DD-MM-YYYY whose year is in 2000-2099
    and whose month is 01-12, the date variations of its DD-MMM-YY form are
    that form, then [d] itself, then the ISO string YYYY-MM-DD that the
    direct conversion of [d] gives. *)
Theorem date_round_trip (d : string) :
  reDDMMYYYY d = true ->
  substring 6 2 d = "20" ->
  1 <= natOfDigits (substring 3 2 d) <= 12 ->
  WeatherDates.getDateVariations (ddmmyyyyToDDMMMYY d)
  = [ddmmyyyyToDDMMMYY d; d; ddmmyyyyToISO d].
Proof.
  intros V Y M. unfold reDDMMYYYY in V.
  destruct (list_ascii_of_string d)
    as [|d1 [|d2 [|h1 [|m1 [|m2 [|h2 [|y1 [|y2 [|y3 [|y4 [|x l]]]]]]]]]]] eqn:E;
    try discriminate V.
  apply string_of_list_eq in E. cbn [string_of_list_ascii] in E. subst d.
  rewrite !andb_true_iff, !Ascii.eqb_eq in V.
  destruct V as (((((((((D1 & D2) & ->) & D3) & D4) & ->) & D5) & D6) & D7) & D8).
  cbn in Y. injection Y as -> ->.
  change (substring 3 2 _) with (str2 m1 m2) in M.
  pose proof (split_date d1 d2 m1 m2 "2" "0" y3 y4 D1 D2 D3 D4 D5 D6 D7 D8) as S.
  unfold str2 in S. cbn [append] in S.
  assert (T : ddmmyyyyToDDMMMYY
                (String d1 (String d2 (String "-" (String m1 (String m2 (String "-"
                   (String "2" (String "0" (String y3 (String y4 ""))))))))))
              = str2 d1 d2 ++ "-" ++ nth (natOfDigits (str2 m1 m2) - 1) MONTHS "undefined"
                ++ "-" ++ str2 y3 y4).
  { unfold ddmmyyyyToDDMMMYY. rewrite S. cbn [piece nth].
    unfold numberOfDigits. cbn [allChars]. rewrite D3, D4. cbn [andb].
    replace (natOfDigits (String m1 (String m2 "")) =? 0) with false
      by (symmetry; apply Nat.eqb_neq; unfold str2 in M; lia).
    replace (natOfDigits (String m1 (String m2 "")) <? 1) with false
      by (symmetry; apply Nat.ltb_ge; unfold str2 in M; lia).
    replace (12 <? natOfDigits (String m1 (String m2 ""))) with false
      by (symmetry; apply Nat.ltb_ge; unfold str2 in M; lia).
    reflexivity. }
  rewrite T, (variations_of_weather_form d1 d2 y3 y4 _ D1 D2 D7 D8 M).
  rewrite (pad2_two_digits m1 m2 D3 D4).
  unfold ddmmyyyyToISO. rewrite S. reflexivity.
Qed.

(** The theorem at 01-06-2025: 01-Jun-25, 01-06-2025, 2025-06-01. *)
Lemma date_round_trip_witness :
  WeatherDates.getDateVariations (ddmmyyyyToDDMMMYY "01-06-2025")
  = [ddmmyyyyToDDMMMYY "01-06-2025"; "01-06-2025"; ddmmyyyyToISO "01-06-2025"] /\
  ddmmyyyyToDDMMMYY "01-06-2025" = "01-Jun-25" /\
  ddmmyyyyToISO "01-06-2025" = "2025-06-01".
Proof.
  split; [ | split; reflexivity ].
  apply (date_round_trip "01-06-2025"); [ reflexivity | reflexivity | ].
  vm_compute. split; apply Nat.leb_le; reflexivity.
Defined.

End RoundTrip.

(* ------------------------------------------------------------------ *)
(** ** C9: normalization of dates and times                             *)
(* ------------------------------------------------------------------ *)

Module Normalization.
Import Js Meter Spec JsFacts.

Lemma pad2_one_digit (a : ascii) :
  isDigit a = true -> pad2 (natOfDigits (String a "")) = String "0" (String a "").
Proof.
  intro Da. apply isDigit_cases in Da. simpl in Da.
  repeat (destruct Da as [<- | Da]; [ reflexivity | ]). contradiction.
Qed.

Lemma reHHMM_of_reHMM (s : string) : reHMM s = None -> reHHMM s = None.
Proof.
  unfold reHMM, reHHMM.
  destruct (list_ascii_of_string s) as [|h1 [|h2 [|c [|m1 [|m2 [|x l]]]]]];
    try reflexivity.
  destruct (_ && _); [ discriminate | reflexivity ].
Qed.

Lemma trim_nonempty (s : string) : isEmpty (trim s) = false -> isEmpty s = false.
Proof. destruct s; [ discriminate | reflexivity ]. Qed.

(** What the three time normalizers compute from the trimmed input. *)
Lemma TimeForm_matches (t canon : string) :
  TimeForm t canon ->
  isEmpty t = false /\
  (if WeatherExcel.reHHMM t then t
   else match WeatherExcel.reTime t with
        | Some (h, minutes) => WeatherExcel.padStart2 h ++ ":" ++ minutes
        | None => t
        end) = canon /\
  match reHMMSS t with
  | Some (h, m) => Some (pad2 (natOfDigits h) ++ ":" ++ m)
  | None => match reHMM t with
            | Some (h, m) => Some (pad2 (natOfDigits h) ++ ":" ++ m)
            | None => Some t
            end
  end = Some canon /\
  match Weather.reTime t with
  | None => t
  | Some (h, mm) => padStart2 (natToString (natOfDigits h)) ++ ":" ++ mm
  end = canon.
Proof.
  intros [h m1 m2 Dh D1 D2 | h1 h2 m1 m2 Dh1 Dh2 D1 D2
          | h m1 m2 s1 s2 Dh D1 D2 S1 S2 | h1 h2 m1 m2 s1 s2 Dh1 Dh2 D1 D2 S1 S2];
    (split; [ reflexivity | ]);
    unfold WeatherExcel.reHHMM, WeatherExcel.reTime, Weather.reTime, reHHMM, reHMM, reHMMSS;
    cbn -[isDigit pad2 natOfDigits natToString];
    rewrite ?Dh, ?Dh1, ?Dh2, ?D1, ?D2, ?S1, ?S2;
    cbn -[isDigit pad2 natOfDigits natToString].
  - fold (pad2 (natOfDigits (String h ""))). rewrite (pad2_one_digit h Dh). auto.
  - fold (str2 h1 h2). fold (pad2 (natOfDigits (str2 h1 h2))).
    rewrite (RoundTrip.pad2_two_digits h1 h2 Dh1 Dh2). auto.
  - fold (pad2 (natOfDigits (String h ""))). rewrite (pad2_one_digit h Dh). auto.
  - fold (str2 h1 h2). fold (pad2 (natOfDigits (str2 h1 h2))).
    rewrite (RoundTrip.pad2_two_digits h1 h2 Dh1 Dh2). auto.
Qed.

Section WithBuiltins.
Context {B : Builtins}.

(** C9, as the code has it. The normalizers work on the input with its
    surrounding whitespace removed. For a string [s]: when the trimmed [s]
    matches none of the date patterns, [normalizeDate] returns the trimmed
    [s]; when it matches none of the time patterns, [normalizeTime] and the
    weather validator's [normalizeHHMM] return the trimmed [s], and the meter
    validator's [normalizeHHMM] returns it too, except that it returns null
    for the empty string; nothing is rejected. When the trimmed [s] has the
    form H:MM, HH:MM, H:MM:SS or HH:MM:SS, all of them return the
    zero-padded HH:MM, without the seconds. *)
Theorem normalization_of_dates_and_times (s : string) :
  (noDatePattern (trim s) = true -> WeatherExcel.normalizeDate (Str s) = trim s) /\
  (noTimePattern (trim s) = true ->
   WeatherExcel.normalizeTime (Str s) = trim s /\
   Weather.normalizeHHMM s = trim s /\
   normalizeHHMM (Str s) = if isEmpty s then None else Some (trim s)) /\
  (forall canon, TimeForm (trim s) canon ->
                 WeatherExcel.normalizeTime (Str s) = canon /\
                 Weather.normalizeHHMM s = canon /\
                 normalizeHHMM (Str s) = Some canon).
Proof.
  split; [ | split ].
  - unfold noDatePattern, WeatherExcel.normalizeDate. rewrite !andb_true_iff.
    intros ((N1 & N2) & N3). destruct s as [|c s]; [ reflexivity | ].
    cbn [truthy isEmpty negb ToString]. cbv iota.
    apply negb_true_iff in N1. rewrite N1.
    destruct (WeatherExcel.reSlashMon _); [ discriminate | ].
    destruct (WeatherExcel.reNumeric _); [ discriminate | reflexivity ].
  - unfold noTimePattern. rewrite andb_true_iff. intros (N1 & N2).
    destruct (reHMM (trim s)) eqn:R1; [ discriminate | ].
    destruct (reHMMSS (trim s)) eqn:R2; [ discriminate | ].
    destruct s as [|c s]; [ repeat split | ].
    unfold WeatherExcel.normalizeTime, Weather.normalizeHHMM, normalizeHHMM,
           WeatherExcel.reHHMM, WeatherExcel.reTime, Weather.reTime.
    cbn [truthy isEmpty negb ToString isBlank]. cbv iota.
    rewrite (reHHMM_of_reHMM _ R1), R1, R2. repeat split.
  - intros canon F. destruct (TimeForm_matches _ _ F) as (Ne & E1 & E2 & E3).
    apply trim_nonempty in Ne. destruct s as [|c s]; [ discriminate Ne | ].
    unfold WeatherExcel.normalizeTime, Weather.normalizeHHMM, normalizeHHMM.
    cbn [truthy isEmpty negb ToString isBlank]. cbv iota.
    repeat split; assumption.
Qed.

End WithBuiltins.

(** The theorem on " 7:05:59 " (a time with seconds, between spaces) and on
    "n/a" (neither a date nor a time). *)
Lemma normalization_of_dates_and_times_witness :
  WeatherExcel.normalizeTime (B := Example.builtins) (Str " 7:05:59 ") = "07:05" /\
  normalizeHHMM (B := Example.builtins) (Str " 7:05:59 ") = Some "07:05" /\
  WeatherExcel.normalizeDate (B := Example.builtins) (Str "n/a") = "n/a" /\
  normalizeHHMM (B := Example.builtins) (Str "n/a") = Some "n/a".
Proof.
  pose proof (normalization_of_dates_and_times (B := Example.builtins) " 7:05:59 ") as T.
  pose proof (normalization_of_dates_and_times (B := Example.builtins) "n/a") as U.
  destruct T as (_ & _ & T). destruct U as (U1 & U2 & _).
  destruct (T "07:05" (TimeForm_HMMSS "7" "0" "5" "5" "9"
                         eq_refl eq_refl eq_refl eq_refl eq_refl)) as (T1 & _ & T3).
  destruct (U2 eq_refl) as (_ & _ & U3).
  exact (conj T1 (conj T3 (conj (U1 eq_refl) U3))).
Defined.

(** C9 as stated fails on input with surrounding whitespace: "  soon "
    matches no date pattern, trimmed or not, and [normalizeDate] returns
    "soon", not the input; " late " matches no time pattern and
    [normalizeTime] returns "late"; and the meter validator's
    [normalizeHHMM] returns null for the empty string. *)
Lemma unmatched_input_is_trimmed :
  noDatePattern "  soon " = true /\ noDatePattern (trim "  soon ") = true /\
  WeatherExcel.normalizeDate (B := Example.builtins) (Str "  soon ") = "soon" /\
  WeatherExcel.normalizeDate (B := Example.builtins) (Str "  soon ") <> "  soon " /\
  noTimePattern " late " = true /\ noTimePattern (trim " late ") = true /\
  WeatherExcel.normalizeTime (B := Example.builtins) (Str " late ") = "late" /\
  WeatherExcel.normalizeTime (B := Example.builtins) (Str " late ") <> " late " /\
  normalizeHHMM (B := Example.builtins) (Str " late ") = Some "late" /\
  normalizeHHMM (B := Example.builtins) (Str "") = None.
Proof.
  repeat split; try (vm_compute; discriminate).
Qed.

End Normalization.

(* ------------------------------------------------------------------ *)
(** ** C7: validating again                                             *)
(* ------------------------------------------------------------------ *)

Module Revalidation.
Import Js Spec JsFacts MeterFacts.

Lemma reTime_TimeForm (t h mm : string) :
  Weather.reTime t = Some (h, mm) -> exists canon, TimeForm t canon.
Proof.
  unfold Weather.reTime, Meter.reHMM, Meter.reHMMSS. intro H.
  destruct (list_ascii_of_string t)
    as [|c1 [|c2 [|c3 [|c4 [|c5 [|c6 [|c7 [|c8 [|x l]]]]]]]]] eqn:E;
    try discriminate H; apply string_of_list_eq in E; cbn [string_of_list_ascii] in E;
    subst t.
  - destruct (isDigit c1) eqn:D1; [ | discriminate H ].
    destruct (c2 =? ":")%char eqn:C; [ | discriminate H ].
    destruct (isDigit c3) eqn:D3; [ | discriminate H ].
    destruct (isDigit c4) eqn:D4; [ | discriminate H ].
    apply Ascii.eqb_eq in C. subst c2. eexists. apply (TimeForm_HMM c1 c3 c4); assumption.
  - destruct (isDigit c1) eqn:D1; [ | discriminate H ].
    destruct (isDigit c2) eqn:D2; [ | discriminate H ].
    destruct (c3 =? ":")%char eqn:C; [ | discriminate H ].
    destruct (isDigit c4) eqn:D4; [ | discriminate H ].
    destruct (isDigit c5) eqn:D5; [ | discriminate H ].
    apply Ascii.eqb_eq in C. subst c3. eexists.
    apply (TimeForm_HHMM c1 c2 c4 c5); assumption.
  - destruct (isDigit c1) eqn:D1; [ | discriminate H ].
    destruct (c2 =? ":")%char eqn:C; [ | discriminate H ].
    destruct (isDigit c3) eqn:D3; [ | discriminate H ].
    destruct (isDigit c4) eqn:D4; [ | discriminate H ].
    destruct (c5 =? ":")%char eqn:C'; [ | discriminate H ].
    destruct (isDigit c6) eqn:D6; [ | discriminate H ].
    destruct (isDigit c7) eqn:D7; [ | discriminate H ].
    apply Ascii.eqb_eq in C, C'. subst c2 c5. eexists.
    apply (TimeForm_HMMSS c1 c3 c4 c6 c7); assumption.
  - destruct (isDigit c1) eqn:D1; [ | discriminate H ].
    destruct (isDigit c2) eqn:D2; [ | discriminate H ].
    destruct (c3 =? ":")%char eqn:C; [ | discriminate H ].
    destruct (isDigit c4) eqn:D4; [ | discriminate H ].
    destruct (isDigit c5) eqn:D5; [ | discriminate H ].
    destruct (c6 =? ":")%char eqn:C'; [ | discriminate H ].
    destruct (isDigit c7) eqn:D7; [ | discriminate H ].
    destruct (isDigit c8) eqn:D8; [ | discriminate H ].
    apply Ascii.eqb_eq in C, C'. subst c3 c6. eexists.
    apply (TimeForm_HHMMSS c1 c2 c4 c5 c7 c8); assumption.
Qed.

Lemma trim_HHMM (h1 h2 m1 m2 : ascii) :
  isDigit h1 = true -> isDigit m2 = true ->
  trim (Meter.str2 h1 h2 ++ ":" ++ Meter.str2 m1 m2) = Meter.str2 h1 h2 ++ ":" ++ Meter.str2 m1 m2.
Proof.
  intros D1 D2. apply isDigit_not_space in D1, D2.
  unfold trim, Meter.str2. cbn [append trimStart]. rewrite D1.
  cbn [trimEnd]. rewrite D2. reflexivity.
Qed.

Lemma TimeForm_canon (t canon : string) :
  TimeForm t canon -> TimeForm canon canon /\ trim canon = canon.
Proof.
  assert (Z : isDigit "0" = true) by reflexivity.
  intros [h m1 m2 Dh D1 D2 | h1 h2 m1 m2 Dh1 Dh2 D1 D2
          | h m1 m2 s1 s2 Dh D1 D2 S1 S2 | h1 h2 m1 m2 s1 s2 Dh1 Dh2 D1 D2 S1 S2].
  - split; [ apply (TimeForm_HHMM "0" h m1 m2) | apply (trim_HHMM "0" h m1 m2) ]; assumption.
  - split; [ apply (TimeForm_HHMM h1 h2 m1 m2) | apply (trim_HHMM h1 h2 m1 m2) ]; assumption.
  - split; [ apply (TimeForm_HHMM "0" h m1 m2) | apply (trim_HHMM "0" h m1 m2) ]; assumption.
  - split; [ apply (TimeForm_HHMM h1 h2 m1 m2) | apply (trim_HHMM h1 h2 m1 m2) ]; assumption.
Qed.

(** The weather validator's time normalization is idempotent. *)
Lemma normalizeHHMM_fix (x : string) :
  Weather.normalizeHHMM (trim (Weather.normalizeHHMM (trim x)))
  = Weather.normalizeHHMM (trim x).
Proof.
  unfold Weather.normalizeHHMM at 2 3.
  destruct (isEmpty (trim x)) eqn:Em.
  - destruct (trim x); [ reflexivity | discriminate Em ].
  - rewrite trim_idem. destruct (Weather.reTime (trim x)) as [[h mm]|] eqn:R.
    + destruct (reTime_TimeForm _ _ _ R) as (canon & F).
      destruct (Normalization.TimeForm_matches _ _ F) as (_ & _ & _ & E).
      rewrite R in E. rewrite E.
      destruct (TimeForm_canon _ _ F) as (Fc & Tc).
      destruct (Normalization.TimeForm_matches _ _ Fc) as (Ne & _ & _ & E').
      unfold Weather.normalizeHHMM. rewrite Tc, Ne, Tc. exact E'.
    + unfold Weather.normalizeHHMM. rewrite trim_idem, Em, trim_idem, R. reflexivity.
Qed.

Lemma capitalize_idem (a1 a2 a3 : ascii) :
  Weather.capitalize (Weather.capitalize (String a1 (String a2 (String a3 ""))))
  = Weather.capitalize (String a1 (String a2 (String a3 ""))).
Proof.
  unfold Weather.capitalize. cbn.
  rewrite toUpper_idem, !toLower_idem. reflexivity.
Qed.

(** The weather validator's date normalization is idempotent. *)
Lemma normalizeDDMMMYY_fix (x : string) :
  Weather.normalizeDDMMMYY (trim (Weather.normalizeDDMMMYY (trim x)))
  = Weather.normalizeDDMMMYY (trim x).
Proof.
  unfold Weather.normalizeDDMMMYY at 2 3.
  destruct (isEmpty (trim x)) eqn:Em.
  - destruct (trim x); [ reflexivity | discriminate Em ].
  - rewrite trim_idem. destruct (Weather.reDDMMMYY (trim x)) as [[[d m] y]|] eqn:R.
    + unfold Weather.reDDMMMYY in R.
      destruct (list_ascii_of_string (trim x))
        as [|d1 [|d2 [|h1 [|a1 [|a2 [|a3 [|h2 [|y1 [|y2 [|z l]]]]]]]]]]; try discriminate R.
      destruct (isDigit d1) eqn:D1; [ | discriminate R ].
      destruct (isDigit d2) eqn:D2; [ | discriminate R ].
      destruct (h1 =? "-")%char eqn:H1; [ | discriminate R ].
      destruct (isAlpha a1) eqn:A1; [ | discriminate R ].
      destruct (isAlpha a2) eqn:A2; [ | discriminate R ].
      destruct (isAlpha a3) eqn:A3; [ | discriminate R ].
      destruct (h2 =? "-")%char eqn:H2; [ | discriminate R ].
      destruct (isDigit y1) eqn:Y1; [ | discriminate R ].
      destruct (isDigit y2) eqn:Y2; [ | discriminate R ].
      cbn [andb] in R. injection R as <- <- <-.
      set (c := Weather.capitalize (String a1 (String a2 (String a3 "")))).
      assert (Ec : c = String (toUpper a1) (String (toLower a2) (String (toLower a3) "")))
        by reflexivity.
      assert (T : trim (Meter.str2 d1 d2 ++ "-" ++ c ++ "-" ++ Meter.str2 y1 y2)
                  = Meter.str2 d1 d2 ++ "-" ++ c ++ "-" ++ Meter.str2 y1 y2).
      { rewrite Ec. unfold trim, Meter.str2. cbn [append trimStart].
        rewrite (isDigit_not_space d1 D1). cbn [trimEnd].
        rewrite (isDigit_not_space y2 Y2). reflexivity. }
      unfold Weather.normalizeDDMMMYY. rewrite T.
      replace (isEmpty (Meter.str2 d1 d2 ++ "-" ++ c ++ "-" ++ Meter.str2 y1 y2)) with false
        by reflexivity.
      rewrite T.
      assert (R' : Weather.reDDMMMYY (Meter.str2 d1 d2 ++ "-" ++ c ++ "-" ++ Meter.str2 y1 y2)
                   = Some (Meter.str2 d1 d2, c, Meter.str2 y1 y2)).
      { rewrite Ec. unfold Weather.reDDMMMYY, Meter.str2.
        cbn -[isDigit isAlpha toUpper toLower].
        rewrite D1, D2, Y1, Y2, (toUpper_alpha a1 A1), (toLower_alpha a2 A2),
          (toLower_alpha a3 A3). reflexivity. }
      rewrite R'. subst c. rewrite capitalize_idem. reflexivity.
    + unfold Weather.normalizeDDMMMYY. rewrite trim_idem, Em, trim_idem, R. reflexivity.
Qed.

Section WithBuiltins.
Context {B : Builtins}.

Lemma nullish_Str (s : string) (v : value) : Str s ?? v = Str s.
Proof. reflexivity. Qed.

Lemma dateOf_normalizedRow (row : obj) :
  Weather.dateOf (Weather.normalizedRow row) = Weather.dateOf row.
Proof.
  unfold Weather.dateOf at 1. unfold Weather.rawDate, Weather.normalizedRow.
  rewrite (get_set_other _ "Time" "Date") by discriminate.
  rewrite (get_set_other _ "Time" "date") by discriminate.
  rewrite get_set_same, (get_set_other _ "Date" "date") by discriminate.
  unfold Weather.orField. destruct (isEmpty (Weather.dateOf row)) eqn:Em.
  - reflexivity.
  - rewrite !nullish_Str. cbn [truthy]. rewrite Em. cbn [negb ToString].
    unfold Weather.dateOf in *. destruct (truthy (Weather.rawDate row)).
    + apply normalizeDDMMMYY_fix.
    + discriminate Em.
Qed.

Lemma timeOf_normalizedRow (row : obj) :
  Weather.timeOf (Weather.normalizedRow row) = Weather.timeOf row.
Proof.
  unfold Weather.timeOf at 1. unfold Weather.rawTime, Weather.normalizedRow.
  rewrite get_set_same.
  rewrite (get_set_other _ "Time" "time") by discriminate.
  rewrite (get_set_other _ "Date" "time") by discriminate.
  unfold Weather.orField. destruct (isEmpty (Weather.timeOf row)) eqn:Em.
  - reflexivity.
  - rewrite !nullish_Str. cbn [truthy]. rewrite Em. cbn [negb ToString].
    unfold Weather.timeOf in *. destruct (truthy (Weather.rawTime row)).
    + apply normalizeHHMM_fix.
    + discriminate Em.
Qed.

Lemma sensorErrors_normalizedRow (row : obj) :
  Weather.sensorErrors (Weather.normalizedRow row) = Weather.sensorErrors row.
Proof.
  unfold Weather.sensorErrors, Weather.normalizedRow.
  rewrite !(get_set_other _ "Time") by discriminate.
  rewrite !(get_set_other _ "Date") by discriminate. reflexivity.
Qed.

Lemma rowErrorsOf_normalizedRow (seen : list string) (row : obj) :
  Weather.rowErrorsOf seen (Weather.normalizedRow row) = Weather.rowErrorsOf seen row.
Proof.
  unfold Weather.rowErrorsOf.
  rewrite dateOf_normalizedRow, timeOf_normalizedRow, sensorErrors_normalizedRow.
  reflexivity.
Qed.

Lemma normalizedRow_idem (row : obj) :
  Weather.normalizedRow (Weather.normalizedRow row) = Weather.normalizedRow row.
Proof.
  unfold Weather.normalizedRow at 1.
  rewrite dateOf_normalizedRow, timeOf_normalizedRow.
  set (D := Weather.orField (Weather.dateOf row) (get row "Date")).
  set (T := Weather.orField (Weather.timeOf row) (get row "Time")).
  assert (LD : lookup (Weather.normalizedRow row) "Date" = Some D).
  { unfold Weather.normalizedRow. rewrite lookup_set_other by discriminate.
    apply lookup_set_same. }
  assert (LT : lookup (Weather.normalizedRow row) "Time" = Some T).
  { unfold Weather.normalizedRow. apply lookup_set_same. }
  assert (GD : get (Weather.normalizedRow row) "Date" = D) by (unfold get; rewrite LD; reflexivity).
  assert (GT : get (Weather.normalizedRow row) "Time" = T) by (unfold get; rewrite LT; reflexivity).
  rewrite GD, GT.
  assert (ED : Weather.orField (Weather.dateOf row) D = D).
  { subst D. unfold Weather.orField. destruct (isEmpty _); reflexivity. }
  assert (ET : Weather.orField (Weather.timeOf row) T = T).
  { subst T. unfold Weather.orField. destruct (isEmpty _); reflexivity. }
  rewrite ED, ET, (set_same_value _ _ _ LD). apply set_same_value, LT.
Qed.

Lemma weatherLoop_normalized (rs : list obj) :
  forall seen index,
    Weather.validateLoop seen index (map Weather.normalizedRow rs)
    = Weather.validateLoop seen index rs.
Proof.
  induction rs as [|row rs IH]; intros seen index; [ reflexivity | ].
  cbn [map Weather.validateLoop].
  rewrite rowErrorsOf_normalizedRow, dateOf_normalizedRow, timeOf_normalizedRow,
    normalizedRow_idem, IH. reflexivity.
Qed.

Lemma weatherLoop_rows (rs : list obj) :
  forall seen index,
    fst (Weather.validateLoop seen index rs) = map Weather.normalizedRow rs.
Proof.
  induction rs as [|row rs IH]; intros seen index; simpl; [ reflexivity | ].
  rewrite IH. reflexivity.
Qed.

Lemma weather_idempotent (rs : list obj) :
  Weather.validateRows (Weather.rows (Weather.validateRows rs)) = Weather.validateRows rs.
Proof.
  assert (E : Weather.rows (Weather.validateRows rs) = map Weather.normalizedRow rs)
    by (unfold Weather.validateRows; apply weatherLoop_rows).
  rewrite E. unfold Weather.validateRows. rewrite weatherLoop_normalized. reflexivity.
Qed.

(** The date that the meter validator reads is untouched by enrichment. *)
Lemma get_enrich_Date (wbd : list (string * list obj)) (row : obj) :
  get (MeterValidate.enrichRow wbd row) "Date" = get row "Date".
Proof.
  apply get_enrich_other; try discriminate; intros [r E]; discriminate E.
Qed.

Lemma uniqueDates_enriched (wbd : list (string * list obj)) (rs : list obj) :
  MeterValidate.uniqueDates (map (MeterValidate.enrichRow wbd) rs)
  = MeterValidate.uniqueDates rs.
Proof.
  unfold MeterValidate.uniqueDates. rewrite map_map. f_equal. f_equal.
  apply map_ext. intro row. unfold MeterValidate.preloadDate.
  rewrite get_enrich_Date. reflexivity.
Qed.

Lemma rowPoints_enriched (wbd wbd' : list (string * list obj)) (row : obj) :
  MeterValidate.rowPoints wbd (MeterValidate.enrichRow wbd' row)
  = MeterValidate.rowPoints wbd row.
Proof.
  unfold MeterValidate.rowPoints, MeterValidate.rowDate.
  rewrite get_enrich_Date. reflexivity.
Qed.

(** C7, as the code has it. Validation is a function of the rows and of the
    weather snapshot, so a second run on the same input gives the same
    result. Weather validation run on the rows that a first run returned
    gives the same result as the first run: the same RowError list and the
    same rows. Meter validation run on the rows that a first run returned
    gives every row the same Plant Start Time, Plant Stop Time and Total as
    the first run. *)
Theorem validation_again (weatherRows allWeatherRows meterRows : list obj) :
  Weather.validateRows (Weather.rows (Weather.validateRows weatherRows))
  = Weather.validateRows weatherRows /\
  map plantFields
      (Meter.rows (MeterValidate.validateRows allWeatherRows
                     (Meter.rows (MeterValidate.validateRows allWeatherRows meterRows))))
  = map plantFields (Meter.rows (MeterValidate.validateRows allWeatherRows meterRows)).
Proof.
  split; [ apply weather_idempotent | ].
  rewrite !validateRows_rows, uniqueDates_enriched, !map_map.
  apply map_ext. intro row. unfold plantFields.
  rewrite !get_enrich_start, !get_enrich_stop, !get_enrich_total, !rowPoints_enriched.
  reflexivity.
Qed.

End WithBuiltins.

(** C7 as stated fails for meter validation run on its own output: the row
    with a date and nothing else is reported with the either/or defect by
    the first run, and with no defect by the run on the returned rows, where
    the derived GSS Export Total = 0 counts as a reading; and the row whose
    export reading went down from 150 to 100 has no defect in the first run
    and three in the second, one for each derived column that is negative. *)
Lemma second_run_loses_a_defect :
  Meter.rowErrors (MeterValidate.validateRows (B := Example.builtins) [] [Example.bareRow])
  = [{| Meter.rowNumber := 2; Meter.errors := [MeterValidate.msgEither] |}] /\
  get (MeterValidate.enrichRow (B := Example.builtins) [] Example.bareRow) "GSS Export Total"
  = Num 0%float /\
  Meter.rowErrors
    (MeterValidate.validateRows (B := Example.builtins) []
       (Meter.rows (MeterValidate.validateRows (B := Example.builtins) [] [Example.bareRow])))
  = [] /\
  Meter.rowErrors
    (MeterValidate.validateRows (B := Example.builtins) []
       (Meter.rows (MeterValidate.validateRows (B := Example.builtins) [] [Example.bareRow])))
  <> Meter.rowErrors (MeterValidate.validateRows (B := Example.builtins) [] [Example.bareRow]) /\
  Meter.rowErrors
    (MeterValidate.validateRows (B := Example.builtins) [] [Example.decreasingRow])
  = [] /\
  Meter.rowErrors
    (MeterValidate.validateRows (B := Example.builtins) []
       (Meter.rows (MeterValidate.validateRows (B := Example.builtins) []
                      [Example.decreasingRow])))
  = [{| Meter.rowNumber := 2;
        Meter.errors := ["Export Total 1 cannot be negative";
                         "GSS Export Total cannot be negative";
                         "Net Export @GSS cannot be negative"] |}].
Proof.
  repeat split. vm_compute. discriminate.
Qed.

End Revalidation.

(* ------------------------------------------------------------------ *)
(** ** Time cells and clock times                                       *)
(* ------------------------------------------------------------------ *)

Module TimeCells.
Import Js Meter Spec JsFacts.

(** A time form has one padded HH:MM, of five characters. *)
Lemma TimeForm_functional (s t t' : string) : TimeForm s t -> TimeForm s t' -> t = t'.
Proof.
  intros F F'.
  destruct (Normalization.TimeForm_matches _ _ F) as (_ & _ & E & _).
  destruct (Normalization.TimeForm_matches _ _ F') as (_ & _ & E' & _).
  congruence.
Qed.

Lemma TimeForm_length (s t : string) : TimeForm s t -> String.length t = 5.
Proof. intros []; reflexivity. Qed.

Lemma ValidClock_valid (t : string) : ValidClock t <-> (isValidHHMM (Str t) = true /\ String.length t <= 5).
Proof.
  split.
  - intros (h1 & h2 & m1 & m2 & -> & D1 & D2 & D3 & D4 & Hh & Hm).
    split; [ | simpl; lia ].
    cbn [isValidHHMM]. rewrite (Revalidation.trim_HHMM h1 h2 m1 m2 D1 D4).
    unfold reHHMM. cbn [str2 append list_ascii_of_string].
    rewrite D1, D2, D3, D4. cbn [andb Ascii.eqb Bool.eqb]. cbv zeta.
    fold (str2 h1 h2). fold (str2 m1 m2).
    apply Nat.leb_le in Hh, Hm. rewrite Hh, Hm. reflexivity.
  - intros (V & L).
    destruct (TotalTime.validHHMM_shape t V L)
      as (h1 & h2 & m1 & m2 & -> & D1 & D2 & D3 & D4 & Hh & Hm).
    exists h1, h2, m1, m2. repeat split; assumption.
Qed.

(** What [normalizeHHMM] makes of the text of a cell. *)
Lemma normalized_text (s : string) :
  (exists t, TimeForm s t /\
             match reHMMSS s with
             | Some (h, m) => Some (pad2 (natOfDigits h) ++ ":" ++ m)
             | None => match reHMM s with
                       | Some (h, m) => Some (pad2 (natOfDigits h) ++ ":" ++ m)
                       | None => Some s
                       end
             end = Some t) \/
  ((forall c, ~ TimeForm s c) /\ reHMMSS s = None /\ reHMM s = None).
Proof.
  destruct (Weather.reTime s) as [[h m]|] eqn:R.
  - left. destruct (Revalidation.reTime_TimeForm _ _ _ R) as (t & F).
    exists t. split; [ exact F | ].
    exact (proj1 (proj2 (proj2 (Normalization.TimeForm_matches _ _ F)))).
  - right. unfold Weather.reTime in R.
    destruct (reHMM s) as [hm|] eqn:R1; [ discriminate R | ].
    split; [ | split; [ exact R | reflexivity ] ].
    intros c F. destruct (Normalization.TimeForm_matches _ _ F) as (_ & _ & _ & E).
    inversion F as [h m1 m2 Dh D1 D2 E1 E2 | h1 h2 m1 m2 Dh1 Dh2 D1 D2 E1 E2
                    | h m1 m2 s1 s2 Dh D1 D2 S1 S2 E1 E2
                    | h1 h2 m1 m2 s1 s2 Dh1 Dh2 D1 D2 S1 S2 E1 E2]; subst s.
    + unfold reHMM in R1. cbn -[isDigit] in R1. rewrite Dh, D1, D2 in R1. discriminate R1.
    + unfold reHMM in R1. cbn -[isDigit] in R1. rewrite Dh1, Dh2, D1, D2 in R1.
      discriminate R1.
    + unfold reHMMSS in R. cbn -[isDigit] in R. rewrite Dh, D1, D2, S1, S2 in R.
      discriminate R.
    + unfold reHMMSS in R. cbn -[isDigit] in R. rewrite Dh1, Dh2, D1, D2, S1, S2 in R.
      discriminate R.
Qed.

Section WithBuiltins.
Context {B : Builtins}.

(** The test that the validator applies to a start or stop cell. *)
Lemma validCell_spec (v : value) :
  truthyStr (normalizeHHMM v) && isValidHHMMopt (normalizeHHMM v) = true <->
  ValidTimeCell v.
Proof.
  unfold ValidTimeCell, normalizeHHMM.
  destruct (isBlank v); [ simpl; split; [ discriminate | intros ([=] & _) ] | ].
  set (s := trim (ToString v)).
  destruct (normalized_text s) as [(t & F & ->) | (N & -> & ->)].
  - cbn [truthyStr isValidHHMMopt].
    assert (Ne : isEmpty t = false).
    { pose proof (TimeForm_length _ _ F). destruct t; [ discriminate | reflexivity ]. }
    rewrite Ne. cbn [negb andb]. split.
    + intro V. split; [ reflexivity | ]. exists t. split; [ exact F | ].
      apply ValidClock_valid. split; [ exact V | ].
      rewrite (TimeForm_length _ _ F). lia.
    + intros (_ & t' & F' & V). rewrite (TimeForm_functional _ _ _ F F').
      apply ValidClock_valid in V. exact (proj1 V).
  - cbn [truthyStr isValidHHMMopt]. split.
    + intro V. apply andb_prop in V. destruct V as (_ & V). exfalso.
      cbn [isValidHHMM] in V. unfold s in V at 1. rewrite trim_idem in V. fold s in V.
      destruct (reHHMM s) as [[h m]|] eqn:R; [ | discriminate V ].
      assert (R1 : reHMM s <> None).
      { intro R1. apply Normalization.reHHMM_of_reHMM in R1. congruence. }
      destruct (normalized_text s) as [(t & F & _) | (_ & _ & R1')];
        [ exact (N t F) | exact (R1 R1') ].
    + intros (_ & t & F & _). exfalso. exact (N t F).
Qed.

Lemma hasStartStop_spec (row : obj) :
  MeterValidate.hasStartStop row = true <-> ValidStartStop row.
Proof.
  unfold MeterValidate.hasStartStop, ValidStartStop.
  rewrite <- !validCell_spec.
  unfold MeterValidate.startTimeUser, MeterValidate.stopTimeUser, startCell, stopCell.
  destruct (truthyStr _), (truthyStr _), (isValidHHMMopt _), (isValidHHMMopt _);
    simpl; intuition congruence.
Qed.

End WithBuiltins.
End TimeCells.

(* ------------------------------------------------------------------ *)
(** ** The samples that the calculator keeps                            *)
(* ------------------------------------------------------------------ *)

Module Samples.
Import Js Meter Spec SampleTerms JsFacts TimeCells.

Lemma ReadsAs_functional (s t t' : string) : ReadsAs s t -> ReadsAs s t' -> t = t'.
Proof.
  intros [F | (N & ->)] [F' | (N' & ->)].
  - exact (TimeForm_functional _ _ _ F F').
  - exfalso. exact (N' _ F).
  - exfalso. exact (N _ F').
  - reflexivity.
Qed.

Lemma substring_whole (n : nat) (s : string) :
  String.length s <= n -> substring 0 n s = s.
Proof.
  revert s. induction n as [|n IH]; intros [|c s] L; simpl in *; try reflexivity; try lia.
  rewrite IH by lia. reflexivity.
Qed.

Lemma minutes_agree (p : Point) :
  ValidClock (time p) -> minutesOf p = minutesAt p.
Proof.
  intros (h1 & h2 & m1 & m2 & E & D1 & D2 & D3 & D4 & _).
  unfold minutesOf, minutesAt. rewrite E.
  change (str2 h1 h2 ++ ":" ++ str2 m1 m2)
    with (String h1 (String h2 (String ":" (String m1 (String m2 EmptyString))))).
  rewrite TotalTime.timeToMinutes_shape by assumption. reflexivity.
Qed.

Lemma sorted_by_minutes (pts : list Point) :
  Forall (fun p => ValidClock (time p)) pts ->
  Ascending pts ->
  StronglySorted (fun a b => (minutesAt a <= minutesAt b)%Z) pts.
Proof.
  unfold Ascending. intros V S. induction S as [|p pts S IH F]; [ constructor | ].
  inversion V as [|? ? Vp Vl]; subst. constructor; [ apply IH; exact Vl | ].
  rewrite Forall_forall in *. intros q Hq.
  rewrite <- (minutes_agree p Vp), <- (minutes_agree q (Vl q Hq)). apply F. exact Hq.
Qed.

Section WithBuiltins.
Context {B : Builtins}.

Lemma pointOf_time (tRaw : value) (x : float) :
  ReadsAs (trim (ToString tRaw)) (time (pointOf tRaw x)) /\
  String.length (time (pointOf tRaw x)) <= 5.
Proof.
  unfold pointOf, normalizeHHMM. cbn [time isBlank ToString].
  set (s := trim (ToString tRaw)).
  destruct (isEmpty (ToString tRaw)) eqn:Em.
  - assert (Es : s = "") by (unfold s; destruct (ToString tRaw); [ reflexivity | discriminate Em ]).
    rewrite Es. split; [ | simpl; lia ]. right. split; [ | reflexivity ].
    intros c F. destruct (Normalization.TimeForm_matches _ _ F) as (Ne & _). discriminate Ne.
  - destruct (normalized_text s) as [(t & F & ->) | (N & -> & ->)].
    + pose proof (TimeForm_length _ _ F) as L.
      assert (Ne : isEmpty t = false) by (destruct t; [ discriminate L | reflexivity ]).
      rewrite Ne. unfold sliceTo. rewrite substring_whole by lia.
      split; [ left; exact F | lia ].
    + assert (E : (if isEmpty s then "" else sliceTo 5 s) = substring 0 5 s).
      { destruct s; reflexivity. }
      rewrite E. split; [ right; split; [ exact N | reflexivity ] | apply substring_0_length ].
Qed.

Lemma pointOf_reads (tRaw : value) (x : float) :
  (keepPoint (pointOf tRaw x) = true ->
   KeptAs (trim (ToString tRaw)) x (pointOf tRaw x)) /\
  (keepPoint (pointOf tRaw x) = false -> Discarded (trim (ToString tRaw)) x).
Proof.
  destruct (pointOf_time tRaw x) as (R & L).
  assert (Fx : isFinite (poa (pointOf tRaw x)) = isFinite x).
  { cbn [pointOf poa]. destruct (isFinite x) eqn:E; [ exact E | reflexivity ]. }
  unfold keepPoint. rewrite Fx. split.
  - intro K. apply andb_prop in K. destruct K as (V & F).
    split; [ exact R | ]. split; [ apply ValidClock_valid; auto | ].
    split; [ exact F | ]. cbn [pointOf poa]. rewrite F. reflexivity.
  - intro K. apply andb_false_iff in K. destruct K as [V | F]; [ left | right; exact F ].
    intros t R' C. rewrite (ReadsAs_functional _ _ _ R' R) in C.
    apply ValidClock_valid in C. destruct C as (C & _). congruence.
Qed.

Lemma kept_samples (text : obj -> string) (poaOf : obj -> float)
      (toPoint : obj -> Point) (cell : obj -> value) :
  (forall w, toPoint w = pointOf (cell w) (poaOf w)) ->
  (forall w, text w = trim (ToString (cell w))) ->
  forall ws, KeptSamples text poaOf ws (filter keepPoint (map toPoint ws)) /\
             Forall (fun p => ValidClock (time p)) (filter keepPoint (map toPoint ws)).
Proof.
  intros P T. induction ws as [|w ws (IH1 & IH2)]; [ split; constructor | ].
  cbn [map filter]. rewrite P.
  destruct (pointOf_reads (cell w) (poaOf w)) as (K & D). rewrite <- T in K, D.
  destruct (keepPoint (pointOf (cell w) (poaOf w))) eqn:E.
  - split; [ apply Kept_keep; auto | ]. constructor; [ | exact IH2 ].
    exact (proj1 (proj2 (K eq_refl))).
  - split; [ apply Kept_drop; auto | exact IH2 ].
Qed.

(** The calculator on the samples [ws], as each service runs it. *)
Lemma plant_rule (text : obj -> string) (poaOf : obj -> float)
      (toPoint : obj -> Point) (cell : obj -> value) (ws : list obj) :
  (forall w, toPoint w = pointOf (cell w) (poaOf w)) ->
  (forall w, text w = trim (ToString (cell w))) ->
  let pts := sortPoints (filter keepPoint (map toPoint ws)) in
  exists kept,
    KeptSamples text poaOf ws kept /\
    PlantRule kept pts (plantStartOf pts) (plantStopOf pts).
Proof.
  intros P T pts. destruct (kept_samples text poaOf toPoint cell P T ws) as (K & V).
  exists (filter keepPoint (map toPoint ws)). split; [ exact K | ].
  destruct (PlantFacts.plant_spec (map toPoint ws)) as (Hp & Hs & H1 & H2 & _).
  fold pts in Hp, Hs, H1, H2.
  split; [ exact Hp | ]. split; [ | split; [ exact H1 | exact H2 ] ].
  apply sorted_by_minutes; [ | exact Hs ].
  rewrite Forall_forall in *. intros p Hin. apply V.
  apply (Permutation_in _ (Permutation_sym Hp)). exact Hin.
Qed.

Lemma validation_points (ws : list obj) :
  let pts := MeterValidate.pointsOf ws in
  exists kept,
    KeptSamples validationTime validationPoa ws kept /\
    PlantRule kept pts (plantStartOf pts) (plantStopOf pts).
Proof.
  apply (plant_rule validationTime validationPoa MeterValidate.toPoint
           (fun w => get w "Time" ?? get w "time" ?? Str "")); reflexivity.
Qed.

Lemma submission_points (ws : list obj) :
  let pts := MeterSubmit.pointsOf ws in
  exists kept,
    KeptSamples submissionTime submissionPoa ws kept /\
    PlantRule kept pts (plantStartOf pts) (plantStopOf pts).
Proof.
  apply (plant_rule submissionTime submissionPoa MeterSubmit.toPoint
           (fun w => get w "time" ?? get w "Time" ?? Str "")); reflexivity.
Qed.

End WithBuiltins.
End Samples.

(* ------------------------------------------------------------------ *)
(** ** The samples of a date                                            *)
(* ------------------------------------------------------------------ *)

Module SampleDates.
Import Js Meter Spec SampleTerms JsFacts.

Lemma in_setOf (l : list string) (x : string) : In x (setOf l) <-> In x l.
Proof.
  unfold setOf.
  assert (G : forall acc,
             In x (fold_left (fun acc x => if existsb (String.eqb x) acc then acc
                                           else (acc ++ [x])%list) l acc)
             <-> In x acc \/ In x l).
  { induction l as [|a l IH]; intro acc; cbn [fold_left].
    - simpl. tauto.
    - rewrite IH. destruct (existsb (String.eqb a) acc) eqn:E.
      + apply existsb_exists in E. destruct E as (y & Hy & Ey).
        apply String.eqb_eq in Ey. subst y. simpl. intuition (subst; auto).
      + rewrite in_app_iff. simpl. tauto. }
  rewrite G. simpl. tauto.
Qed.

(** The first date of [dates] that a sample matches is [d] exactly when the
    sample matches [d], if it matches no other date of [dates] together with
    [d]. *)
Lemma find_only (f : string -> bool) (dates : list string) (d : string) :
  In d dates ->
  (forall d', In d' dates -> d' <> d -> f d' = true -> f d = true -> False) ->
  match find f dates with
  | Some d' => (d' =? d)%string
  | None => false
  end = f d.
Proof.
  induction dates as [|a l IH]; intros Hin Hx; [ destruct Hin | ].
  cbn [find]. destruct (f a) eqn:Fa.
  - destruct (a =? d)%string eqn:E.
    + apply String.eqb_eq in E. subst a. symmetry. exact Fa.
    + apply String.eqb_neq in E. destruct (f d) eqn:Fd; [ | reflexivity ].
      exfalso. apply (Hx a); auto. left. reflexivity.
  - destruct (string_dec a d) as [-> | Na].
    + rewrite Fa. destruct (find f l) as [d'|] eqn:F; [ | reflexivity ].
      apply find_some in F. destruct F as (Hd' & Fd').
      apply String.eqb_neq. intros ->. congruence.
    + apply IH.
      * destruct Hin as [-> | Hin]; [ contradiction | exact Hin ].
      * intros d' Hd'. apply Hx. right. exact Hd'.
Qed.

(** The shape of a text that passes the date pattern. *)
Lemma reDDMMYYYY_shape (d : string) :
  reDDMMYYYY d = true ->
  exists d1 d2 m1 m2 y1 y2 y3 y4,
    isDigit d1 = true /\ isDigit d2 = true /\ isDigit m1 = true /\ isDigit m2 = true /\
    isDigit y1 = true /\ isDigit y2 = true /\ isDigit y3 = true /\ isDigit y4 = true /\
    d = str2 d1 d2 ++ "-" ++ str2 m1 m2 ++ "-" ++ String y1 (String y2 (str2 y3 y4)).
Proof.
  unfold reDDMMYYYY. intro V.
  destruct (list_ascii_of_string d)
    as [|d1 [|d2 [|h1 [|m1 [|m2 [|h2 [|y1 [|y2 [|y3 [|y4 [|x l]]]]]]]]]]] eqn:E;
    try discriminate V.
  apply string_of_list_eq in E. cbn [string_of_list_ascii] in E. subst d.
  rewrite !andb_true_iff, !Ascii.eqb_eq in V.
  destruct V as (((((((((D1 & D2) & ->) & D3) & D4) & ->) & D5) & D6) & D7) & D8).
  exists d1, d2, m1, m2, y1, y2, y3, y4. repeat split; assumption.
Qed.

Lemma shape_valid (d1 d2 m1 m2 y1 y2 y3 y4 : ascii) :
  isDigit d1 = true -> isDigit d2 = true -> isDigit m1 = true -> isDigit m2 = true ->
  isDigit y1 = true -> isDigit y2 = true -> isDigit y3 = true -> isDigit y4 = true ->
  let d := str2 d1 d2 ++ "-" ++ str2 m1 m2 ++ "-" ++ String y1 (String y2 (str2 y3 y4)) in
  trim d = d /\ reDDMMYYYY d = true.
Proof.
  intros D1 D2 D3 D4 D5 D6 D7 D8 d. split.
  - unfold d, trim, str2. cbn [append trimStart].
    rewrite (isDigit_not_space _ D1). cbn [trimEnd].
    rewrite (isDigit_not_space _ D8). reflexivity.
  - unfold d, reDDMMYYYY. cbn [str2 append list_ascii_of_string].
    rewrite D1, D2, D3, D4, D5, D6, D7, D8. reflexivity.
Qed.

(** The names of the months: three characters each, all different. *)
Lemma month_name (n : nat) :
  1 <= n <= 12 ->
  exists a b c, nth (n - 1) MONTHS "undefined" = String a (String b (String c "")) /\
                nth (n - 1) MONTHS "" = String a (String b (String c "")).
Proof.
  intro R. do 13 (destruct n as [|n]; [ first [ lia | do 3 eexists; split; reflexivity ] | ]).
  lia.
Qed.

Lemma month_name_inj (n n' : nat) :
  1 <= n <= 12 -> 1 <= n' <= 12 ->
  nth (n - 1) MONTHS "undefined" = nth (n' - 1) MONTHS "undefined" -> n = n'.
Proof.
  intros R R' E.
  assert (N : NoDup MONTHS) by (repeat constructor; simpl; intuition discriminate).
  assert (L : List.length MONTHS = 12) by reflexivity.
  pose proof (proj1 (NoDup_nth MONTHS "undefined") N (n - 1) (n' - 1)) as H.
  rewrite L in H. specialize (H ltac:(lia) ltac:(lia) E). lia.
Qed.

Lemma digit_code (c : ascii) : isDigit c = true -> 48 <= nat_of_ascii c <= 57.
Proof.
  intro H. apply isDigit_cases in H. simpl in H.
  repeat (destruct H as [<- | H]; [ vm_compute; split; repeat constructor | ]).
  contradiction.
Qed.

Lemma two_digits_inj (a b a' b' : ascii) :
  isDigit a = true -> isDigit b = true -> isDigit a' = true -> isDigit b' = true ->
  natOfDigits (str2 a b) = natOfDigits (str2 a' b') -> a = a' /\ b = b'.
Proof.
  intros Da Db Da' Db' E.
  apply digit_code in Da, Db, Da', Db'.
  unfold natOfDigits in E. cbn [str2 list_ascii_of_string fold_left] in E.
  assert (Ea : nat_of_ascii a = nat_of_ascii a') by lia.
  assert (Eb : nat_of_ascii b = nat_of_ascii b') by lia.
  split.
  - rewrite <- (ascii_nat_embedding a), <- (ascii_nat_embedding a'), Ea. reflexivity.
  - rewrite <- (ascii_nat_embedding b), <- (ascii_nat_embedding b'), Eb. reflexivity.
Qed.


(** The two conversions of a date DD-MM-YYYY. *)
Lemma iso_of_date (d1 d2 m1 m2 y1 y2 y3 y4 : ascii) :
  isDigit d1 = true -> isDigit d2 = true -> isDigit m1 = true -> isDigit m2 = true ->
  isDigit y1 = true -> isDigit y2 = true -> isDigit y3 = true -> isDigit y4 = true ->
  ddmmyyyyToISO (str2 d1 d2 ++ "-" ++ str2 m1 m2 ++ "-" ++ String y1 (String y2 (str2 y3 y4)))
  = isoForm (str2 d1 d2) (str2 m1 m2) (str2 y1 y2 ++ str2 y3 y4).
Proof.
  intros. unfold ddmmyyyyToISO. rewrite RoundTrip.split_date by assumption. reflexivity.
Qed.

Lemma mon_of_date (d1 d2 m1 m2 y1 y2 y3 y4 : ascii) :
  isDigit d1 = true -> isDigit d2 = true -> isDigit m1 = true -> isDigit m2 = true ->
  isDigit y1 = true -> isDigit y2 = true -> isDigit y3 = true -> isDigit y4 = true ->
  ddmmyyyyToDDMMMYY (str2 d1 d2 ++ "-" ++ str2 m1 m2 ++ "-" ++ String y1 (String y2 (str2 y3 y4)))
  = monForm (str2 d1 d2) (str2 m1 m2) (str2 y1 y2 ++ str2 y3 y4).
Proof.
  intros D1 D2 D3 D4 D5 D6 D7 D8. unfold ddmmyyyyToDDMMMYY, monForm.
  rewrite RoundTrip.split_date by assumption. cbn [piece nth]. unfold numberOfDigits.
  replace (allChars isDigit (str2 m1 m2)) with true
    by (simpl; rewrite D3, D4; reflexivity).
  set (mi := natOfDigits (str2 m1 m2)).
  destruct (Nat.leb_spec 1 mi) as [L1 | L1]; destruct (Nat.leb_spec mi 12) as [L2 | L2];
    cbn [andb].
  - replace (mi =? 0) with false by (symmetry; apply Nat.eqb_neq; lia).
    replace (mi <? 1) with false by (symmetry; apply Nat.ltb_ge; lia).
    replace (12 <? mi) with false by (symmetry; apply Nat.ltb_ge; lia).
    cbn [orb]. destruct (month_name mi (conj L1 L2)) as (a & b & c & -> & ->).
    reflexivity.
  - replace (12 <? mi) with true by (symmetry; apply Nat.ltb_lt; lia).
    rewrite !orb_true_r. reflexivity.
  - replace (mi =? 0) with true by (symmetry; apply Nat.eqb_eq; lia). reflexivity.
  - lia.
Qed.

Section WithBuiltins.
Context {B : Builtins}.

Lemma matchesDate_sample (d dd mm yyyy : string) (w : obj) :
  IsDate d dd mm yyyy -> matchesDate w d = isSampleOf dd mm yyyy w.
Proof.
  intros (d1 & d2 & m1 & m2 & y1 & y2 & y3 & y4 &
          D1 & D2 & D3 & D4 & D5 & D6 & D7 & D8 & -> & -> & -> & ->).
  unfold matchesDate, isSampleOf.
  change (str2 d1 d2 ++ "-" ++ str2 m1 m2 ++ "-" ++ str2 y1 y2 ++ str2 y3 y4)
    with (str2 d1 d2 ++ "-" ++ str2 m1 m2 ++ "-" ++ String y1 (String y2 (str2 y3 y4))).
  rewrite iso_of_date, mon_of_date by assumption. reflexivity.
Qed.

End WithBuiltins.

Lemma date_of_shape (d : string) :
  reDDMMYYYY d = true -> exists dd mm yyyy, IsDate d dd mm yyyy.
Proof.
  intro V. destruct (reDDMMYYYY_shape d V)
    as (d1 & d2 & m1 & m2 & y1 & y2 & y3 & y4 & D1 & D2 & D3 & D4 & D5 & D6 & D7 & D8 & E).
  exists (str2 d1 d2), (str2 m1 m2), (str2 y1 y2 ++ str2 y3 y4).
  exists d1, d2, m1, m2, y1, y2, y3, y4. repeat split; assumption.
Qed.

Lemma date_valid (d dd mm yyyy : string) :
  IsDate d dd mm yyyy -> trim d = d /\ reDDMMYYYY d = true /\ isEmpty d = false.
Proof.
  intros (d1 & d2 & m1 & m2 & y1 & y2 & y3 & y4 &
          D1 & D2 & D3 & D4 & D5 & D6 & D7 & D8 & -> & -> & -> & ->).
  destruct (shape_valid d1 d2 m1 m2 y1 y2 y3 y4 D1 D2 D3 D4 D5 D6 D7 D8) as (T & V).
  split; [ exact T | ]. split; [ exact V | reflexivity ].
Qed.

(** A sample whose date is a form of two different dates: the two dates are
    a century apart. *)
Lemma forms_collide (d dd mm yyyy d' dd' mm' yyyy' t : string) :
  IsDate d dd mm yyyy -> IsDate d' dd' mm' yyyy' -> d' <> d ->
  (t = isoForm dd mm yyyy \/ t = monForm dd mm yyyy) ->
  (t = isoForm dd' mm' yyyy' \/ t = monForm dd' mm' yyyy') ->
  CenturyApart d d'.
Proof.
  intros (d1 & d2 & m1 & m2 & y1 & y2 & y3 & y4 &
          D1 & D2 & D3 & D4 & D5 & D6 & D7 & D8 & -> & -> & -> & ->)
         (e1 & e2 & n1 & n2 & z1 & z2 & z3 & z4 &
          E1 & E2 & E3 & E4 & E5 & E6 & E7 & E8 & -> & -> & -> & ->) N H H'.
  assert (Hy : forall c, isDigit c = true -> c <> "-"%char).
  { intros c Dc ->. discriminate Dc. }
  unfold isoForm, monForm in H, H'.
  destruct ((1 <=? natOfDigits (str2 m1 m2)) && (natOfDigits (str2 m1 m2) <=? 12)) eqn:R;
    destruct ((1 <=? natOfDigits (str2 n1 n2)) && (natOfDigits (str2 n1 n2) <=? 12)) eqn:R';
    try (apply andb_prop in R; destruct R as (R1 & R2);
         apply Nat.leb_le in R1, R2;
         destruct (month_name _ (conj R1 R2)) as (a & b & c & Ma & Mb);
         rewrite Mb in H);
    try (apply andb_prop in R'; destruct R' as (R1' & R2');
         apply Nat.leb_le in R1', R2';
         destruct (month_name _ (conj R1' R2')) as (a' & b' & c' & Ma' & Mb');
         rewrite Mb' in H');
    destruct H as [-> | ->]; destruct H' as [H' | H'];
    cbn [str2 append substring] in H'; injection H' as ?; subst;
    try (exfalso; apply N; reflexivity);
    try (exfalso; eapply Hy; [ | reflexivity ]; eassumption);
    try discriminate.
  (* both are the DD-Mon-YY form *)
  assert (Em : natOfDigits (str2 m1 m2) = natOfDigits (str2 n1 n2)).
  { apply month_name_inj; [ lia | lia | ]. rewrite Ma, Ma'. reflexivity. }
  destruct (two_digits_inj m1 m2 n1 n2 D3 D4 E3 E4 Em) as (-> & ->).
  split; [ exact N | ].
  exists (str2 e1 e2 ++ "-" ++ str2 n1 n2 ++ "-"), (str2 y1 y2), (str2 z1 z2), (str2 z3 z4).
  repeat split; reflexivity.
Qed.

End SampleDates.

(* ------------------------------------------------------------------ *)
(** ** C1: plant start and stop times                                   *)
(* ------------------------------------------------------------------ *)

Module PlantDay.
Import Js Meter Spec SampleTerms JsFacts MeterFacts SampleDates Samples.

Section WithBuiltins.
Context {B : Builtins}.

(** The dates of a batch: each is the trimmed date of one of its rows and has
    the shape DD-MM-YYYY; the date of such a row is among them. *)
Lemma uniqueDates_in (rs : list obj) (d : string) :
  In d (MeterValidate.uniqueDates rs) <->
  (exists r s, In r rs /\ get r "Date" = Str s /\ d = trim s) /\
  isEmpty d = false /\ reDDMMYYYY d = true.
Proof.
  unfold MeterValidate.uniqueDates. rewrite in_setOf, filter_In, in_map_iff.
  unfold MeterValidate.preloadDate. cbn [isValidDDMMYYYY]. split.
  - intros ((r & E & Hr) & V). apply andb_prop in V. destruct V as (Ne & V).
    apply negb_true_iff in Ne.
    destruct (get r "Date") as [| |b|f|s] eqn:G;
      try (subst d; discriminate Ne).
    subst d. rewrite trim_idem in V.
    split; [ exists r, s; auto | split; assumption ].
  - intros ((r & s & Hr & G & ->) & Ne & V). split.
    + exists r. rewrite G. split; [ reflexivity | exact Hr ].
    + rewrite Ne, trim_idem, V. reflexivity.
Qed.

(** The samples grouped under the date of a row are the samples of that date
    when the batch holds no date a century apart from it. *)
Lemma samples_of_date (allWeatherRows rs : list obj) (row : obj) (s dd mm yyyy : string) :
  In row rs -> get row "Date" = Str s ->
  IsDate (trim s) dd mm yyyy -> OneCentury rs (trim s) ->
  MeterValidate.weatherOf
    (MeterValidate.groupWeather (MeterValidate.uniqueDates rs) allWeatherRows) (trim s)
  = filter (isSampleOf dd mm yyyy) allWeatherRows.
Proof.
  intros Hr G D C. rewrite weatherOf_groupWeather. apply filter_ext. intro w.
  destruct (date_valid _ _ _ _ D) as (_ & V & Ne).
  unfold assignedTo. rewrite (find_only (matchesDate w)).
  - apply matchesDate_sample. exact D.
  - apply uniqueDates_in. split; [ exists row, s; auto | split; assumption ].
  - intros d' Hd' N M' M. apply uniqueDates_in in Hd'.
    destruct Hd' as ((r & s' & Hin & G' & ->) & _ & V').
    destruct (date_of_shape _ V') as (dd' & mm' & yyyy' & D').
    rewrite (matchesDate_sample _ _ _ _ w D) in M.
    rewrite (matchesDate_sample _ _ _ _ w D') in M'.
    unfold isSampleOf, strictEqStr in M, M'.
    destruct (sampleDate w) as [| |b|f|t]; try discriminate M.
    apply orb_prop in M, M'. rewrite !String.eqb_eq in M, M'.
    exact (C r s' Hin G' (forms_collide _ _ _ _ _ _ _ _ t D D' N M M')).
Qed.

(** C1, as the code has it. Take a meter row of a batch whose Date is a
    text DD-MM-YYYY (surrounding whitespace aside), the batch holding no date
    that differs from it in the century only. The samples of the date are the
    rows the weather store returned whose date is the text YYYY-MM-DD or
    DD-Mon-YY of the date (for a month that is not 01 to 12, which has no
    name, the date as it is written). The time of a sample is read from its
    time text: the zero-padded HH:MM of a text H:MM or HH:MM, with or
    without seconds, and the first five characters of any other text.
    Samples whose time so
    read is not a valid 24-hour HH:MM, or whose POA is not finite, are
    discarded; the others are sorted ascending by minutes since midnight.
    The Plant Start Time of the row that validation returns is the time of
    the first sorted sample with POA >= 10, or 00:00 when there is none; its
    Plant Stop Time is the time of the last sorted sample with 0 < POA < 50,
    else of the last one with POA > 0, else 00:00. Submission builds its
    operations unless some row of the batch has no date; the operation of
    the row then carries the times derived in the same way from the samples
    that the weather service returns for the date of the row. *)
Theorem plant_start_stop_times (allWeatherRows : list obj)
        (getWeatherByDate : string -> list obj)
        (rs : list obj) (i : nat) (row : obj) (s dd mm yyyy : string) :
  nth_error rs i = Some row ->
  get row "Date" = Str s ->
  IsDate (trim s) dd mm yyyy ->
  OneCentury rs (trim s) ->
  (exists out start stop kept pts,
      nth_error (rows (MeterValidate.validateRows allWeatherRows rs)) i = Some out /\
      get out "Plant Start Time" = Str start /\
      get out "Plant Stop Time" = Str stop /\
      KeptSamples validationTime validationPoa
                  (filter (isSampleOf dd mm yyyy) allWeatherRows) kept /\
      PlantRule kept pts start stop) /\
  match MeterSubmit.submitRows getWeatherByDate rs with
  | inr ops =>
      exists op kept pts,
        nth_error ops i = Some op /\
        KeptSamples submissionTime submissionPoa (getWeatherByDate (trim s)) kept /\
        PlantRule kept pts (MeterSubmit.plantStartTime (MeterSubmit.setDoc op))
                  (MeterSubmit.plantStopTime (MeterSubmit.setDoc op))
  | inl _ => exists r, In r rs /\ MeterSubmit.rowDate r = ""
  end.
Proof.
  intros Hn G D C. split.
  - pose proof (samples_of_date allWeatherRows rs row s dd mm yyyy
                  (nth_error_In _ _ Hn) G D C) as W.
    destruct (date_valid _ _ _ _ D) as (_ & V & Ne).
    set (wbd := MeterValidate.groupWeather (MeterValidate.uniqueDates rs) allWeatherRows) in *.
    assert (P : MeterValidate.rowPoints wbd row
                = MeterValidate.pointsOf (filter (isSampleOf dd mm yyyy) allWeatherRows)).
    { unfold MeterValidate.rowPoints, MeterValidate.rowDate, MeterValidate.dateOk.
      rewrite G. cbn [isValidDDMMYYYY]. rewrite trim_idem, Ne, V. cbn [negb andb].
      rewrite W. reflexivity. }
    destruct (validation_points (filter (isSampleOf dd mm yyyy) allWeatherRows))
      as (kept & K & R).
    exists (MeterValidate.enrichRow wbd row),
      (plantStartOf (MeterValidate.rowPoints wbd row)),
      (plantStopOf (MeterValidate.rowPoints wbd row)),
      kept, (MeterValidate.rowPoints wbd row).
    split; [ apply validateRows_nth; exact Hn | ].
    split; [ apply get_enrich_start | ].
    split; [ apply get_enrich_stop | ].
    split; [ exact K | ]. rewrite P. exact R.
  - destruct (MeterSubmit.submitRows getWeatherByDate rs) as [e|ops] eqn:Hs;
      unfold MeterSubmit.submitRows in Hs.
    + rewrite Submission.buildOps_spec in Hs.
      destruct (existsb _ rs) eqn:X; [ | discriminate Hs ].
      apply existsb_exists in X. destruct X as (r & Hr & Er).
      exists r. split; [ exact Hr | ].
      destruct (MeterSubmit.rowDate r); [ reflexivity | discriminate Er ].
    + pose proof (PlantTimes.buildOps_nth getWeatherByDate rs ops i row Hs Hn) as Ho.
      assert (E : MeterSubmit.rowDate row = trim s).
      { unfold MeterSubmit.rowDate. rewrite G. reflexivity. }
      rewrite E in Ho.
      destruct (submission_points (getWeatherByDate (trim s))) as (kept & K & R).
      exists (MeterSubmit.opOf (getWeatherByDate (trim s)) row), kept,
        (MeterSubmit.pointsOf (getWeatherByDate (trim s))).
      split; [ exact Ho | ]. split; [ exact K | exact R ].
Qed.

End WithBuiltins.

Lemma plant_start_stop_times_witness :
  (nth_error [Example.meterRow] 0 = Some Example.meterRow /\
   get Example.meterRow "Date" = Str "01-06-2025" /\
   IsDate (trim "01-06-2025") "01" "06" "2025" /\
   OneCentury [Example.meterRow] (trim "01-06-2025")) /\
  ((exists out start stop kept pts,
       nth_error (rows (MeterValidate.validateRows (B := Example.builtins)
                          Example.weatherDay [Example.meterRow])) 0 = Some out /\
       get out "Plant Start Time" = Str start /\
       get out "Plant Stop Time" = Str stop /\
       KeptSamples (validationTime (B := Example.builtins))
                   (validationPoa (B := Example.builtins))
                   (filter (isSampleOf "01" "06" "2025") Example.weatherDay) kept /\
       PlantRule kept pts start stop) /\
   match MeterSubmit.submitRows (B := Example.builtins)
           (fun _ => Example.weatherDay) [Example.meterRow] with
   | inr ops =>
       exists op kept pts,
         nth_error ops 0 = Some op /\
         KeptSamples (submissionTime (B := Example.builtins))
                     (submissionPoa (B := Example.builtins))
                     Example.weatherDay kept /\
         PlantRule kept pts (MeterSubmit.plantStartTime (MeterSubmit.setDoc op))
                   (MeterSubmit.plantStopTime (MeterSubmit.setDoc op))
   | inl _ => exists r, In r [Example.meterRow] /\
                        MeterSubmit.rowDate (B := Example.builtins) r = ""
   end) /\
  filter (isSampleOf "01" "06" "2025") Example.weatherDay = Example.weatherDay /\
  map (fun out => (get out "Plant Start Time", get out "Plant Stop Time"))
      (rows (MeterValidate.validateRows (B := Example.builtins)
               Example.weatherDay [Example.meterRow]))
  = [(Str "08:00", Str "17:30")] /\
  match MeterSubmit.submitRows (B := Example.builtins)
          (fun _ => Example.weatherDay) [Example.meterRow] with
  | inr ops => map (fun op => (MeterSubmit.plantStartTime (MeterSubmit.setDoc op),
                               MeterSubmit.plantStopTime (MeterSubmit.setDoc op))) ops
               = [("08:00", "17:30")]
  | inl _ => False
  end.
Proof.
  assert (D : IsDate (trim "01-06-2025") "01" "06" "2025").
  { exists "0"%char, "1"%char, "0"%char, "6"%char, "2"%char, "0"%char, "2"%char, "5"%char.
    repeat split; reflexivity. }
  assert (C : OneCentury [Example.meterRow] (trim "01-06-2025")).
  { intros r s [<- | []] E. injection E as <-. intros (N & _). apply N. reflexivity. }
  split; [ repeat split; [ exact D | exact C ] | ].
  split.
  - exact (plant_start_stop_times (B := Example.builtins) Example.weatherDay
             (fun _ => Example.weatherDay) [Example.meterRow] 0 Example.meterRow
             "01-06-2025" "01" "06" "2025" eq_refl eq_refl D C).
  - split; [ reflexivity | ]. split; vm_compute; reflexivity.
Defined.

(** C1 as stated fails in two ways. A sample whose time
    text is not a time at all, 09:00 PM, is not discarded: its first five
    characters are read, and validation and submission both derive the start
    and stop 09:00 from it. And in a batch that holds the dates 01-06-1925
    and 01-06-2025, in this order, the samples of 01-Jun-25 all go to the
    first of the two: the row of 01-06-2025 gets 00:00 and 00:00, although
    the same row alone in a batch gets 08:00 and 17:30. *)
Lemma plant_times_beyond_the_claim :
  ((forall c, ~ TimeForm "09:00 PM" c) /\
   validationTime (B := Example.builtins) Example.eveningSample = "09:00 PM" /\
   filter (isSampleOf "01" "06" "2025") [Example.eveningSample] = [Example.eveningSample] /\
   map (fun out => (get out "Plant Start Time", get out "Plant Stop Time"))
       (rows (MeterValidate.validateRows (B := Example.builtins)
                [Example.eveningSample] [Example.meterRow]))
   = [(Str "09:00", Str "09:00")] /\
   match MeterSubmit.submitRows (B := Example.builtins)
           (fun _ => [Example.eveningSample]) [Example.meterRow] with
   | inr ops => map (fun op => (MeterSubmit.plantStartTime (MeterSubmit.setDoc op),
                                MeterSubmit.plantStopTime (MeterSubmit.setDoc op))) ops
                = [("09:00", "09:00")]
   | inl _ => False
   end) /\
  (CenturyApart "01-06-2025" "01-06-1925" /\
   filter (isSampleOf "01" "06" "2025") Example.weatherDay = Example.weatherDay /\
   map (fun out => (get out "Date", get out "Plant Start Time", get out "Plant Stop Time"))
       (rows (MeterValidate.validateRows (B := Example.builtins)
                Example.weatherDay [Example.centuryRow; Example.meterRow]))
   = [(Str "01-06-1925", Str "08:00", Str "17:30");
      (Str "01-06-2025", Str "00:00", Str "00:00")] /\
   map (fun out => (get out "Date", get out "Plant Start Time", get out "Plant Stop Time"))
       (rows (MeterValidate.validateRows (B := Example.builtins)
                Example.weatherDay [Example.meterRow]))
   = [(Str "01-06-2025", Str "08:00", Str "17:30")]).
Proof.
  split.
  - split; [ intros c F; inversion F | ].
    split; [ reflexivity | ]. split; [ reflexivity | ].
    split; vm_compute; reflexivity.
  - split.
    + split; [ discriminate | ].
      exists "01-06-", "20", "19", "25". repeat split; reflexivity.
    + split; [ reflexivity | ]. split; vm_compute; reflexivity.
Qed.

End PlantDay.

(* ------------------------------------------------------------------ *)
(** ** C5: either times or readings                                     *)
(* ------------------------------------------------------------------ *)

Module EitherOr.
Import Js Meter Spec JsFacts TimeCells.

Section WithBuiltins.
Context {B : Builtins}.

(** A cell that holds the text of a 24-hour HH:MM holds a valid time. *)
Lemma clock_cell (t : string) : ValidClock t -> ValidTimeCell (Str t).
Proof.
  intros V. pose proof V as (h1 & h2 & m1 & m2 & E & D1 & D2 & D3 & D4 & _).
  split; [ rewrite E; reflexivity | ].
  exists t. split; [ | exact V ].
  cbn [ToString]. rewrite E, (Revalidation.trim_HHMM h1 h2 m1 m2 D1 D4).
  apply TimeForm_HHMM; assumption.
Qed.

(** C5. For every row of a meter batch, the defects recorded under the
    number of the row hold the message 'Each date must have either
    Start/Stop times OR Export/Import readings' if and only if the row has
    neither a valid start and stop time nor a column named after export or
    import whose value is present and numeric. A start or stop time is valid
    when the cell is present and its text, surrounding whitespace aside, is
    H:MM or HH:MM, with or without seconds, of an hour up to 23 and a minute
    up to 59. In particular a row whose start and stop cells hold HH:MM texts
    of the 24-hour clock never gets the message. *)
Theorem either_times_or_readings (allWeatherRows rs : list obj) (i : nat) (row : obj) :
  nth_error rs i = Some row ->
  (In "Each date must have either Start/Stop times OR Export/Import readings"
      (meterErrorsAt (MeterValidate.validateRows allWeatherRows rs) (i + 2)) <->
   ~ ValidStartStop row /\ ~ NumericReading row) /\
  (forall a b,
      startCell row = Str a -> stopCell row = Str b -> ValidClock a -> ValidClock b ->
      ~ In "Each date must have either Start/Stop times OR Export/Import readings"
           (meterErrorsAt (MeterValidate.validateRows allWeatherRows rs) (i + 2))).
Proof.
  intro Hn.
  destruct (EitherRule.meterErrorsAt_row allWeatherRows rs i row Hn) as (seen & E).
  assert (M : In "Each date must have either Start/Stop times OR Export/Import readings"
                 (meterErrorsAt (MeterValidate.validateRows allWeatherRows rs) (i + 2)) <->
              ~ ValidStartStop row /\ ~ NumericReading row).
  { rewrite E.
    change "Each date must have either Start/Stop times OR Export/Import readings"
      with MeterValidate.msgEither.
    rewrite EitherRule.msgEither_in_row.
    rewrite <- hasStartStop_spec, <- EitherRule.hasAnyReading_spec.
    destruct (MeterValidate.hasStartStop row), (MeterValidate.hasAnyReading row);
      intuition congruence. }
  split; [ exact M | ].
  intros a b Ea Eb Va Vb H. apply M in H. destruct H as (N & _). apply N.
  split; [ rewrite Ea | rewrite Eb ]; apply clock_cell; assumption.
Qed.

End WithBuiltins.

Lemma either_times_or_readings_witness :
  nth_error [Example.bareRow; Example.timedRow] 1 = Some Example.timedRow /\
  ((In "Each date must have either Start/Stop times OR Export/Import readings"
       (meterErrorsAt (MeterValidate.validateRows (B := Example.builtins)
                         Example.weatherDay [Example.bareRow; Example.timedRow]) (1 + 2)) <->
    ~ ValidStartStop (B := Example.builtins) Example.timedRow /\
    ~ NumericReading (B := Example.builtins) Example.timedRow) /\
   (forall a b,
       startCell Example.timedRow = Str a -> stopCell Example.timedRow = Str b ->
       ValidClock a -> ValidClock b ->
       ~ In "Each date must have either Start/Stop times OR Export/Import readings"
            (meterErrorsAt (MeterValidate.validateRows (B := Example.builtins)
                              Example.weatherDay [Example.bareRow; Example.timedRow])
                           (1 + 2)))) /\
  startCell Example.timedRow = Str "08:00" /\
  stopCell Example.timedRow = Str "17:30" /\
  ValidClock "08:00" /\ ValidClock "17:30" /\
  meterErrorsAt (MeterValidate.validateRows (B := Example.builtins)
                   Example.weatherDay [Example.bareRow; Example.timedRow]) 3 = [] /\
  meterErrorsAt (MeterValidate.validateRows (B := Example.builtins)
                   Example.weatherDay [Example.bareRow; Example.timedRow]) 2
  = ["Each date must have either Start/Stop times OR Export/Import readings"].
Proof.
  split; [ reflexivity | ].
  split; [ exact (either_times_or_readings (B := Example.builtins) Example.weatherDay
                    [Example.bareRow; Example.timedRow] 1 Example.timedRow eq_refl) | ].
  split; [ reflexivity | ]. split; [ reflexivity | ].
  split; [ exists "0"%char, "8"%char, "0"%char, "0"%char;
           repeat split; try reflexivity; vm_compute; lia | ].
  split; [ exists "1"%char, "7"%char, "3"%char, "0"%char;
           repeat split; try reflexivity; vm_compute; lia | ].
  split; vm_compute; reflexivity.
Defined.

End EitherOr.

(* ------------------------------------------------------------------ *)
(** ** Meter validation: date and reading rules                     *)
(* ------------------------------------------------------------------ *)

Module MeterDates.
Import Js Meter MeterValidate Spec RowTerms JsFacts MeterFacts.

Lemma append_cancel_r (a b s : string) : a ++ s = b ++ s -> a = b.
Proof.
  intro E.
  assert (L : String.length a = String.length b).
  { pose proof (f_equal String.length E) as L.
    rewrite !EitherRule.append_length in L. lia. }
  exact (proj1 (Duplicates.append_inj _ _ _ _ L E)).
Qed.

Section WithBuiltins.
Context {B : Builtins}.



Lemma dateErrors_cases (seen : list string) (d m : string) :
  In m (dateErrors seen d) -> m = msgDate \/ m = msgDupDate.
Proof.
  unfold dateErrors. destruct (dateOk d); [ destruct (existsb _ _) | ];
    simpl; intuition auto.
Qed.

Lemma timeErrors_cases (row : obj) (m : string) :
  In m (timeErrors row) -> m = msgStart \/ m = msgStop.
Proof.
  unfold timeErrors. intro H. apply in_app_iff in H.
  destruct H as [H | H];
    match type of H with In _ (if ?c then _ else _) => destruct c end;
    simpl in H; intuition auto.
Qed.

Lemma eitherErrors_cases (row : obj) (m : string) :
  In m (eitherErrors row) -> m = msgEither.
Proof.
  unfold eitherErrors. destruct (_ && _); simpl; intuition auto.
Qed.




(** The defects recorded under Excel row [i + 2] are those of row [i],
    checked against the dates of the rows before it. *)
Lemma meterLoop_errorsAt (wbd : list (string * list obj)) (rs : list obj) :
  forall (seen : list string) (index i : nat) (row : obj),
    nth_error rs i = Some row ->
    match find (fun e => rowNumber e =? index + i + 2)
               (snd (validateLoop wbd seen index rs)) with
    | Some e => errors e
    | None => []
    end = rowErrorsOf (seenDatesAfter seen (firstn i rs)) row.
Proof.
  induction rs as [|row0 rs IH]; intros seen index i row Hn.
  - destruct i; discriminate Hn.
  - destruct i as [|i]; cbn [nth_error] in Hn.
    + injection Hn as ->. cbn [firstn seenDatesAfter fold_left validateLoop snd].
      replace (index + 0 + 2) with (index + 2) by lia.
      destruct (rowErrorsOf seen row) as [|m ms] eqn:E.
      * rewrite EitherRule.find_row_none by lia. reflexivity.
      * cbn [find rowNumber]. rewrite Nat.eqb_refl. reflexivity.
    + pose proof (IH (seenAfter seen (rowDate row0)) (S index) i row Hn) as E.
      replace (S index + i + 2) with (index + S i + 2) in E by lia.
      remember (index + S i + 2) as n eqn:En.
      cbn [firstn validateLoop snd].
      change (seenDatesAfter seen (row0 :: firstn i rs))
        with (seenDatesAfter (seenAfter seen (rowDate row0)) (firstn i rs)).
      destruct (rowErrorsOf seen row0) as [|m ms]; [ exact E | ].
      cbn [find rowNumber]. replace (index + 2 =? n) with false
        by (symmetry; apply Nat.eqb_neq; lia). exact E.
Qed.

Lemma meterErrorsAt_seen (allWeatherRows rs : list obj) (i : nat) (row : obj) :
  nth_error rs i = Some row ->
  meterErrorsAt (validateRows allWeatherRows rs) (i + 2)
  = rowErrorsOf (seenDatesAfter [] (firstn i rs)) row.
Proof.
  intro Hn. unfold meterErrorsAt, validateRows. cbn [rowErrors].
  exact (meterLoop_errorsAt _ rs [] 0 i row Hn).
Qed.


Lemma lastChar_append (a : string) (c : ascii) (s : string) :
  lastChar (a ++ String c s) = lastChar (String c s).
Proof.
  induction a as [|x a IH]; [ reflexivity | ].
  cbn [append]. rewrite <- IH.
  destruct (a ++ String c s) eqn:E; [ destruct a; discriminate E | reflexivity ].
Qed.

Lemma readingErrorsOf_numeric (row : obj) (k : string) :
  In (k ++ " must be numeric") (readingErrorsOf row k) <->
  isBlank (get row k) = false /\ isFinite (ToNumber (get row k)) = false.
Proof.
  unfold readingErrorsOf, toNumberOrNull.
  destruct (isBlank (get row k)); [ split; [ intros [] | intros [[=] _] ] | ].
  destruct (isFinite (ToNumber (get row k))) eqn:F.
  - assert (N : isNaN (ToNumber (get row k)) = false).
    { unfold isFinite in F. apply andb_prop in F. destruct F as [F _].
      apply negb_true_iff in F. exact F. }
    rewrite N. split; [ | intros [_ [=]] ].
    destruct (_ <? _)%float; [ | intros [] ].
    intros [E | []]. apply (f_equal lastChar) in E.
    rewrite !lastChar_append in E. discriminate E.
  - change (isNaN nan) with true. cbv iota. split; [ auto | ].
    intros _. left. reflexivity.
Qed.

Lemma readingErrorsOf_negative (row : obj) (k : string) :
  In (k ++ " cannot be negative") (readingErrorsOf row k) <->
  isBlank (get row k) = false /\ isFinite (ToNumber (get row k)) = true /\
  (ToNumber (get row k) <? 0)%float = true.
Proof.
  unfold readingErrorsOf, toNumberOrNull.
  destruct (isBlank (get row k)); [ split; [ intros [] | intros [[=] _] ] | ].
  destruct (isFinite (ToNumber (get row k))) eqn:F.
  - assert (N : isNaN (ToNumber (get row k)) = false).
    { unfold isFinite in F. apply andb_prop in F. destruct F as [F _].
      apply negb_true_iff in F. exact F. }
    rewrite N. destruct (_ <? _)%float.
    + split; [ auto | intros _; left; reflexivity ].
    + split; [ intros [] | intros (_ & _ & [=]) ].
  - change (isNaN nan) with true. cbv iota. split; [ | intros (_ & [=] & _) ].
    intros [E | []]. apply (f_equal lastChar) in E.
    rewrite !lastChar_append in E. discriminate E.
Qed.

(** A reading defect about the column [k] comes from the check of [k]. *)
Lemma reading_message_own (row : obj) (k suf : string) :
  suf = " must be numeric" \/ suf = " cannot be negative" ->
  (In (k ++ suf) (readingErrors row) <->
   In k (readingKeys row) /\ In (k ++ suf) (readingErrorsOf row k)).
Proof.
  intro S. unfold readingErrors. rewrite in_flat_map. split.
  - intros (k' & Hk & H).
    assert (E : k' = k).
    { unfold readingErrorsOf in H.
      destruct (toNumberOrNull (get row k')) as [n|]; [ | destruct H ].
      destruct (isNaN n).
      - destruct H as [H | []]. destruct S as [-> | ->].
        + apply append_cancel_r in H. exact H.
        + apply (f_equal lastChar) in H. rewrite !lastChar_append in H. discriminate H.
      - destruct (n <? 0)%float; [ | destruct H ].
        destruct H as [H | []]. destruct S as [-> | ->].
        + apply (f_equal lastChar) in H. rewrite !lastChar_append in H. discriminate H.
        + apply append_cancel_r in H. exact H. }
    subst k'. auto.
  - intros (Hk & H). exists k. auto.
Qed.

Lemma reading_in_row (seen : list string) (row : obj) (k suf : string) :
  suf = " must be numeric" \/ suf = " cannot be negative" ->
  (In (k ++ suf) (rowErrorsOf seen row) <-> In (k ++ suf) (readingErrors row)).
Proof.
  intro S.
  assert (L : lastChar (k ++ suf) = Some "c"%char \/ lastChar (k ++ suf) = Some "e"%char).
  { destruct S as [-> | ->]; rewrite lastChar_append; auto. }
  unfold rowErrorsOf. rewrite !in_app_iff. split; [ | auto ].
  intros [H | [H | [H | H]]]; [ | | exact H | ]; exfalso.
  - apply dateErrors_cases in H. destruct H as [H | H]; rewrite H in L;
      destruct L as [L | L]; discriminate L.
  - apply timeErrors_cases in H. destruct H as [H | H]; rewrite H in L;
      destruct L as [L | L]; discriminate L.
  - apply eitherErrors_cases in H. rewrite H in L.
    destruct L as [L | L]; discriminate L.
Qed.

(** X2. For a row of a meter batch and a column name k, validation reports "k
    must be numeric" exactly when k is a column of the row whose name contains
    export or import, its cell is not blank and does not convert to a finite
    number; it reports "k cannot be negative" exactly when the cell converts
    to a finite number below zero. *)
Theorem meter_reading_defects (allWeatherRows rs : list obj) (i : nat) (row : obj)
        (k : string) :
  nth_error rs i = Some row ->
  let errs := meterErrorsAt (validateRows allWeatherRows rs) (i + 2) in
  (In (k ++ " must be numeric") errs <->
   In k (keys row) /\ ExportImportNamed k /\
   isBlank (get row k) = false /\ isFinite (ToNumber (get row k)) = false) /\
  (In (k ++ " cannot be negative") errs <->
   In k (keys row) /\ ExportImportNamed k /\
   isBlank (get row k) = false /\ isFinite (ToNumber (get row k)) = true /\
   (ToNumber (get row k) <? 0)%float = true).
Proof.
  intros Hn errs. subst errs. rewrite (meterErrorsAt_seen _ _ _ _ Hn).
  rewrite !reading_in_row, !reading_message_own by auto.
  rewrite readingErrorsOf_numeric, readingErrorsOf_negative.
  unfold readingKeys. rewrite filter_In, EitherRule.isReadingKey_spec.
  tauto.
Qed.

End WithBuiltins.

Lemma meter_reading_defects_witness :
  nth_error [Example.meterRow] 0 = Some Example.meterRow /\
  (let errs := meterErrorsAt
                 (validateRows (B := Example.builtins) [] [Example.meterRow]) (0 + 2) in
   let k := "Export1 Initial" in
   (In (k ++ " must be numeric") errs <->
    In k (keys Example.meterRow) /\ ExportImportNamed k /\
    isBlank (get Example.meterRow k) = false /\
    isFinite (ToNumber (B := Example.builtins) (get Example.meterRow k)) = false) /\
   (In (k ++ " cannot be negative") errs <->
    In k (keys Example.meterRow) /\ ExportImportNamed k /\
    isBlank (get Example.meterRow k) = false /\
    isFinite (ToNumber (B := Example.builtins) (get Example.meterRow k)) = true /\
    (ToNumber (B := Example.builtins) (get Example.meterRow k) <? 0)%float = true)).
Proof.
  split; [ reflexivity | ].
  exact (meter_reading_defects (B := Example.builtins) [] [Example.meterRow] 0
           Example.meterRow "Export1 Initial" eq_refl).
Defined.

End MeterDates.

(* ------------------------------------------------------------------ *)
(** ** The error lists of the two validators                        *)
(* ------------------------------------------------------------------ *)

Module RowErrors.
Import Js Spec RowTerms JsFacts.

Section WithBuiltins.
Context {B : Builtins}.

Lemma meterLoop_sorted (wbd : list (string * list obj)) (rs : list obj) :
  forall seen index,
    StronglySorted (fun a b => Meter.rowNumber a < Meter.rowNumber b)
                   (snd (MeterValidate.validateLoop wbd seen index rs)).
Proof.
  induction rs as [|row rs IH]; intros seen index; cbn [MeterValidate.validateLoop snd].
  - constructor.
  - destruct (MeterValidate.rowErrorsOf seen row); [ apply IH | ].
    constructor; [ apply IH | ].
    apply Forall_forall. intros e H. apply EitherRule.validateLoop_numbers in H.
    simpl. lia.
Qed.

Lemma meterLoop_entries (wbd : list (string * list obj)) (rs : list obj) :
  forall seen index e,
    In e (snd (MeterValidate.validateLoop wbd seen index rs)) ->
    exists i row,
      Meter.rowNumber e = index + i + 2 /\ nth_error rs i = Some row /\
      Meter.errors e = MeterValidate.rowErrorsOf (seenDatesAfter seen (firstn i rs)) row /\
      Meter.errors e <> [].
Proof.
  induction rs as [|row rs IH]; intros seen index e; cbn [MeterValidate.validateLoop snd].
  - intros [].
  - assert (R : In e (snd (MeterValidate.validateLoop wbd
                             (MeterValidate.seenAfter seen (MeterValidate.rowDate row))
                             (S index) rs)) ->
                exists i row0,
                  Meter.rowNumber e = index + i + 2 /\
                  nth_error (row :: rs) i = Some row0 /\
                  Meter.errors e
                  = MeterValidate.rowErrorsOf
                      (seenDatesAfter seen (firstn i (row :: rs))) row0 /\
                  Meter.errors e <> []).
    { intro H. destruct (IH _ _ _ H) as (i & row0 & E1 & E2 & E3 & E4).
      exists (S i), row0. repeat split; [ lia | exact E2 | exact E3 | exact E4 ]. }
    destruct (MeterValidate.rowErrorsOf seen row) as [|m ms] eqn:E; [ exact R | ].
    intros [<- | H]; [ | exact (R H) ].
    exists 0, row. cbn [Meter.rowNumber Meter.errors firstn nth_error].
    repeat split; [ lia | symmetry; exact E | discriminate ].
Qed.

(** X3. The error list returned by meter validation is strictly ascending by
    row number, holds one entry per defective row and none for a clean row,
    numbers the i-th row i+2 and carries that row's non-empty defect list;
    isValid is true exactly when no row has a defect, and as many rows are
    returned as were given. *)
Theorem meter_row_errors (allWeatherRows rs : list obj) :
  let res := MeterValidate.validateRows allWeatherRows rs in
  let defects i row := MeterValidate.rowErrorsOf (seenDatesAfter [] (firstn i rs)) row in
  StronglySorted (fun a b => Meter.rowNumber a < Meter.rowNumber b) (Meter.rowErrors res) /\
  (forall e, In e (Meter.rowErrors res) ->
     exists i row, Meter.rowNumber e = i + 2 /\ nth_error rs i = Some row /\
                   Meter.errors e = defects i row /\ Meter.errors e <> []) /\
  (forall i row, nth_error rs i = Some row -> defects i row <> [] ->
     exists e, In e (Meter.rowErrors res) /\ Meter.rowNumber e = i + 2 /\
               Meter.errors e = defects i row) /\
  (Meter.isValid res = true <->
   forall i row, nth_error rs i = Some row -> defects i row = []) /\
  List.length (Meter.rows res) = List.length rs.
Proof.
  intros res defects.
  assert (A : forall i row, nth_error rs i = Some row -> defects i row <> [] ->
     exists e, In e (Meter.rowErrors res) /\ Meter.rowNumber e = i + 2 /\
               Meter.errors e = defects i row).
  { intros i row Hn Hd.
    pose proof (MeterDates.meterErrorsAt_seen allWeatherRows rs i row Hn) as E.
    fold res in E. fold (defects i row) in E. unfold meterErrorsAt in E.
    destruct (find _ (Meter.rowErrors res)) as [e|] eqn:F.
    - apply find_some in F. destruct F as (Hin & Hnum). apply Nat.eqb_eq in Hnum.
      exists e. auto.
    - congruence. }
  assert (E : forall e, In e (Meter.rowErrors res) ->
     exists i row, Meter.rowNumber e = i + 2 /\ nth_error rs i = Some row /\
                   Meter.errors e = defects i row /\ Meter.errors e <> []).
  { intros e H. exact (meterLoop_entries _ rs [] 0 e H). }
  split; [ apply meterLoop_sorted | ].
  split; [ exact E | ]. split; [ exact A | ].
  split.
  - unfold res at 1, MeterValidate.validateRows. cbn [Meter.isValid].
    fold (Meter.rowErrors res). change (snd _) with (Meter.rowErrors res). split.
    + intros V i row Hn. destruct (Meter.rowErrors res) as [|e es] eqn:R; [ | discriminate V ].
      destruct (defects i row) as [|m ms] eqn:D; [ reflexivity | ].
      destruct (A i row Hn) as (e & [] & _). rewrite D. discriminate.
    + intro H. destruct (Meter.rowErrors res) as [|e es] eqn:R; [ reflexivity | ].
      destruct (E e (or_introl eq_refl)) as (i & row & _ & Hn & E1 & E2).
      rewrite (H i row Hn) in E1. contradiction.
  - unfold res. rewrite MeterFacts.validateRows_rows. apply length_map.
Qed.

Lemma weatherLoop_sorted (rs : list obj) :
  forall seen index,
    StronglySorted (fun a b => Weather.rowNumber a < Weather.rowNumber b)
                   (snd (Weather.validateLoop seen index rs)).
Proof.
  induction rs as [|row rs IH]; intros seen index; cbn [Weather.validateLoop snd].
  - constructor.
  - destruct (Weather.rowErrorsOf seen row); [ apply IH | ].
    constructor; [ apply IH | ].
    apply Forall_forall. intros e H. apply Duplicates.weatherLoop_numbers in H.
    simpl. lia.
Qed.

Lemma weatherLoop_entries (rs : list obj) :
  forall seen index e,
    In e (snd (Weather.validateLoop seen index rs)) ->
    exists i row,
      Weather.rowNumber e = index + i + 2 /\ nth_error rs i = Some row /\
      Weather.errors e = Weather.rowErrorsOf (seenAfterRows seen (firstn i rs)) row /\
      Weather.errors e <> [].
Proof.
  induction rs as [|row rs IH]; intros seen index e; cbn [Weather.validateLoop snd].
  - intros [].
  - assert (R : In e (snd (Weather.validateLoop
                             (Weather.seenAfter seen (Weather.dateOf row) (Weather.timeOf row))
                             (S index) rs)) ->
                exists i row0,
                  Weather.rowNumber e = index + i + 2 /\
                  nth_error (row :: rs) i = Some row0 /\
                  Weather.errors e
                  = Weather.rowErrorsOf (seenAfterRows seen (firstn i (row :: rs))) row0 /\
                  Weather.errors e <> []).
    { intro H. destruct (IH _ _ _ H) as (i & row0 & E1 & E2 & E3 & E4).
      exists (S i), row0. repeat split; [ lia | exact E2 | exact E3 | exact E4 ]. }
    destruct (Weather.rowErrorsOf seen row) as [|m ms] eqn:E; [ exact R | ].
    intros [<- | H]; [ | exact (R H) ].
    exists 0, row. cbn [Weather.rowNumber Weather.errors firstn nth_error].
    repeat split; [ lia | symmetry; exact E | discriminate ].
Qed.

Lemma weatherErrorsAt_seen (rs : list obj) (i : nat) (row : obj) :
  nth_error rs i = Some row ->
  weatherErrorsAt (Weather.validateRows rs) (i + 2)
  = Weather.rowErrorsOf (seenAfterRows [] (firstn i rs)) row.
Proof.
  intro Hn. unfold weatherErrorsAt, Weather.validateRows. cbn [Weather.rowErrors].
  exact (Duplicates.weatherLoop_errorsAt rs [] 0 i row Hn).
Qed.

(** X4. The error list returned by weather validation is strictly ascending by
    row number, holds one entry per defective row and none for a clean row,
    numbers the i-th row i+2 and carries that row's non-empty defect list;
    isValid is true exactly when no row has a defect, and as many rows are
    returned as were given. *)
Theorem weather_row_errors (rs : list obj) :
  let res := Weather.validateRows rs in
  let defects i row := Weather.rowErrorsOf (seenAfterRows [] (firstn i rs)) row in
  StronglySorted (fun a b => Weather.rowNumber a < Weather.rowNumber b)
                 (Weather.rowErrors res) /\
  (forall e, In e (Weather.rowErrors res) ->
     exists i row, Weather.rowNumber e = i + 2 /\ nth_error rs i = Some row /\
                   Weather.errors e = defects i row /\ Weather.errors e <> []) /\
  (forall i row, nth_error rs i = Some row -> defects i row <> [] ->
     exists e, In e (Weather.rowErrors res) /\ Weather.rowNumber e = i + 2 /\
               Weather.errors e = defects i row) /\
  (Weather.isValid res = true <->
   forall i row, nth_error rs i = Some row -> defects i row = []) /\
  List.length (Weather.rows res) = List.length rs.
Proof.
  intros res defects.
  assert (A : forall i row, nth_error rs i = Some row -> defects i row <> [] ->
     exists e, In e (Weather.rowErrors res) /\ Weather.rowNumber e = i + 2 /\
               Weather.errors e = defects i row).
  { intros i row Hn Hd.
    pose proof (weatherErrorsAt_seen rs i row Hn) as E.
    fold res in E. fold (defects i row) in E. unfold weatherErrorsAt in E.
    destruct (find _ (Weather.rowErrors res)) as [e|] eqn:F.
    - apply find_some in F. destruct F as (Hin & Hnum). apply Nat.eqb_eq in Hnum.
      exists e. auto.
    - congruence. }
  assert (E : forall e, In e (Weather.rowErrors res) ->
     exists i row, Weather.rowNumber e = i + 2 /\ nth_error rs i = Some row /\
                   Weather.errors e = defects i row /\ Weather.errors e <> []).
  { intros e H. exact (weatherLoop_entries rs [] 0 e H). }
  split; [ apply weatherLoop_sorted | ].
  split; [ exact E | ]. split; [ exact A | ].
  split.
  - unfold res at 1, Weather.validateRows. cbn [Weather.isValid].
    change (snd _) with (Weather.rowErrors res). split.
    + intros V i row Hn. destruct (Weather.rowErrors res) as [|e es] eqn:R; [ | discriminate V ].
      destruct (defects i row) as [|m ms] eqn:D; [ reflexivity | ].
      destruct (A i row Hn) as (e & [] & _). rewrite D. discriminate.
    + intro H. destruct (Weather.rowErrors res) as [|e es] eqn:R; [ reflexivity | ].
      destruct (E e (or_introl eq_refl)) as (i & row & _ & Hn & E1 & E2).
      rewrite (H i row Hn) in E1. contradiction.
  - unfold res, Weather.validateRows. cbn [Weather.rows].
    rewrite Revalidation.weatherLoop_rows. apply length_map.
Qed.

End WithBuiltins.
End RowErrors.

(* ------------------------------------------------------------------ *)
(** ** Meter enrichment: pair totals and kept columns               *)
(* ------------------------------------------------------------------ *)

Module Enrichment.
Import Js Meter MeterValidate Spec RowTerms PairTerms JsFacts MeterFacts.

(** *** Keys of objects *)

Lemma keys_set_app (o : obj) (k : string) (v : value) :
  exists added, keys (set o k v) = (keys o ++ added)%list /\ incl added [k].
Proof.
  unfold keys. induction o as [|[k' v'] o (added & E & I)]; simpl.
  - exists [k]. split; [ reflexivity | apply incl_refl ].
  - destruct (k' =? k)%string eqn:Q.
    + apply String.eqb_eq in Q. subst k'. exists []. simpl.
      rewrite app_nil_r. split; [ reflexivity | intros x [] ].
    + exists added. simpl. rewrite E. split; [ reflexivity | exact I ].
Qed.

Lemma keys_assign_app (p o : obj) :
  exists added, keys (assign o p) = (keys o ++ added)%list /\ incl added (keys p).
Proof.
  unfold assign. revert o. induction p as [|[k v] p IH]; intro o; simpl.
  - exists []. rewrite app_nil_r. split; [ reflexivity | intros x [] ].
  - destruct (IH (set o k v)) as (a2 & E2 & I2).
    destruct (keys_set_app o k v) as (a1 & E1 & I1).
    exists (a1 ++ a2)%list. rewrite E2, E1, app_assoc. split; [ reflexivity | ].
    intros x H. apply in_app_iff in H. destruct H as [H | H].
    + apply I1 in H. destruct H as [<- | []]. left. reflexivity.
    + right. apply I2. exact H.
Qed.

Lemma in_keys_set (o : obj) (k k' : string) (v : value) :
  In k (keys o) \/ k = k' -> In k (keys (set o k' v)).
Proof.
  induction o as [|[k0 v0] o IH]; simpl.
  - intros [[] | ->]. left. reflexivity.
  - destruct (k0 =? k')%string eqn:E; simpl.
    + apply String.eqb_eq in E. subst k0. intros [[<- | H] | ->]; auto.
    + intros [[<- | H] | ->]; auto.
Qed.

Lemma in_keys_assign (p o : obj) (k : string) :
  In k (keys o) \/ In k (keys p) -> In k (keys (assign o p)).
Proof.
  unfold assign. revert o. induction p as [|[k' v'] p IH]; intro o; simpl.
  - intros [H | []]. exact H.
  - intros [H | [<- | H]]; apply IH.
    + left. apply in_keys_set. left. exact H.
    + left. apply in_keys_set. right. reflexivity.
    + right. exact H.
Qed.

Lemma NoDup_keys_set (o : obj) (k : string) (v : value) :
  NoDup (keys o) -> NoDup (keys (set o k v)).
Proof.
  induction o as [|[k' v'] o IH]; simpl; intro N.
  - constructor; [ intros [] | constructor ].
  - inversion N as [|x l Hx Hl]; subst. destruct (k' =? k)%string eqn:E; simpl.
    + apply String.eqb_eq in E. subst k'. constructor; assumption.
    + constructor; [ | apply IH; exact Hl ].
      intro H. apply keys_set in H. destruct H as [H | ->]; [ contradiction | ].
      rewrite String.eqb_refl in E. discriminate E.
Qed.

Lemma NoDup_keys_assign (p o : obj) : NoDup (keys o) -> NoDup (keys (assign o p)).
Proof.
  unfold assign. revert o. induction p as [|[k v] p IH]; intros o N; simpl.
  - exact N.
  - apply IH. apply NoDup_keys_set. exact N.
Qed.

(** In an object without repeated keys, [{ ...o, ...p }] has the values of
    [p] at the keys of [p]. *)
Lemma get_assign_in (p o : obj) (k : string) :
  NoDup (keys p) -> In k (keys p) -> get (assign o p) k = get p k.
Proof.
  revert o. induction p as [|[k' v'] p IH]; intros o N H; [ destruct H | ].
  simpl in N. inversion N as [|x l Hx Hl]; subst.
  change (assign o ((k', v') :: p)) with (assign (set o k' v') p).
  destruct (string_dec k' k) as [-> | D].
  - rewrite get_assign_other.
    + rewrite get_set_same. unfold get. simpl. rewrite String.eqb_refl. reflexivity.
    + intros kv Hin E. apply Hx. rewrite <- E. apply in_keys. exact Hin.
  - destruct H as [H | H]; [ contradiction | ].
    rewrite (IH _ Hl H). unfold get. simpl.
    apply String.eqb_neq in D. rewrite D. reflexivity.
Qed.

Lemma get_in_NoDup (p : obj) (k : string) (v : value) :
  NoDup (keys p) -> In (k, v) p -> get p k = v.
Proof.
  induction p as [|[k' v'] p IH]; intros N H; [ destruct H | ].
  simpl in N. inversion N as [|x l Hx Hl]; subst. unfold get. simpl.
  destruct H as [[= -> ->] | H].
  - rewrite String.eqb_refl. reflexivity.
  - destruct (k' =? k)%string eqn:E.
    + apply String.eqb_eq in E. subst k'. exfalso. apply Hx.
      apply (in_keys p (k, v)). exact H.
    + apply IH; assumption.
Qed.

(** *** Labels *)

Lemma trimEnd_append (a b : string) :
  trimEnd b = b -> b <> "" -> trimEnd (a ++ b) = a ++ b.
Proof.
  intros T N. induction a as [|c a IH]; [ exact T | ].
  cbn [append trimEnd]. rewrite IH.
  destruct (a ++ b) eqn:E; [ | reflexivity ].
  destruct a; [ simpl in E; contradiction | discriminate E ].
Qed.

Lemma pairId_clean (g : string) : trimEnd (pairId g) = pairId g /\ pairId g <> "".
Proof.
  unfold pairId. destruct (isEmpty (trim g)) eqn:E.
  - split; [ reflexivity | discriminate ].
  - split; [ apply trimEnd_idem | ]. destruct (trim g); [ discriminate E | discriminate ].
Qed.

Lemma append_cancel_l (a x y : string) : a ++ x = a ++ y -> x = y.
Proof.
  induction a as [|c a IH]; cbn [append]; intro E; [ exact E | ].
  injection E as E. auto.
Qed.

(** The label of a total is the type, the word Total and the meter
    identifier. *)
Lemma totalLabel_clean (type id : string) :
  type = "Export" \/ type = "Import" ->
  trimEnd id = id -> id <> "" ->
  totalLabel type id = type ++ " Total " ++ id.
Proof.
  intros T C N. unfold totalLabel, trim.
  assert (S : trimStart (type ++ " Total " ++ id) = type ++ " Total " ++ id)
    by (destruct T as [-> | ->]; reflexivity).
  rewrite S.
  assert (Tb : trimEnd (" Total " ++ id) = " Total " ++ id)
    by (apply trimEnd_append; assumption).
  apply trimEnd_append; [ exact Tb | cbn [append]; discriminate ].
Qed.

(** *** The pairs of a row *)

Lemma NoDup_mapSet (A : Type) (m : list (string * A)) (k : string) (v : A) :
  NoDup (map fst m) -> NoDup (map fst (mapSet m k v)).
Proof.
  induction m as [|[k' v'] m IH]; simpl; intro N.
  - constructor; [ intros [] | constructor ].
  - inversion N as [|x l Hx Hl]; subst. destruct (k' =? k)%string eqn:E; simpl.
    + apply String.eqb_eq in E. subst k'. constructor; assumption.
    + constructor; [ | apply IH; exact Hl ].
      intro H. apply Hx. clear - H E.
      induction m as [|[k0 v0] m IH]; simpl in *.
      * destruct H as [<- | []]. rewrite String.eqb_refl in E. discriminate E.
      * destruct (k0 =? k)%string eqn:E0; simpl in H.
        -- destruct H as [<- | H]; [ | right; exact H ].
           rewrite String.eqb_refl in E. discriminate E.
        -- destruct H as [<- | H]; [ left; reflexivity | right; apply IH; exact H ].
Qed.

Lemma in_mapSet (A : Type) (m : list (string * A)) (k k' : string) (v v' : A) :
  In (k', v') (mapSet m k v) -> In (k', v') m \/ (k' = k /\ v' = v).
Proof.
  induction m as [|[k0 v0] m IH]; simpl.
  - intros [[= <- <-] | []]. auto.
  - destruct (k0 =? k)%string; simpl.
    + intros [[= <- <-] | H]; auto.
    + intros [H | H]; [ auto | ]. destruct (IH H); auto.
Qed.

Lemma mapGet_in (A : Type) (m : list (string * A)) (k : string) (v : A) :
  mapGet m k = Some v -> In (k, v) m.
Proof.
  induction m as [|[k0 v0] m IH]; simpl; [ discriminate | ].
  destruct (k0 =? k)%string eqn:E.
  - apply String.eqb_eq in E. subst k0. intros [= ->]. left. reflexivity.
  - intro H. right. apply IH. exact H.
Qed.

(** The entries of the map that the loop over the keys builds. *)
Lemma pairsOf_spec (alts : list string) (type : string) (ks : list string) :
  forall m,
    NoDup (map fst m) ->
    let out := fold_left (fun m k =>
                            match matchPair type alts k with
                            | Some g => mapSet m (pairId g) k
                            | None => m
                            end) ks m in
    NoDup (map fst out) /\
    forall id k, In (id, k) out ->
                 In (id, k) m \/
                 (In k ks /\ exists g, matchPair type alts k = Some g /\ pairId g = id).
Proof.
  induction ks as [|k0 ks IH]; intros m N; simpl.
  - split; [ exact N | auto ].
  - destruct (matchPair type alts k0) as [g|] eqn:M.
    + destruct (IH (mapSet m (pairId g) k0) (NoDup_mapSet _ _ _ _ N)) as (N' & H).
      split; [ exact N' | ]. intros id k Hin.
      destruct (H id k Hin) as [H1 | (H1 & H2)]; [ | right; auto ].
      apply in_mapSet in H1. destruct H1 as [H1 | (-> & ->)]; [ auto | ].
      right. split; [ left; reflexivity | exists g; auto ].
    + destruct (IH m N) as (N' & H). split; [ exact N' | ].
      intros id k Hin. destruct (H id k Hin) as [H1 | (H1 & H2)]; [ auto | right; auto ].
Qed.

Section WithBuiltins.
Context {B : Builtins}.

Lemma toNumberOrNull_reading (row : obj) (k : string) (n : float) :
  toNumberOrNull (get row k) = Some n -> isNaN n = false -> Reading row k n.
Proof.
  unfold toNumberOrNull, Reading.
  destruct (isBlank (get row k)); [ discriminate | ].
  destruct (isFinite (ToNumber (get row k))); intros [= <-] N.
  - auto.
  - discriminate N.
Qed.

Lemma pairTotal_id (row : obj) (finals : list (string * string))
      (id ik id' : string) (v : float) :
  pairTotal row finals (id, ik) = Some (id', v) -> id' = id.
Proof.
  unfold pairTotal. destruct (mapGet finals id) as [fk|]; [ | discriminate ].
  destruct (isEmpty fk); [ discriminate | ].
  destruct (toNumberOrNull (get row ik)); [ | discriminate ].
  destruct (toNumberOrNull (get row fk)); [ | discriminate ].
  destruct (_ || _); [ discriminate | ]. intros [= <- _]. reflexivity.
Qed.

Lemma computePairs_ids (type : string) (row : obj) :
  NoDup (map fst (computePairs type row)) /\
  forall id v, In (id, v) (computePairs type row) ->
    trimEnd id = id /\ id <> "" /\
    exists ik fk ini fin,
      In ik (keys row) /\ In fk (keys row) /\
      InitialOf type id ik /\ FinalOf type id fk /\
      Reading row ik ini /\ Reading row fk fin /\ v = (fin - ini)%float.
Proof.
  unfold computePairs. cbv zeta.
  destruct (pairsOf_spec ["Initial"; "Start"] type (keys row) [] (NoDup_nil _)) as (Ni & Hi).
  destruct (pairsOf_spec ["Final"; "End"] type (keys row) [] (NoDup_nil _)) as (_ & Hf).
  fold (initialsOf type (keys row)) in Ni, Hi.
  fold (finalsOf type (keys row)) in Hf.
  set (finals := finalsOf type (keys row)) in *.
  split.
  - clear Hi. revert Ni. generalize (initialsOf type (keys row)) as ini.
    induction ini as [|[id ik] ini IH]; cbn [flat_map map fst]; intro N;
      [ constructor | ].
    inversion N as [|x l Hx Hl]; subst. rewrite map_app. apply NoDup_app.
    + destruct (pairTotal row finals (id, ik)) as [[id' v]|] eqn:P; cbn [map];
        [ constructor; [ intros [] | constructor ] | constructor ].
    + apply IH. exact Hl.
    + intros a Ha Hb. apply Hx.
      assert (a = id).
      { destruct (pairTotal row finals (id, ik)) as [[id' v]|] eqn:P; [ | destruct Ha ].
        destruct Ha as [<- | []]. apply (pairTotal_id _ _ _ _ _ _ P). }
      subst a. apply in_map_iff in Hb. destruct Hb as ([id' v] & E & Hb).
      simpl in E. subst id'. apply in_flat_map in Hb.
      destruct Hb as ([id2 ik2] & Hin & Hb).
      assert (id2 = id).
      { destruct (pairTotal row finals (id2, ik2)) as [[id' v']|] eqn:P; [ | destruct Hb ].
        destruct Hb as [[= -> ->] | []]. symmetry. apply (pairTotal_id _ _ _ _ _ _ P). }
      subst id2. apply in_map_iff. exists (id, ik2). auto.
  - intros id v H. apply in_flat_map in H. destruct H as ([id' ik] & Hin & H).
    destruct (pairTotal row finals (id', ik)) as [[id2 v2]|] eqn:P; [ | destruct H ].
    destruct H as [[= -> ->] | []]. unfold pairTotal in P.
    destruct (mapGet finals id') as [fk|] eqn:G; [ | discriminate P ].
    destruct (isEmpty fk); [ discriminate P | ].
    destruct (toNumberOrNull (get row ik)) as [ini|] eqn:Ti; [ | discriminate P ].
    destruct (toNumberOrNull (get row fk)) as [fin|] eqn:Tf; [ | discriminate P ].
    destruct (isNaN ini) eqn:Nini; [ discriminate P | ].
    destruct (isNaN fin) eqn:Nfin; [ discriminate P | ].
    cbn [orb] in P. injection P as -> <-.
    destruct (Hi id ik Hin) as [[] | (Kin & g & M & Eg)].
    apply mapGet_in in G. destruct (Hf id fk G) as [[] | (Kfin & g' & M' & Eg')].
    split; [ rewrite <- Eg; apply pairId_clean | ].
    split; [ rewrite <- Eg; apply pairId_clean | ].
    exists ik, fk, ini, fin.
    split; [ exact Kin | ]. split; [ exact Kfin | ].
    split; [ exists g; auto | ]. split; [ exists g'; auto | ].
    split; [ apply toNumberOrNull_reading; assumption | ].
    split; [ apply toNumberOrNull_reading; assumption | reflexivity ].
Qed.

Lemma computedOf_keys (type : string) (row : obj) :
  type = "Export" \/ type = "Import" ->
  NoDup (keys (computedOf type (computePairs type row))) /\
  forall k, In k (keys (computedOf type (computePairs type row))) ->
            exists id, k = type ++ " Total " ++ id.
Proof.
  intro T. destruct (computePairs_ids type row) as (N & H).
  assert (L : forall t, In t (computePairs type row) ->
                        totalLabel type (fst t) = type ++ " Total " ++ fst t).
  { intros [id v] Hin. destruct (H id v Hin) as (C & Ne & _).
    apply totalLabel_clean; assumption. }
  unfold computedOf, keys. rewrite map_map. cbn [fst]. split.
  - rewrite <- (map_map fst (totalLabel type)).
    apply NoDup_map_NoDup_ForallPairs; [ | exact N ].
    intros x y Hx Hy E. apply in_map_iff in Hx, Hy.
    destruct Hx as (tx & <- & Hx). destruct Hy as (ty & <- & Hy).
    rewrite (L tx Hx), (L ty Hy) in E.
    apply append_cancel_l in E. apply (append_cancel_l " Total ") in E. exact E.
  - intros k Hk. apply in_map_iff in Hk. destruct Hk as (t & <- & Hin).
    exists (fst t). apply L. exact Hin.
Qed.

Lemma computed_get (row : obj) (type id : string) (v : float) :
  type = "Export" \/ type = "Import" ->
  In (id, v) (computePairs type row) ->
  get (assign (assign [] (computedOf "Export" (computePairs "Export" row)))
              (computedOf "Import" (computePairs "Import" row)))
      (type ++ " Total " ++ id) = Num v /\
  In (type ++ " Total " ++ id)
     (keys (assign (assign [] (computedOf "Export" (computePairs "Export" row)))
                   (computedOf "Import" (computePairs "Import" row)))).
Proof.
  intros T Hin.
  destruct (computePairs_ids type row) as (_ & H).
  destruct (H id v Hin) as (C & Ne & _).
  assert (Hl : In (type ++ " Total " ++ id, Num v)
                  (computedOf type (computePairs type row))).
  { unfold computedOf. apply in_map_iff. exists (id, v). split; [ | exact Hin ].
    cbn [fst snd]. rewrite totalLabel_clean by assumption. reflexivity. }
  destruct (computedOf_keys type row T) as (Nk & _).
  pose proof (get_in_NoDup _ _ _ Nk Hl) as G.
  pose proof (in_keys _ _ Hl) as K. cbn [fst] in K.
  destruct T as [-> | ->].
  - split.
    + rewrite get_assign_other.
      * rewrite (get_assign_in _ _ _ Nk K). exact G.
      * intros kv Hkv E. apply in_keys in Hkv. rewrite E in Hkv.
        destruct (computedOf_keys "Import" row (or_intror eq_refl)) as (_ & HI).
        destruct (HI _ Hkv) as (id' & E'). discriminate E'.
    + apply in_keys_assign. left. apply in_keys_assign. right. exact K.
  - split.
    + rewrite (get_assign_in _ _ _ Nk K). exact G.
    + apply in_keys_assign. right. exact K.
Qed.

(** X5. For Export and for Import, the computed pairs of a meter row have
    distinct meter ids, and each pair (id, v) is written to the enriched row
    under "<type> Total <id>" as the number v, where v is final minus initial
    of two columns of the row that name the initial and the final reading of
    that meter and hold present finite numbers. *)
Theorem pair_totals_in_row (weatherByDate : list (string * list obj)) (row : obj) :
  Forall (fun type =>
            NoDup (map fst (computePairs type row)) /\
            forall id v, In (id, v) (computePairs type row) ->
              get (enrichRow weatherByDate row) (type ++ " Total " ++ id) = Num v /\
              exists ik fk ini fin,
                In ik (keys row) /\ In fk (keys row) /\
                InitialOf type id ik /\ FinalOf type id fk /\
                Reading row ik ini /\ Reading row fk fin /\ v = (fin - ini)%float)
         ["Export"; "Import"].
Proof.
  assert (G : forall type, type = "Export" \/ type = "Import" ->
            NoDup (map fst (computePairs type row)) /\
            forall id v, In (id, v) (computePairs type row) ->
              get (enrichRow weatherByDate row) (type ++ " Total " ++ id) = Num v /\
              exists ik fk ini fin,
                In ik (keys row) /\ In fk (keys row) /\
                InitialOf type id ik /\ FinalOf type id fk /\
                Reading row ik ini /\ Reading row fk fin /\ v = (fin - ini)%float).
  { intros type T. destruct (computePairs_ids type row) as (N & H).
    split; [ exact N | ]. intros id v Hin. split; [ | apply (H id v Hin) ].
    destruct (computed_get row type id v T Hin) as (Gc & Kc).
    unfold enrichRow. cbv zeta.
    rewrite !get_set_other by (destruct T as [-> | ->]; discriminate).
    rewrite get_assign_in; [ exact Gc | | exact Kc ].
    apply NoDup_keys_assign, NoDup_keys_assign. constructor. }
  repeat constructor; apply G; auto.
Qed.

(** X6. Enriching a meter row keeps its columns in their order and appends
    only derived columns (plant start, stop and total, the pair totals, the
    three GSS columns); every derived column is present in the result, and
    every other cell of the row is returned unchanged. *)
Theorem enrichment_keeps_columns (weatherByDate : list (string * list obj)) (row : obj) :
  let out := enrichRow weatherByDate row in
  (exists added, keys out = (keys row ++ added)%list /\ incl added (derivedKeys row)) /\
  (forall k, In k (derivedKeys row) -> In k (keys out)) /\
  (forall k, ~ In k (derivedKeys row) -> get out k = get row k).
Proof.
  intro out. subst out. unfold enrichRow. cbv zeta.
  set (es := computePairs "Export" row). set (is_ := computePairs "Import" row).
  set (computed := assign (assign [] (computedOf "Export" es)) (computedOf "Import" is_)).
  assert (CK : forall k, In k (keys computed) <->
                         In k (map (fun t => totalLabel "Export" (fst t)) es) \/
                         In k (map (fun t => totalLabel "Import" (fst t)) is_)).
  { intro k. subst computed. split.
    - intro H. apply keys_assign in H. destruct H as [H | [v H]].
      + apply keys_assign in H. destruct H as [[] | [v H]]. left.
        unfold computedOf in H. apply in_map_iff in H. destruct H as (t & [= <- _] & H).
        apply in_map_iff. exists t. auto.
      + right. unfold computedOf in H. apply in_map_iff in H.
        destruct H as (t & [= <- _] & H). apply in_map_iff. exists t. auto.
    - intros [H | H]; apply in_keys_assign.
      + left. apply in_keys_assign. right. unfold computedOf, keys. rewrite map_map. exact H.
      + right. unfold computedOf, keys. rewrite map_map. exact H. }
  assert (D : forall k, In k (derivedKeys row) <->
                        In k ["Plant Start Time"; "Plant Stop Time"; "Total"] \/
                        In k (keys computed) \/
                        In k ["GSS Export Total"; "GSS Import Total"; "Net Export @GSS"]).
  { intro k. unfold derivedKeys. fold es. fold is_. rewrite !in_app_iff, CK. tauto. }
  split; [ | split ].
  - destruct (keys_set_app row "Plant Start Time" (Str (plantStartOf (rowPoints weatherByDate row))))
      as (a1 & E1 & I1).
    match goal with |- context [set (set ?o "Plant Stop Time" ?v) "Total" ?w] =>
      destruct (keys_set_app o "Plant Stop Time" v) as (a2 & E2 & I2);
      destruct (keys_set_app (set o "Plant Stop Time" v) "Total" w) as (a3 & E3 & I3);
      destruct (keys_assign_app computed (set (set o "Plant Stop Time" v) "Total" w))
        as (a4 & E4 & I4)
    end.
    match goal with |- context [set (set ?o "GSS Export Total" ?v) "GSS Import Total" ?w] =>
      destruct (keys_set_app o "GSS Export Total" v) as (a5 & E5 & I5);
      destruct (keys_set_app (set o "GSS Export Total" v) "GSS Import Total" w)
        as (a6 & E6 & I6)
    end.
    match goal with |- context [keys (set ?o "Net Export @GSS" ?v)] =>
      destruct (keys_set_app o "Net Export @GSS" v) as (a7 & E7 & I7)
    end.
    exists (a1 ++ a2 ++ a3 ++ a4 ++ a5 ++ a6 ++ a7)%list.
    rewrite E7, E6, E5, E4, E3, E2, E1, <- !app_assoc. split; [ reflexivity | ].
    intros k H. apply D. rewrite !in_app_iff in H.
    destruct H as [H | [H | [H | [H | [H | [H | H]]]]]];
      first [ apply I1 in H | apply I2 in H | apply I3 in H | apply I4 in H
            | apply I5 in H | apply I6 in H | apply I7 in H ];
      simpl in *; tauto.
  - intros k H. apply D in H.
    destruct H as [H | [H | H]].
    + apply in_keys_set. left. apply in_keys_set. left. apply in_keys_set. left.
      apply in_keys_assign. left.
      simpl in H. destruct H as [<- | [<- | [<- | []]]].
      * apply in_keys_set. left. apply in_keys_set. left. apply in_keys_set. auto.
      * apply in_keys_set. left. apply in_keys_set. auto.
      * apply in_keys_set. auto.
    + apply in_keys_set. left. apply in_keys_set. left. apply in_keys_set. left.
      apply in_keys_assign. right. exact H.
    + simpl in H. destruct H as [<- | [<- | [<- | []]]].
      * apply in_keys_set. left. apply in_keys_set. left. apply in_keys_set. auto.
      * apply in_keys_set. left. apply in_keys_set. auto.
      * apply in_keys_set. auto.
  - intros k N.
    assert (N' : ~ (In k ["Plant Start Time"; "Plant Stop Time"; "Total"] \/
                    In k (keys computed) \/
                    In k ["GSS Export Total"; "GSS Import Total"; "Net Export @GSS"]))
      by (rewrite <- D; exact N).
    simpl in N'.
    rewrite !get_set_other by (intro E; apply N'; rewrite <- E; tauto).
    rewrite get_assign_other.
    + rewrite !get_set_other by (intro E; apply N'; rewrite <- E; tauto). reflexivity.
    + intros kv Hin E. apply N'. right. left. rewrite <- E. apply in_keys. exact Hin.
Qed.

End WithBuiltins.
End Enrichment.

(* ------------------------------------------------------------------ *)
(** ** Minutes and clock times                                      *)
(* ------------------------------------------------------------------ *)

Module Clock.
Import Js Meter Spec ClockTerms JsFacts.

Lemma rendersBack_day : forallb rendersBack (seq 0 1440) = true.
Proof. vm_compute. reflexivity. Qed.

Lemma renderHHMM_clock (m : Z) :
  (0 <= m < 1440)%Z ->
  ClockTime (renderHHMM m) m /\ String.length (renderHHMM m) = 5.
Proof.
  intro R. pose proof rendersBack_day as H. rewrite forallb_forall in H.
  specialize (H (Z.to_nat m)).
  assert (I : In (Z.to_nat m) (seq 0 1440)) by (apply in_seq; lia).
  specialize (H I). unfold rendersBack in H. rewrite Z2Nat.id in H by lia.
  rewrite !andb_true_iff in H. destruct H as ((V & L) & T).
  apply Nat.eqb_eq in L.
  destruct (timeToMinutes (renderHHMM m)) as [z|] eqn:E; [ | discriminate T ].
  apply Z.eqb_eq in T. subst z.
  split; [ | exact L ]. split; [ exact V | ]. split; [ exact E | exact R ].
Qed.

(** [((total % 1440) + 1440) % 1440] is [total] modulo 1440. *)
Lemma wrap_mod (total : Z) :
  Z.rem (Z.rem total 1440 + 1440) 1440 = (total mod 1440)%Z.
Proof.
  pose proof (Z.quot_rem' total 1440) as Q.
  assert (Bd : (-1440 < Z.rem total 1440 < 1440)%Z).
  { pose proof (Z.rem_bound_abs total 1440 ltac:(lia)). lia. }
  rewrite Z.rem_mod_nonneg by lia.
  replace (Z.rem total 1440 + 1440)%Z
    with (total + (1 - Z.quot total 1440) * 1440)%Z by lia.
  apply Z_mod_plus_full.
Qed.

Lemma minutesToHHMM_render (total : Z) :
  minutesToHHMM total = renderHHMM (total mod 1440).
Proof.
  unfold minutesToHHMM, renderHHMM. cbv zeta. rewrite wrap_mod.
  pose proof (Z.mod_pos_bound total 1440 ltac:(lia)) as Bd.
  rewrite Z.rem_mod_nonneg by lia. reflexivity.
Qed.

(** X7. minutesToHHMM of any integer is a valid five-character HH:MM time that
    timeToMinutes reads back as the integer modulo 1440; conversely
    minutesToHHMM gives back every valid five-character time from its minutes. *)
Theorem minutes_round_trip :
  (forall total : Z,
     ClockTime (minutesToHHMM total) (total mod 1440) /\
     String.length (minutesToHHMM total) = 5) /\
  (forall (t : string) (m : Z),
     ClockTime t m -> String.length t = 5 -> minutesToHHMM m = t).
Proof.
  split.
  - intro total. rewrite minutesToHHMM_render. apply renderHHMM_clock.
    apply Z.mod_pos_bound. lia.
  - intros t m (V & T & R) L.
    destruct (TotalTime.validHHMM_shape t V ltac:(lia))
      as (h1 & h2 & m1 & m2 & -> & D1 & D2 & D3 & D4 & Hh & Hm).
    rewrite TotalTime.timeToMinutes_shape in T by assumption. injection T as <-.
    rewrite minutesToHHMM_render.
    set (hh := natOfDigits (str2 h1 h2)) in *. set (mm := natOfDigits (str2 m1 m2)) in *.
    rewrite Z.mod_small by lia. unfold renderHHMM.
    replace ((Z.of_nat hh * 60 + Z.of_nat mm) / 60)%Z with (Z.of_nat hh)
      by (apply (Zdiv_unique _ _ _ (Z.of_nat mm)); lia).
    replace ((Z.of_nat hh * 60 + Z.of_nat mm) mod 60)%Z with (Z.of_nat mm)
      by (apply (Zmod_unique _ _ (Z.of_nat hh)); lia).
    rewrite !Nat2Z.id. subst hh mm.
    rewrite !RoundTrip.pad2_two_digits by assumption. reflexivity.
Qed.

(** X8. For valid times start and stop, diffHHMM(start, stop) is a valid time
    of (stop - start) mod 1440 minutes; adding it to start gives stop on the
    clock, it is 00:00 when the two are the same minute, and otherwise
    diffHHMM(start, stop) and diffHHMM(stop, start) add up to 24 hours. *)
Theorem stop_is_start_plus_total (start stop : string) (s e : Z) :
  ClockTime start s -> ClockTime stop e ->
  exists d,
    ClockTime (diffHHMM start stop) d /\
    d = ((e - s) mod 1440)%Z /\
    minutesToHHMM (s + d) = minutesToHHMM e /\
    (s = e -> diffHHMM start stop = "00:00") /\
    (s <> e -> exists d', ClockTime (diffHHMM stop start) d' /\ (d + d' = 1440)%Z).
Proof.
  intros Cs Ce.
  assert (D : forall a b x y, ClockTime a x -> ClockTime b y ->
                diffHHMM a b = renderHHMM ((y - x) mod 1440)).
  { intros a b x y Ca Cb. rewrite <- (TotalTime.totalOf_clock a b x y Ca Cb).
    unfold totalOf. destruct Ca as (Va & _). destruct Cb as (Vb & _).
    rewrite Va, Vb. reflexivity. }
  exists ((e - s) mod 1440)%Z.
  pose proof (Z.mod_pos_bound (e - s) 1440 ltac:(lia)) as Bd.
  split; [ rewrite (D _ _ _ _ Cs Ce); apply renderHHMM_clock; exact Bd | ].
  split; [ reflexivity | ].
  split.
  - rewrite !minutesToHHMM_render. f_equal.
    rewrite Zplus_mod_idemp_r. f_equal. lia.
  - split.
    + intros ->. rewrite (D _ _ _ _ Cs Ce). rewrite Z.sub_diag. reflexivity.
    + intro N. exists ((s - e) mod 1440)%Z.
      split; [ rewrite (D _ _ _ _ Ce Cs); apply renderHHMM_clock;
               apply Z.mod_pos_bound; lia | ].
      destruct Cs as (_ & _ & Rs). destruct Ce as (_ & _ & Re).
      destruct (Z_lt_le_dec s e) as [Lt | Ge].
      * rewrite (Z.mod_small (e - s)) by lia.
        rewrite <- (Zmod_unique (s - e) 1440 (-1) (s - e + 1440)) by lia. lia.
      * rewrite (Z.mod_small (s - e)) by lia.
        rewrite <- (Zmod_unique (e - s) 1440 (-1) (e - s + 1440)) by lia. lia.
Qed.

Lemma stop_is_start_plus_total_witness :
  ClockTime "08:00" 480 /\ ClockTime "17:30" 1050 /\
  exists d,
    ClockTime (diffHHMM "08:00" "17:30") d /\
    d = ((1050 - 480) mod 1440)%Z /\
    minutesToHHMM (480 + d) = minutesToHHMM 1050 /\
    (480%Z = 1050%Z -> diffHHMM "08:00" "17:30" = "00:00") /\
    (480%Z <> 1050%Z ->
     exists d', ClockTime (diffHHMM "17:30" "08:00") d' /\ (d + d' = 1440)%Z).
Proof.
  assert (Cs : ClockTime "08:00" 480) by (repeat split; (reflexivity || lia)).
  assert (Ce : ClockTime "17:30" 1050) by (repeat split; (reflexivity || lia)).
  split; [ exact Cs | ]. split; [ exact Ce | ].
  exact (stop_is_start_plus_total "08:00" "17:30" 480 1050 Cs Ce).
Defined.

End Clock.

(* ------------------------------------------------------------------ *)
(** ** The shapes the date matchers accept                          *)
(* ------------------------------------------------------------------ *)

Module DateShapes.
Import Js Spec DateTerms JsFacts.

Lemma isDigit_not_alpha (c : ascii) : isDigit c = true -> isAlpha c = false.
Proof.
  intro H. apply isDigit_cases in H. simpl in H.
  repeat (destruct H as [<- | H]; [ reflexivity | ]). contradiction.
Qed.

Lemma isDigit_not_sep (c : ascii) : isDigit c = true -> WeatherExcel.isSep c = false.
Proof.
  intro H. apply isDigit_cases in H. simpl in H.
  repeat (destruct H as [<- | H]; [ reflexivity | ]). contradiction.
Qed.

Lemma isSep_not_digit (c : ascii) : WeatherExcel.isSep c = true -> isDigit c = false.
Proof.
  unfold WeatherExcel.isSep. rewrite orb_true_iff, !Ascii.eqb_eq.
  intros [-> | ->]; reflexivity.
Qed.

Lemma isAlpha_not_digit (c : ascii) : isAlpha c = true -> isDigit c = false.
Proof.
  intro H. destruct (isDigit c) eqn:D; [ | reflexivity ].
  rewrite (isDigit_not_alpha c D) in H. discriminate H.
Qed.

(** *** Runs of digits *)

Lemma spanDigits_spec (s d r : string) :
  WeatherExcel.spanDigits s = (d, r) ->
  s = d ++ r /\ allChars isDigit d = true /\
  match r with EmptyString => True | String c _ => isDigit c = false end.
Proof.
  revert d r. induction s as [|c s IH]; intros d r; simpl.
  - intros [= <- <-]. auto.
  - destruct (isDigit c) eqn:D.
    + destruct (WeatherExcel.spanDigits s) as [d' r'].
      intros [= <- <-]. destruct (IH d' r' eq_refl) as (-> & A & H).
      simpl. rewrite D. auto.
    + intros [= <- <-]. simpl. auto.
Qed.

Lemma spanDigits_app (d r : string) :
  allChars isDigit d = true ->
  match r with EmptyString => True | String c _ => isDigit c = false end ->
  WeatherExcel.spanDigits (d ++ r) = (d, r).
Proof.
  intros A H. induction d as [|c d IH]; simpl in *.
  - destruct r as [|c r]; [ reflexivity | ]. simpl. rewrite H. reflexivity.
  - apply andb_prop in A. destruct A as (Dc & A). rewrite Dc, (IH A). reflexivity.
Qed.

Lemma digitsBetween_spec (lo hi : nat) (s d r : string) :
  WeatherExcel.digitsBetween lo hi s = Some (d, r) <->
  s = d ++ r /\ digitRun lo hi d /\
  match r with EmptyString => True | String c _ => isDigit c = false end.
Proof.
  unfold WeatherExcel.digitsBetween, digitRun. split.
  - destruct (WeatherExcel.spanDigits s) as [d' r'] eqn:E.
    destruct (_ && _) eqn:L; [ | discriminate ]. intros [= <- <-].
    apply spanDigits_spec in E. destruct E as (E1 & E2 & E3).
    apply andb_prop in L. destruct L as (L1 & L2).
    apply Nat.leb_le in L1, L2. auto.
  - intros (-> & (A & L1 & L2) & H). rewrite (spanDigits_app d r A H).
    apply Nat.leb_le in L1, L2. rewrite L1, L2. reflexivity.
Qed.

(** The numeric pattern: day, separator, month, separator, year. *)
Lemma reNumeric_spec (s d m y : string) :
  WeatherExcel.reNumeric s = Some (d, m, y) <->
  exists c1 c2,
    s = d ++ String c1 (m ++ String c2 y) /\
    WeatherExcel.isSep c1 = true /\ WeatherExcel.isSep c2 = true /\
    digitRun 1 2 d /\ digitRun 1 2 m /\ digitRun 2 4 y.
Proof.
  unfold WeatherExcel.reNumeric. split.
  - destruct (WeatherExcel.digitsBetween 1 2 s) as [[d' r1]|] eqn:E1; [ | discriminate ].
    destruct r1 as [|c1 r1]; [ discriminate | ].
    destruct (WeatherExcel.isSep c1) eqn:S1; [ | discriminate ].
    destruct (WeatherExcel.digitsBetween 1 2 r1) as [[m' r2]|] eqn:E2; [ | discriminate ].
    destruct r2 as [|c2 r2]; [ discriminate | ].
    destruct (WeatherExcel.isSep c2) eqn:S2; [ | discriminate ].
    destruct (WeatherExcel.digitsBetween 2 4 r2) as [[y' r3]|] eqn:E3; [ | discriminate ].
    destruct r3; [ | discriminate ]. intros [= <- <- <-].
    apply digitsBetween_spec in E1, E2, E3.
    destruct E1 as (-> & R1 & _). destruct E2 as (-> & R2 & _).
    destruct E3 as (-> & R3 & _). exists c1, c2.
    assert (Y : y' ++ "" = y') by (clear; induction y' as [|c y IH]; simpl; congruence).
    rewrite Y. auto 10.
  - intros (c1 & c2 & -> & S1 & S2 & R1 & R2 & R3).
    assert (Y : y ++ "" = y) by (clear; induction y as [|c y IH]; simpl; congruence).
    assert (E1 : WeatherExcel.digitsBetween 1 2 (d ++ String c1 (m ++ String c2 y))
                 = Some (d, String c1 (m ++ String c2 y))).
    { apply digitsBetween_spec. split; [ reflexivity | ]. split; [ exact R1 | ].
      apply isSep_not_digit. exact S1. }
    assert (E2 : WeatherExcel.digitsBetween 1 2 (m ++ String c2 y) = Some (m, String c2 y)).
    { apply digitsBetween_spec. split; [ reflexivity | ]. split; [ exact R2 | ].
      apply isSep_not_digit. exact S2. }
    assert (E3 : WeatherExcel.digitsBetween 2 4 y = Some (y, "")).
    { apply digitsBetween_spec. rewrite Y. auto. }
    rewrite E1, S1, E2, S2, E3. reflexivity.
Qed.

(** The pattern with a month name: day, slash, three letters, slash, year. *)
Lemma reSlashMon_spec (s d m y : string) :
  WeatherExcel.reSlashMon s = Some (d, m, y) <->
  exists a1 a2 a3,
    m = String a1 (String a2 (String a3 "")) /\
    s = d ++ String "/" (m ++ String "/" y) /\
    isAlpha a1 = true /\ isAlpha a2 = true /\ isAlpha a3 = true /\
    digitRun 1 2 d /\ digitRun 2 4 y.
Proof.
  unfold WeatherExcel.reSlashMon. split.
  - destruct (WeatherExcel.digitsBetween 1 2 s) as [[d' r1]|] eqn:E1; [ | discriminate ].
    destruct r1 as [|s1 [|a1 [|a2 [|a3 [|s2 rest]]]]]; try discriminate.
    destruct (s1 =? "/")%char eqn:S1; [ | discriminate ].
    destruct (isAlpha a1) eqn:A1; [ | discriminate ].
    destruct (isAlpha a2) eqn:A2; [ | discriminate ].
    destruct (isAlpha a3) eqn:A3; [ | discriminate ].
    destruct (s2 =? "/")%char eqn:S2; [ | discriminate ].
    cbn [andb].
    destruct (WeatherExcel.digitsBetween 2 4 rest) as [[y' r3]|] eqn:E3; [ | discriminate ].
    destruct r3; [ | discriminate ]. intros [= <- <- <-].
    apply Ascii.eqb_eq in S1, S2. subst s1 s2.
    apply digitsBetween_spec in E1, E3.
    destruct E1 as (-> & R1 & _). destruct E3 as (-> & R3 & _).
    assert (Y : y' ++ "" = y') by (clear; induction y' as [|c y IH]; simpl; congruence).
    rewrite Y. exists a1, a2, a3. auto 10.
  - intros (a1 & a2 & a3 & -> & -> & A1 & A2 & A3 & R1 & R3).
    assert (Y : y ++ "" = y) by (clear; induction y as [|c y IH]; simpl; congruence).
    assert (E1 : WeatherExcel.digitsBetween 1 2
                   (d ++ String "/" (String a1 (String a2 (String a3 "")) ++ String "/" y))
                 = Some (d, String "/" (String a1 (String a2 (String a3 "")) ++ String "/" y))).
    { apply digitsBetween_spec. split; [ reflexivity | ]. split; [ exact R1 | reflexivity ]. }
    assert (E3 : WeatherExcel.digitsBetween 2 4 y = Some (y, "")).
    { apply digitsBetween_spec. rewrite Y. auto. }
    rewrite E1. cbn [append]. rewrite A1, A2, A3, E3. reflexivity.
Qed.

(** A run of one or two digits, padded to two. *)
Lemma padStart2_run (d : string) :
  digitRun 1 2 d ->
  exists d1 d2, padStart2 d = Meter.str2 d1 d2 /\
                isDigit d1 = true /\ isDigit d2 = true /\
                natOfDigits (Meter.str2 d1 d2) = natOfDigits d.
Proof.
  intros (A & L1 & L2). destruct d as [|c1 [|c2 [|c3 d]]]; simpl in L1, L2; try lia.
  - simpl in A. rewrite andb_true_r in A. exists "0"%char, c1.
    split; [ reflexivity | ]. split; [ reflexivity | ]. split; [ exact A | ].
    unfold natOfDigits. simpl. lia.
  - simpl in A. rewrite andb_true_r in A. apply andb_prop in A. destruct A as (A1 & A2).
    exists c1, c2. split; [ reflexivity | ]. auto.
Qed.

(** The last two digits of a run of two to four. *)
Lemma sliceLast2_run (y : string) :
  digitRun 2 4 y ->
  exists y1 y2, sliceLast 2 y = Meter.str2 y1 y2 /\
                isDigit y1 = true /\ isDigit y2 = true.
Proof.
  intros (A & L1 & L2).
  destruct y as [|c1 [|c2 [|c3 [|c4 [|c5 y]]]]]; simpl in L1, L2; try lia;
    simpl in A; rewrite ?andb_true_r in A;
    repeat match type of A with _ && _ = true =>
             let X := fresh "X" in apply andb_prop in A; destruct A as (X & A) end.
  - exists c1, c2. auto.
  - exists c2, c3. auto.
  - exists c3, c4. auto.
Qed.

Lemma trim_date (d1 d2 : ascii) (mid : string) (y1 y2 : ascii) :
  isDigit d1 = true -> isDigit y2 = true ->
  trim (Meter.str2 d1 d2 ++ mid ++ Meter.str2 y1 y2)
  = Meter.str2 d1 d2 ++ mid ++ Meter.str2 y1 y2.
Proof.
  intros D1 D2. unfold trim.
  assert (S : trimStart (Meter.str2 d1 d2 ++ mid ++ Meter.str2 y1 y2)
              = Meter.str2 d1 d2 ++ mid ++ Meter.str2 y1 y2).
  { unfold Meter.str2. cbn [append trimStart]. rewrite (isDigit_not_space d1 D1).
    reflexivity. }
  rewrite S.
  assert (T : trimEnd (Meter.str2 y1 y2) = Meter.str2 y1 y2).
  { unfold Meter.str2. cbn [trimEnd]. rewrite (isDigit_not_space y2 D2). reflexivity. }
  assert (G : forall a b, trimEnd b = b -> b <> "" -> trimEnd (a ++ b) = a ++ b).
  { intros a b Tb N. induction a as [|c a IH]; [ exact Tb | ].
    cbn [append trimEnd]. rewrite IH.
    destruct (a ++ b) eqn:E; [ | reflexivity ].
    destruct a; [ simpl in E; contradiction | discriminate E ]. }
  apply G.
  - apply G; [ exact T | discriminate ].
  - destruct mid; discriminate.
Qed.

End DateShapes.

(* ------------------------------------------------------------------ *)
(** ** The weather Excel date normalizer                            *)
(* ------------------------------------------------------------------ *)

Module ExcelDates.
Import Js Spec DateTerms JsFacts DateShapes.

Lemma digit_value (c : ascii) : isDigit c = true -> nat_of_ascii c - 48 <= 9.
Proof.
  intro H. apply isDigit_cases in H. simpl in H.
  repeat (destruct H as [<- | H]; [ simpl; lia | ]). contradiction.
Qed.

Lemma natOfDigits_str2 (a b : ascii) :
  natOfDigits (Meter.str2 a b) = 10 * (nat_of_ascii a - 48) + (nat_of_ascii b - 48).
Proof. unfold natOfDigits. simpl. lia. Qed.

Lemma monthNameOf_months (n : nat) : In (monthNameOf n) Meter.MONTHS.
Proof.
  unfold monthNameOf.
  do 13 (destruct n as [|n]; [ simpl; tauto | ]). simpl. tauto.
Qed.

(** [months[monthNum - 1] || 'Jan'] *)
Lemma month_lookup (n : nat) :
  (if n =? 0 then "Jan"
   else match nth_error WeatherExcel.months (n - 1) with
        | Some name => name
        | None => "Jan"
        end) = monthNameOf n.
Proof.
  unfold monthNameOf.
  do 13 (destruct n as [|n]; [ reflexivity | ]). simpl. destruct n; reflexivity.
Qed.

(** A string DD-Mon-YY with a month of the table is in the weather format,
    and valid when its day is. *)
Lemma canonical_date (d1 d2 y1 y2 : ascii) (mon : string) :
  isDigit d1 = true -> isDigit d2 = true -> isDigit y1 = true -> isDigit y2 = true ->
  In mon Meter.MONTHS ->
  let r := Meter.str2 d1 d2 ++ "-" ++ mon ++ "-" ++ Meter.str2 y1 y2 in
  Weather.reDDMMMYY r = Some (Meter.str2 d1 d2, mon, Meter.str2 y1 y2) /\
  Weather.capitalize mon = mon /\
  trim r = r /\ isEmpty r = false.
Proof.
  intros D1 D2 Y1 Y2 M r. subst r.
  split; [ | split; [ | split ] ].
  - simpl in M.
    repeat (destruct M as [<- | M];
            [ unfold Weather.reDDMMMYY; cbn -[isDigit]; rewrite D1, D2, Y1, Y2; reflexivity | ]).
    contradiction.
  - simpl in M. repeat (destruct M as [<- | M]; [ reflexivity | ]). contradiction.
  - simpl in M.
    repeat (destruct M as [<- | M];
            [ unfold trim, Meter.str2; cbn [append trimStart];
              rewrite (isDigit_not_space d1 D1); cbn [trimEnd];
              rewrite (isDigit_not_space y2 Y2); reflexivity | ]).
    contradiction.
  - reflexivity.
Qed.

Lemma reAlready_not_numeric (t : string) :
  WeatherExcel.reAlready t = true -> WeatherExcel.reNumeric t = None.
Proof.
  unfold WeatherExcel.reAlready, Weather.reDDMMMYY. intro H.
  destruct (list_ascii_of_string t)
    as [|d1 [|d2 [|h1 [|a1 [|a2 [|a3 [|h2 [|y1 [|y2 [|x l]]]]]]]]]] eqn:E;
    try discriminate H.
  apply string_of_list_eq in E. cbn [string_of_list_ascii] in E. subst t.
  destruct (isDigit d1) eqn:D1; [ | discriminate H ].
  destruct (isDigit d2) eqn:D2; [ | discriminate H ].
  destruct (h1 =? "-")%char eqn:H1; [ | discriminate H ].
  destruct (isAlpha a1) eqn:A1; [ | discriminate H ].
  apply Ascii.eqb_eq in H1. subst h1. clear H.
  set (rest := String a2 (String a3 (String h2 (String y1 (String y2 ""))))).
  assert (E1 : WeatherExcel.digitsBetween 1 2
                 (String d1 (String d2 (String "-" (String a1 rest))))
               = Some (Meter.str2 d1 d2, String "-" (String a1 rest))).
  { apply digitsBetween_spec. split; [ reflexivity | ]. split; [ | reflexivity ].
    split; [ simpl; rewrite D1, D2; reflexivity | simpl; lia ]. }
  unfold WeatherExcel.reNumeric. rewrite E1.
  change (WeatherExcel.isSep "-") with true. cbv iota.
  unfold WeatherExcel.digitsBetween. cbn [WeatherExcel.spanDigits].
  rewrite (isAlpha_not_digit a1 A1). reflexivity.
Qed.

Lemma reSlashMon_not_numeric (t : string) (g : string * string * string) :
  WeatherExcel.reSlashMon t = Some g -> WeatherExcel.reNumeric t = None.
Proof.
  destruct g as [[d m] y]. intro H. apply reSlashMon_spec in H.
  destruct H as (a1 & a2 & a3 & -> & -> & A1 & A2 & A3 & R1 & R3).
  unfold WeatherExcel.reNumeric.
  assert (E1 : WeatherExcel.digitsBetween 1 2
                 (d ++ String "/" (String a1 (String a2 (String a3 "")) ++ String "/" y))
               = Some (d, String "/" (String a1 (String a2 (String a3 "")) ++ String "/" y))).
  { apply digitsBetween_spec. split; [ reflexivity | ]. split; [ exact R1 | reflexivity ]. }
  rewrite E1. change (WeatherExcel.isSep "/") with true. cbv iota.
  unfold WeatherExcel.digitsBetween. cbn [append WeatherExcel.spanDigits].
  rewrite (isAlpha_not_digit a1 A1). reflexivity.
Qed.

Lemma numeric_nonempty (s : string) (g : string * string * string) :
  WeatherExcel.reNumeric (trim s) = Some g -> isEmpty s = false.
Proof. destruct s; [ discriminate | reflexivity ]. Qed.

Section WithBuiltins.
Context {B : Builtins}.

Lemma normalizeDate_numeric (s d m y : string) :
  WeatherExcel.reNumeric (trim s) = Some (d, m, y) ->
  WeatherExcel.normalizeDate (Str s)
  = padStart2 d ++ "-" ++ monthNameOf (natOfDigits m) ++ "-" ++ sliceLast 2 y.
Proof.
  intro H. unfold WeatherExcel.normalizeDate.
  cbn [truthy ToString]. rewrite (numeric_nonempty s _ H). cbn [negb]. cbv iota zeta.
  destruct (WeatherExcel.reAlready (trim s)) eqn:A.
  { apply reAlready_not_numeric in A. congruence. }
  destruct (WeatherExcel.reSlashMon (trim s)) as [g|] eqn:S.
  { apply reSlashMon_not_numeric in S. congruence. }
  rewrite H. rewrite month_lookup. reflexivity.
Qed.

(** X9. A weather Excel cell that reads as a numeric date d/m/y (separator -
    or /) is normalized to the padded day, a month name and the last two
    digits of the year; a month outside 1..12 becomes Jan instead of being
    rejected; the result is already in normalized form, and it passes the
    validator's date check exactly when the day is between 1 and 31. *)
Theorem numeric_dates_to_weather_format (s d m y : string) :
  WeatherExcel.reNumeric (trim s) = Some (d, m, y) ->
  let r := WeatherExcel.normalizeDate (Str s) in
  r = padStart2 d ++ "-" ++ monthNameOf (natOfDigits m) ++ "-" ++ sliceLast 2 y /\
  In (monthNameOf (natOfDigits m)) Meter.MONTHS /\
  WeatherExcel.reAlready r = true /\
  (Weather.isValidDDMMMYY r = true <-> 1 <= natOfDigits d <= 31).
Proof.
  intros H r. subst r. rewrite (normalizeDate_numeric s d m y H).
  pose proof (monthNameOf_months (natOfDigits m)) as M.
  apply reNumeric_spec in H. destruct H as (c1 & c2 & _ & _ & _ & Rd & _ & Ry).
  destruct (padStart2_run d Rd) as (d1 & d2 & -> & D1 & D2 & <-).
  destruct (sliceLast2_run y Ry) as (y1 & y2 & -> & Y1 & Y2).
  destruct (canonical_date d1 d2 y1 y2 _ D1 D2 Y1 Y2 M) as (R & C & T & Ne).
  split; [ reflexivity | ]. split; [ exact M | ].
  split; [ unfold WeatherExcel.reAlready; rewrite R; reflexivity | ].
  unfold Weather.isValidDDMMMYY. rewrite Ne, T, R, C.
  assert (X : existsb (String.eqb (monthNameOf (natOfDigits m))) Weather.MONTHS = true).
  { apply existsb_exists. eexists. split; [ exact M | apply String.eqb_refl ]. }
  rewrite X. cbn [negb].
  assert (Yb : natOfDigits (Meter.str2 y1 y2) <= 99).
  { rewrite natOfDigits_str2. pose proof (digit_value y1 Y1). pose proof (digit_value y2 Y2).
    lia. }
  replace (natOfDigits (Meter.str2 y1 y2) <? 0) with false
    by (symmetry; apply Nat.ltb_ge; lia).
  replace (99 <? natOfDigits (Meter.str2 y1 y2)) with false
    by (symmetry; apply Nat.ltb_ge; lia).
  cbn [orb].
  destruct (natOfDigits (Meter.str2 d1 d2) <? 1) eqn:L1;
    destruct (31 <? natOfDigits (Meter.str2 d1 d2)) eqn:L2; cbn [orb];
    rewrite ?Nat.ltb_lt, ?Nat.ltb_ge in *; split; intro; try discriminate; try lia;
    reflexivity.
Qed.

End WithBuiltins.

Lemma numeric_dates_to_weather_format_witness :
  WeatherExcel.normalizeDate (B := Example.builtins) (Str " 5/13/2024 ") = "05-Jan-24" /\
  (Weather.isValidDDMMMYY (WeatherExcel.normalizeDate (B := Example.builtins) (Str " 5/13/2024 "))
   = true <-> 1 <= natOfDigits "5" <= 31).
Proof.
  pose proof (numeric_dates_to_weather_format (B := Example.builtins)
                " 5/13/2024 " "5" "13" "2024" eq_refl) as H.
  cbv zeta in H. destruct H as (E & _ & _ & V). split; [ exact E | exact V ].
Defined.

End ExcelDates.

(* ------------------------------------------------------------------ *)
(** ** Normalizing twice                                            *)
(* ------------------------------------------------------------------ *)

Module Idempotence.
Import Js Spec DateTerms JsFacts DateShapes ExcelDates.

Lemma capitalize_alpha (a1 a2 a3 : ascii) :
  isAlpha a1 = true -> isAlpha a2 = true -> isAlpha a3 = true ->
  exists b1 b2 b3,
    toUpperCase (substring 0 1 (String a1 (String a2 (String a3 ""))))
    ++ toLowerCase (substring 1 (String.length (String a1 (String a2 (String a3 ""))) - 1)
                              (String a1 (String a2 (String a3 ""))))
    = String b1 (String b2 (String b3 "")) /\
    isAlpha b1 = true /\ isAlpha b2 = true /\ isAlpha b3 = true.
Proof.
  intros A1 A2 A3. exists (toUpper a1), (toLower a2), (toLower a3).
  split; [ reflexivity | ].
  rewrite (toUpper_alpha a1 A1), (toLower_alpha a2 A2), (toLower_alpha a3 A3). auto.
Qed.

(** A string in the weather format is left as it is. *)
Lemma already_shape (d1 d2 b1 b2 b3 y1 y2 : ascii) :
  isDigit d1 = true -> isDigit d2 = true ->
  isAlpha b1 = true -> isAlpha b2 = true -> isAlpha b3 = true ->
  isDigit y1 = true -> isDigit y2 = true ->
  let r := Meter.str2 d1 d2 ++ "-" ++ String b1 (String b2 (String b3 "")) ++ "-"
           ++ Meter.str2 y1 y2 in
  WeatherExcel.reAlready r = true /\ trim r = r /\ isEmpty r = false.
Proof.
  intros D1 D2 B1 B2 B3 Y1 Y2 r. subst r. split; [ | split ].
  - unfold WeatherExcel.reAlready, Weather.reDDMMMYY. cbn -[isDigit isAlpha].
    rewrite D1, D2, B1, B2, B3, Y1, Y2. reflexivity.
  - unfold trim, Meter.str2. cbn [append trimStart].
    rewrite (isDigit_not_space d1 D1). cbn [trimEnd].
    rewrite (isDigit_not_space y2 Y2). reflexivity.
  - reflexivity.
Qed.

Lemma reAlready_trim (t : string) : WeatherExcel.reAlready t = true -> trim t = t.
Proof.
  unfold WeatherExcel.reAlready, Weather.reDDMMMYY. intro H.
  destruct (list_ascii_of_string t)
    as [|d1 [|d2 [|h1 [|a1 [|a2 [|a3 [|h2 [|y1 [|y2 [|x l]]]]]]]]]] eqn:E;
    try discriminate H.
  apply string_of_list_eq in E. cbn [string_of_list_ascii] in E. subst t.
  destruct (isDigit d1) eqn:D1; [ | discriminate H ].
  destruct (isDigit d2) eqn:D2; [ | discriminate H ].
  destruct (h1 =? "-")%char; [ | discriminate H ].
  destruct (isAlpha a1); [ | discriminate H ].
  destruct (isAlpha a2); [ | discriminate H ].
  destruct (isAlpha a3); [ | discriminate H ].
  destruct (h2 =? "-")%char; [ | discriminate H ].
  destruct (isDigit y1); [ | discriminate H ].
  destruct (isDigit y2) eqn:Y2; [ | discriminate H ].
  unfold trim. cbn [trimStart]. rewrite (isDigit_not_space d1 D1). cbn [trimEnd].
  rewrite (isDigit_not_space y2 Y2). reflexivity.
Qed.

Section WithBuiltins.
Context {B : Builtins}.

Lemma normalizeDate_fix (r : string) :
  WeatherExcel.reAlready r = true -> WeatherExcel.normalizeDate (Str r) = r.
Proof.
  intro A. unfold WeatherExcel.normalizeDate. cbn [truthy ToString].
  rewrite (reAlready_trim r A).
  destruct r; [ discriminate A | ]. cbn [isEmpty negb]. cbv iota zeta.
  rewrite A. reflexivity.
Qed.

Lemma normalizeDate_idem (v : value) :
  WeatherExcel.normalizeDate (Str (WeatherExcel.normalizeDate v))
  = WeatherExcel.normalizeDate v.
Proof.
  unfold WeatherExcel.normalizeDate at 2 3.
  destruct (truthy v); cbn [negb]; [ | reflexivity ]. cbv zeta.
  set (str := trim (ToString v)).
  destruct (WeatherExcel.reAlready str) eqn:A; [ apply normalizeDate_fix; exact A | ].
  destruct (WeatherExcel.reSlashMon str) as [[[d m] y]|] eqn:S.
  { apply reSlashMon_spec in S.
    destruct S as (a1 & a2 & a3 & -> & _ & A1 & A2 & A3 & Rd & Ry).
    destruct (padStart2_run d Rd) as (d1 & d2 & E1 & D1 & D2 & _).
    destruct (sliceLast2_run y Ry) as (y1 & y2 & -> & Y1 & Y2).
    destruct (capitalize_alpha a1 a2 a3 A1 A2 A3) as (b1 & b2 & b3 & -> & B1 & B2 & B3).
    unfold WeatherExcel.padStart2. rewrite E1.
    apply normalizeDate_fix.
    apply (already_shape d1 d2 b1 b2 b3 y1 y2); assumption. }
  destruct (WeatherExcel.reNumeric str) as [[[d m] y]|] eqn:N.
  { rewrite month_lookup.
    pose proof (monthNameOf_months (natOfDigits m)) as M.
    apply reNumeric_spec in N. destruct N as (c1 & c2 & _ & _ & _ & Rd & _ & Ry).
    destruct (padStart2_run d Rd) as (d1 & d2 & E1 & D1 & D2 & _).
    destruct (sliceLast2_run y Ry) as (y1 & y2 & -> & Y1 & Y2).
    unfold WeatherExcel.padStart2. rewrite E1.
    apply normalizeDate_fix.
    destruct (canonical_date d1 d2 y1 y2 _ D1 D2 Y1 Y2 M) as (R & _).
    unfold WeatherExcel.reAlready. rewrite R. reflexivity. }
  unfold WeatherExcel.normalizeDate. cbn [truthy ToString].
  destruct (isEmpty str) eqn:Em; cbn [negb].
  { destruct str; [ reflexivity | discriminate Em ]. }
  cbv zeta. subst str. rewrite trim_idem, A, S, N. reflexivity.
Qed.

Lemma normalizeTime_idem (v : value) :
  WeatherExcel.normalizeTime (Str (WeatherExcel.normalizeTime v))
  = WeatherExcel.normalizeTime v.
Proof.
  unfold WeatherExcel.normalizeTime at 2 3.
  destruct (truthy v); cbn [negb]; [ | reflexivity ]. cbv zeta.
  set (str := trim (ToString v)).
  destruct (WeatherExcel.reTime str) as [[h mm]|] eqn:R.
  - destruct (Revalidation.reTime_TimeForm _ _ _ R) as (canon & F).
    destruct (Normalization.TimeForm_matches _ _ F) as (_ & E & _).
    rewrite R in E. rewrite E.
    destruct (Revalidation.TimeForm_canon _ _ F) as (Fc & Tc).
    destruct (Normalization.TimeForm_matches _ _ Fc) as (Ne & E' & _).
    unfold WeatherExcel.normalizeTime. cbn [truthy ToString]. rewrite Ne. cbn [negb].
    cbv zeta. rewrite Tc. exact E'.
  - assert (H : WeatherExcel.reHHMM str = false).
    { unfold WeatherExcel.reTime, Weather.reTime in R.
      destruct (Meter.reHMM str) eqn:R1; [ discriminate R | ].
      unfold WeatherExcel.reHHMM. rewrite (Normalization.reHHMM_of_reHMM _ R1). reflexivity. }
    rewrite H. unfold WeatherExcel.normalizeTime. cbn [truthy ToString].
    destruct (isEmpty str) eqn:Em; cbn [negb].
    { destruct str; [ reflexivity | discriminate Em ]. }
    cbv zeta. subst str. rewrite trim_idem, H, R. reflexivity.
Qed.

End WithBuiltins.
End Idempotence.

(* ------------------------------------------------------------------ *)
(** ** The meter Excel date normalizer                              *)
(* ------------------------------------------------------------------ *)

Module MeterExcelFacts.
Import Js Spec DateTerms JsFacts DateShapes ExcelDates Idempotence.

Lemma toUpper_toLower (c : ascii) : toUpper (toLower c) = toUpper c.
Proof. destruct c as [[] [] [] [] [] [] [] []]; reflexivity. Qed.

Lemma toLower_idem' (c : ascii) : toLower (toLower c) = toLower c.
Proof. apply toLower_idem. Qed.

(** The month of the table for a three-letter name. *)
Lemma monthOf_cases (m : string) :
  exists m1 m2,
    MeterExcel.monthOf m = Meter.str2 m1 m2 /\ isDigit m1 = true /\ isDigit m2 = true /\
    1 <= natOfDigits (Meter.str2 m1 m2) <= 12.
Proof.
  unfold MeterExcel.monthOf.
  destruct (Meter.mapGet MeterExcel.months (toLowerCase m)) as [month|] eqn:G.
  - apply Enrichment.mapGet_in in G. simpl in G.
    repeat (destruct G as [[= _ <-] | G];
            [ eexists _, _; split; [ reflexivity | ];
              split; [ reflexivity | ]; split; [ reflexivity | ];
              unfold natOfDigits; simpl; lia | ]).
    contradiction.
  - exists "0"%char, "1"%char. repeat split; unfold natOfDigits; simpl; lia.
Qed.

(** A recognized month name has the number of its place in the year. *)
Lemma monthOf_name (a1 a2 a3 : ascii) :
  isAlpha a1 = true ->
  In (Weather.capitalize (String a1 (String a2 (String a3 "")))) Meter.MONTHS ->
  exists m1 m2,
    MeterExcel.monthOf (String a1 (String a2 (String a3 ""))) = Meter.str2 m1 m2 /\
    isDigit m1 = true /\ isDigit m2 = true /\
    1 <= natOfDigits (Meter.str2 m1 m2) <= 12 /\
    nth (natOfDigits (Meter.str2 m1 m2) - 1) Meter.MONTHS "undefined"
    = Weather.capitalize (String a1 (String a2 (String a3 ""))).
Proof.
  intros A1 H.
  assert (C : Weather.capitalize (String a1 (String a2 (String a3 "")))
              = String (toUpper a1) (String (toLower a2) (String (toLower a3) "")))
    by reflexivity.
  rewrite C in *. clear C.
  assert (L : toLowerCase (String a1 (String a2 (String a3 "")))
              = String (toLower (toUpper a1))
                       (String (toLower (toLower a2)) (String (toLower (toLower a3)) ""))).
  { cbn [toLowerCase mapString]. rewrite !toLower_idem.
    f_equal. clear - A1. destruct a1 as [[] [] [] [] [] [] [] []]; try reflexivity;
      discriminate A1. }
  unfold MeterExcel.monthOf. rewrite L. simpl in H.
  repeat (destruct H as [H | H];
          [ injection H as <- <- <-;
            eexists _, _; split; [ reflexivity | ];
            split; [ reflexivity | ]; split; [ reflexivity | ];
            split; [ unfold natOfDigits; simpl; lia | reflexivity ] | ]).
  contradiction.
Qed.

(** The year that the meter parser writes. *)
Lemma yearOf_cases (y : string) :
  digitRun 2 4 y ->
  allChars isDigit (MeterExcel.yearOf y) = true /\
  sliceLast 2 (MeterExcel.yearOf y) = sliceLast 2 y /\
  (String.length y <> 3 -> String.length (MeterExcel.yearOf y) = 4) /\
  (String.length y = 3 -> MeterExcel.yearOf y = y).
Proof.
  intros (A & L1 & L2). unfold MeterExcel.yearOf.
  destruct y as [|c1 [|c2 [|c3 [|c4 [|c5 y]]]]]; simpl in L1, L2; try lia;
    cbn [String.length Nat.eqb]; cbv iota.
  - split; [ exact A | ]. split; [ reflexivity | ]. split; [ reflexivity | discriminate ].
  - split; [ exact A | ]. split; [ reflexivity | ]. split; [ intro N; exfalso; apply N; reflexivity | reflexivity ].
  - split; [ exact A | ]. split; [ reflexivity | ]. split; [ reflexivity | discriminate ].
Qed.

Lemma allDigits_no_hyphen (a : string) :
  allChars isDigit a = true -> allChars (fun c => negb (c =? "-")%char) a = true.
Proof.
  induction a as [|c a IH]; simpl; [ reflexivity | ].
  intro H. apply andb_prop in H. destruct H as (D & H).
  rewrite (isDigit_not_hyphen c D), (IH H). reflexivity.
Qed.

Lemma split_piece (sep : ascii) (a rest : string) :
  allChars (fun c => negb (c =? sep)%char) a = true ->
  split sep (a ++ String sep rest) = a :: split sep rest.
Proof.
  induction a as [|c a IH]; intro H.
  - cbn [append]. apply split_sep.
  - simpl in H. apply andb_prop in H. destruct H as (N & H).
    apply negb_true_iff in N. cbn [append].
    rewrite split_other by exact N. rewrite (IH H). reflexivity.
Qed.

Lemma split_last (sep : ascii) (a : string) :
  allChars (fun c => negb (c =? sep)%char) a = true -> split sep a = [a].
Proof.
  induction a as [|c a IH]; intro H; [ reflexivity | ].
  simpl in H. apply andb_prop in H. destruct H as (N & H).
  apply negb_true_iff in N. rewrite split_other by exact N. rewrite (IH H). reflexivity.
Qed.

(** The direct conversion of a date that the meter parser wrote. *)
Lemma ddmmmyy_of_parsed (d1 d2 m1 m2 : ascii) (year : string) :
  isDigit d1 = true -> isDigit d2 = true -> isDigit m1 = true -> isDigit m2 = true ->
  allChars isDigit year = true ->
  1 <= natOfDigits (Meter.str2 m1 m2) <= 12 ->
  Meter.ddmmyyyyToDDMMMYY (Meter.str2 d1 d2 ++ "-" ++ Meter.str2 m1 m2 ++ "-" ++ year)
  = Meter.str2 d1 d2 ++ "-"
    ++ nth (natOfDigits (Meter.str2 m1 m2) - 1) Meter.MONTHS "undefined" ++ "-"
    ++ sliceLast 2 year.
Proof.
  intros D1 D2 M1 M2 Y R. unfold Meter.ddmmyyyyToDDMMMYY.
  assert (S : split "-" (Meter.str2 d1 d2 ++ "-" ++ Meter.str2 m1 m2 ++ "-" ++ year)
              = [Meter.str2 d1 d2; Meter.str2 m1 m2; year]).
  { change (Meter.str2 d1 d2 ++ "-" ++ Meter.str2 m1 m2 ++ "-" ++ year)
      with (Meter.str2 d1 d2 ++ String "-" (Meter.str2 m1 m2 ++ String "-" year)).
    rewrite split_piece by (apply allDigits_no_hyphen; simpl; rewrite D1, D2; reflexivity).
    rewrite split_piece by (apply allDigits_no_hyphen; simpl; rewrite M1, M2; reflexivity).
    rewrite split_last by (apply allDigits_no_hyphen; exact Y). reflexivity. }
  rewrite S. cbn [Meter.piece nth]. unfold numberOfDigits.
  replace (allChars isDigit (Meter.str2 m1 m2)) with true
    by (simpl; rewrite M1, M2; reflexivity).
  replace (natOfDigits (Meter.str2 m1 m2) =? 0) with false
    by (symmetry; apply Nat.eqb_neq; lia).
  replace (natOfDigits (Meter.str2 m1 m2) <? 1) with false
    by (symmetry; apply Nat.ltb_ge; lia).
  replace (12 <? natOfDigits (Meter.str2 m1 m2)) with false
    by (symmetry; apply Nat.ltb_ge; lia).
  reflexivity.
Qed.

Lemma monthNameOf_nth (n : nat) :
  1 <= n <= 12 -> monthNameOf n = nth (n - 1) Meter.MONTHS "undefined".
Proof.
  intro R. unfold monthNameOf.
  do 13 (destruct n as [|n]; [ first [ lia | reflexivity ] | ]). lia.
Qed.

(** A string in the meter format, read with the numeric pattern. *)
Lemma meter_format_numeric (t d m y : string) :
  Meter.reDDMMYYYY t = true ->
  WeatherExcel.reNumeric t = Some (d, m, y) ->
  t = padStart2 d ++ "-" ++ padStart2 m ++ "-" ++ MeterExcel.yearOf y.
Proof.
  unfold Meter.reDDMMYYYY. intros V N.
  destruct (list_ascii_of_string t)
    as [|d1 [|d2 [|h1 [|m1 [|m2 [|h2 [|y1 [|y2 [|y3 [|y4 [|x l]]]]]]]]]]] eqn:E;
    try discriminate V.
  apply string_of_list_eq in E. cbn [string_of_list_ascii] in E. subst t.
  rewrite !andb_true_iff, !Ascii.eqb_eq in V.
  destruct V as (((((((((D1 & D2) & ->) & D3) & D4) & ->) & D5) & D6) & D7) & D8).
  assert (N' : WeatherExcel.reNumeric
                 (String d1 (String d2 (String "-" (String m1 (String m2 (String "-"
                    (String y1 (String y2 (String y3 (String y4 ""))))))))))
               = Some (Meter.str2 d1 d2, Meter.str2 m1 m2,
                       String y1 (String y2 (String y3 (String y4 ""))))).
  { apply reNumeric_spec. exists "-"%char, "-"%char.
    split; [ reflexivity | ]. split; [ reflexivity | ]. split; [ reflexivity | ].
    unfold digitRun. simpl. rewrite D1, D2, D3, D4, D5, D6, D7, D8. simpl.
    repeat split; lia. }
  rewrite N' in N. injection N as <- <- <-. reflexivity.
Qed.

Lemma reAlready_not_slash (t : string) :
  WeatherExcel.reAlready t = true -> WeatherExcel.reSlashMon t = None.
Proof.
  unfold WeatherExcel.reAlready, Weather.reDDMMMYY. intro H.
  destruct (list_ascii_of_string t)
    as [|d1 [|d2 [|h1 [|a1 [|a2 [|a3 [|h2 [|y1 [|y2 [|x l]]]]]]]]]] eqn:E;
    try discriminate H.
  apply string_of_list_eq in E. cbn [string_of_list_ascii] in E. subst t.
  destruct (isDigit d1) eqn:D1; [ | discriminate H ].
  destruct (isDigit d2) eqn:D2; [ | discriminate H ].
  destruct (h1 =? "-")%char eqn:H1; [ | discriminate H ].
  apply Ascii.eqb_eq in H1. subst h1. clear H.
  set (rest := String a1 (String a2 (String a3 (String h2 (String y1 (String y2 "")))))).
  assert (E1 : WeatherExcel.digitsBetween 1 2 (String d1 (String d2 (String "-" rest)))
               = Some (Meter.str2 d1 d2, String "-" rest)).
  { apply digitsBetween_spec. split; [ reflexivity | ]. split; [ | reflexivity ].
    split; [ simpl; rewrite D1, D2; reflexivity | simpl; lia ]. }
  unfold WeatherExcel.reSlashMon. rewrite E1. subst rest. reflexivity.
Qed.

Lemma meter_format_not_slash (t : string) :
  Meter.reDDMMYYYY t = true -> WeatherExcel.reSlashMon t = None.
Proof.
  unfold Meter.reDDMMYYYY. intro V.
  destruct (list_ascii_of_string t)
    as [|d1 [|d2 [|h1 [|m1 [|m2 [|h2 [|y1 [|y2 [|y3 [|y4 [|x l]]]]]]]]]]] eqn:E;
    try discriminate V.
  apply string_of_list_eq in E. cbn [string_of_list_ascii] in E. subst t.
  rewrite !andb_true_iff, !Ascii.eqb_eq in V.
  destruct V as (((((((((D1 & D2) & ->) & D3) & D4) & ->) & D5) & D6) & D7) & D8).
  set (rest := String y1 (String y2 (String y3 (String y4 "")))).
  assert (E1 : WeatherExcel.digitsBetween 1 2
                 (String d1 (String d2 (String "-" (String m1 (String m2 (String "-" rest))))))
               = Some (Meter.str2 d1 d2,
                       String "-" (String m1 (String m2 (String "-" rest))))).
  { apply digitsBetween_spec. split; [ reflexivity | ]. split; [ | reflexivity ].
    split; [ simpl; rewrite D1, D2; reflexivity | simpl; lia ]. }
  unfold WeatherExcel.reSlashMon. rewrite E1. subst rest. reflexivity.
Qed.

Section WithBuiltins.
Context {B : Builtins}.

Lemma meterDate_numeric (s d m y : string) :
  WeatherExcel.reNumeric (trim s) = Some (d, m, y) ->
  MeterExcel.normalizeDate (Str s)
  = padStart2 d ++ "-" ++ padStart2 m ++ "-" ++ MeterExcel.yearOf y.
Proof.
  intro H. unfold MeterExcel.normalizeDate.
  cbn [truthy ToString]. rewrite (numeric_nonempty s _ H). cbn [negb]. cbv iota zeta.
  destruct (Meter.reDDMMYYYY (trim s)) eqn:V.
  { apply (meter_format_numeric _ _ _ _ V H). }
  destruct (WeatherExcel.reSlashMon (trim s)) as [g|] eqn:S.
  { apply reSlashMon_not_numeric in S. congruence. }
  rewrite H. reflexivity.
Qed.

Lemma meterDate_slash (s d m y : string) :
  WeatherExcel.reSlashMon (trim s) = Some (d, m, y) ->
  MeterExcel.normalizeDate (Str s)
  = padStart2 d ++ "-" ++ MeterExcel.monthOf m ++ "-" ++ MeterExcel.yearOf y.
Proof.
  intro H. unfold MeterExcel.normalizeDate. cbn [truthy ToString].
  assert (Ne : isEmpty s = false) by (destruct s; [ discriminate H | reflexivity ]).
  rewrite Ne. cbn [negb]. cbv iota zeta.
  destruct (Meter.reDDMMYYYY (trim s)) eqn:V.
  { apply meter_format_not_slash in V. congruence. }
  rewrite H. reflexivity.
Qed.

End WithBuiltins.
End MeterExcelFacts.

(* ------------------------------------------------------------------ *)
(** ** Meter and weather dates of the same cell                     *)
(* ------------------------------------------------------------------ *)

Module MeterExcelDates.
Import Js Spec DateTerms JsFacts DateShapes ExcelDates Idempotence MeterExcelFacts.

(** A date DD-MM-Y with a year of three or four digits: its own numeric
    reading, and whether it is in the meter format. *)
Lemma parsed_shape (d1 d2 m1 m2 : ascii) (year : string) :
  isDigit d1 = true -> isDigit d2 = true -> isDigit m1 = true -> isDigit m2 = true ->
  digitRun 3 4 year ->
  let r := Meter.str2 d1 d2 ++ "-" ++ Meter.str2 m1 m2 ++ "-" ++ year in
  trim r = r /\
  WeatherExcel.reNumeric r = Some (Meter.str2 d1 d2, Meter.str2 m1 m2, year) /\
  (Meter.reDDMMYYYY r = true <-> String.length year = 4).
Proof.
  intros D1 D2 M1 M2 (A & L1 & L2) r. subst r.
  assert (N : WeatherExcel.reNumeric
                (Meter.str2 d1 d2 ++ "-" ++ Meter.str2 m1 m2 ++ "-" ++ year)
              = Some (Meter.str2 d1 d2, Meter.str2 m1 m2, year)).
  { apply reNumeric_spec. exists "-"%char, "-"%char.
    split; [ reflexivity | ]. split; [ reflexivity | ]. split; [ reflexivity | ].
    unfold digitRun. simpl. rewrite D1, D2, M1, M2, A. simpl. repeat split; lia. }
  split; [ | split; [ exact N | ] ].
  - destruct year as [|c1 [|c2 [|c3 [|c4 [|c5 y]]]]]; simpl in L1, L2; try lia;
      simpl in A; rewrite ?andb_true_r in A;
      repeat match type of A with _ && _ = true =>
               let X := fresh "X" in apply andb_prop in A; destruct A as (X & A) end;
      unfold trim, Meter.str2; cbn [append trimStart];
      rewrite (isDigit_not_space d1 D1); cbn [trimEnd];
      rewrite (isDigit_not_space _ A); reflexivity.
  - destruct year as [|c1 [|c2 [|c3 [|c4 [|c5 y]]]]]; simpl in L1, L2; try lia;
      simpl in A; rewrite ?andb_true_r in A;
      repeat match type of A with _ && _ = true =>
               let X := fresh "X" in apply andb_prop in A; destruct A as (X & A) end.
    + split; [ discriminate | discriminate ].
    + split; [ reflexivity | intros _ ].
      unfold Meter.reDDMMYYYY. cbn -[isDigit]. rewrite D1, D2, M1, M2, X, X0, X1, A.
      reflexivity.
Qed.

Lemma yearOf_run (y : string) : digitRun 2 4 y -> digitRun 3 4 (MeterExcel.yearOf y).
Proof.
  intros (A & L1 & L2). unfold MeterExcel.yearOf, digitRun.
  destruct y as [|c1 [|c2 [|c3 [|c4 [|c5 y]]]]]; simpl in L1, L2; try lia;
    cbn [String.length Nat.eqb]; cbv iota; (split; [ exact A | simpl; lia ]).
Qed.

Lemma yearOf_fix (y : string) : digitRun 3 4 y -> MeterExcel.yearOf y = y.
Proof.
  intros (_ & L1 & L2). unfold MeterExcel.yearOf.
  destruct (String.length y =? 2) eqn:E; [ apply Nat.eqb_eq in E; lia | reflexivity ].
Qed.

Section WithBuiltins.
Context {B : Builtins}.

(** What the meter parser makes of a cell that matches one of its two
    patterns. *)
Lemma meterDate_parsed (s d m y : string) :
  WeatherExcel.reNumeric (trim s) = Some (d, m, y) \/
  WeatherExcel.reSlashMon (trim s) = Some (d, m, y) ->
  exists d1 d2 m1 m2,
    MeterExcel.normalizeDate (Str s)
    = Meter.str2 d1 d2 ++ "-" ++ Meter.str2 m1 m2 ++ "-" ++ MeterExcel.yearOf y /\
    isDigit d1 = true /\ isDigit d2 = true /\ isDigit m1 = true /\ isDigit m2 = true /\
    digitRun 2 4 y.
Proof.
  intros [H | H].
  - rewrite (meterDate_numeric s d m y H).
    apply reNumeric_spec in H. destruct H as (c1 & c2 & _ & _ & _ & Rd & Rm & Ry).
    destruct (padStart2_run d Rd) as (d1 & d2 & -> & D1 & D2 & _).
    destruct (padStart2_run m Rm) as (m1 & m2 & -> & M1 & M2 & _).
    exists d1, d2, m1, m2. auto 10.
  - rewrite (meterDate_slash s d m y H).
    apply reSlashMon_spec in H.
    destruct H as (a1 & a2 & a3 & _ & _ & _ & _ & _ & Rd & Ry).
    destruct (padStart2_run d Rd) as (d1 & d2 & -> & D1 & D2 & _).
    destruct (monthOf_cases m) as (m1 & m2 & -> & M1 & M2 & _).
    exists d1, d2, m1, m2. auto 10.
Qed.

Lemma meterDate_fix (d1 d2 m1 m2 : ascii) (year : string) :
  isDigit d1 = true -> isDigit d2 = true -> isDigit m1 = true -> isDigit m2 = true ->
  digitRun 3 4 year ->
  MeterExcel.normalizeDate
    (Str (Meter.str2 d1 d2 ++ "-" ++ Meter.str2 m1 m2 ++ "-" ++ year))
  = Meter.str2 d1 d2 ++ "-" ++ Meter.str2 m1 m2 ++ "-" ++ year.
Proof.
  intros D1 D2 M1 M2 R.
  destruct (parsed_shape d1 d2 m1 m2 year D1 D2 M1 M2 R) as (T & N & _).
  rewrite <- T in N. rewrite (meterDate_numeric _ _ _ _ N).
  rewrite (yearOf_fix year R). reflexivity.
Qed.

(** X10. A meter Excel cell that reads as a date with a month name or as a
    numeric date is normalized to a text that the meter validator accepts as a
    DD-MM-YYYY date exactly when the year was not written with three digits:
    day and month are never range-checked, and an unknown month name becomes
    01. *)
Theorem parsed_meter_date_validity (s d m y : string) :
  WeatherExcel.reNumeric (trim s) = Some (d, m, y) \/
  WeatherExcel.reSlashMon (trim s) = Some (d, m, y) ->
  (Meter.isValidDDMMYYYY (Str (MeterExcel.normalizeDate (Str s))) = true <->
   String.length y <> 3).
Proof.
  intro H. destruct (meterDate_parsed s d m y H)
    as (d1 & d2 & m1 & m2 & -> & D1 & D2 & M1 & M2 & Ry).
  destruct (parsed_shape d1 d2 m1 m2 _ D1 D2 M1 M2 (yearOf_run y Ry)) as (T & _ & V).
  cbn [Meter.isValidDDMMYYYY]. rewrite T, V.
  destruct (yearOf_cases y Ry) as (_ & _ & L4 & L3). split.
  - intros L E. rewrite (L3 E) in L. lia.
  - exact L4.
Qed.

Lemma meterDate_idem (v : value) :
  MeterExcel.normalizeDate (Str (MeterExcel.normalizeDate v)) = MeterExcel.normalizeDate v.
Proof.
  unfold MeterExcel.normalizeDate at 2 3.
  destruct (truthy v); cbn [negb]; [ | reflexivity ]. cbv zeta.
  set (str := trim (ToString v)).
  assert (Id : MeterExcel.normalizeDate (Str str)
               = if Meter.reDDMMYYYY str then str
                 else match WeatherExcel.reSlashMon str with
                      | Some (d, m, y) =>
                          padStart2 d ++ "-" ++ MeterExcel.monthOf m ++ "-" ++ MeterExcel.yearOf y
                      | None =>
                          match WeatherExcel.reNumeric str with
                          | Some (d, m, y) =>
                              padStart2 d ++ "-" ++ padStart2 m ++ "-" ++ MeterExcel.yearOf y
                          | None => str
                          end
                      end).
  { unfold MeterExcel.normalizeDate. cbn [truthy ToString].
    destruct (isEmpty str) eqn:Em; cbn [negb].
    - destruct str; [ reflexivity | discriminate Em ].
    - cbv zeta. subst str. rewrite trim_idem. reflexivity. }
  destruct (Meter.reDDMMYYYY str) eqn:V.
  { exact Id. }
  destruct (WeatherExcel.reSlashMon str) as [[[d m] y]|] eqn:S.
  { apply reSlashMon_spec in S.
    destruct S as (a1 & a2 & a3 & _ & _ & _ & _ & _ & Rd & Ry).
    destruct (padStart2_run d Rd) as (d1 & d2 & -> & D1 & D2 & _).
    destruct (monthOf_cases m) as (m1 & m2 & -> & M1 & M2 & _).
    apply meterDate_fix; try assumption. apply yearOf_run. exact Ry. }
  destruct (WeatherExcel.reNumeric str) as [[[d m] y]|] eqn:N.
  { apply reNumeric_spec in N. destruct N as (c1 & c2 & _ & _ & _ & Rd & Rm & Ry).
    destruct (padStart2_run d Rd) as (d1 & d2 & -> & D1 & D2 & _).
    destruct (padStart2_run m Rm) as (m1 & m2 & -> & M1 & M2 & _).
    apply meterDate_fix; try assumption. apply yearOf_run. exact Ry. }
  exact Id.
Qed.

(** X11. The date and time normalizers of the weather and of the meter Excel
    services are idempotent on every cell value: normalizing the text they
    returned returns it unchanged. *)
Theorem excel_normalizers_idempotent (v : value) :
  WeatherExcel.normalizeDate (Str (WeatherExcel.normalizeDate v))
  = WeatherExcel.normalizeDate v /\
  WeatherExcel.normalizeTime (Str (WeatherExcel.normalizeTime v))
  = WeatherExcel.normalizeTime v /\
  MeterExcel.normalizeDate (Str (MeterExcel.normalizeDate v))
  = MeterExcel.normalizeDate v /\
  MeterExcel.normalizeTime (Str (MeterExcel.normalizeTime v))
  = MeterExcel.normalizeTime v.
Proof.
  split; [ apply normalizeDate_idem | ].
  split; [ apply normalizeTime_idem | ].
  split; [ apply meterDate_idem | ].
  exact (normalizeTime_idem v).
Qed.

(** X12. For a cell that reads as a numeric date with a month between 1 and
    12, or as a date with one of the twelve month names, the meter file's
    normalized date converted with ddmmyyyyToDDMMMYY is exactly the weather
    file's normalized date: the same cell names the same weather day in both
    uploads. *)
Theorem same_cell_in_both_files (s d m y : string) :
  (WeatherExcel.reNumeric (trim s) = Some (d, m, y) /\ 1 <= natOfDigits m <= 12) \/
  (WeatherExcel.reSlashMon (trim s) = Some (d, m, y) /\
   In (Weather.capitalize m) Meter.MONTHS) ->
  Meter.ddmmyyyyToDDMMMYY (MeterExcel.normalizeDate (Str s))
  = WeatherExcel.normalizeDate (Str s).
Proof.
  intros [(H & R) | (H & R)].
  - rewrite (meterDate_numeric s d m y H), (normalizeDate_numeric s d m y H).
    apply reNumeric_spec in H. destruct H as (c1 & c2 & _ & _ & _ & Rd & Rm & Ry).
    destruct (padStart2_run d Rd) as (d1 & d2 & -> & D1 & D2 & _).
    destruct (padStart2_run m Rm) as (m1 & m2 & -> & M1 & M2 & Em).
    destruct (yearOf_cases y Ry) as (Ay & Sy & _).
    rewrite ddmmmyy_of_parsed by (try assumption; lia).
    rewrite Em, Sy, (monthNameOf_nth _ R). reflexivity.
  - rewrite (meterDate_slash s d m y H).
    unfold WeatherExcel.normalizeDate. cbn [truthy ToString].
    assert (Ne : isEmpty s = false) by (destruct s; [ discriminate H | reflexivity ]).
    rewrite Ne. cbn [negb]. cbv iota zeta.
    destruct (WeatherExcel.reAlready (trim s)) eqn:A.
    { apply reAlready_not_slash in A. congruence. }
    rewrite H. fold (Weather.capitalize m).
    apply reSlashMon_spec in H.
    destruct H as (a1 & a2 & a3 & -> & _ & A1 & _ & _ & Rd & Ry).
    destruct (padStart2_run d Rd) as (d1 & d2 & E1 & D1 & D2 & _).
    unfold WeatherExcel.padStart2. rewrite E1.
    destruct (monthOf_name a1 a2 a3 A1 R) as (m1 & m2 & -> & M1 & M2 & Rm & En).
    destruct (yearOf_cases y Ry) as (Ay & Sy & _).
    rewrite ddmmmyy_of_parsed by assumption.
    rewrite En, Sy. reflexivity.
Qed.

End WithBuiltins.
Lemma parsed_meter_date_validity_witness :
  WeatherExcel.reNumeric (trim "5/6/2024") = Some ("5", "6", "2024") /\
  (Meter.isValidDDMMYYYY
     (Str (MeterExcel.normalizeDate (B := Example.builtins) (Str "5/6/2024"))) = true <->
   String.length "2024" <> 3).
Proof.
  split; [ reflexivity | ].
  exact (parsed_meter_date_validity (B := Example.builtins) "5/6/2024" "5" "6" "2024"
           (or_introl eq_refl)).
Defined.

Lemma same_cell_in_both_files_witness :
  (WeatherExcel.reNumeric (trim "5/6/2024") = Some ("5", "6", "2024") /\
   1 <= natOfDigits "6" <= 12) /\
  Meter.ddmmyyyyToDDMMMYY (MeterExcel.normalizeDate (B := Example.builtins) (Str "5/6/2024"))
  = WeatherExcel.normalizeDate (B := Example.builtins) (Str "5/6/2024").
Proof.
  assert (H : WeatherExcel.reNumeric (trim "5/6/2024") = Some ("5", "6", "2024") /\
              1 <= natOfDigits "6" <= 12).
  { split; [ reflexivity | ]. vm_compute. split; repeat constructor. }
  split; [ exact H | ].
  exact (same_cell_in_both_files (B := Example.builtins) "5/6/2024" "5" "6" "2024"
           (or_introl H)).
Defined.

End MeterExcelDates.

(* ------------------------------------------------------------------ *)
(** ** Date variations                                              *)
(* ------------------------------------------------------------------ *)

Module Variations.
Import Js Meter Spec DateTerms JsFacts DateShapes ExcelDates MeterExcelFacts.

(** *** [Array.from(new Set(l))] *)

Lemma setOf_acc (l : list string) :
  forall acc,
    NoDup acc ->
    let out := fold_left (fun acc x => if existsb (String.eqb x) acc then acc
                                       else (acc ++ [x])%list) l acc in
    (exists ext, out = (acc ++ ext)%list /\ List.length ext <= List.length l) /\
    NoDup out /\
    (forall x, In x out <-> In x acc \/ In x l).
Proof.
  induction l as [|a l IH]; intros acc N; simpl.
  - split; [ exists []; rewrite app_nil_r; auto | ]. split; [ exact N | ].
    intro x. tauto.
  - destruct (existsb (String.eqb a) acc) eqn:E.
    + destruct (IH acc N) as ((ext & E1 & L) & N' & I).
      split; [ exists ext; split; [ exact E1 | lia ] | ]. split; [ exact N' | ].
      intro x. rewrite I. apply existsb_exists in E. destruct E as (y & Hy & Ey).
      apply String.eqb_eq in Ey. subst y. intuition (subst; auto).
    + assert (Na : ~ In a acc).
      { intro H. assert (X : existsb (String.eqb a) acc = true).
        { apply existsb_exists. exists a. split; [ exact H | apply String.eqb_refl ]. }
        congruence. }
      assert (N2 : NoDup (acc ++ [a])%list).
      { apply NoDup_app; [ exact N | constructor; [ intros [] | constructor ] | ].
        intros x Hx [<- | []]. contradiction. }
      destruct (IH (acc ++ [a])%list N2) as ((ext & E1 & L) & N' & I).
      split; [ exists (a :: ext); rewrite E1, <- app_assoc; simpl; split;
               [ reflexivity | lia ] | ].
      split; [ exact N' | ].
      intro x. rewrite I, in_app_iff. simpl. tauto.
Qed.

Lemma setOf_cons (a : string) (l : list string) :
  exists rest,
    setOf (a :: l) = a :: rest /\ NoDup (a :: rest) /\
    List.length rest <= List.length l /\
    (forall x, In x rest <-> x <> a /\ In x l).
Proof.
  unfold setOf. cbn [fold_left existsb app].
  assert (N : NoDup [a]) by (constructor; [ intros [] | constructor ]).
  destruct (setOf_acc l [a] N) as ((ext & E & L) & N' & I).
  cbv zeta in *. exists ext. rewrite E in *. cbn [app] in *.
  split; [ reflexivity | ]. split; [ exact N' | ]. split; [ exact L | ].
  intro x. specialize (I x). simpl in I. inversion N' as [|? ? Hx _]; subst.
  split.
  - intro H. split; [ intros ->; contradiction | ].
    destruct (proj1 I (or_intror H)) as [[<- | []] | H']; [ contradiction | exact H' ].
  - intros (Ne & H). destruct (proj2 I (or_intror H)) as [<- | H']; [ contradiction | exact H' ].
Qed.

(** *** The two patterns exclude each other *)

Lemma meterVariants_length (date : string) :
  WeatherDates.meterVariants date <> [] -> String.length date = 10.
Proof.
  unfold WeatherDates.meterVariants, WeatherDates.reDDMMYYYY. intro H.
  rewrite <- length_list_ascii.
  destruct (list_ascii_of_string date)
    as [|d1 [|d2 [|h1 [|m1 [|m2 [|h2 [|y1 [|y2 [|y3 [|y4 [|x l]]]]]]]]]]];
    try (exfalso; apply H; reflexivity).
  reflexivity.
Qed.

Lemma weatherVariants_length (date : string) :
  WeatherDates.weatherVariants date <> [] -> String.length date = 9.
Proof.
  unfold WeatherDates.weatherVariants, Weather.reDDMMMYY. intro H.
  rewrite <- length_list_ascii.
  destruct (list_ascii_of_string date)
    as [|d1 [|d2 [|h1 [|a1 [|a2 [|a3 [|h2 [|y1 [|y2 [|x l]]]]]]]]]];
    try (exfalso; apply H; reflexivity).
  reflexivity.
Qed.

Lemma variants_length (date : string) :
  List.length (WeatherDates.meterVariants date ++ WeatherDates.weatherVariants date) <= 2.
Proof.
  destruct (WeatherDates.meterVariants date) as [|a l] eqn:M.
  - simpl. unfold WeatherDates.weatherVariants.
    destruct (Weather.reDDMMMYY date) as [[[? ?] ?]|]; [ | simpl; lia ].
    destruct (WeatherDates.findIndexFrom _ _ _); simpl; lia.
  - assert (L : String.length date = 10) by (apply meterVariants_length; congruence).
    destruct (WeatherDates.weatherVariants date) as [|b l'] eqn:W.
    + rewrite app_nil_r, <- M. unfold WeatherDates.meterVariants.
      destruct (WeatherDates.reDDMMYYYY date) as [[[? ?] ?]|]; [ | simpl; lia ].
      destruct (_ && _); simpl; lia.
    + assert (L' : String.length date = 9) by (apply weatherVariants_length; congruence).
      lia.
Qed.

(** X13. getDateVariations returns the given date first, followed by at most
    two other texts, all distinct; the others are exactly the meter-format and
    weather-format variants that differ from the date, and there are none when
    the date is in neither DD-MM-YYYY nor DD-MMM-YY form. *)
Theorem date_variations_shape (date : string) :
  exists rest,
    WeatherDates.getDateVariations date = date :: rest /\
    NoDup (date :: rest) /\
    List.length rest <= 2 /\
    (forall x, In x rest <->
               x <> date /\
               In x (WeatherDates.meterVariants date ++ WeatherDates.weatherVariants date)) /\
    (WeatherDates.reDDMMYYYY date = None -> Weather.reDDMMMYY date = None -> rest = []).
Proof.
  unfold WeatherDates.getDateVariations.
  destruct (setOf_cons date
              (WeatherDates.meterVariants date ++ WeatherDates.weatherVariants date))
    as (rest & E & N & L & I).
  exists rest. split; [ exact E | ]. split; [ exact N | ].
  split; [ pose proof (variants_length date); lia | ]. split; [ exact I | ].
  intros M W. destruct rest as [|x rest]; [ reflexivity | ].
  exfalso. destruct (proj1 (I x) (or_introl eq_refl)) as (_ & H).
  unfold WeatherDates.meterVariants, WeatherDates.weatherVariants in H.
  rewrite M, W in H. exact H.
Qed.

Section WithBuiltins.
Context {B : Builtins}.

(** X14. For a DD-MM-YYYY date with a month between 01 and 12, the date
    variations looked up in the weather store are the date, its
    ddmmyyyyToDDMMMYY form and its ddmmyyyyToISO form, in this order; the
    weather Excel normalizer maps the date to the same DD-MMM-YY form, and the
    meter Excel normalizer leaves it unchanged. *)
Theorem meter_date_conversions_agree (d : string) :
  reDDMMYYYY d = true ->
  1 <= natOfDigits (substring 3 2 d) <= 12 ->
  WeatherDates.getDateVariations d = [d; ddmmyyyyToDDMMMYY d; ddmmyyyyToISO d] /\
  WeatherExcel.normalizeDate (Str d) = ddmmyyyyToDDMMMYY d /\
  MeterExcel.normalizeDate (Str d) = d.
Proof.
  intros V M. unfold reDDMMYYYY in V.
  destruct (list_ascii_of_string d)
    as [|d1 [|d2 [|h1 [|m1 [|m2 [|h2 [|y1 [|y2 [|y3 [|y4 [|x l]]]]]]]]]]] eqn:E;
    try discriminate V.
  apply string_of_list_eq in E. cbn [string_of_list_ascii] in E. subst d.
  rewrite !andb_true_iff, !Ascii.eqb_eq in V.
  destruct V as (((((((((D1 & D2) & ->) & D3) & D4) & ->) & D5) & D6) & D7) & D8).
  change (substring 3 2 _) with (str2 m1 m2) in M.
  set (year := String y1 (String y2 (String y3 (String y4 "")))).
  assert (Ry : digitRun 3 4 year).
  { unfold digitRun, year. simpl. rewrite D5, D6, D7, D8. simpl. lia. }
  change (String d1 (String d2 (String "-" (String m1 (String m2 (String "-" year))))))
    with (str2 d1 d2 ++ "-" ++ str2 m1 m2 ++ "-" ++ year).
  destruct (MeterExcelDates.parsed_shape d1 d2 m1 m2 year D1 D2 D3 D4 Ry) as (T & N & _).
  pose proof (ddmmmyy_of_parsed d1 d2 m1 m2 year D1 D2 D3 D4 (proj1 Ry) M) as C.
  change (sliceLast 2 year) with (str2 y3 y4) in C.
  split; [ | split ].
  - rewrite C. unfold ddmmyyyyToISO.
    assert (S : split "-" (str2 d1 d2 ++ "-" ++ str2 m1 m2 ++ "-" ++ year)
                = [str2 d1 d2; str2 m1 m2; year])
      by exact (RoundTrip.split_date d1 d2 m1 m2 y1 y2 y3 y4 D1 D2 D3 D4 D5 D6 D7 D8).
    rewrite S. cbn [piece nth].
    unfold WeatherDates.getDateVariations.
    assert (MV : WeatherDates.meterVariants (str2 d1 d2 ++ "-" ++ str2 m1 m2 ++ "-" ++ year)
                 = [str2 d1 d2 ++ "-" ++ nth (natOfDigits (str2 m1 m2) - 1) MONTHS "undefined"
                    ++ "-" ++ str2 y3 y4;
                    year ++ "-" ++ str2 m1 m2 ++ "-" ++ str2 d1 d2]).
    { unfold WeatherDates.meterVariants, WeatherDates.reDDMMYYYY, year.
      cbn -[isDigit natOfDigits nth MONTHS Nat.leb Nat.ltb].
      rewrite D1, D2, D3, D4, D5, D6, D7, D8.
      cbn -[natOfDigits nth MONTHS Nat.leb Nat.ltb].
      replace (1 <=? natOfDigits (str2 m1 m2)) with true
        by (symmetry; apply Nat.leb_le; lia).
      replace (natOfDigits (str2 m1 m2) <? 13) with true
        by (symmetry; apply Nat.ltb_lt; lia).
      reflexivity. }
    assert (WV : WeatherDates.weatherVariants (str2 d1 d2 ++ "-" ++ str2 m1 m2 ++ "-" ++ year)
                 = []) by reflexivity.
    rewrite MV, WV. cbn [app].
    assert (Cs : natOfDigits (str2 m1 m2) = 1 \/ natOfDigits (str2 m1 m2) = 2 \/
                 natOfDigits (str2 m1 m2) = 3 \/ natOfDigits (str2 m1 m2) = 4 \/
                 natOfDigits (str2 m1 m2) = 5 \/ natOfDigits (str2 m1 m2) = 6 \/
                 natOfDigits (str2 m1 m2) = 7 \/ natOfDigits (str2 m1 m2) = 8 \/
                 natOfDigits (str2 m1 m2) = 9 \/ natOfDigits (str2 m1 m2) = 10 \/
                 natOfDigits (str2 m1 m2) = 11 \/ natOfDigits (str2 m1 m2) = 12) by lia.
    assert (N3 : isDigit "-" = false) by reflexivity.
    repeat (destruct Cs as [-> | Cs]); [ .. | rewrite Cs ];
      (apply RoundTrip.setOf_three; unfold year, str2; cbn [nth MONTHS Nat.sub append];
       intro X; injection X; intros; subst; congruence).
  - rewrite <- T in N. rewrite (normalizeDate_numeric _ _ _ _ N), C.
    rewrite (monthNameOf_nth _ M). reflexivity.
  - apply MeterExcelDates.meterDate_fix; assumption.
Qed.

End WithBuiltins.

Lemma meter_date_conversions_agree_witness :
  WeatherDates.getDateVariations "01-06-2025" = ["01-06-2025"; "01-Jun-25"; "2025-06-01"] /\
  WeatherExcel.normalizeDate (B := Example.builtins) (Str "01-06-2025") = "01-Jun-25" /\
  MeterExcel.normalizeDate (B := Example.builtins) (Str "01-06-2025") = "01-06-2025".
Proof.
  exact (meter_date_conversions_agree (B := Example.builtins) "01-06-2025" eq_refl
           ltac:(vm_compute; lia)).
Defined.

End Variations.

(* ------------------------------------------------------------------ *)
(** ** Weather validation: accepted batches and returned rows       *)
(* ------------------------------------------------------------------ *)

Module WeatherRules.
Import Js Weather Spec DateTerms SensorTerms JsFacts DateShapes ExcelDates.

(** *** Canonical dates and times *)

Lemma valid_date_canonical (x : string) :
  isValidDDMMMYY (normalizeDDMMMYY (trim x)) = true ->
  CanonicalDate (normalizeDDMMMYY (trim x)).
Proof.
  unfold normalizeDDMMMYY. destruct (isEmpty (trim x)) eqn:Em.
  { destruct (trim x); discriminate. }
  rewrite trim_idem. destruct (reDDMMMYY (trim x)) as [[[d m] y]|] eqn:R.
  - unfold reDDMMMYY in R.
    destruct (list_ascii_of_string (trim x))
      as [|d1 [|d2 [|h1 [|a1 [|a2 [|a3 [|h2 [|y1 [|y2 [|z l]]]]]]]]]]; try discriminate R.
    destruct (isDigit d1) eqn:D1; [ | discriminate R ].
    destruct (isDigit d2) eqn:D2; [ | discriminate R ].
    destruct (h1 =? "-")%char eqn:H1; [ | discriminate R ].
    destruct (isAlpha a1) eqn:A1; [ | discriminate R ].
    destruct (isAlpha a2) eqn:A2; [ | discriminate R ].
    destruct (isAlpha a3) eqn:A3; [ | discriminate R ].
    destruct (h2 =? "-")%char eqn:H2; [ | discriminate R ].
    destruct (isDigit y1) eqn:Y1; [ | discriminate R ].
    destruct (isDigit y2) eqn:Y2; [ | discriminate R ].
    cbn [andb] in R. injection R as <- <- <-.
    destruct (Idempotence.capitalize_alpha a1 a2 a3 A1 A2 A3)
      as (b1 & b2 & b3 & Ec & B1 & B2 & B3).
    fold (capitalize (String a1 (String a2 (String a3 "")))) in Ec.
    rewrite Ec.
    destruct (Idempotence.already_shape d1 d2 b1 b2 b3 y1 y2 D1 D2 B1 B2 B3 Y1 Y2)
      as (Ra & T & Ne).
    cbv zeta in Ra, T, Ne. unfold isValidDDMMMYY. rewrite Ne, T.
    unfold WeatherExcel.reAlready in Ra.
    assert (R' : reDDMMMYY (Meter.str2 d1 d2 ++ "-" ++ String b1 (String b2 (String b3 ""))
                            ++ "-" ++ Meter.str2 y1 y2)
                 = Some (Meter.str2 d1 d2, String b1 (String b2 (String b3 "")),
                         Meter.str2 y1 y2)).
    { unfold reDDMMMYY, Meter.str2. cbn -[isDigit isAlpha].
      rewrite D1, D2, B1, B2, B3, Y1, Y2. reflexivity. }
    rewrite R'. intro V.
    destruct (_ || _) eqn:Rd; [ discriminate V | ].
    destruct (negb _) eqn:Mo; [ discriminate V | ].
    apply orb_false_iff in Rd. destruct Rd as (L1 & L2).
    apply Nat.ltb_ge in L1, L2. apply negb_false_iff in Mo.
    apply existsb_exists in Mo. destruct Mo as (mon & Hin & Em').
    apply String.eqb_eq in Em'.
    exists d1, d2, mon, y1, y2.
    assert (Cm : capitalize (String b1 (String b2 (String b3 ""))) = String b1 (String b2 (String b3 ""))).
    { rewrite <- Ec. apply Revalidation.capitalize_idem. }
    rewrite Cm in Em'. rewrite Em'.
    split; [ reflexivity | ]. repeat split; try assumption.
  - unfold isValidDDMMMYY. rewrite Em, trim_idem, R. discriminate.
Qed.

Lemma normalizeHHMM_trimmed (x : string) :
  trim (normalizeHHMM (trim x)) = normalizeHHMM (trim x).
Proof.
  unfold normalizeHHMM. destruct (isEmpty (trim x)); [ apply trim_idem | ].
  rewrite trim_idem. destruct (reTime (trim x)) as [[h mm]|] eqn:R; [ | apply trim_idem ].
  destruct (Revalidation.reTime_TimeForm _ _ _ R) as (canon & F).
  destruct (Normalization.TimeForm_matches _ _ F) as (_ & _ & _ & E).
  rewrite R in E. rewrite E. apply (Revalidation.TimeForm_canon _ _ F).
Qed.

Lemma valid_time_canonical (t : string) :
  isValidHHMM t = true -> trim t = t -> CanonicalTime t.
Proof.
  unfold isValidHHMM. destruct (isEmpty t); [ discriminate | ].
  intros V T. rewrite T in V. unfold reHHMM24 in V.
  destruct (list_ascii_of_string t) as [|h1 [|h2 [|c [|m1 [|m2 [|x l]]]]]] eqn:E;
    try discriminate V.
  apply string_of_list_eq in E. cbn [string_of_list_ascii] in E. subst t.
  rewrite !andb_true_iff in V. destruct V as (((Hh & Hc) & Hm1) & Hm2).
  apply Ascii.eqb_eq in Hc. subst c.
  destruct Hm1 as (Ma & Mb). apply Nat.leb_le in Ma, Mb.
  assert (Dm1 : isDigit m1 = true).
  { unfold isDigit. apply andb_true_intro. split; apply Nat.leb_le; lia. }
  exists h1, h2, m1, m2. split; [ reflexivity | ].
  rewrite !ExcelDates.natOfDigits_str2.
  pose proof (ExcelDates.digit_value m2 Hm2) as V2.
  apply orb_true_iff in Hh. destruct Hh as [Hh | Hh].
  - apply andb_prop in Hh. destruct Hh as (H1 & H2).
    pose proof (ExcelDates.digit_value h2 H2) as Vh.
    apply orb_true_iff in H1. rewrite !Ascii.eqb_eq in H1.
    destruct H1 as [-> | ->]; repeat split; try assumption; try reflexivity; simpl; lia.
  - rewrite !andb_true_iff in Hh. destruct Hh as ((H1 & Ha) & Hb).
    apply Ascii.eqb_eq in H1. subst h1. apply Nat.leb_le in Ha, Hb.
    assert (Dh2 : isDigit h2 = true).
    { unfold isDigit. apply andb_true_intro. split; apply Nat.leb_le; lia. }
    repeat split; try assumption; try reflexivity; simpl; lia.
Qed.

Section WithBuiltins.
Context {B : Builtins}.

Lemma clean_row (seen : list string) (row : obj) :
  rowErrorsOf seen row = [] ->
  isEmpty (dateOf row) = false /\ isValidDDMMMYY (dateOf row) = true /\
  isEmpty (timeOf row) = false /\ isValidHHMM (timeOf row) = true /\
  ~ In (keyOf (dateOf row) (timeOf row)) seen.
Proof.
  unfold rowErrorsOf. cbv zeta. intro H.
  apply app_eq_nil in H. destruct H as (Hd & H).
  apply app_eq_nil in H. destruct H as (Ht & H).
  apply app_eq_nil in H. destruct H as (Hk & _).
  unfold dateErrors in Hd. destruct (isEmpty (dateOf row)) eqn:Ed; [ discriminate Hd | ].
  destruct (isValidDDMMMYY (dateOf row)) eqn:Vd; [ | discriminate Hd ].
  unfold timeErrors in Ht. destruct (isEmpty (timeOf row)) eqn:Et; [ discriminate Ht | ].
  destruct (isValidHHMM (timeOf row)) eqn:Vt; [ | discriminate Ht ].
  repeat split. intro Hin. unfold duplicateErrors, checkable in Hk.
  rewrite Ed, Et, Vd, Vt in Hk. cbn [negb andb] in Hk.
  assert (X : existsb (String.eqb (keyOf (dateOf row) (timeOf row))) seen = true).
  { apply existsb_exists. eexists. split; [ exact Hin | apply String.eqb_refl ]. }
  rewrite X in Hk. discriminate Hk.
Qed.

Lemma valid_batch_clean (rs : list obj) (i : nat) (row : obj) :
  isValid (validateRows rs) = true ->
  nth_error rs i = Some row ->
  rowErrorsOf (seenAfterRows [] (firstn i rs)) row = [].
Proof.
  intros V Hn. rewrite <- (RowErrors.weatherErrorsAt_seen rs i row Hn).
  unfold weatherErrorsAt. unfold validateRows in *. cbn [isValid rowErrors] in *.
  destruct (snd (validateLoop [] 0 rs)); [ reflexivity | discriminate V ].
Qed.

Lemma dateOf_canonical (row : obj) :
  isValidDDMMMYY (dateOf row) = true -> CanonicalDate (dateOf row).
Proof.
  unfold dateOf. destruct (truthy (rawDate row)); [ | discriminate ].
  apply valid_date_canonical.
Qed.

Lemma timeOf_canonical (row : obj) :
  isValidHHMM (timeOf row) = true -> CanonicalTime (timeOf row).
Proof.
  intro V. apply valid_time_canonical; [ exact V | ].
  unfold timeOf in *. destruct (truthy (rawTime row)); [ | discriminate V ].
  apply normalizeHHMM_trimmed.
Qed.

Lemma normalizedRow_cells (row : obj) :
  get (normalizedRow row) "Date" = orField (dateOf row) (get row "Date") /\
  get (normalizedRow row) "Time" = orField (timeOf row) (get row "Time") /\
  (forall k, k <> "Date" -> k <> "Time" -> get (normalizedRow row) k = get row k).
Proof.
  unfold normalizedRow. split; [ | split ].
  - rewrite get_set_other by discriminate. apply get_set_same.
  - apply get_set_same.
  - intros k N1 N2. rewrite !get_set_other by congruence. reflexivity.
Qed.

(** X15. When weather validation accepts a batch, every returned row carries
    its Date as DD-Mon-YY with a capitalized month of the calendar and a day
    between 1 and 31, and its Time as zero-padded HH:MM of the 24-hour clock,
    and no two returned rows have the same Date and Time. *)
Theorem valid_weather_batch_is_canonical (rs : list obj) :
  isValid (validateRows rs) = true ->
  Forall2 (fun row out =>
             get out "Date" = Str (dateOf row) /\ get out "Time" = Str (timeOf row) /\
             CanonicalDate (dateOf row) /\ CanonicalTime (timeOf row))
          rs (rows (validateRows rs)) /\
  NoDup (map (fun out => (get out "Date", get out "Time")) (rows (validateRows rs))).
Proof.
  intro V.
  assert (R : rows (validateRows rs) = map normalizedRow rs)
    by (unfold validateRows; apply Revalidation.weatherLoop_rows).
  assert (C : forall i row, nth_error rs i = Some row ->
                get (normalizedRow row) "Date" = Str (dateOf row) /\
                get (normalizedRow row) "Time" = Str (timeOf row) /\
                CanonicalDate (dateOf row) /\ CanonicalTime (timeOf row)).
  { intros i row Hn.
    destruct (clean_row _ _ (valid_batch_clean rs i row V Hn)) as (Ed & Vd & Et & Vt & _).
    destruct (normalizedRow_cells row) as (Gd & Gt & _).
    rewrite Gd, Gt. unfold orField. rewrite Ed, Et.
    split; [ reflexivity | ]. split; [ reflexivity | ].
    split; [ apply dateOf_canonical; exact Vd | apply timeOf_canonical; exact Vt ]. }
  rewrite R. split.
  - clear R V. revert C. induction rs as [|row rs IH]; intro C; [ constructor | ].
    cbn [map]. constructor.
    + apply (C 0 row eq_refl).
    + apply IH. intros i r Hn. apply (C (S i) r Hn).
  - rewrite map_map. apply NoDup_nth_error. intros i j Li E.
    rewrite length_map in Li.
    destruct (nth_error rs i) as [ri|] eqn:Hi; [ | apply nth_error_None in Hi; lia ].
    rewrite (map_nth_error _ _ _ Hi) in E.
    destruct (nth_error rs j) as [rj|] eqn:Hj;
      [ rewrite (map_nth_error _ _ _ Hj) in E
      | rewrite (proj2 (nth_error_None _ _)) in E;
        [ discriminate E | rewrite length_map; apply nth_error_None; exact Hj ] ].
    injection E as Ed Et.
    destruct (C i ri Hi) as (Gdi & Gti & _). destruct (C j rj Hj) as (Gdj & Gtj & _).
    rewrite Gdi, Gdj in Ed. rewrite Gti, Gtj in Et.
    injection Ed as Ed. injection Et as Et.
    assert (W : forall a b ra rb, a < b -> nth_error rs a = Some ra ->
                  nth_error rs b = Some rb ->
                  dateOf ra = dateOf rb -> timeOf ra = timeOf rb -> False).
    { intros a b ra rb L Ha Hb E1 E2.
      destruct (clean_row _ _ (valid_batch_clean rs a ra V Ha)) as (Ea & Va & Eta & Vta & _).
      destruct (clean_row _ _ (valid_batch_clean rs b rb V Hb)) as (_ & _ & _ & _ & Nb).
      apply Nb. apply Duplicates.seenAfterRows_in. right. exists ra.
      split; [ apply Duplicates.in_firstn_nth; exists a; auto | ].
      split; [ | rewrite E1, E2; reflexivity ].
      unfold checkable. rewrite Ea, Va, Eta, Vta. reflexivity. }
    destruct (Nat.lt_trichotomy i j) as [L | [L | L]]; [ | exact L | ].
    + exfalso. apply (W i j ri rj L Hi Hj Ed Et).
    + exfalso. apply (W j i rj ri L Hj Hi); congruence.
Qed.

(** X16. Weather validation returns every row with all cells other than Date
    and Time unchanged and in their order, adding at most the columns Date and
    Time; the Date (Time) cell is the normalized text when that is not empty
    and the original Date (Time) cell otherwise. *)
Theorem weather_validation_keeps_sensor_cells (rs : list obj) :
  Forall2 (fun row out =>
             (forall k, k <> "Date" -> k <> "Time" -> get out k = get row k) /\
             (exists added, keys out = (keys row ++ added)%list /\
                            incl added ["Date"; "Time"]) /\
             get out "Date"
             = (if isEmpty (dateOf row) then get row "Date" else Str (dateOf row)) /\
             get out "Time"
             = (if isEmpty (timeOf row) then get row "Time" else Str (timeOf row)))
          rs (rows (validateRows rs)).
Proof.
  assert (R : rows (validateRows rs) = map normalizedRow rs)
    by (unfold validateRows; apply Revalidation.weatherLoop_rows).
  rewrite R. clear R. induction rs as [|row rs IH]; [ constructor | ].
  cbn [map]. constructor; [ | exact IH ].
  destruct (normalizedRow_cells row) as (Gd & Gt & Go).
  split; [ exact Go | ]. split; [ | split; [ exact Gd | exact Gt ] ].
  unfold normalizedRow.
  destruct (Enrichment.keys_set_app row "Date" (orField (dateOf row) (get row "Date")))
    as (a1 & E1 & I1).
  destruct (Enrichment.keys_set_app
              (set row "Date" (orField (dateOf row) (get row "Date")))
              "Time" (orField (timeOf row) (get row "Time"))) as (a2 & E2 & I2).
  exists (a1 ++ a2)%list. rewrite E2, E1, app_assoc. split; [ reflexivity | ].
  intros k H. apply in_app_iff in H. destruct H as [H | H].
  - apply I1 in H. destruct H as [<- | []]. left. reflexivity.
  - apply I2 in H. destruct H as [<- | []]. right. left. reflexivity.
Qed.

End WithBuiltins.
Lemma valid_weather_batch_is_canonical_witness :
  isValid (validateRows (B := Example.builtins) [Example.goodPair]) = true /\
  Forall2 (fun row out =>
             get out "Date" = Str (dateOf (B := Example.builtins) row) /\
             get out "Time" = Str (timeOf (B := Example.builtins) row) /\
             CanonicalDate (dateOf (B := Example.builtins) row) /\
             CanonicalTime (timeOf (B := Example.builtins) row))
          [Example.goodPair]
          (rows (validateRows (B := Example.builtins) [Example.goodPair])) /\
  NoDup (map (fun out => (get out "Date", get out "Time"))
             (rows (validateRows (B := Example.builtins) [Example.goodPair]))).
Proof.
  split; [ reflexivity | ].
  exact (valid_weather_batch_is_canonical (B := Example.builtins) [Example.goodPair]
           eq_refl).
Defined.

End WeatherRules.

(* ------------------------------------------------------------------ *)
(** ** Weather validation: sensor rules                             *)
(* ------------------------------------------------------------------ *)

Module SensorRules.
Import Js Weather Spec DateTerms SensorTerms JsFacts.

Lemma prefix8_append (a b : string) :
  8 <= String.length a -> prefix8 (a ++ b) = prefix8 a.
Proof.
  unfold prefix8. generalize 8 as n. intro n. revert a.
  induction n as [|n IH]; intros a L.
  - destruct a, b; reflexivity.
  - destruct a as [|c a]; simpl in L; [ lia | ].
    cbn [append substring]. rewrite IH by lia. reflexivity.
Qed.

Section WithBuiltins.
Context {B : Builtins}.

Lemma checkRange_prefix (v : value) (min max : float) (field : string)
      (allowZero : bool) (m : string) :
  8 <= String.length field ->
  In m (checkRange v min max field allowZero) -> prefix8 m = prefix8 field.
Proof.
  intro L. unfold checkRange. destruct (isBlank v); [ intros [] | ].
  destruct (isNaN _); [ intros [<- | []]; apply prefix8_append; exact L | ].
  destruct (negb allowZero && _); [ intros [<- | []]; apply prefix8_append; exact L | ].
  destruct (_ || _); [ intros [<- | []]; apply prefix8_append; exact L | intros [] ].
Qed.

Lemma moduleTemp_prefix (v : value) (m : string) :
  In m (moduleTempErrors v) -> prefix8 m = "Module T".
Proof.
  unfold moduleTempErrors. destruct (isBlank v); [ intros [] | ].
  destruct (isNaN _); [ intros [<- | []]; reflexivity | ].
  destruct (_ =? _)%float; [ intros [<- | []]; reflexivity | ].
  destruct (_ <? _)%float; [ intros [<- | []]; reflexivity | ].
  destruct (_ <? _)%float; [ intros [<- | []]; reflexivity | intros [] ].
Qed.

Lemma head_prefix (seen : list string) (row : obj) (m : string) :
  In m (dateErrors (dateOf row) ++ timeErrors (timeOf row)
        ++ duplicateErrors seen (dateOf row) (timeOf row))%list ->
  prefix8 m = "Missing " \/ prefix8 m = "Invalid " \/ prefix8 m = "Duplicat".
Proof.
  rewrite !in_app_iff. intros [H | [H | H]].
  - unfold dateErrors in H. destruct (isEmpty _); [ | destruct (negb _) ];
      simpl in H; intuition (subst; auto).
  - unfold timeErrors in H. destruct (isEmpty _); [ | destruct (negb _) ];
      simpl in H; intuition (subst; auto).
  - unfold duplicateErrors in H. destruct (checkable _ _); [ | destruct H ].
    destruct (existsb _ _); simpl in H; intuition (subst; auto).
Qed.

(** A defect of a row, by the check that reports it. *)
Lemma rowErrors_by_check (seen : list string) (row : obj) (m : string) :
  In m (rowErrorsOf seen row) <->
  In m (dateErrors (dateOf row) ++ timeErrors (timeOf row)
        ++ duplicateErrors seen (dateOf row) (timeOf row))%list \/
  In m (checkRange (get row "POA") 0 1500 "POA Pyranometer" true) \/
  In m (checkRange (get row "GHI") 0 1500 "GHI Pyranometer" true) \/
  In m (checkRange (get row "AlbedoUp") 0 1500 "Albedo Up" true) \/
  In m (checkRange (get row "AlbedoDown") 0 1500 "Albedo Down" true) \/
  In m (moduleTempErrors (get row "ModuleTemp")) \/
  In m (checkRange (get row "AmbientTemp") 0 100 "Ambient Temperature" true) \/
  In m (checkRange (get row "WindSpeed") 0 200 "Wind Speed" true) \/
  In m (checkRange (get row "Rainfall") 0 500 "Rainfall" true) \/
  In m (checkRange (get row "Humidity") 0 100 "Humidity" true).
Proof.
  unfold rowErrorsOf, sensorErrors. cbv zeta. rewrite !in_app_iff. tauto.
Qed.

Ltac other_check H P :=
  first [ apply head_prefix in H; rewrite P in H;
          destruct H as [H | [H | H]]; vm_compute in H; discriminate H
        | apply moduleTemp_prefix in H; rewrite P in H; vm_compute in H; discriminate H
        | apply checkRange_prefix in H;
          [ rewrite P in H; vm_compute in H; discriminate H | simpl; lia ] ].

(** A message is reported by the check of its own column only. *)
Ltac own_check P :=
  let H := fresh "H" in
  split;
  [ intro H; apply rowErrors_by_check in H;
    repeat (destruct H as [H | H]; [ first [ exact H | exfalso; other_check H P ] | ]);
    first [ exact H | exfalso; other_check H P ]
  | intro H; apply rowErrors_by_check; tauto ].

Lemma number_message (v : value) (min max : float) (label : string) :
  In (label ++ " must be a number") (checkRange v min max label true) <->
  isBlank v = false /\ isNaN (ToNumber v) = true.
Proof.
  unfold checkRange. destruct (isBlank v); [ split; [ intros [] | intros [[=] _] ] | ].
  destruct (isNaN (ToNumber v)).
  - split; [ auto | intros _; left; reflexivity ].
  - cbn [negb andb]. destruct (_ || _).
    + split; [ | intros [_ [=]] ]. intros [E | []].
      apply Enrichment.append_cancel_l in E. discriminate E.
    + split; [ intros [] | intros [_ [=]] ].
Qed.

Lemma between_message (v : value) (min max : float) (label : string) :
  In (label ++ " must be between " ++ NumberToString min ++ " and " ++ NumberToString max)
     (checkRange v min max label true) <->
  isBlank v = false /\ isNaN (ToNumber v) = false /\
  ((ToNumber v <? min) || (max <? ToNumber v))%float = true.
Proof.
  unfold checkRange. destruct (isBlank v); [ split; [ intros [] | intros [[=] _] ] | ].
  destruct (isNaN (ToNumber v)).
  - split; [ | intros (_ & [=] & _) ]. intros [E | []].
    apply Enrichment.append_cancel_l in E. discriminate E.
  - cbn [negb andb]. destruct (_ || _).
    + split; [ auto | intros _; left; reflexivity ].
    + split; [ intros [] | intros (_ & _ & [=]) ].
Qed.

Lemma zero_message (v : value) (min max : float) (label : string) :
  ~ In (label ++ " cannot be 0") (checkRange v min max label true).
Proof.
  unfold checkRange. destruct (isBlank v); [ intros [] | ].
  destruct (isNaN (ToNumber v)).
  - intros [E | []]. apply Enrichment.append_cancel_l in E. discriminate E.
  - cbn [negb andb]. destruct (_ || _); [ | intros [] ].
    intros [E | []]. apply Enrichment.append_cancel_l in E. discriminate E.
Qed.

Lemma moduleTemp_messages (v : value) :
  let n := ToNumber v in
  (In "Module Temperature must be a number" (moduleTempErrors v) <->
   isBlank v = false /\ isNaN n = true) /\
  (In "Module Temperature cannot be 0" (moduleTempErrors v) <->
   isBlank v = false /\ isNaN n = false /\ (n =? 0)%float = true) /\
  (In "Module Temperature cannot be negative" (moduleTempErrors v) <->
   isBlank v = false /\ isNaN n = false /\ (n =? 0)%float = false /\
   (n <? 0)%float = true) /\
  (In msgModuleTempMax (moduleTempErrors v) <->
   isBlank v = false /\ isNaN n = false /\ (n =? 0)%float = false /\
   (n <? 0)%float = false /\ (100 <? n)%float = true).
Proof.
  cbv zeta. unfold moduleTempErrors, msgModuleTempMax.
  destruct (isBlank v); [ simpl; intuition discriminate | ].
  destruct (isNaN (ToNumber v)); [ simpl; intuition discriminate | ].
  destruct (ToNumber v =? 0)%float; [ simpl; intuition discriminate | ].
  destruct (ToNumber v <? 0)%float; [ simpl; intuition discriminate | ].
  destruct (100 <? ToNumber v)%float; simpl; intuition discriminate.
Qed.

Lemma range_rule (seen : list string) (row : obj) (key label : string) (max : float) :
  8 <= String.length label ->
  (forall m, prefix8 m = prefix8 label ->
             (In m (rowErrorsOf seen row) <->
              In m (checkRange (get row key) 0 max label true))) ->
  rangeRule (rowErrorsOf seen row) row (key, label, max).
Proof.
  intros L Own. unfold rangeRule. cbv zeta.
  rewrite !Own by (apply prefix8_append; exact L).
  split; [ apply number_message | ]. split; [ apply between_message | apply zero_message ].
Qed.

(** X17. For a row of a weather batch, each of the eight range-checked sensors
    reports "must be a number" exactly when its cell is present and converts
    to NaN, and "must be between 0 and max" exactly when it converts to a
    number outside [0, max], and never "cannot be 0"; Module Temperature
    reports exactly one of not-a-number, zero, negative or above 100 when its
    cell is present and has that defect. *)
Theorem sensor_range_rules (rs : list obj) (i : nat) (row : obj) :
  nth_error rs i = Some row ->
  let errs := weatherErrorsAt (validateRows rs) (i + 2) in
  let v := get row "ModuleTemp" in
  let n := ToNumber v in
  Forall (rangeRule errs row) rangeFields /\
  (In "Module Temperature must be a number" errs <->
   isBlank v = false /\ isNaN n = true) /\
  (In "Module Temperature cannot be 0" errs <->
   isBlank v = false /\ isNaN n = false /\ (n =? 0)%float = true) /\
  (In "Module Temperature cannot be negative" errs <->
   isBlank v = false /\ isNaN n = false /\ (n =? 0)%float = false /\
   (n <? 0)%float = true) /\
  (In msgModuleTempMax errs <->
   isBlank v = false /\ isNaN n = false /\ (n =? 0)%float = false /\
   (n <? 0)%float = false /\ (100 <? n)%float = true).
Proof.
  intros Hn errs v n. subst errs. rewrite (RowErrors.weatherErrorsAt_seen rs i row Hn).
  set (seen := seenAfterRows [] (firstn i rs)).
  split.
  - unfold rangeFields.
    repeat (constructor;
            [ apply range_rule; [ simpl; lia | ];
              let m := fresh "m" in let P := fresh "P" in
              intros m P; own_check P | ]).
    constructor.
  - assert (Own : forall m, prefix8 m = "Module T" ->
                    (In m (rowErrorsOf seen row) <->
                     In m (moduleTempErrors (get row "ModuleTemp")))).
    { intros m P. own_check P. }
    rewrite !Own by reflexivity. apply moduleTemp_messages.
Qed.

End WithBuiltins.
Lemma sensor_range_rules_witness :
  nth_error [Example.sparseRow] 0 = Some Example.sparseRow /\
  (let errs := weatherErrorsAt (validateRows (B := Example.builtins) [Example.sparseRow])
                               (0 + 2) in
   let v := get Example.sparseRow "ModuleTemp" in
   let n := ToNumber (B := Example.builtins) v in
   Forall (rangeRule (B := Example.builtins) errs Example.sparseRow) rangeFields /\
   (In "Module Temperature must be a number" errs <->
    isBlank v = false /\ isNaN n = true) /\
   (In "Module Temperature cannot be 0" errs <->
    isBlank v = false /\ isNaN n = false /\ (n =? 0)%float = true) /\
   (In "Module Temperature cannot be negative" errs <->
    isBlank v = false /\ isNaN n = false /\ (n =? 0)%float = false /\
    (n <? 0)%float = true) /\
   (In msgModuleTempMax errs <->
    isBlank v = false /\ isNaN n = false /\ (n =? 0)%float = false /\
    (n <? 0)%float = false /\ (100 <? n)%float = true)).
Proof.
  split; [ reflexivity | ].
  exact (sensor_range_rules (B := Example.builtins) [Example.sparseRow] 0
           Example.sparseRow eq_refl).
Defined.

End SensorRules.

(* ------------------------------------------------------------------ *)
(** ** Submitted documents                                          *)
(* ------------------------------------------------------------------ *)

Module Documents.
Import Js Meter Spec DocTerms JsFacts PlantFacts.

Section WithBuiltins.
Context {B : Builtins}.


Lemma toNumber_not_nan (v : value) : isNaN (WeatherSubmit.toNumber v) = false.
Proof.
  unfold WeatherSubmit.toNumber. destruct (isBlank v); [ reflexivity | ].
  destruct (isNaN (ToNumber v)) eqn:N; [ reflexivity | exact N ].
Qed.



Lemma toText_clean (v : value) (name : string) :
  WeatherSubmit.toText v = Some name -> name <> "" /\ trim name = name.
Proof.
  assert (G : forall t, (if isEmpty t then None else Some t) = Some name ->
                        name <> "" /\ name = t).
  { intros [|c t]; [ discriminate | ]. intros [= <-]. split; [ discriminate | reflexivity ]. }
  unfold WeatherSubmit.toText.
  destruct v; try discriminate; cbv zeta; intro E; apply G in E;
    destruct E as (Ne & ->); (split; [ exact Ne | apply trim_idem ]).
Qed.


(** X19. Every weather document handed to insertMany has a truthy date and
    time, is not already in the store, and holds no NaN in its sensor fields;
    every upsert of the bulk-write variant filters on the truthy date and time
    of its own document, sets a status that is neither undefined nor null, a
    site name that (when set) is non-empty and trimmed, and no NaN. *)
Theorem weather_documents_are_well_formed (existsInStore : value -> value -> bool)
        (rs : list obj) :
  Forall (fun doc =>
            truthy (WeatherSubmit.date doc) = true /\
            truthy (WeatherSubmit.time doc) = true /\
            existsInStore (WeatherSubmit.date doc) (WeatherSubmit.time doc) = false /\
            Forall (fun f => isNaN f = false) (weatherNumbers doc))
         (WeatherSubmit.docsToInsert (WeatherSubmit.submitRows existsInStore rs)) /\
  Forall (fun op =>
            truthy (WeatherSubmit.filterDate op) = true /\
            truthy (WeatherSubmit.filterTime op) = true /\
            WeatherSubmit.date (WeatherSubmit.setDoc op) = WeatherSubmit.filterDate op /\
            WeatherSubmit.time (WeatherSubmit.setDoc op) = WeatherSubmit.filterTime op /\
            WeatherSubmit.setStatus op <> Undefined /\
            WeatherSubmit.setStatus op <> Null /\
            (forall name, WeatherSubmit.setSiteName op = Some name ->
                          name <> "" /\ trim name = name) /\
            Forall (fun f => isNaN f = false) (weatherNumbers (WeatherSubmit.setDoc op)))
         (fst (WeatherSubmit.submitRowsUpsert rs)).
Proof.
  assert (N : forall row, Forall (fun f => isNaN f = false)
                                 (weatherNumbers (WeatherSubmit.docOf row))).
  { intro row. unfold weatherNumbers. cbn.
    repeat (constructor; [ apply toNumber_not_nan | ]). constructor. }
  split.
  - rewrite Submission.submitRows_docs. apply Forall_forall. intros doc H.
    apply in_map_iff in H. destruct H as (row & <- & H).
    apply filter_In in H. destruct H as (_ & K).
    unfold keptRow, WeatherSubmit.lacksKey in K.
    rewrite !andb_true_iff, !negb_true_iff, orb_false_iff, !negb_false_iff in K.
    destruct K as ((Td & Tt) & Ex). cbn [WeatherSubmit.docOf WeatherSubmit.date WeatherSubmit.time].
    auto.
  - unfold WeatherSubmit.submitRowsUpsert. rewrite Submission.upsertLoop_spec. cbn [fst app].
    apply Forall_forall. intros op H. apply in_map_iff in H. destruct H as (row & <- & H).
    apply filter_In in H. destruct H as (_ & K).
    unfold WeatherSubmit.lacksKey in K.
    rewrite negb_true_iff, orb_false_iff, !negb_false_iff in K. destruct K as (Td & Tt).
    cbn [WeatherSubmit.upsertOf WeatherSubmit.filterDate WeatherSubmit.filterTime
         WeatherSubmit.setDoc WeatherSubmit.setStatus WeatherSubmit.setSiteName
         WeatherSubmit.docOf WeatherSubmit.date WeatherSubmit.time].
    split; [ exact Td | ]. split; [ exact Tt | ].
    split; [ reflexivity | ]. split; [ reflexivity | ].
    split; [ destruct (get row "status"), (get row "Status"); discriminate | ].
    split; [ destruct (get row "status"), (get row "Status"); discriminate | ].
    split; [ | apply N ].
    intros name E. apply (toText_clean _ _ E).
Qed.

End WithBuiltins.

End Documents.

(* ------------------------------------------------------------------ *)
(** ** Parsing, then validation                                     *)
(* ------------------------------------------------------------------ *)

Module ParseThenValidate.
Import Js Weather Spec DateTerms SensorTerms ParseTerms JsFacts DateShapes ExcelDates Idempotence.

Section WithBuiltins.
Context {B : Builtins}.

Lemma normalizeDate_trimmed (v : value) :
  trim (WeatherExcel.normalizeDate v) = WeatherExcel.normalizeDate v.
Proof.
  unfold WeatherExcel.normalizeDate.
  destruct (truthy v); cbn [negb]; [ | reflexivity ]. cbv zeta.
  set (str := trim (ToString v)).
  destruct (WeatherExcel.reAlready str) eqn:A; [ apply trim_idem | ].
  destruct (WeatherExcel.reSlashMon str) as [[[d m] y]|] eqn:S.
  { apply reSlashMon_spec in S.
    destruct S as (a1 & a2 & a3 & -> & _ & A1 & A2 & A3 & Rd & Ry).
    destruct (padStart2_run d Rd) as (d1 & d2 & E1 & D1 & D2 & _).
    destruct (sliceLast2_run y Ry) as (y1 & y2 & -> & Y1 & Y2).
    destruct (capitalize_alpha a1 a2 a3 A1 A2 A3) as (b1 & b2 & b3 & -> & B1 & B2 & B3).
    unfold WeatherExcel.padStart2. rewrite E1.
    apply (already_shape d1 d2 b1 b2 b3 y1 y2); assumption. }
  destruct (WeatherExcel.reNumeric str) as [[[d m] y]|] eqn:N; [ | apply trim_idem ].
  rewrite month_lookup.
  pose proof (monthNameOf_months (natOfDigits m)) as M.
  apply reNumeric_spec in N. destruct N as (c1 & c2 & _ & _ & _ & Rd & _ & Ry).
  destruct (padStart2_run d Rd) as (d1 & d2 & E1 & D1 & D2 & _).
  destruct (sliceLast2_run y Ry) as (y1 & y2 & -> & Y1 & Y2).
  unfold WeatherExcel.padStart2. rewrite E1.
  apply (canonical_date d1 d2 y1 y2 _ D1 D2 Y1 Y2 M).
Qed.

(** The validator's time normalization and the parser's agree. *)
Lemma time_normalizers_agree (s : string) :
  isEmpty s = false -> normalizeHHMM s = WeatherExcel.normalizeTime (Str s).
Proof.
  intro Ne. unfold normalizeHHMM, WeatherExcel.normalizeTime.
  cbn [truthy ToString]. rewrite Ne. cbn [negb]. cbv zeta.
  destruct (reTime (trim s)) as [[h mm]|] eqn:R.
  - destruct (Revalidation.reTime_TimeForm _ _ _ R) as (canon & F).
    destruct (Normalization.TimeForm_matches _ _ F) as (_ & E2 & _ & E4).
    rewrite R in E4. rewrite E2, E4. reflexivity.
  - assert (H : WeatherExcel.reHHMM (trim s) = false).
    { unfold reTime in R. destruct (Meter.reHMM (trim s)) eqn:R1; [ discriminate R | ].
      unfold WeatherExcel.reHHMM. rewrite (Normalization.reHHMM_of_reHMM _ R1). reflexivity. }
    unfold WeatherExcel.reTime. rewrite H, R. reflexivity.
Qed.

Lemma normalizeTime_trimmed (v : value) :
  trim (WeatherExcel.normalizeTime v) = WeatherExcel.normalizeTime v.
Proof.
  unfold WeatherExcel.normalizeTime.
  destruct (truthy v); cbn [negb]; [ | reflexivity ]. cbv zeta.
  set (str := trim (ToString v)).
  destruct (WeatherExcel.reTime str) as [[h mm]|] eqn:R.
  - destruct (Revalidation.reTime_TimeForm _ _ _ R) as (canon & F).
    destruct (Normalization.TimeForm_matches _ _ F) as (_ & E & _).
    rewrite R in E. rewrite E. apply (Revalidation.TimeForm_canon _ _ F).
  - destruct (WeatherExcel.reHHMM str); apply trim_idem.
Qed.

Lemma kept_validated (row : obj) :
  Kept row ->
  exists d,
    get row "Date" = Str d /\ d <> "" /\
    dateOf row = normalizeDDMMMYY d /\ isEmpty (dateOf row) = false /\
    get (normalizedRow row) "Date" = Str (normalizeDDMMMYY d) /\
    get (normalizedRow row) "Time" = get row "Time".
Proof.
  intros (dcell & tcell & Gd & Gt & Ne).
  set (d := WeatherExcel.normalizeDate dcell) in *.
  set (t := WeatherExcel.normalizeTime tcell) in *.
  assert (Td : trim d = d) by apply normalizeDate_trimmed.
  assert (Tt : trim t = t) by apply normalizeTime_trimmed.
  assert (Ed : dateOf row = normalizeDDMMMYY d).
  { unfold dateOf, rawDate. rewrite Gd. cbn [nullish truthy ToString].
    rewrite Ne. cbn [negb]. rewrite Td. reflexivity. }
  assert (Nd : isEmpty (normalizeDDMMMYY d) = false).
  { unfold normalizeDDMMMYY. rewrite Ne.
    destruct (reDDMMMYY (trim d)) as [[[dd m] yy]|] eqn:R; [ | exact Ne ].
    destruct (Duplicates.reDDMMMYY_lengths _ _ _ _ R) as (L & _).
    destruct dd; [ discriminate L | reflexivity ]. }
  assert (Et : orField (timeOf row) (get row "Time") = get row "Time").
  { unfold timeOf, rawTime. rewrite Gt. cbn [nullish truthy ToString].
    destruct (isEmpty t) eqn:Em; cbn [negb]; [ reflexivity | ].
    rewrite Tt, (time_normalizers_agree t Em).
    unfold t at 1. rewrite normalizeTime_idem. fold t.
    unfold orField. rewrite Em. reflexivity. }
  exists d. split; [ exact Gd | ].
  split; [ intro Z; rewrite Z in Ne; discriminate Ne | ].
  split; [ exact Ed | ]. split; [ rewrite Ed; exact Nd | ].
  destruct (WeatherRules.normalizedRow_cells row) as (Hd & Ht & _).
  rewrite Hd, Ht, Et. split; [ | reflexivity ].
  unfold orField. rewrite Ed, Nd. reflexivity.
Qed.

Lemma no_missing_date (seen : list string) (row : obj) :
  isEmpty (dateOf row) = false -> ~ In msgMissingDate (rowErrorsOf seen row).
Proof.
  intros Ne H. apply SensorRules.rowErrors_by_check in H.
  assert (P : prefix8 msgMissingDate = "Missing ") by reflexivity.
  destruct H as [H | H].
  - rewrite !in_app_iff in H. destruct H as [H | [H | H]].
    + unfold dateErrors in H. rewrite Ne in H.
      destruct (isValidDDMMMYY (dateOf row)); cbn [negb] in H;
        [ destruct H | destruct H as [H | []]; discriminate H ].
    + unfold timeErrors in H.
      destruct (isEmpty (timeOf row)); [ destruct H as [H | []]; discriminate H | ].
      destruct (isValidHHMM (timeOf row)); cbn [negb] in H;
        [ destruct H | destruct H as [H | []]; discriminate H ].
    + unfold duplicateErrors in H. destruct (checkable _ _); [ | destruct H ].
      destruct (existsb _ _); [ destruct H as [H | []]; discriminate H | destruct H ].
  - repeat (destruct H as [H | H];
            [ first [ apply SensorRules.moduleTemp_prefix in H; rewrite P in H; discriminate H
                    | apply SensorRules.checkRange_prefix in H;
                      [ rewrite P in H; vm_compute in H; discriminate H | simpl; lia ] ] | ]).
    apply SensorRules.checkRange_prefix in H;
      [ rewrite P in H; vm_compute in H; discriminate H | simpl; lia ].
Qed.

Lemma kept_batch (rs : list obj) : Forall Kept rs -> ValidatedAsParsed rs.
Proof.
  intro K. split.
  - intros n H. unfold weatherErrorsAt in H.
    destruct (find _ (rowErrors (validateRows rs))) as [e|] eqn:F; [ | destruct H ].
    apply find_some in F. destruct F as (Hin & _).
    destruct (RowErrors.weatherLoop_entries rs [] 0 e Hin) as (i & row & _ & Hn & E & _).
    rewrite E in H. revert H. apply no_missing_date.
    apply nth_error_In in Hn. rewrite Forall_forall in K.
    destruct (kept_validated row (K row Hn)) as (d & _ & _ & _ & Ne & _). exact Ne.
  - assert (R : rows (validateRows rs) = map normalizedRow rs)
      by (unfold validateRows; apply Revalidation.weatherLoop_rows).
    rewrite R. clear R. induction K as [|row rs Hk K IH]; [ constructor | ].
    cbn [map]. constructor; [ | exact IH ].
    destruct (kept_validated row Hk) as (d & Gd & Nd & _ & _ & Od & Ot).
    split; [ exact Ot | ]. exists d. auto.
Qed.

Lemma hasDate_kept (row : obj) (dcell tcell : value) :
  get row "Date" = Str (WeatherExcel.normalizeDate dcell) ->
  get row "Time" = Str (WeatherExcel.normalizeTime tcell) ->
  WeatherParse.hasDate row = true -> Kept row.
Proof.
  intros Gd Gt H. exists dcell, tcell. split; [ exact Gd | ]. split; [ exact Gt | ].
  unfold WeatherParse.hasDate in H. rewrite Gd in H.
  apply andb_prop in H. destruct H as (H & _). apply negb_true_iff in H. exact H.
Qed.

(** X20. Rows produced by the weather Excel parser, in the complex and in the
    standard layout, are never reported with "Missing Date" by validation;
    validation returns their Time cell as parsed and their Date cell as the
    validator's normalization of the parsed date. *)
Theorem parsed_rows_validate (dataStartRow : nat) (rawData : list (list value))
        (jsonData : list obj) :
  ValidatedAsParsed (WeatherParse.parseComplex dataStartRow rawData) /\
  ValidatedAsParsed (WeatherParse.parseStandard jsonData).
Proof.
  split; apply kept_batch; apply Forall_forall; intros row H;
    apply filter_In in H; destruct H as (H & D);
    apply in_map_iff in H; destruct H as (x & <- & _);
    eapply hasDate_kept; try exact D; reflexivity.
Qed.

End WithBuiltins.
End ParseThenValidate.

(* ------------------------------------------------------------------ *)
(** ** Pages of the preview table                                   *)
(* ------------------------------------------------------------------ *)

Module Pages.
Import PreviewTable.

Lemma currentData_chunk (A : Type) (data : list A) (pageSize currentPage : nat) :
  currentData data pageSize currentPage
  = firstn pageSize (skipn ((currentPage - 1) * pageSize) data).
Proof.
  unfold currentData, slice, endIndex, startIndex.
  set (s := (currentPage - 1) * pageSize).
  destruct (Nat.le_gt_cases (s + pageSize) (List.length data)) as [L | L].
  - rewrite Nat.min_l by exact L. f_equal. lia.
  - rewrite Nat.min_r by lia.
    rewrite !firstn_all2; [ reflexivity | | ]; rewrite length_skipn; lia.
Qed.

Lemma chunks_concat (A : Type) (pageSize : nat) :
  forall (k : nat) (data : list A),
    List.length data <= k * pageSize ->
    concat (map (fun j => firstn pageSize (skipn (j * pageSize) data)) (seq 0 k)) = data.
Proof.
  induction k as [|k IH]; intros data L.
  - simpl in L. destruct data; [ reflexivity | simpl in L; lia ].
  - cbn [seq map concat]. rewrite <- seq_shift, map_map.
    rewrite (map_ext _ (fun j => firstn pageSize (skipn (j * pageSize) (skipn pageSize data)))).
    + rewrite IH by (rewrite length_skipn; lia). cbn [Nat.mul skipn].
      apply firstn_skipn.
    + intro j. rewrite skipn_skipn. f_equal. f_equal. lia.
Qed.

Lemma totalPages_bounds (len pageSize : nat) :
  0 < pageSize ->
  len <= totalPages len pageSize * pageSize /\
  (0 < len -> (totalPages len pageSize - 1) * pageSize < len) /\
  (len = 0 -> totalPages len pageSize = 0).
Proof.
  intro P. unfold totalPages.
  pose proof (Nat.div_mod_eq (len + (pageSize - 1)) pageSize) as E.
  pose proof (Nat.mod_upper_bound (len + (pageSize - 1)) pageSize ltac:(lia)) as U.
  set (q := (len + (pageSize - 1)) / pageSize) in *.
  set (r := (len + (pageSize - 1)) mod pageSize) in *.
  split; [ nia | ]. split.
  - intro L. destruct q as [|q]; [ nia | ]. simpl. nia.
  - intros ->. destruct q as [|q]; [ reflexivity | nia ].
Qed.

(** X21. For a positive page size, the pages 1..totalPages of the preview
    table, taken in order, are exactly the rows of the data; each of them is
    non-empty with at most pageSize rows, and exactly pageSize before the
    last; pages past the last are empty, goToPage always lands on a page
    between 1 and totalPages and is the identity on those, and there are no
    pages exactly when there is no data. *)
Theorem pages_tile_the_rows (A : Type) (data : list A) (pageSize : nat) :
  0 < pageSize ->
  let pages := totalPages (List.length data) pageSize in
  concat (map (currentData data pageSize) (seq 1 pages)) = data /\
  (forall p, 1 <= p <= pages ->
             0 < List.length (currentData data pageSize p) <= pageSize /\
             (p < pages -> List.length (currentData data pageSize p) = pageSize)) /\
  (forall p, pages < p -> currentData data pageSize p = []) /\
  (forall page : Z, 1 <= pages -> 1 <= goToPage pages page <= pages) /\
  (forall page : Z, (1 <= page <= Z.of_nat pages)%Z ->
                    Z.of_nat (goToPage pages page) = page) /\
  (pages = 0 <-> data = []).
Proof.
  intros P pages.
  destruct (totalPages_bounds (List.length data) pageSize P) as (B1 & B2 & B3).
  fold pages in B1, B2, B3.
  split; [ | split; [ | split; [ | split; [ | split ] ] ] ].
  - rewrite <- seq_shift, map_map.
    rewrite (map_ext _ (fun j => firstn pageSize (skipn (j * pageSize) data))).
    + apply chunks_concat. exact B1.
    + intro j. rewrite currentData_chunk. f_equal. f_equal. lia.
  - intros p (L1 & L2). rewrite currentData_chunk, length_firstn, length_skipn.
    assert (Ln : 0 < List.length data).
    { destruct (List.length data); [ rewrite B3 in L2 by reflexivity; lia | lia ]. }
    specialize (B2 Ln). split; [ nia | intro Lt; nia ].
  - intros p L. rewrite currentData_chunk.
    rewrite skipn_all2 by nia. apply firstn_nil.
  - intros page L. unfold goToPage. lia.
  - intros page L. unfold goToPage. lia.
  - split.
    + intro Z. rewrite Z in B1. destruct data; [ reflexivity | simpl in B1; lia ].
    + intros ->. apply B3. reflexivity.
Qed.

(** X22. When the current page is between 1 and totalPages, the page buttons
    of the preview table are min(5, totalPages) consecutive page numbers, all
    between 1 and totalPages, and the current page is one of them. *)
Theorem page_buttons_around_current (pages currentPage : nat) :
  1 <= currentPage <= pages ->
  exists first,
    pageButtons pages currentPage = seq first (Nat.min 5 pages) /\
    1 <= first /\ first + Nat.min 5 pages <= pages + 1 /\
    In currentPage (pageButtons pages currentPage).
Proof.
  intros (L1 & L2). unfold pageButtons.
  assert (S : forall a n, map (fun i => a + i) (seq 0 n) = seq a n).
  { intros a n. revert a. induction n as [|n IH]; intro a; [ reflexivity | ].
    cbn [seq map]. rewrite Nat.add_0_r. f_equal.
    rewrite <- seq_shift, map_map, <- (IH (S a)). apply map_ext. intro i. lia. }
  unfold pageNum.
  destruct (pages <=? 5) eqn:C1.
  { apply Nat.leb_le in C1. exists 1.
    rewrite (map_ext _ (fun i => 1 + i)) by (intro i; lia). rewrite S.
    split; [ reflexivity | ]. split; [ lia | ]. split; [ lia | ].
    apply in_seq. lia. }
  apply Nat.leb_gt in C1.
  destruct (currentPage <=? 3) eqn:C2.
  { apply Nat.leb_le in C2. exists 1.
    rewrite (map_ext _ (fun i => 1 + i)) by (intro i; lia). rewrite S.
    split; [ reflexivity | ]. split; [ lia | ]. split; [ lia | ].
    apply in_seq. lia. }
  apply Nat.leb_gt in C2.
  destruct (pages - 2 <=? currentPage) eqn:C3.
  { apply Nat.leb_le in C3. exists (pages - 4). rewrite S.
    split; [ reflexivity | ]. split; [ lia | ]. split; [ lia | ].
    apply in_seq. lia. }
  apply Nat.leb_gt in C3. exists (currentPage - 2). rewrite S.
  split; [ reflexivity | ]. split; [ lia | ]. split; [ lia | ].
  apply in_seq. lia.
Qed.

Lemma currentData_nth (A : Type) (data : list A) (pageSize g : nat) :
  0 < pageSize ->
  startIndex (g / pageSize + 1) pageSize + g mod pageSize = g /\
  nth_error (currentData data pageSize (g / pageSize + 1)) (g mod pageSize)
  = nth_error data g.
Proof.
  intro P. pose proof (Nat.div_mod_eq g pageSize) as E.
  pose proof (Nat.mod_upper_bound g pageSize ltac:(lia)) as U.
  assert (S : startIndex (g / pageSize + 1) pageSize + g mod pageSize = g).
  { unfold startIndex. replace (g / pageSize + 1 - 1) with (g / pageSize) by lia. lia. }
  split; [ exact S | ].
  rewrite currentData_chunk, nth_error_firstn.
  apply Nat.ltb_lt in U. rewrite U. rewrite nth_error_skipn. f_equal. exact S.
Qed.

Lemma currentData_index (A : Type) (data : list A) (pageSize p l : nat) (x : A) :
  nth_error (currentData data pageSize p) l = Some x ->
  nth_error data (startIndex p pageSize + l) = Some x.
Proof.
  rewrite currentData_chunk, nth_error_firstn.
  destruct (l <? pageSize); [ | discriminate ].
  rewrite nth_error_skipn. exact (fun H => H).
Qed.

Lemma pages_tile_the_rows_witness :
  0 < 2 /\
  (let data := ["a"; "b"; "c"; "d"; "e"] in
   let pages := totalPages (List.length data) 2 in
   concat (map (currentData data 2) (seq 1 pages)) = data /\
   (forall p, 1 <= p <= pages ->
              0 < List.length (currentData data 2 p) <= 2 /\
              (p < pages -> List.length (currentData data 2 p) = 2)) /\
   (forall p, pages < p -> currentData data 2 p = []) /\
   (forall page : Z, 1 <= pages -> 1 <= goToPage pages page <= pages) /\
   (forall page : Z, (1 <= page <= Z.of_nat pages)%Z ->
                     Z.of_nat (goToPage pages page) = page) /\
   (pages = 0 <-> data = [])).
Proof.
  split; [ lia | ].
  exact (pages_tile_the_rows string ["a"; "b"; "c"; "d"; "e"] 2 ltac:(lia)).
Defined.

Lemma page_buttons_around_current_witness :
  1 <= 7 <= 10 /\
  exists first,
    pageButtons 10 7 = seq first (Nat.min 5 10) /\
    1 <= first /\ first + Nat.min 5 10 <= 10 + 1 /\
    In 7 (pageButtons 10 7).
Proof.
  split; [ lia | ].
  exact (page_buttons_around_current 10 7 ltac:(lia)).
Defined.

End Pages.

(* ------------------------------------------------------------------ *)
(** ** Rows with errors in the tables                               *)
(* ------------------------------------------------------------------ *)

Module ErrorRows.
Import Js Spec RowTerms JsFacts PreviewTable ErrorPage.

Lemma setOfZ_acc (l : list Z) :
  forall acc, NoDup (acc ++ l) ->
  fold_left (fun acc x => if existsb (Z.eqb x) acc then acc else (acc ++ [x])%list) l acc
  = (acc ++ l)%list.
Proof.
  induction l as [|x l IH]; intros acc N; cbn [fold_left].
  - symmetry. apply app_nil_r.
  - assert (F : existsb (Z.eqb x) acc = false).
    { destruct (existsb (Z.eqb x) acc) eqn:E; [ | reflexivity ].
      apply existsb_exists in E. destruct E as (y & Hy & Exy).
      apply Z.eqb_eq in Exy. subst y.
      apply NoDup_remove_2 in N. exfalso. apply N. apply in_or_app. auto. }
    rewrite F. rewrite IH; rewrite <- app_assoc; [ reflexivity | exact N ].
Qed.

Lemma sortZ_sorted (l : list Z) :
  StronglySorted Z.lt l -> sortZ l = l.
Proof.
  induction 1 as [|x l S IH F]; [ reflexivity | ].
  cbn [sortZ]. rewrite IH. destruct l as [|y l]; [ reflexivity | ].
  cbn [insertZ]. inversion F as [|? ? L _]; subst.
  apply Z.lt_le_incl, Z.leb_le in L. rewrite L. reflexivity.
Qed.

Lemma sorted_NoDup (l : list Z) : StronglySorted Z.lt l -> NoDup l.
Proof.
  induction 1 as [|x l S IH F]; constructor; [ | exact IH ].
  intro H. rewrite Forall_forall in F. specialize (F x H). lia.
Qed.

Lemma indices_sorted (A : Type) (num : A -> nat) (l : list A) :
  StronglySorted (fun a b => num a < num b) l ->
  StronglySorted Z.lt (map (fun n => (Z.of_nat n - 2)%Z) (map num l)).
Proof.
  induction 1 as [|x l S IH F]; cbn [map]; constructor; [ exact IH | ].
  rewrite Forall_forall in *. intros z H.
  apply in_map_iff in H. destruct H as (n & <- & H).
  apply in_map_iff in H. destruct H as (e & <- & H).
  specialize (F e H). lia.
Qed.

Lemma errorRowIndices_sorted (A : Type) (num : A -> nat) (l : list A) :
  StronglySorted (fun a b => num a < num b) l ->
  errorRowIndices (map num l) = map (fun e => (Z.of_nat (num e) - 2)%Z) l.
Proof.
  intro S. apply indices_sorted in S. unfold errorRowIndices, setOfZ.
  rewrite setOfZ_acc by (apply sorted_NoDup; exact S).
  cbn [app]. rewrite sortZ_sorted by exact S. apply map_map.
Qed.

Lemma setAt_in_range (l : list (option obj)) :
  forall i old row, nth_error l i = Some old ->
    List.length (setAt l i row) = List.length l /\
    forall j, nth_error (setAt l i row) j
              = if j =? i then Some (Some row) else nth_error l j.
Proof.
  induction l as [|x l IH]; intros i old row H.
  - destruct i; discriminate H.
  - destruct i as [|i]; cbn [setAt].
    + split; [ reflexivity | ]. intros [|j]; reflexivity.
    + cbn [nth_error] in H. destruct (IH i old row H) as (L & N).
      split; [ simpl; f_equal; exact L | ].
      intros [|j]; [ reflexivity | ]. cbn [nth_error]. rewrite N. reflexivity.
Qed.

Lemma hasError_in (rowNumbers : list nat) (g : nat) :
  hasError rowNumbers g = true <-> In (g + 2) rowNumbers.
Proof.
  unfold hasError. rewrite existsb_exists. split.
  - intros (n & H & E). apply Z.eqb_eq in E. replace (g + 2) with n by lia. exact H.
  - intro H. exists (g + 2). split; [ exact H | ]. apply Z.eqb_eq. lia.
Qed.

Lemma hasErrorNumber_in (rowNumbers : list nat) (g : nat) :
  hasErrorNumber rowNumbers (Some (Z.of_nat (g + 2))) = true <-> In (g + 2) rowNumbers.
Proof.
  unfold hasErrorNumber. rewrite existsb_exists. split.
  - intros (n & H & E). apply Z.eqb_eq in E. replace (g + 2) with n by lia. exact H.
  - intro H. exists (g + 2). split; [ exact H | ]. apply Z.eqb_eq. lia.
Qed.

Section WithBuiltins.
Context {B : Builtins}.

(** X23. On the weather error page, fed with the errors of validation and data
    of the batch's length, the table shows one row per error entry, in the
    order of the errors: the g-th shown row is the data row whose defects the
    g-th entry lists, it appears on page g/pageSize+1 at position g mod
    pageSize, its displayed row number is the entry's rowNumber, and it is
    highlighted as an error. *)
Theorem error_page_rows (rs fullData : list obj) (pageSize : nat) :
  List.length fullData = List.length rs -> 0 < pageSize ->
  let errors := Weather.rowErrors (Weather.validateRows rs) in
  let indices := errorRowIndices (map Weather.rowNumber errors) in
  let shown := filteredData (map Some fullData) indices in
  let numbers := filteredRowNumbers indices in
  List.length shown = List.length errors /\
  forall g e, nth_error errors g = Some e ->
    exists i row,
      Weather.rowNumber e = i + 2 /\
      nth_error fullData i = Some row /\
      (exists r, nth_error rs i = Some r /\
                 Weather.errors e
                 = Weather.rowErrorsOf (seenAfterRows [] (firstn i rs)) r) /\
      let page := g / pageSize + 1 in
      let localIndex := g mod pageSize in
      startIndex page pageSize + localIndex = g /\
      nth_error (currentData shown pageSize page) localIndex = Some (Some row) /\
      rowNumberOf (currentRowNumbers (Some numbers) pageSize page (List.length shown))
                  g localIndex
      = Some (Z.of_nat (Weather.rowNumber e)) /\
      hasErrorNumber (map Weather.rowNumber errors)
                     (Some (Z.of_nat (Weather.rowNumber e))) = true.
Proof.
  intros L P errors indices shown numbers.
  assert (I : indices = map (fun e => (Z.of_nat (Weather.rowNumber e) - 2)%Z) errors).
  { apply errorRowIndices_sorted. apply RowErrors.weatherLoop_sorted. }
  split.
  { unfold shown, filteredData. rewrite length_map, I, length_map. reflexivity. }
  intros g e Hg.
  assert (He : In e errors) by (eapply nth_error_In; exact Hg).
  destruct (RowErrors.weatherLoop_entries rs [] 0 e He) as (i & r & E1 & E2 & E3 & _).
  cbn [Nat.add] in E1.
  assert (Hi : i < List.length fullData).
  { rewrite L. apply nth_error_Some. congruence. }
  destruct (nth_error fullData i) as [row|] eqn:Hrow;
    [ | apply nth_error_None in Hrow; lia ].
  exists i, row. split; [ exact E1 | ]. split; [ exact Hrow | ].
  split; [ exists r; split; [ exact E2 | exact E3 ] | ].
  intros page localIndex.
  assert (Ig : nth_error indices g = Some (Z.of_nat i)).
  { rewrite I. rewrite (map_nth_error _ _ _ Hg). f_equal. lia. }
  destruct (Pages.currentData_nth _ shown pageSize g P) as (S1 & S2).
  split; [ exact S1 | ]. split; [ | split ].
  - fold page localIndex in S2. rewrite S2. unfold shown, filteredData.
    rewrite (map_nth_error _ _ _ Ig). f_equal. unfold at_.
    destruct (Z.of_nat i <? 0)%Z eqn:N; [ apply Z.ltb_lt in N; lia | ].
    rewrite Nat2Z.id. rewrite (map_nth_error _ _ _ Hrow). reflexivity.
  - unfold currentRowNumbers, rowNumberOf.
    assert (Ln : List.length shown = List.length numbers).
    { unfold shown, numbers, filteredData, filteredRowNumbers. rewrite !length_map.
      reflexivity. }
    rewrite Ln.
    change (slice numbers (startIndex page pageSize)
                  (endIndex page pageSize (List.length numbers)))
      with (currentData numbers pageSize page).
    destruct (Pages.currentData_nth _ numbers pageSize g P) as (_ & S3).
    fold page localIndex in S3. rewrite S3. unfold numbers, filteredRowNumbers.
    rewrite (map_nth_error _ _ _ Ig). f_equal. lia.
  - unfold hasErrorNumber. apply existsb_exists. exists (Weather.rowNumber e).
    split; [ apply in_map; exact He | apply Z.eqb_eq; reflexivity ].
Qed.

(** X24. Editing a cell of the g-th row shown on the weather error page
    changes the data row that the g-th error entry is about (row rowNumber-2),
    and only that: the data keeps its length, every other row is unchanged,
    the edited row has the new text in the edited column and its other cells
    unchanged. *)
Theorem error_page_edit_lands_in_row (rs fullData : list obj) (g : nat)
    (e : Weather.RowError) (columnKey value : string) :
  List.length fullData = List.length rs ->
  let errors := Weather.rowErrors (Weather.validateRows rs) in
  let indices := errorRowIndices (map Weather.rowNumber errors) in
  nth_error errors g = Some e ->
  let updated := handleCellChange indices (map Some fullData) g columnKey value in
  exists i row,
    Weather.rowNumber e = i + 2 /\
    nth_error fullData i = Some row /\
    List.length updated = List.length fullData /\
    nth_error updated i = Some (Some (set row columnKey (Str value))) /\
    (forall j, j <> i -> nth_error updated j = nth_error (map Some fullData) j) /\
    get (set row columnKey (Str value)) columnKey = Str value /\
    (forall k, k <> columnKey -> get (set row columnKey (Str value)) k = get row k).
Proof.
  intros L errors indices Hg updated.
  assert (I : indices = map (fun e => (Z.of_nat (Weather.rowNumber e) - 2)%Z) errors).
  { apply errorRowIndices_sorted. apply RowErrors.weatherLoop_sorted. }
  assert (He : In e errors) by (eapply nth_error_In; exact Hg).
  destruct (RowErrors.weatherLoop_entries rs [] 0 e He) as (i & r & E1 & E2 & _).
  cbn [Nat.add] in E1.
  assert (Hi : i < List.length fullData).
  { rewrite L. apply nth_error_Some. congruence. }
  destruct (nth_error fullData i) as [row|] eqn:Hrow;
    [ | apply nth_error_None in Hrow; lia ].
  exists i, row. split; [ exact E1 | ]. split; [ exact Hrow | ].
  assert (Ig : nth_error indices g = Some (Z.of_nat i)).
  { rewrite I. rewrite (map_nth_error _ _ _ Hg). f_equal. lia. }
  assert (U : updated = setAt (map Some fullData) i (set row columnKey (Str value))).
  { unfold updated, handleCellChange. rewrite Ig. unfold at_.
    destruct (Z.of_nat i <? 0)%Z eqn:N; [ apply Z.ltb_lt in N; lia | ].
    rewrite Nat2Z.id. rewrite (map_nth_error _ _ _ Hrow). reflexivity. }
  destruct (setAt_in_range (map Some fullData) i (Some row)
              (set row columnKey (Str value)) (map_nth_error _ _ _ Hrow)) as (Ln & Nth).
  rewrite U. split; [ rewrite Ln; apply length_map | ].
  split; [ rewrite Nth, Nat.eqb_refl; reflexivity | ].
  split.
  { intros j Hj. rewrite Nth. apply Nat.eqb_neq in Hj. rewrite Hj. reflexivity. }
  split; [ apply JsFacts.get_set_same | ].
  intros k Hk. apply JsFacts.get_set_other. congruence.
Qed.

Lemma weather_numbers (rs : list obj) (g : nat) :
  In (g + 2) (map Weather.rowNumber (Weather.rowErrors (Weather.validateRows rs))) <->
  exists row, nth_error rs g = Some row /\
              Weather.rowErrorsOf (seenAfterRows [] (firstn g rs)) row <> [].
Proof.
  split.
  - intro H. apply in_map_iff in H. destruct H as (e & En & He).
    destruct (RowErrors.weatherLoop_entries rs [] 0 e He) as (i & row & E1 & E2 & E3 & E4).
    cbn [Nat.add] in E1. assert (i = g) by lia. subst i.
    exists row. split; [ exact E2 | ]. rewrite <- E3. exact E4.
  - intros (row & Hn & Hd).
    pose proof (RowErrors.weatherErrorsAt_seen rs g row Hn) as E.
    unfold weatherErrorsAt in E.
    destruct (find _ (Weather.rowErrors (Weather.validateRows rs))) as [e|] eqn:F;
      [ | congruence ].
    apply find_some in F. destruct F as (Hin & Hnum). apply Nat.eqb_eq in Hnum.
    rewrite <- Hnum. apply in_map. exact Hin.
Qed.

Lemma meter_numbers (allWeatherRows rs : list obj) (g : nat) :
  In (g + 2) (map Meter.rowNumber
                  (Meter.rowErrors (MeterValidate.validateRows allWeatherRows rs))) <->
  exists row, nth_error rs g = Some row /\
              MeterValidate.rowErrorsOf (seenDatesAfter [] (firstn g rs)) row <> [].
Proof.
  split.
  - intro H. apply in_map_iff in H. destruct H as (e & En & He).
    destruct (RowErrors.meterLoop_entries _ rs [] 0 e He) as (i & row & E1 & E2 & E3 & E4).
    cbn [Nat.add] in E1. assert (i = g) by lia. subst i.
    exists row. split; [ exact E2 | ]. rewrite <- E3. exact E4.
  - intros (row & Hn & Hd).
    pose proof (MeterDates.meterErrorsAt_seen allWeatherRows rs g row Hn) as E.
    unfold meterErrorsAt in E.
    destruct (find _ (Meter.rowErrors (MeterValidate.validateRows allWeatherRows rs)))
      as [e|] eqn:F; [ | congruence ].
    apply find_some in F. destruct F as (Hin & Hnum). apply Nat.eqb_eq in Hnum.
    rewrite <- Hnum. apply in_map. exact Hin.
Qed.

(** X25. In the preview table fed with the errors of weather or meter
    validation, the row at local index l of a page is the data row at
    startIndex+l and is shown with number startIndex+l+2; a row is highlighted
    exactly when the batch has a row at that index whose defect list is not
    empty, and the later version of the table, which matches on row numbers,
    highlights the same rows. *)
Theorem preview_highlights_defective_rows (allWeatherRows rs : list obj) :
  let weather := map Weather.rowNumber (Weather.rowErrors (Weather.validateRows rs)) in
  let meter := map Meter.rowNumber
                   (Meter.rowErrors (MeterValidate.validateRows allWeatherRows rs)) in
  (forall (data : list obj) (pageSize page localIndex : nat) (row : obj),
     nth_error (currentData data pageSize page) localIndex = Some row ->
     nth_error data (startIndex page pageSize + localIndex) = Some row /\
     rowNumberOf (currentRowNumbers None pageSize page (List.length data))
                 (startIndex page pageSize + localIndex) localIndex
     = Some (Z.of_nat (rowNumber (startIndex page pageSize + localIndex)))) /\
  forall globalIndex,
    (hasError weather globalIndex = true <->
     exists row, nth_error rs globalIndex = Some row /\
       Weather.rowErrorsOf (seenAfterRows [] (firstn globalIndex rs)) row <> []) /\
    (hasError meter globalIndex = true <->
     exists row, nth_error rs globalIndex = Some row /\
       MeterValidate.rowErrorsOf (seenDatesAfter [] (firstn globalIndex rs)) row <> []) /\
    hasErrorNumber weather (Some (Z.of_nat (rowNumber globalIndex)))
    = hasError weather globalIndex /\
    hasErrorNumber meter (Some (Z.of_nat (rowNumber globalIndex)))
    = hasError meter globalIndex.
Proof.
  intros weather meter. split.
  { intros data pageSize page localIndex row H. split; [ | reflexivity ].
    apply Pages.currentData_index. exact H. }
  intro g.
  split; [ rewrite hasError_in; apply weather_numbers | ].
  split; [ rewrite hasError_in; apply meter_numbers | ].
  assert (Same : forall l, hasErrorNumber l (Some (Z.of_nat (rowNumber g))) = hasError l g).
  { intro l. apply eq_true_iff_eq. unfold rowNumber.
    rewrite hasError_in, hasErrorNumber_in. reflexivity. }
  split; apply Same.
Qed.

End WithBuiltins.

Lemma error_page_rows_witness :
  let rs := [Example.goodPair; Example.badPair; Example.goodPair] in
  List.length rs = List.length rs /\ 0 < 1 /\
  (let errors := Weather.rowErrors (Weather.validateRows (B := Example.builtins) rs) in
   let indices := errorRowIndices (map Weather.rowNumber errors) in
   let shown := filteredData (map Some rs) indices in
   let numbers := filteredRowNumbers indices in
   List.length shown = List.length errors /\
   forall g e, nth_error errors g = Some e ->
     exists i row,
       Weather.rowNumber e = i + 2 /\
       nth_error rs i = Some row /\
       (exists r, nth_error rs i = Some r /\
                  Weather.errors e
                  = Weather.rowErrorsOf (B := Example.builtins)
                      (seenAfterRows (B := Example.builtins) [] (firstn i rs)) r) /\
       let page := g / 1 + 1 in
       let localIndex := g mod 1 in
       startIndex page 1 + localIndex = g /\
       nth_error (currentData shown 1 page) localIndex = Some (Some row) /\
       rowNumberOf (currentRowNumbers (Some numbers) 1 page (List.length shown))
                   g localIndex
       = Some (Z.of_nat (Weather.rowNumber e)) /\
       hasErrorNumber (map Weather.rowNumber errors)
                      (Some (Z.of_nat (Weather.rowNumber e))) = true).
Proof.
  split; [ reflexivity | ]. split; [ lia | ].
  exact (error_page_rows (B := Example.builtins)
           [Example.goodPair; Example.badPair; Example.goodPair]
           [Example.goodPair; Example.badPair; Example.goodPair] 1 eq_refl ltac:(lia)).
Defined.

Lemma error_page_edit_lands_in_row_witness :
  let rs := [Example.goodPair; Example.badPair; Example.goodPair] in
  let errors := Weather.rowErrors (Weather.validateRows (B := Example.builtins) rs) in
  let indices := errorRowIndices (map Weather.rowNumber errors) in
  exists e,
    List.length rs = List.length rs /\
    nth_error errors 0 = Some e /\
    (let updated := handleCellChange indices (map Some rs) 0 "Date" "02-Dec-24" in
     exists i row,
       Weather.rowNumber e = i + 2 /\
       nth_error rs i = Some row /\
       List.length updated = List.length rs /\
       nth_error updated i = Some (Some (set row "Date" (Str "02-Dec-24"))) /\
       (forall j, j <> i -> nth_error updated j = nth_error (map Some rs) j) /\
       get (set row "Date" (Str "02-Dec-24")) "Date" = Str "02-Dec-24" /\
       (forall k, k <> "Date" -> get (set row "Date" (Str "02-Dec-24")) k = get row k)).
Proof.
  eexists. split; [ reflexivity | ]. split; [ vm_compute; reflexivity | ].
  exact (error_page_edit_lands_in_row (B := Example.builtins)
           [Example.goodPair; Example.badPair; Example.goodPair]
           [Example.goodPair; Example.badPair; Example.goodPair] 0 _
           "Date" "02-Dec-24" eq_refl eq_refl).
Defined.

End ErrorRows.

(* ------------------------------------------------------------------ *)
(** ** Daily totals                                                 *)
(* ------------------------------------------------------------------ *)

Module DailyTotals.
Import Js SyncTerms.

Lemma keys_mapSet (V : Type) (m : list (string * V)) (k : string) (v : V) :
  map fst (Meter.mapSet m k v)
  = if existsb (String.eqb k) (map fst m) then map fst m else (map fst m ++ [k])%list.
Proof.
  induction m as [|[k' v'] m IH]; cbn [Meter.mapSet map fst existsb app]; [ reflexivity | ].
  rewrite (String.eqb_sym k k'). destruct (k' =? k)%string eqn:E; cbn [orb map fst].
  - apply String.eqb_eq in E. subst k'. reflexivity.
  - rewrite IH. destruct (existsb (String.eqb k) (map fst m)); reflexivity.
Qed.

Lemma mapGet_keys (V : Type) (m : list (string * V)) (k : string) :
  existsb (String.eqb k) (map fst m)
  = match Meter.mapGet m k with Some _ => true | None => false end.
Proof.
  induction m as [|[k' v'] m IH]; cbn [Meter.mapGet map fst existsb]; [ reflexivity | ].
  rewrite (String.eqb_sym k k'). destruct (k' =? k)%string; [ reflexivity | exact IH ].
Qed.

Lemma groupStep_keys (V : Type) (init : MeterRecord.t -> V) (upd : V -> MeterRecord.t -> V)
    (m : list (string * V)) (r : MeterRecord.t) :
  map fst (groupStep init upd m r)
  = if existsb (String.eqb (MeterRecord.date r)) (map fst m) then map fst m
    else (map fst m ++ [MeterRecord.date r])%list.
Proof.
  unfold groupStep. rewrite (mapGet_keys V m).
  destruct (Meter.mapGet m (MeterRecord.date r)) as [d|] eqn:G.
  - rewrite G, keys_mapSet, mapGet_keys, G. reflexivity.
  - rewrite MeterFacts.mapGet_mapSet_same, !keys_mapSet, mapGet_keys, G.
    rewrite existsb_app. cbn [existsb]. rewrite String.eqb_refl, orb_true_r.
    reflexivity.
Qed.

Lemma groupStep_fold_keys (V : Type) (init : MeterRecord.t -> V)
    (upd : V -> MeterRecord.t -> V) (l : list MeterRecord.t) :
  forall m,
    map fst (fold_left (groupStep init upd) l m)
    = fold_left (fun acc x => if existsb (String.eqb x) acc then acc
                              else (acc ++ [x])%list)
                (map MeterRecord.date l) (map fst m).
Proof.
  induction l as [|r l IH]; intro m; cbn [fold_left map]; [ reflexivity | ].
  rewrite IH, groupStep_keys. reflexivity.
Qed.

Lemma recordsOf_app (l : list MeterRecord.t) (r : MeterRecord.t) (k : string) :
  recordsOf (l ++ [r]) k
  = (recordsOf l k ++ if (MeterRecord.date r =? k)%string then [r] else [])%list.
Proof.
  unfold recordsOf. rewrite filter_app. cbn [filter]. reflexivity.
Qed.

Lemma groupStep_get (V : Type) (init : MeterRecord.t -> V) (upd : V -> MeterRecord.t -> V)
    (l : list MeterRecord.t) (k : string) :
  Meter.mapGet (fold_left (groupStep init upd) l []) k
  = match recordsOf l k with
    | [] => None
    | r :: rest => Some (fold_left upd (r :: rest) (init r))
    end.
Proof.
  induction l as [|r l IH] using rev_ind; [ reflexivity | ].
  rewrite fold_left_app. cbn [fold_left]. rewrite recordsOf_app.
  set (m := fold_left (groupStep init upd) l []) in *.
  unfold groupStep.
  destruct (MeterRecord.date r =? k)%string eqn:E.
  - apply String.eqb_eq in E. subst k.
    destruct (Meter.mapGet m (MeterRecord.date r)) as [d|] eqn:G.
    + rewrite G, MeterFacts.mapGet_mapSet_same.
      destruct (recordsOf l (MeterRecord.date r)) as [|r0 rest]; [ discriminate IH | ].
      injection IH as ->. cbn [app].
      cbn [fold_left]. rewrite fold_left_app. reflexivity.
    + rewrite !MeterFacts.mapGet_mapSet_same.
      destruct (recordsOf l (MeterRecord.date r)) as [|r0 rest]; [ | discriminate IH ].
      reflexivity.
  - assert (N : MeterRecord.date r <> k) by (apply String.eqb_neq; exact E).
    rewrite app_nil_r. transitivity (Meter.mapGet m k); [ | rewrite IH; reflexivity ].
    destruct (Meter.mapGet m (MeterRecord.date r)) as [d|] eqn:G.
    + rewrite G. apply MeterFacts.mapGet_mapSet_other. exact N.
    + rewrite MeterFacts.mapGet_mapSet_same.
      rewrite !MeterFacts.mapGet_mapSet_other by exact N. reflexivity.
Qed.

Lemma mapGet_in_NoDup (V : Type) (m : list (string * V)) (k : string) (v : V) :
  NoDup (map fst m) -> In (k, v) m -> Meter.mapGet m k = Some v.
Proof.
  induction m as [|[k' v'] m IH]; cbn [map fst Meter.mapGet]; intros N H; [ destruct H | ].
  inversion N as [|? ? Hx Hn]; subst. destruct H as [[= -> ->] | H].
  - rewrite String.eqb_refl. reflexivity.
  - destruct (k' =? k)%string eqn:E; [ | apply IH; assumption ].
    apply String.eqb_eq in E. subst k'. exfalso. apply Hx.
    apply in_map_iff. exists (k, v). auto.
Qed.

Lemma groupStep_keys_setOf (V : Type) (init : MeterRecord.t -> V)
    (upd : V -> MeterRecord.t -> V) (l : list MeterRecord.t) :
  map fst (fold_left (groupStep init upd) l []) = Meter.setOf (map MeterRecord.date l).
Proof. apply groupStep_fold_keys. Qed.

Lemma setOf_NoDup (l : list string) :
  NoDup (Meter.setOf l) /\ forall x, In x (Meter.setOf l) <-> In x l.
Proof.
  destruct (Variations.setOf_acc l [] (NoDup_nil _)) as (_ & N & I). cbv zeta in *.
  split; [ exact N | ]. intro x. rewrite (I x). simpl. tauto.
Qed.

Lemma list_sum_cons (a : nat) (l : list nat) : list_sum (a :: l) = a + list_sum l.
Proof. reflexivity. Qed.

Lemma one_date (ks : list string) (x : string) :
  NoDup ks -> In x ks ->
  list_sum (map (fun k => if (x =? k)%string then 1 else 0) ks) = 1.
Proof.
  induction ks as [|k ks IH]; intros N H; [ destruct H | ].
  inversion N as [|? ? Hk Hn]; subst. cbn [map]. rewrite list_sum_cons.
  destruct (x =? k)%string eqn:E.
  - apply String.eqb_eq in E. subst k.
    assert (Z : forall l, ~ In x l ->
                list_sum (map (fun k => if (x =? k)%string then 1 else 0) l) = 0).
    { induction l as [|a l IHl]; intro Hx; [ reflexivity | ].
      cbn [map]. rewrite list_sum_cons.
      destruct (x =? a)%string eqn:Ea.
      - apply String.eqb_eq in Ea. subst a. exfalso. apply Hx. left. reflexivity.
      - apply IHl. intro Hi. apply Hx. right. exact Hi. }
    rewrite (Z ks Hk). reflexivity.
  - destruct H as [-> | H]; [ rewrite String.eqb_refl in E; discriminate E | ].
    rewrite (IH Hn H). reflexivity.
Qed.

Lemma counts_total (ks : list string) (l : list MeterRecord.t) :
  NoDup ks -> (forall r, In r l -> In (MeterRecord.date r) ks) ->
  list_sum (map (fun k => List.length (recordsOf l k)) ks) = List.length l.
Proof.
  intro N. induction l as [|r l IH]; intro H.
  - clear. induction ks as [|k ks IH]; [ reflexivity | exact IH ].
  - rewrite (map_ext _ (fun k => (if (MeterRecord.date r =? k)%string then 1 else 0)
                                 + List.length (recordsOf l k))).
    + assert (S : forall (f g : string -> nat) ks,
                 list_sum (map (fun k => f k + g k) ks)
                 = list_sum (map f ks) + list_sum (map g ks)).
      { clear. intros f g ks. induction ks as [|k ks IH]; [ reflexivity | ].
        cbn [map]. rewrite !list_sum_cons, IH. lia. }
      rewrite S, IH, one_date; [ reflexivity | exact N | | ].
      * apply H. left. reflexivity.
      * intros r' Hr. apply H. right. exact Hr.
    + intro k. unfold recordsOf. cbn [filter].
      destruct (MeterRecord.date r =? k)%string; reflexivity.
Qed.

Lemma service_step :
  MeterSyncService.addRecord
  = groupStep
      (fun record =>
         {| MeterSyncService.Data.siteName :=
              orElse (MeterRecord.siteName record) (Str "Unknown Site");
            MeterSyncService.Data.totalExport := 0%float;
            MeterSyncService.Data.count := 0 |})
      (fun daily record =>
         {| MeterSyncService.Data.siteName := MeterSyncService.Data.siteName daily;
            MeterSyncService.Data.totalExport :=
              (MeterSyncService.Data.totalExport daily
               + MeterRecord.orZero (MeterRecord.activeEnergyExport record))%float;
            MeterSyncService.Data.count := MeterSyncService.Data.count daily + 1 |}).
Proof. reflexivity. Qed.

Lemma service_fold (own : list MeterRecord.t) :
  forall d,
    let out := fold_left
      (fun daily record =>
         {| MeterSyncService.Data.siteName := MeterSyncService.Data.siteName daily;
            MeterSyncService.Data.totalExport :=
              (MeterSyncService.Data.totalExport daily
               + MeterRecord.orZero (MeterRecord.activeEnergyExport record))%float;
            MeterSyncService.Data.count := MeterSyncService.Data.count daily + 1 |})
      own d in
    MeterSyncService.Data.siteName out = MeterSyncService.Data.siteName d /\
    MeterSyncService.Data.totalExport out
    = fold_left (fun acc r =>
                   (acc + MeterRecord.orZero (MeterRecord.activeEnergyExport r))%float)
                own (MeterSyncService.Data.totalExport d) /\
    MeterSyncService.Data.count out = MeterSyncService.Data.count d + List.length own.
Proof.
  induction own as [|r own IH]; intro d; cbn [fold_left List.length].
  - repeat split. lia.
  - destruct (IH {| MeterSyncService.Data.siteName := MeterSyncService.Data.siteName d;
                    MeterSyncService.Data.totalExport :=
                      (MeterSyncService.Data.totalExport d
                       + MeterRecord.orZero (MeterRecord.activeEnergyExport r))%float;
                    MeterSyncService.Data.count := MeterSyncService.Data.count d + 1 |})
      as (E1 & E2 & E3).
    cbv zeta in *. cbn [MeterSyncService.Data.siteName MeterSyncService.Data.totalExport
                        MeterSyncService.Data.count] in *.
    rewrite E1, E2, E3. repeat split. lia.
Qed.

(** X26. aggregateDailyTotals returns one total per distinct date of the
    stored meter documents, in the order of first occurrence; each counts the
    documents of its date, adds up their activeEnergyExport (0 for a missing,
    zero or NaN value) from 0 in the order read, and takes the site name of
    the first of them ("Unknown Site" when that is falsy); the counts add up
    to the number of documents. *)
Theorem daily_totals_by_date (meterRecords : list MeterRecord.t) :
  let out := MeterSyncService.aggregateDailyTotals meterRecords in
  map MeterSyncService.DailyTotal.date out
  = Meter.setOf (map MeterRecord.date meterRecords) /\
  NoDup (map MeterSyncService.DailyTotal.date out) /\
  (forall date, In date (map MeterSyncService.DailyTotal.date out) <->
                In date (map MeterRecord.date meterRecords)) /\
  Forall (fun daily =>
            exists first rest,
              recordsOf meterRecords (MeterSyncService.DailyTotal.date daily)
              = first :: rest /\
              MeterSyncService.DailyTotal.recordCount daily = List.length (first :: rest) /\
              MeterSyncService.DailyTotal.totalExport daily = exportSum (first :: rest) /\
              MeterSyncService.DailyTotal.siteName daily
              = orElse (MeterRecord.siteName first) (Str "Unknown Site")) out /\
  list_sum (map MeterSyncService.DailyTotal.recordCount out) = List.length meterRecords.
Proof.
  intro out.
  set (m := fold_left MeterSyncService.addRecord meterRecords []).
  assert (K : map fst m = Meter.setOf (map MeterRecord.date meterRecords)).
  { unfold m. rewrite service_step. apply groupStep_keys_setOf. }
  assert (D : map MeterSyncService.DailyTotal.date out = map fst m).
  { unfold out, MeterSyncService.aggregateDailyTotals. fold m. rewrite map_map.
    reflexivity. }
  destruct (setOf_NoDup (map MeterRecord.date meterRecords)) as (N & I).
  assert (F : forall k d, In (k, d) m ->
            exists first rest,
              recordsOf meterRecords k = first :: rest /\
              MeterSyncService.Data.count d = List.length (first :: rest) /\
              MeterSyncService.Data.totalExport d = exportSum (first :: rest) /\
              MeterSyncService.Data.siteName d
              = orElse (MeterRecord.siteName first) (Str "Unknown Site")).
  { intros k d H. apply mapGet_in_NoDup in H; [ | rewrite K; exact N ].
    unfold m in H. rewrite service_step, groupStep_get in H.
    destruct (recordsOf meterRecords k) as [|first rest]; [ discriminate H | ].
    injection H as <-. exists first, rest. split; [ reflexivity | ].
    match goal with |- context [fold_left ?u ?l ?d0] =>
      destruct (service_fold l d0) as (E1 & E2 & E3) end.
    cbv zeta in E1, E2, E3. rewrite E1, E2, E3. repeat split. }
  split; [ rewrite D; exact K | ].
  split; [ rewrite D, K; exact N | ].
  split; [ intro date; rewrite D, K; apply I | ].
  split.
  - apply Forall_forall. intros daily H. unfold out, MeterSyncService.aggregateDailyTotals in H.
    fold m in H. apply in_map_iff in H. destruct H as ([k d] & <- & H).
    cbn [fst snd MeterSyncService.DailyTotal.date MeterSyncService.DailyTotal.recordCount
         MeterSyncService.DailyTotal.totalExport MeterSyncService.DailyTotal.siteName].
    exact (F k d H).
  - rewrite <- (counts_total (map fst m) meterRecords).
    + unfold out, MeterSyncService.aggregateDailyTotals. fold m. rewrite !map_map.
      f_equal. apply map_ext_in. intros [k d] H.
      cbn [fst snd MeterSyncService.DailyTotal.recordCount].
      destruct (F k d H) as (first & rest & -> & -> & _). reflexivity.
    + rewrite K. exact N.
    + intros r H. rewrite K. apply I. apply in_map. exact H.
Qed.

Lemma controller_step :
  MeterSyncController.addRecord
  = groupStep
      (fun record =>
         {| MeterSyncController.Daily.date := MeterRecord.date record;
            MeterSyncController.Daily.siteName :=
              orElse (MeterRecord.siteName record) (Str "Unknown Site");
            MeterSyncController.Daily.dailyGeneration := 0%float;
            MeterSyncController.Daily.plantStartTime :=
              MeterRecord.orMidnight (MeterRecord.plantStartTime record);
            MeterSyncController.Daily.plantStopTime :=
              MeterRecord.orMidnight (MeterRecord.plantStopTime record);
            MeterSyncController.Daily.totalOperationTime :=
              MeterRecord.orMidnight (MeterRecord.total record);
            MeterSyncController.Daily.recordCount := 0 |})
      (fun daily record =>
         {| MeterSyncController.Daily.date := MeterSyncController.Daily.date daily;
            MeterSyncController.Daily.siteName := MeterSyncController.Daily.siteName daily;
            MeterSyncController.Daily.dailyGeneration :=
              (MeterSyncController.Daily.dailyGeneration daily
               + MeterRecord.orZero (MeterRecord.activeEnergyExport record))%float;
            MeterSyncController.Daily.plantStartTime :=
              MeterSyncController.Daily.plantStartTime daily;
            MeterSyncController.Daily.plantStopTime :=
              MeterSyncController.Daily.plantStopTime daily;
            MeterSyncController.Daily.totalOperationTime :=
              MeterSyncController.Daily.totalOperationTime daily;
            MeterSyncController.Daily.recordCount :=
              MeterSyncController.Daily.recordCount daily + 1 |}).
Proof. reflexivity. Qed.

Lemma controller_fold (own : list MeterRecord.t) :
  forall d,
    let out := fold_left
      (fun daily record =>
         {| MeterSyncController.Daily.date := MeterSyncController.Daily.date daily;
            MeterSyncController.Daily.siteName := MeterSyncController.Daily.siteName daily;
            MeterSyncController.Daily.dailyGeneration :=
              (MeterSyncController.Daily.dailyGeneration daily
               + MeterRecord.orZero (MeterRecord.activeEnergyExport record))%float;
            MeterSyncController.Daily.plantStartTime :=
              MeterSyncController.Daily.plantStartTime daily;
            MeterSyncController.Daily.plantStopTime :=
              MeterSyncController.Daily.plantStopTime daily;
            MeterSyncController.Daily.totalOperationTime :=
              MeterSyncController.Daily.totalOperationTime daily;
            MeterSyncController.Daily.recordCount :=
              MeterSyncController.Daily.recordCount daily + 1 |})
      own d in
    MeterSyncController.Daily.date out = MeterSyncController.Daily.date d /\
    MeterSyncController.Daily.siteName out = MeterSyncController.Daily.siteName d /\
    MeterSyncController.Daily.dailyGeneration out
    = fold_left (fun acc r =>
                   (acc + MeterRecord.orZero (MeterRecord.activeEnergyExport r))%float)
                own (MeterSyncController.Daily.dailyGeneration d) /\
    MeterSyncController.Daily.plantStartTime out
    = MeterSyncController.Daily.plantStartTime d /\
    MeterSyncController.Daily.plantStopTime out
    = MeterSyncController.Daily.plantStopTime d /\
    MeterSyncController.Daily.totalOperationTime out
    = MeterSyncController.Daily.totalOperationTime d /\
    MeterSyncController.Daily.recordCount out
    = MeterSyncController.Daily.recordCount d + List.length own.
Proof.
  induction own as [|r own IH]; intro d; cbn [fold_left List.length].
  - repeat split. lia.
  - match goal with |- context [fold_left _ own ?d1] =>
      destruct (IH d1) as (E1 & E2 & E3 & E4 & E5 & E6 & E7) end.
    cbv zeta in *.
    cbn [MeterSyncController.Daily.date MeterSyncController.Daily.siteName
         MeterSyncController.Daily.dailyGeneration MeterSyncController.Daily.plantStartTime
         MeterSyncController.Daily.plantStopTime MeterSyncController.Daily.totalOperationTime
         MeterSyncController.Daily.recordCount] in *.
    rewrite E1, E2, E3, E4, E5, E6, E7. repeat split. lia.
Qed.

Lemma Forall2_same_keys (A C : Type) (R : string * A -> string * C -> Prop) :
  forall (m1 : list (string * A)) (m2 : list (string * C)),
    map fst m1 = map fst m2 ->
    (forall k a c, In (k, a) m1 -> In (k, c) m2 -> R (k, a) (k, c)) ->
    Forall2 R m1 m2.
Proof.
  induction m1 as [|[k a] m1 IH]; intros [|[k' c] m2] E H; try discriminate E.
  - constructor.
  - cbn [map fst] in E. injection E as <- E. constructor.
    + apply H; left; reflexivity.
    + apply IH; [ exact E | ]. intros k0 a0 c0 H1 H2. apply H; right; assumption.
Qed.

Lemma Forall2_maps (A C A' C' : Type) (f : A -> A') (g : C -> C')
    (R : A' -> C' -> Prop) (l1 : list A) (l2 : list C) :
  Forall2 (fun a c => R (f a) (g c)) l1 l2 -> Forall2 R (map f l1) (map g l2).
Proof. induction 1; cbn [map]; constructor; assumption. Qed.

(** X27. The daily records of the export (aggregateByDate) and the daily
    totals of the sync (aggregateDailyTotals) of the same documents match one
    to one: same date, site name, generation and record count; the export's
    plant start, stop and total operation time are those of the first document
    of the date (00:00 when empty), not recomputed over the day. *)
Theorem export_days_match_sync (records : list MeterRecord.t) :
  Forall2
    (fun day total =>
       MeterSyncController.Daily.date day = MeterSyncService.DailyTotal.date total /\
       MeterSyncController.Daily.siteName day = MeterSyncService.DailyTotal.siteName total /\
       MeterSyncController.Daily.dailyGeneration day
       = MeterSyncService.DailyTotal.totalExport total /\
       MeterSyncController.Daily.recordCount day
       = MeterSyncService.DailyTotal.recordCount total /\
       exists first rest,
         recordsOf records (MeterSyncController.Daily.date day) = first :: rest /\
         MeterSyncController.Daily.dailyGeneration day = exportSum (first :: rest) /\
         MeterSyncController.Daily.plantStartTime day
         = MeterRecord.orMidnight (MeterRecord.plantStartTime first) /\
         MeterSyncController.Daily.plantStopTime day
         = MeterRecord.orMidnight (MeterRecord.plantStopTime first) /\
         MeterSyncController.Daily.totalOperationTime day
         = MeterRecord.orMidnight (MeterRecord.total first))
    (MeterSyncController.aggregateByDate records)
    (MeterSyncService.aggregateDailyTotals records).
Proof.
  unfold MeterSyncController.aggregateByDate, MeterSyncService.aggregateDailyTotals.
  set (m1 := fold_left MeterSyncController.addRecord records []).
  set (m2 := fold_left MeterSyncService.addRecord records []).
  assert (K1 : map fst m1 = Meter.setOf (map MeterRecord.date records)).
  { unfold m1. rewrite controller_step. apply groupStep_keys_setOf. }
  assert (K2 : map fst m2 = Meter.setOf (map MeterRecord.date records)).
  { unfold m2. rewrite service_step. apply groupStep_keys_setOf. }
  destruct (setOf_NoDup (map MeterRecord.date records)) as (N & _).
  apply Forall2_maps. apply Forall2_same_keys; [ congruence | ].
  intros k a c H1 H2.
  apply mapGet_in_NoDup in H1; [ | rewrite K1; exact N ].
  apply mapGet_in_NoDup in H2; [ | rewrite K2; exact N ].
  unfold m1 in H1. rewrite controller_step, groupStep_get in H1.
  unfold m2 in H2. rewrite service_step, groupStep_get in H2.
  destruct (recordsOf records k) as [|first rest] eqn:Own; [ discriminate H1 | ].
  injection H1 as <-. injection H2 as <-.
  match goal with |- context [fold_left ?u ?l ?d0] =>
    destruct (controller_fold l d0) as (E1 & E2 & E3 & E4 & E5 & E6 & E7) end.
  cbv zeta in E1, E2, E3, E4, E5, E6, E7.
  cbn [snd MeterSyncService.DailyTotal.date MeterSyncService.DailyTotal.siteName
       MeterSyncService.DailyTotal.totalExport MeterSyncService.DailyTotal.recordCount fst].
  match goal with |- context [MeterSyncService.Data.siteName (fold_left ?u ?l ?d0)] =>
    destruct (service_fold l d0) as (S1 & S2 & S3) end.
  cbv zeta in S1, S2, S3.
  rewrite E1, E2, E3, E4, E5, E6, E7, S1, S2, S3.
  cbn [MeterSyncController.Daily.date MeterSyncController.Daily.siteName
       MeterSyncController.Daily.dailyGeneration MeterSyncController.Daily.plantStartTime
       MeterSyncController.Daily.plantStopTime MeterSyncController.Daily.totalOperationTime
       MeterSyncController.Daily.recordCount MeterSyncService.Data.siteName
       MeterSyncService.Data.totalExport MeterSyncService.Data.count].
  assert (Dk : MeterRecord.date first = k).
  { assert (H : In first (recordsOf records k)) by (rewrite Own; left; reflexivity).
    apply filter_In in H. apply String.eqb_eq. exact (proj2 H). }
  rewrite Dk.
  split; [ reflexivity | ]. split; [ reflexivity | ]. split; [ reflexivity | ].
  split; [ reflexivity | ].
  exists first, rest. rewrite Own. repeat split.
Qed.

End DailyTotals.
